(** * Snipply: the storage contract, its two implementations and the routes

    A shallow embedding of the server side of Snipply (shared/schema.ts and
    the storage and routes modules that come with it): the six entities,
    the in-memory [MemStorage] built on JavaScript [Map]s, the SQL-backed
    [DatabaseStorage], and the Express handlers that sit on top of the
    storage contract [IStorage].

    Conventions of the embedding.
    - Ids, names and text bodies are [string]; timestamps are [Z]
      (milliseconds since the epoch); counters are [Z].
    - A value that JavaScript calls [undefined] or [null] is [None].
    - [randomUUID()] and [new Date()] are inputs: every operation that calls
      them takes the produced uuid and the current time as arguments.
    - A JavaScript [Map] is an insertion-ordered association list; a SQL
      table is the list of its rows in insertion order.
    - An [async] method is a function from the store to an outcome (a
      returned value or a thrown error) and the store it leaves behind. *)

From Stdlib Require Import List String Ascii ZArith Bool Lia.
From Stdlib Require Import Permutation Sorted.
Import ListNotations.

Local Open Scope string_scope.
Local Open Scope Z_scope.

Set Implicit Arguments.

(** ** JavaScript primitives used by the storage code *)

Module Js.

(** [!!s] for an optional string: [undefined], [null] and the empty string are falsy. *)
Definition truthy (o : option string) : bool :=
  match o with
  | Some s => negb (s =? EmptyString)%string
  | None => false
  end.

(** [x || null]. *)
Definition or_null (o : option string) : option string :=
  if truthy o then o else None.

(** [x || d] where [d] is a string. *)
Definition or_else (o : option string) (d : string) : string :=
  match o with
  | Some s => if (s =? EmptyString)%string then d else s
  | None => d
  end.

(** [stored === arg] between a [string | null] field and a
    [string | undefined] argument: [null === undefined] is false. *)
Definition strict_eq (stored arg : option string) : bool :=
  match stored, arg with
  | Some a, Some b => (a =? b)%string
  | _, _ => false
  end.

(** [Array.prototype.sort(cmp)]: a stable sort; [cmp a b > 0] puts [b]
    first. With a consistent comparator the result does not depend on the
    engine's algorithm, here it is an insertion sort. *)
Fixpoint insert_sorted {A} (cmp : A -> A -> Z) (x : A) (l : list A) : list A :=
  match l with
  | [] => [x]
  | y :: l' => if cmp x y >? 0 then y :: insert_sorted cmp x l' else x :: l
  end.

Definition sort {A} (cmp : A -> A -> Z) (l : list A) : list A :=
  fold_right (insert_sorted cmp) [] l.

(** [Array.prototype.slice(start, end)] on integer arguments: negative
    indices count from the end, everything is clamped to the array. *)
Definition clamp_index (len i : Z) : Z :=
  if i <? 0 then Z.max (len + i) 0 else Z.min i len.

Definition slice {A} (start end_ : Z) (l : list A) : list A :=
  let len := Z.of_nat (List.length l) in
  let k := clamp_index len start in
  let final := clamp_index len end_ in
  firstn (Z.to_nat (final - k)) (skipn (Z.to_nat k) l).

(** [String.prototype.toLowerCase], [split(' ')], [includes] and
    [Array.prototype.join(' ')]. Strings are sequences of 8-bit code units
    and the case mapping is that of the ASCII letters, which is what
    JavaScript does on ASCII text. *)
Definition lower (c : ascii) : ascii :=
  let n := nat_of_ascii c in
  if (65 <=? n)%nat && (n <=? 90)%nat then ascii_of_nat (n + 32) else c.

Fixpoint toLowerCase (s : string) : string :=
  match s with
  | EmptyString => EmptyString
  | String c rest => String (lower c) (toLowerCase rest)
  end.

Fixpoint split_space (s : string) : list string :=
  match s with
  | EmptyString => [EmptyString]
  | String c rest =>
      if Ascii.eqb c " "%char then EmptyString :: split_space rest
      else match split_space rest with
           | w :: ws => String c w :: ws
           | [] => [String c EmptyString]
           end
  end.

Fixpoint includes (text term : string) : bool :=
  String.prefix term text
  || match text with
     | EmptyString => false
     | String _ rest => includes rest term
     end.

Definition join_space (parts : list string) : string :=
  String.concat " " parts.

End Js.

(** ** JavaScript [Map<string, V>]: insertion-ordered, one entry per key *)

Module JsMap.

Definition t (V : Type) : Type := list (string * V).

Definition empty {V} : t V := [].

Fixpoint get {V} (k : string) (m : t V) : option V :=
  match m with
  | [] => None
  | (k', v) :: m' => if (k' =? k)%string then Some v else get k m'
  end.

Definition has {V} (k : string) (m : t V) : bool :=
  match get k m with Some _ => true | None => false end.

(** [set] on a present key keeps the entry's position; a new key is
    appended. *)
Fixpoint replace {V} (k : string) (v : V) (m : t V) : t V :=
  match m with
  | [] => []
  | (k', v') :: m' =>
      if (k' =? k)%string then (k', v) :: m' else (k', v') :: replace k v m'
  end.

Definition set {V} (k : string) (v : V) (m : t V) : t V :=
  if has k m then replace k v m else (m ++ [(k, v)])%list.

Definition delete {V} (k : string) (m : t V) : t V :=
  filter (fun e => negb (fst e =? k)%string) m.

Definition values {V} (m : t V) : list V := map snd m.

Definition keys {V} (m : t V) : list string := map fst m.

(** [ids.forEach(id => m.delete(id))]. *)
Definition delete_all {V} (ks : list string) (m : t V) : t V :=
  fold_left (fun acc k => delete k acc) ks m.

End JsMap.

(** ** Entities (the tables of shared/schema.ts) *)

Inductive Rank : Type := RankDefault | RankAdmin.

Definition Rank_eqb (a b : Rank) : bool :=
  match a, b with
  | RankDefault, RankDefault | RankAdmin, RankAdmin => true
  | _, _ => false
  end.

Module User.
Record t : Type := mk {
  id : string;
  username : string;
  password : string;
  email : string;
  displayName : option string;
  bio : option string;
  location : option string;
  website : option string;
  avatarUrl : option string;
  profilePicture : option string;
  rank : Rank;
  createdAt : Z
}.
End User.

Module Snippet.
Record t : Type := mk {
  id : string;
  title : string;
  description : option string;
  html : string;
  css : string;
  javascript : string;
  isPublic : bool;
  authorId : string;
  views : Z;
  likes : Z;
  createdAt : Z;
  updatedAt : Z
}.

Definition with_views (n : Z) (s : t) : t :=
  mk (id s) (title s) (description s) (html s) (css s) (javascript s)
     (isPublic s) (authorId s) n (likes s) (createdAt s) (updatedAt s).

Definition with_likes (n : Z) (s : t) : t :=
  mk (id s) (title s) (description s) (html s) (css s) (javascript s)
     (isPublic s) (authorId s) (views s) n (createdAt s) (updatedAt s).
End Snippet.

Module SnippetLike.
Record t : Type := mk {
  id : string;
  snippetId : string;
  userId : string;
  createdAt : Z
}.
End SnippetLike.

Module SnippetView.
Record t : Type := mk {
  id : string;
  snippetId : string;
  userId : option string;
  ipAddress : option string;
  createdAt : Z
}.
End SnippetView.

Module Follow.
Record t : Type := mk {
  id : string;
  followerId : string;
  followingId : string;
  createdAt : Z
}.
End Follow.

Module Notification.
Record t : Type := mk {
  id : string;
  userId : string;
  type : string;
  title : string;
  message : string;
  snippetId : option string;
  fromUserId : option string;
  isRead : bool;
  createdAt : Z
}.

Definition mark_read (n : t) : t :=
  mk (id n) (userId n) (type n) (title n) (message n) (snippetId n)
     (fromUserId n) true (createdAt n).
End Notification.

(** Insert schemas: the fields a caller may supply. *)

Module InsertUser.
Record t : Type := mk {
  username : string;
  password : string;
  email : string;
  displayName : option string;
  bio : option string;
  location : option string;
  website : option string
}.
End InsertUser.

Module InsertSnippet.
Record t : Type := mk {
  title : string;
  description : option string;
  html : option string;
  css : option string;
  javascript : option string;
  isPublic : option bool
}.
End InsertSnippet.

Module InsertNotification.
Record t : Type := mk {
  userId : string;
  type : string;
  title : string;
  message : string;
  snippetId : option string;
  fromUserId : option string
}.
End InsertNotification.

(** [Partial<User>] and [Partial<Snippet>]: [None] is an absent property. *)

Module PartialUser.
Record t : Type := mk {
  id : option string;
  username : option string;
  password : option string;
  email : option string;
  displayName : option (option string);
  bio : option (option string);
  location : option (option string);
  website : option (option string);
  avatarUrl : option (option string);
  profilePicture : option (option string);
  rank : option Rank;
  createdAt : option Z
}.

Definition none : t :=
  mk None None None None None None None None None None None None.

Definition is_some {A} (o : option A) : bool :=
  match o with Some _ => true | None => false end.

(** No property at all: [Object.keys(updates).length === 0]. *)
Definition is_empty (p : t) : bool :=
  negb (is_some (id p) || is_some (username p) || is_some (password p)
        || is_some (email p) || is_some (displayName p) || is_some (bio p)
        || is_some (location p) || is_some (website p)
        || is_some (avatarUrl p) || is_some (profilePicture p)
        || is_some (rank p) || is_some (createdAt p)).
End PartialUser.

Module PartialSnippet.
Record t : Type := mk {
  id : option string;
  title : option string;
  description : option (option string);
  html : option string;
  css : option string;
  javascript : option string;
  isPublic : option bool;
  authorId : option string;
  views : option Z;
  likes : option Z;
  createdAt : option Z;
  updatedAt : option Z
}.

Definition none : t :=
  mk None None None None None None None None None None None None.
End PartialSnippet.

(** Extended types for API responses. *)

Module Author.
Record t : Type := mk {
  id : string;
  username : string;
  displayName : option string;
  avatarUrl : option string;
  profilePicture : option string
}.
End Author.

Module SnippetWithAuthor.
Record t : Type := mk {
  snippet : Snippet.t;
  author : Author.t;
  isLiked : option bool
}.

Definition with_isLiked (b : bool) (s : t) : t :=
  mk (snippet s) (author s) (Some b).
End SnippetWithAuthor.

(** [{ ...x, ...updates }]. *)
Definition over {A} (upd : option A) (old : A) : A :=
  match upd with Some v => v | None => old end.

Definition spread_user (u : User.t) (p : PartialUser.t) : User.t :=
  User.mk
    (over (PartialUser.id p) (User.id u))
    (over (PartialUser.username p) (User.username u))
    (over (PartialUser.password p) (User.password u))
    (over (PartialUser.email p) (User.email u))
    (over (PartialUser.displayName p) (User.displayName u))
    (over (PartialUser.bio p) (User.bio u))
    (over (PartialUser.location p) (User.location u))
    (over (PartialUser.website p) (User.website u))
    (over (PartialUser.avatarUrl p) (User.avatarUrl u))
    (over (PartialUser.profilePicture p) (User.profilePicture u))
    (over (PartialUser.rank p) (User.rank u))
    (over (PartialUser.createdAt p) (User.createdAt u)).

(** [{ ...snippet, ...updates, updatedAt: new Date() }]. *)
Definition spread_snippet (s : Snippet.t) (p : PartialSnippet.t) (now : Z)
  : Snippet.t :=
  Snippet.mk
    (over (PartialSnippet.id p) (Snippet.id s))
    (over (PartialSnippet.title p) (Snippet.title s))
    (over (PartialSnippet.description p) (Snippet.description s))
    (over (PartialSnippet.html p) (Snippet.html s))
    (over (PartialSnippet.css p) (Snippet.css s))
    (over (PartialSnippet.javascript p) (Snippet.javascript s))
    (over (PartialSnippet.isPublic p) (Snippet.isPublic s))
    (over (PartialSnippet.authorId p) (Snippet.authorId s))
    (over (PartialSnippet.views p) (Snippet.views s))
    (over (PartialSnippet.likes p) (Snippet.likes s))
    (over (PartialSnippet.createdAt p) (Snippet.createdAt s))
    now.

(** ** Promises over a store *)

Inductive Error : Type :=
| TypeError               (* reading a property of [undefined] *)
| UniqueViolation         (* a primary key or unique index is violated *)
| NumericValueOutOfRange  (* an [integer] column leaves the 32-bit range *)
| InvalidRowCount         (* a negative OFFSET *)
| InvalidEscapeSequence   (* a LIKE pattern that ends in its escape character *)
| NoValuesToSet           (* an UPDATE with no column to set *)
| ZodError.               (* the request body does not match its schema *)

Inductive Outcome (A : Type) : Type :=
| Returned (a : A)
| Threw (e : Error).

Arguments Returned {A} a.
Arguments Threw {A} e.

Definition Promise (S A : Type) : Type := S -> Outcome A * S.

Definition ret {S A} (a : A) : Promise S A := fun s => (Returned a, s).

Definition throw {S A} (e : Error) : Promise S A := fun s => (Threw e, s).

Definition bind {S A B} (c : Promise S A) (k : A -> Promise S B) : Promise S B :=
  fun s =>
    match c s with
    | (Returned a, s') => k a s'
    | (Threw e, s') => (Threw e, s')
    end.

(** [try { c } catch (e) { h e }]: the store keeps what [c] wrote before it
    threw. *)
Definition try_catch {S A} (c : Promise S A) (h : Error -> Promise S A)
  : Promise S A :=
  fun s =>
    match c s with
    | (Returned a, s') => (Returned a, s')
    | (Threw e, s') => h e s'
    end.

Declare Scope promise_scope.
Delimit Scope promise_scope with promise.
Notation "x <- c ;; k" := (bind c (fun x => k))
  (at level 61, c at next level, right associativity) : promise_scope.
Notation "c ;;; k" := (bind c (fun _ => k))
  (at level 61, right associativity) : promise_scope.

(** [for (const x of xs) await f(x)]. *)
Fixpoint for_each {S A} (f : A -> Promise S unit) (xs : list A) : Promise S unit :=
  match xs with
  | [] => ret tt
  | x :: xs' => bind (f x) (fun _ => for_each f xs')
  end.

(** The trailing seven days of [getTrendingSnippets]:
    [weekAgo.setDate(weekAgo.getDate() - 7)] moves the calendar day back by
    seven; in a zone without a clock change in between that is
    7 * 24 * 60 * 60 * 1000 milliseconds. *)
Definition weekAgo (now : Z) : Z := now - 7 * 24 * 60 * 60 * 1000.

(** [Promise.all(xs.map(async x => f x))] for a function that reads the
    store and may throw: the first rejection rejects the whole. *)
Fixpoint traverse {A B} (f : A -> Outcome B) (xs : list A) : Outcome (list B) :=
  match xs with
  | [] => Returned []
  | x :: xs' =>
      match f x with
      | Threw e => Threw e
      | Returned b =>
          match traverse f xs' with
          | Threw e => Threw e
          | Returned bs => Returned (b :: bs)
          end
      end
  end.

(** [author: { id, username, displayName: author.displayName || author.username, ... }] *)
Definition author_of (a : User.t) : Author.t :=
  Author.mk (User.id a) (User.username a)
    (Some (Js.or_else (User.displayName a) (User.username a)))
    (User.avatarUrl a) (User.profilePicture a).

(** ** MemStorage *)

Module MemStorage.

Record t : Type := mk {
  users : JsMap.t User.t;
  snippets : JsMap.t Snippet.t;
  snippetLikes : JsMap.t SnippetLike.t;
  snippetViews : JsMap.t SnippetView.t;
  follows : JsMap.t Follow.t;
  notifications : JsMap.t Notification.t
}.

(** [constructor()]. *)
Definition init : t :=
  mk JsMap.empty JsMap.empty JsMap.empty JsMap.empty JsMap.empty JsMap.empty.

Definition set_users (m : JsMap.t User.t) (st : t) : t :=
  mk m (snippets st) (snippetLikes st) (snippetViews st) (follows st)
     (notifications st).

Definition set_snippets (m : JsMap.t Snippet.t) (st : t) : t :=
  mk (users st) m (snippetLikes st) (snippetViews st) (follows st)
     (notifications st).

Definition set_snippetLikes (m : JsMap.t SnippetLike.t) (st : t) : t :=
  mk (users st) (snippets st) m (snippetViews st) (follows st)
     (notifications st).

Definition set_snippetViews (m : JsMap.t SnippetView.t) (st : t) : t :=
  mk (users st) (snippets st) (snippetLikes st) m (follows st)
     (notifications st).

Definition set_follows (m : JsMap.t Follow.t) (st : t) : t :=
  mk (users st) (snippets st) (snippetLikes st) (snippetViews st) m
     (notifications st).

Definition set_notifications (m : JsMap.t Notification.t) (st : t) : t :=
  mk (users st) (snippets st) (snippetLikes st) (snippetViews st)
     (follows st) m.

(** *** User methods *)

Definition getUser (id : string) : Promise t (option User.t) :=
  fun st => (Returned (JsMap.get id (users st)), st).

Definition getUserByUsername (username : string) : Promise t (option User.t) :=
  fun st =>
    (Returned (find (fun user => (User.username user =? username)%string)
                    (JsMap.values (users st))), st).

Definition getUserByEmail (email : string) : Promise t (option User.t) :=
  fun st =>
    (Returned (find (fun user => (User.email user =? email)%string)
                    (JsMap.values (users st))), st).

(** [hashedPassword] is the result of [bcrypt.hash(insertUser.password, 10)]. *)
Definition new_user (id hashedPassword : string) (now : Z) (rank : Rank)
    (insertUser : InsertUser.t) : User.t :=
  User.mk id
    (InsertUser.username insertUser)
    hashedPassword
    (InsertUser.email insertUser)
    (Some (Js.or_else (InsertUser.displayName insertUser)
                      (InsertUser.username insertUser)))
    (Js.or_null (InsertUser.bio insertUser))
    (Js.or_null (InsertUser.location insertUser))
    (Js.or_null (InsertUser.website insertUser))
    None None rank now.

Definition createUser (id hashedPassword : string) (now : Z)
    (insertUser : InsertUser.t) : Promise t User.t :=
  fun st =>
    let user := new_user id hashedPassword now RankDefault insertUser in
    (Returned user, set_users (JsMap.set id user (users st)) st).

Definition createAdminUser (id hashedPassword : string) (now : Z)
    (insertUser : InsertUser.t) (rank : Rank) : Promise t User.t :=
  fun st =>
    let user := new_user id hashedPassword now rank insertUser in
    (Returned user, set_users (JsMap.set id user (users st)) st).

Definition updateUser (id : string) (updates : PartialUser.t)
  : Promise t (option User.t) :=
  fun st =>
    match JsMap.get id (users st) with
    | None => (Returned None, st)
    | Some user =>
        let updatedUser := spread_user user updates in
        (Returned (Some updatedUser),
         set_users (JsMap.set id updatedUser (users st)) st)
    end.

(** *** Snippet methods *)

Definition getSnippet (id : string) : Promise t (option Snippet.t) :=
  fun st => (Returned (JsMap.get id (snippets st)), st).

Definition getSnippetWithAuthor (id : string)
  : Promise t (option SnippetWithAuthor.t) :=
  fun st =>
    match JsMap.get id (snippets st) with
    | None => (Returned None, st)
    | Some snippet =>
        match JsMap.get (Snippet.authorId snippet) (users st) with
        | None => (Returned None, st)
        | Some author =>
            (Returned (Some (SnippetWithAuthor.mk snippet (author_of author) None)),
             st)
        end
    end.

(** [(a, b) => new Date(b.updatedAt).getTime() - new Date(a.updatedAt).getTime()] *)
Definition by_updatedAt_desc (a b : Snippet.t) : Z :=
  Snippet.updatedAt b - Snippet.updatedAt a.

(** [(a, b) => (b.likes + b.views) - (a.likes + a.views)] *)
Definition by_score_desc (a b : Snippet.t) : Z :=
  (Snippet.likes b + Snippet.views b) - (Snippet.likes a + Snippet.views a).

Definition getSnippetsByAuthor (authorId : string)
  : Promise t (list SnippetWithAuthor.t) :=
  fun st =>
    match JsMap.get authorId (users st) with
    | None => (Returned [], st)
    | Some author =>
        let snippets :=
          Js.sort by_updatedAt_desc
            (filter (fun snippet =>
                       (Snippet.authorId snippet =? authorId)%string
                       && Snippet.isPublic snippet)
                    (JsMap.values (snippets st))) in
        (Returned (map (fun snippet =>
                          SnippetWithAuthor.mk snippet (author_of author) None)
                       snippets), st)
    end.

Definition getUserOwnSnippets (authorId : string)
  : Promise t (list SnippetWithAuthor.t) :=
  fun st =>
    match JsMap.get authorId (users st) with
    | None => (Returned [], st)
    | Some author =>
        let snippets :=
          Js.sort by_updatedAt_desc
            (filter (fun snippet => (Snippet.authorId snippet =? authorId)%string)
                    (JsMap.values (snippets st))) in
        (Returned (map (fun snippet =>
                          SnippetWithAuthor.mk snippet (author_of author) None)
                       snippets), st)
    end.

(** [const author = this.users.get(snippet.authorId)!; return { ...snippet,
    author: { id: author.id, ... } }]: reading [author.id] of a missing
    author throws. *)
Definition attach_author (st : t) (snippet : Snippet.t)
  : Outcome SnippetWithAuthor.t :=
  match JsMap.get (Snippet.authorId snippet) (users st) with
  | None => Threw TypeError
  | Some author => Returned (SnippetWithAuthor.mk snippet (author_of author) None)
  end.

Definition getPublicSnippets (limit offset : Z)
  : Promise t (list SnippetWithAuthor.t) :=
  fun st =>
    let publicSnippets :=
      Js.slice offset (offset + limit)
        (Js.sort by_updatedAt_desc
           (filter Snippet.isPublic (JsMap.values (snippets st)))) in
    (traverse (attach_author st) publicSnippets, st).

Definition getTrendingSnippets (now : Z) (limit : Z)
  : Promise t (list SnippetWithAuthor.t) :=
  fun st =>
    let trendingSnippets :=
      Js.slice 0 limit
        (Js.sort by_score_desc
           (filter (fun snippet =>
                      Snippet.isPublic snippet
                      && (Snippet.createdAt snippet >? weekAgo now))
                   (JsMap.values (snippets st)))) in
    (traverse (attach_author st) trendingSnippets, st).

Definition getAllSnippets (limit offset : Z)
  : Promise t (list SnippetWithAuthor.t) :=
  fun st =>
    let allSnippets :=
      Js.slice offset (offset + limit)
        (Js.sort by_updatedAt_desc (JsMap.values (snippets st))) in
    (traverse (attach_author st) allSnippets, st).

Definition new_snippet (id : string) (now : Z) (authorId : string)
    (snippetData : InsertSnippet.t) : Snippet.t :=
  Snippet.mk id
    (InsertSnippet.title snippetData)
    (Js.or_null (InsertSnippet.description snippetData))
    (Js.or_else (InsertSnippet.html snippetData) EmptyString)
    (Js.or_else (InsertSnippet.css snippetData) EmptyString)
    (Js.or_else (InsertSnippet.javascript snippetData) EmptyString)
    (match InsertSnippet.isPublic snippetData with Some b => b | None => false end)
    authorId 0 0 now now.

Definition createSnippet (id : string) (now : Z) (authorId : string)
    (snippetData : InsertSnippet.t) : Promise t Snippet.t :=
  fun st =>
    let snippet := new_snippet id now authorId snippetData in
    (Returned snippet, set_snippets (JsMap.set id snippet (snippets st)) st).

Definition updateSnippet (now : Z) (id : string) (updates : PartialSnippet.t)
  : Promise t (option Snippet.t) :=
  fun st =>
    match JsMap.get id (snippets st) with
    | None => (Returned None, st)
    | Some snippet =>
        let updatedSnippet := spread_snippet snippet updates now in
        (Returned (Some updatedSnippet),
         set_snippets (JsMap.set id updatedSnippet (snippets st)) st)
    end.

Definition deleteSnippet (id : string) : Promise t bool :=
  fun st =>
    (Returned (JsMap.has id (snippets st)),
     set_snippets (JsMap.delete id (snippets st)) st).

Definition incrementViews (viewId : string) (now : Z) (snippetId : string)
    (userId ipAddress : option string) : Promise t unit :=
  fun st =>
    let existingView :=
      find (fun view =>
              (SnippetView.snippetId view =? snippetId)%string
              && (if Js.truthy userId
                  then Js.strict_eq (SnippetView.userId view) userId
                  else Js.strict_eq (SnippetView.ipAddress view) ipAddress))
           (JsMap.values (snippetViews st)) in
    match existingView with
    | Some _ => (Returned tt, st)
    | None =>
        let view :=
          SnippetView.mk viewId snippetId (Js.or_null userId)
            (Js.or_null ipAddress) now in
        let st1 := set_snippetViews (JsMap.set viewId view (snippetViews st)) st in
        match JsMap.get snippetId (snippets st1) with
        | Some snippet =>
            (Returned tt,
             set_snippets
               (JsMap.set snippetId
                  (Snippet.with_views (Snippet.views snippet + 1) snippet)
                  (snippets st1)) st1)
        | None => (Returned tt, st1)
        end
    end.

(** *** Like methods *)

Definition likeSnippet (likeId : string) (now : Z) (snippetId userId : string)
  : Promise t bool :=
  fun st =>
    let existingLike :=
      find (fun like =>
              (SnippetLike.snippetId like =? snippetId)%string
              && (SnippetLike.userId like =? userId)%string)
           (JsMap.values (snippetLikes st)) in
    match existingLike with
    | Some _ => (Returned false, st)
    | None =>
        let like := SnippetLike.mk likeId snippetId userId now in
        let st1 := set_snippetLikes (JsMap.set likeId like (snippetLikes st)) st in
        match JsMap.get snippetId (snippets st1) with
        | Some snippet =>
            (Returned true,
             set_snippets
               (JsMap.set snippetId
                  (Snippet.with_likes (Snippet.likes snippet + 1) snippet)
                  (snippets st1)) st1)
        | None => (Returned true, st1)
        end
    end.

Definition unlikeSnippet (snippetId userId : string) : Promise t bool :=
  fun st =>
    let like :=
      find (fun like =>
              (SnippetLike.snippetId like =? snippetId)%string
              && (SnippetLike.userId like =? userId)%string)
           (JsMap.values (snippetLikes st)) in
    match like with
    | None => (Returned false, st)
    | Some like =>
        let st1 :=
          set_snippetLikes
            (JsMap.delete (SnippetLike.id like) (snippetLikes st)) st in
        match JsMap.get snippetId (snippets st1) with
        | Some snippet =>
            if Snippet.likes snippet >? 0
            then (Returned true,
                  set_snippets
                    (JsMap.set snippetId
                       (Snippet.with_likes (Snippet.likes snippet - 1) snippet)
                       (snippets st1)) st1)
            else (Returned true, st1)
        | None => (Returned true, st1)
        end
    end.

Definition isSnippetLiked (snippetId userId : string) : Promise t bool :=
  fun st =>
    (Returned (existsb (fun like =>
                          (SnippetLike.snippetId like =? snippetId)%string
                          && (SnippetLike.userId like =? userId)%string)
                       (JsMap.values (snippetLikes st))), st).

(** The pure part of [getSnippetWithAuthor], for callers that map it over a
    list. *)
Definition snippet_with_author (st : t) (id : string)
  : option SnippetWithAuthor.t :=
  match JsMap.get id (snippets st) with
  | None => None
  | Some snippet =>
      match JsMap.get (Snippet.authorId snippet) (users st) with
      | None => None
      | Some author => Some (SnippetWithAuthor.mk snippet (author_of author) None)
      end
  end.

Definition getLikedSnippetsByUser (userId : string)
  : Promise t (list SnippetWithAuthor.t) :=
  fun st =>
    let userLikes :=
      Js.sort (fun a b => SnippetLike.createdAt b - SnippetLike.createdAt a)
        (filter (fun like => (SnippetLike.userId like =? userId)%string)
                (JsMap.values (snippetLikes st))) in
    let likedSnippets :=
      map (fun like => snippet_with_author st (SnippetLike.snippetId like))
          userLikes in
    (Returned
       (flat_map (fun o =>
                    match o with
                    | Some snippet =>
                        if Snippet.isPublic (SnippetWithAuthor.snippet snippet)
                        then [snippet] else []
                    | None => []
                    end) likedSnippets), st).

(** *** Search and filtering *)

Definition searchSnippets (query : string) (isPublic : bool)
  : Promise t (list SnippetWithAuthor.t) :=
  fun st =>
    let searchTerms := Js.split_space (Js.toLowerCase query) in
    let matchingSnippets :=
      Js.sort by_updatedAt_desc
        (filter (fun snippet =>
                   if isPublic && negb (Snippet.isPublic snippet) then false
                   else
                     let searchableText :=
                       Js.toLowerCase
                         (Js.join_space
                            [Snippet.title snippet;
                             Js.or_else (Snippet.description snippet) EmptyString;
                             Snippet.html snippet;
                             Snippet.css snippet;
                             Snippet.javascript snippet]) in
                     forallb (fun term => Js.includes searchableText term)
                             searchTerms)
                (JsMap.values (snippets st))) in
    (traverse (attach_author st) matchingSnippets, st).

(** *** Follow methods *)

Definition followUser (followId : string) (now : Z)
    (followerId followingId : string) : Promise t bool :=
  fun st =>
    if (followerId =? followingId)%string then (Returned false, st)
    else
      let existingFollow :=
        find (fun follow =>
                (Follow.followerId follow =? followerId)%string
                && (Follow.followingId follow =? followingId)%string)
             (JsMap.values (follows st)) in
      match existingFollow with
      | Some _ => (Returned false, st)
      | None =>
          let follow := Follow.mk followId followerId followingId now in
          (Returned true, set_follows (JsMap.set followId follow (follows st)) st)
      end.

Definition unfollowUser (followerId followingId : string) : Promise t bool :=
  fun st =>
    let follow :=
      find (fun follow =>
              (Follow.followerId follow =? followerId)%string
              && (Follow.followingId follow =? followingId)%string)
           (JsMap.values (follows st)) in
    match follow with
    | None => (Returned false, st)
    | Some follow =>
        (Returned true,
         set_follows (JsMap.delete (Follow.id follow) (follows st)) st)
    end.

Definition isFollowing (followerId followingId : string) : Promise t bool :=
  fun st =>
    (Returned (existsb (fun follow =>
                          (Follow.followerId follow =? followerId)%string
                          && (Follow.followingId follow =? followingId)%string)
                       (JsMap.values (follows st))), st).

(** [ids.map(id => this.users.get(id)).filter(user => user !== undefined)] *)
Definition lookup_users (st : t) (ids : list string) : list User.t :=
  flat_map (fun id =>
              match JsMap.get id (users st) with
              | Some user => [user]
              | None => []
              end) ids.

Definition getFollowers (userId : string) : Promise t (list User.t) :=
  fun st =>
    let followerIds :=
      map Follow.followerId
          (filter (fun follow => (Follow.followingId follow =? userId)%string)
                  (JsMap.values (follows st))) in
    (Returned (lookup_users st followerIds), st).

Definition getFollowing (userId : string) : Promise t (list User.t) :=
  fun st =>
    let followingIds :=
      map Follow.followingId
          (filter (fun follow => (Follow.followerId follow =? userId)%string)
                  (JsMap.values (follows st))) in
    (Returned (lookup_users st followingIds), st).

(** *** Notification methods *)

Definition new_notification (id : string) (now : Z)
    (insertNotification : InsertNotification.t) : Notification.t :=
  Notification.mk id
    (InsertNotification.userId insertNotification)
    (InsertNotification.type insertNotification)
    (InsertNotification.title insertNotification)
    (InsertNotification.message insertNotification)
    (Js.or_null (InsertNotification.snippetId insertNotification))
    (Js.or_null (InsertNotification.fromUserId insertNotification))
    false now.

Definition createNotification (id : string) (now : Z)
    (insertNotification : InsertNotification.t) : Promise t Notification.t :=
  fun st =>
    let notification := new_notification id now insertNotification in
    (Returned notification,
     set_notifications (JsMap.set id notification (notifications st)) st).

Definition markNotificationRead (id userId : string) : Promise t bool :=
  fun st =>
    match JsMap.get id (notifications st) with
    | None => (Returned false, st)
    | Some notification =>
        if negb (Notification.userId notification =? userId)%string
        then (Returned false, st)
        else (Returned true,
              set_notifications
                (JsMap.set id (Notification.mark_read notification)
                   (notifications st)) st)
    end.

(** The loop mutates each matching notification object where it sits in the
    map and then stores it again under [notification.id]. *)
Definition markAllNotificationsRead (userId : string) : Promise t unit :=
  fun st =>
    let due notification :=
      (Notification.userId notification =? userId)%string
      && negb (Notification.isRead notification) in
    let mutated :=
      map (fun e => if due (snd e)
                    then (fst e, Notification.mark_read (snd e)) else e)
          (notifications st) in
    let stored :=
      fold_left
        (fun m notification =>
           JsMap.set (Notification.id notification)
             (Notification.mark_read notification) m)
        (filter due (JsMap.values (notifications st))) mutated in
    (Returned tt, set_notifications stored st).

Definition getUnreadNotificationCount (userId : string) : Promise t Z :=
  fun st =>
    (Returned
       (Z.of_nat
          (List.length
             (filter (fun notification =>
                        (Notification.userId notification =? userId)%string
                        && negb (Notification.isRead notification))
                     (JsMap.values (notifications st))))), st).

(** *** Admin methods *)

(** One round of the loop over the user's snippets: the snippet goes, then
    the likes and the views that point at it. *)
Definition delete_snippet_cascade (st : t) (snippet : Snippet.t) : t :=
  let st1 := set_snippets (JsMap.delete (Snippet.id snippet) (snippets st)) st in
  let st2 :=
    set_snippetLikes
      (JsMap.delete_all
         (map SnippetLike.id
            (filter (fun like =>
                       (SnippetLike.snippetId like =? Snippet.id snippet)%string)
                    (JsMap.values (snippetLikes st1))))
         (snippetLikes st1)) st1 in
  set_snippetViews
    (JsMap.delete_all
       (map SnippetView.id
          (filter (fun view =>
                     (SnippetView.snippetId view =? Snippet.id snippet)%string)
                  (JsMap.values (snippetViews st2))))
       (snippetViews st2)) st2.

Definition deleteUserAndSnippets (userId : string) : Promise t bool :=
  fun st =>
    match JsMap.get userId (users st) with
    | None => (Returned false, st)
    | Some _ =>
        let userSnippets :=
          filter (fun snippet => (Snippet.authorId snippet =? userId)%string)
                 (JsMap.values (snippets st)) in
        let st1 := fold_left delete_snippet_cascade userSnippets st in
        let st2 :=
          set_snippetLikes
            (JsMap.delete_all
               (map SnippetLike.id
                  (filter (fun like => (SnippetLike.userId like =? userId)%string)
                          (JsMap.values (snippetLikes st1))))
               (snippetLikes st1)) st1 in
        let st3 :=
          set_snippetViews
            (JsMap.delete_all
               (map SnippetView.id
                  (filter (fun view =>
                             Js.strict_eq (SnippetView.userId view) (Some userId))
                          (JsMap.values (snippetViews st2))))
               (snippetViews st2)) st2 in
        let st4 :=
          set_follows
            (JsMap.delete_all
               (map Follow.id
                  (filter (fun follow =>
                             (Follow.followerId follow =? userId)%string
                             || (Follow.followingId follow =? userId)%string)
                          (JsMap.values (follows st3))))
               (follows st3)) st3 in
        let st5 :=
          set_notifications
            (JsMap.delete_all
               (map Notification.id
                  (filter (fun notification =>
                             (Notification.userId notification =? userId)%string
                             || Js.strict_eq (Notification.fromUserId notification)
                                  (Some userId))
                          (JsMap.values (notifications st4))))
               (notifications st4)) st4 in
        (Returned true, set_users (JsMap.delete userId (users st5)) st5)
    end.

End MemStorage.

(** ** The SQL statements DatabaseStorage issues *)

Module Sql.

(** PostgreSQL [integer] columns hold 32-bit values; arithmetic that leaves
    the range aborts the statement. *)
Definition int4_min : Z := -2147483648.
Definition int4_max : Z := 2147483647.

Definition int4 (z : Z) : Outcome Z :=
  if (int4_min <=? z) && (z <=? int4_max) then Returned z
  else Threw NumericValueOutOfRange.

(** [const [row] = await db.select()...]: the first row or [undefined]. *)
Definition first {A} (rows : list A) : option A := hd_error rows.

(** A primary key or unique column: an insert whose key is taken aborts. *)
Definition taken {A} (key : A -> string) (k : string) (rows : list A) : bool :=
  existsb (fun r => (key r =? k)%string) rows.

Fixpoint distinct (ks : list string) : bool :=
  match ks with
  | [] => true
  | k :: ks' => negb (existsb (String.eqb k) ks') && distinct ks'
  end.

Definition insert {A} (key : A -> string) (row : A) (rows : list A)
  : Outcome (list A) :=
  if taken key (key row) rows then Threw UniqueViolation
  else Returned (rows ++ [row])%list.

(** [ORDER BY key DESC]. SQL leaves the order of rows with equal keys open,
    anew in every query; the model keeps them in table order. What is stated
    about the order of such a list beyond its being sorted is stated for
    rows with pairwise different keys, where the database has no choice. *)
Definition order_by_desc {A} (key : A -> Z) (rows : list A) : list A :=
  Js.sort (fun a b => key b - key a) rows.

(** [.limit(limit).offset(offset)]: the query builder writes [LIMIT] only
    for a limit that is not negative, so a negative limit lets every row
    through; a negative [OFFSET] is an error of the database. *)
Definition limit_offset {A} (limit offset : Z) (rows : list A)
  : Outcome (list A) :=
  if offset <? 0 then Threw InvalidRowCount
  else if limit <? 0 then Returned (skipn (Z.to_nat offset) rows)
  else Returned (firstn (Z.to_nat limit) (skipn (Z.to_nat offset) rows)).

(** [UPDATE ... SET ... WHERE p]: every matching row is rewritten, and one
    failing row aborts the whole statement. *)
Definition update_where {A} (p : A -> bool) (f : A -> Outcome A)
    (rows : list A) : Outcome (list A) :=
  traverse (fun r => if p r then f r else Returned r) rows.

(** [DELETE ... WHERE p] and its [rowCount]. *)
Definition delete_where {A} (p : A -> bool) (rows : list A) : list A :=
  filter (fun r => negb (p r)) rows.

Definition row_count {A} (p : A -> bool) (rows : list A) : Z :=
  Z.of_nat (List.length (filter p rows)).

(** [text LIKE pattern]: [%] stands for any run of characters, [_] for any
    one character, a backslash makes the next character literal. *)
Inductive LikeToken : Type :=
| AnyRun
| AnyChar
| Literal (c : ascii).

Fixpoint like_tokens (pattern : string) : Outcome (list LikeToken) :=
  match pattern with
  | EmptyString => Returned []
  | String c rest =>
      if Ascii.eqb c (ascii_of_nat 92) then
        match rest with
        | EmptyString => Threw InvalidEscapeSequence
        | String c' rest' =>
            match like_tokens rest' with
            | Returned ts => Returned (Literal c' :: ts)
            | Threw e => Threw e
            end
        end
      else
        match like_tokens rest with
        | Returned ts =>
            Returned ((if Ascii.eqb c "%"%char then AnyRun
                       else if Ascii.eqb c "_"%char then AnyChar
                       else Literal c) :: ts)
        | Threw e => Threw e
        end
  end.

Fixpoint like_match (tokens : list LikeToken) (text : string) : bool :=
  match tokens with
  | [] => match text with EmptyString => true | String _ _ => false end
  | Literal c :: tokens' =>
      match text with
      | EmptyString => false
      | String c' text' => Ascii.eqb c c' && like_match tokens' text'
      end
  | AnyChar :: tokens' =>
      match text with
      | EmptyString => false
      | String _ text' => like_match tokens' text'
      end
  | AnyRun :: tokens' =>
      (fix skip (t : string) : bool :=
         like_match tokens' t
         || match t with
            | EmptyString => false
            | String _ t' => skip t'
            end) text
  end.

End Sql.

Module Database.

Record t : Type := mk {
  users : list User.t;
  snippets : list Snippet.t;
  snippetLikes : list SnippetLike.t;
  snippetViews : list SnippetView.t;
  follows : list Follow.t;
  notifications : list Notification.t
}.

Definition init : t := mk [] [] [] [] [] [].

Definition set_users (r : list User.t) (db : t) : t :=
  mk r (snippets db) (snippetLikes db) (snippetViews db) (follows db)
     (notifications db).

Definition set_snippets (r : list Snippet.t) (db : t) : t :=
  mk (users db) r (snippetLikes db) (snippetViews db) (follows db)
     (notifications db).

Definition set_snippetLikes (r : list SnippetLike.t) (db : t) : t :=
  mk (users db) (snippets db) r (snippetViews db) (follows db)
     (notifications db).

Definition set_snippetViews (r : list SnippetView.t) (db : t) : t :=
  mk (users db) (snippets db) (snippetLikes db) r (follows db)
     (notifications db).

Definition set_follows (r : list Follow.t) (db : t) : t :=
  mk (users db) (snippets db) (snippetLikes db) (snippetViews db) r
     (notifications db).

Definition set_notifications (r : list Notification.t) (db : t) : t :=
  mk (users db) (snippets db) (snippetLikes db) (snippetViews db)
     (follows db) r.

(** A statement that reads. *)
Definition query {A} (f : t -> A) : Promise t A :=
  fun db => (Returned (f db), db).

(** A statement that reads and may abort. *)
Definition query_or_fail {A} (f : t -> Outcome A) : Promise t A :=
  fun db => (f db, db).

(** A statement that writes: it commits its result or aborts and leaves the
    tables as they were. *)
Definition execute (f : t -> Outcome t) : Promise t unit :=
  fun db =>
    match f db with
    | Returned db' => (Returned tt, db')
    | Threw e => (Threw e, db)
    end.

(** [snippets INNER JOIN users ON snippets.author_id = users.id], selecting
    the snippet columns and the five author columns as they are stored. *)
Definition author_columns (a : User.t) : Author.t :=
  Author.mk (User.id a) (User.username a) (User.displayName a)
    (User.avatarUrl a) (User.profilePicture a).

Definition join_author (db : t) (rows : list Snippet.t)
  : list SnippetWithAuthor.t :=
  flat_map (fun snippet =>
              map (fun user =>
                     SnippetWithAuthor.mk snippet (author_columns user) None)
                  (filter (fun user =>
                             (Snippet.authorId snippet =? User.id user)%string)
                          (users db)))
           rows.

End Database.

(** ** DatabaseStorage *)

Module DatabaseStorage.

Import Database.
Local Open Scope promise_scope.

(** *** User methods *)

Definition getUser (id : string) : Promise t (option User.t) :=
  query (fun db =>
    Sql.first (filter (fun user => (User.id user =? id)%string) (users db))).

Definition getUserByUsername (username : string) : Promise t (option User.t) :=
  query (fun db =>
    Sql.first (filter (fun user => (User.username user =? username)%string)
                      (users db))).

Definition getUserByEmail (email : string) : Promise t (option User.t) :=
  query (fun db =>
    Sql.first (filter (fun user => (User.email user =? email)%string)
                      (users db))).

(** [values({ ...insertUser, id: randomUUID(), password: hashedPassword })]:
    the columns that are not given take their defaults. *)
Definition user_row (id hashedPassword : string) (now : Z) (rank : Rank)
    (insertUser : InsertUser.t) : User.t :=
  User.mk id
    (InsertUser.username insertUser)
    hashedPassword
    (InsertUser.email insertUser)
    (InsertUser.displayName insertUser)
    (InsertUser.bio insertUser)
    (InsertUser.location insertUser)
    (InsertUser.website insertUser)
    None None rank now.

(** [users] has a primary key and unique indexes on username and email. *)
Definition insert_user (row : User.t) (db : t) : Outcome t :=
  if Sql.taken User.id (User.id row) (users db)
     || Sql.taken User.username (User.username row) (users db)
     || Sql.taken User.email (User.email row) (users db)
  then Threw UniqueViolation
  else Returned (set_users (users db ++ [row])%list db).

Definition createUser (id hashedPassword : string) (now : Z)
    (insertUser : InsertUser.t) : Promise t User.t :=
  let row := user_row id hashedPassword now RankDefault insertUser in
  execute (insert_user row) ;;; ret row.

Definition createAdminUser (id hashedPassword : string) (now : Z)
    (insertUser : InsertUser.t) (rank : Rank) : Promise t User.t :=
  let row := user_row id hashedPassword now rank insertUser in
  execute (insert_user row) ;;; ret row.

(** [db.update(users).set(updates)]: an update without any column to set is
    rejected before it reaches the rows; one that breaks the primary key or
    a unique index aborts. *)
Definition updateUser (id : string) (updates : PartialUser.t)
  : Promise t (option User.t) :=
  fun db =>
    let rows :=
      map (fun user =>
             if (User.id user =? id)%string then spread_user user updates
             else user) (users db) in
    if PartialUser.is_empty updates then (Threw NoValuesToSet, db)
    else if Sql.distinct (map User.id rows)
       && Sql.distinct (map User.username rows)
       && Sql.distinct (map User.email rows)
    then
      (Returned
         (Sql.first
            (map (fun user => spread_user user updates)
                 (filter (fun user => (User.id user =? id)%string) (users db)))),
       set_users rows db)
    else (Threw UniqueViolation, db).

(** *** Snippet methods *)

Definition getSnippet (id : string) : Promise t (option Snippet.t) :=
  query (fun db =>
    Sql.first (filter (fun snippet => (Snippet.id snippet =? id)%string)
                      (snippets db))).

Definition getSnippetWithAuthor (id : string)
  : Promise t (option SnippetWithAuthor.t) :=
  query (fun db =>
    Sql.first
      (filter (fun row =>
                 (Snippet.id (SnippetWithAuthor.snippet row) =? id)%string)
              (join_author db (snippets db)))).

Definition snippet_createdAt (row : SnippetWithAuthor.t) : Z :=
  Snippet.createdAt (SnippetWithAuthor.snippet row).

Definition snippet_updatedAt (row : SnippetWithAuthor.t) : Z :=
  Snippet.updatedAt (SnippetWithAuthor.snippet row).

Definition getSnippetsByAuthor (authorId : string)
  : Promise t (list SnippetWithAuthor.t) :=
  query (fun db =>
    Sql.order_by_desc snippet_createdAt
      (filter (fun row =>
                 (Snippet.authorId (SnippetWithAuthor.snippet row) =? authorId)%string
                 && Bool.eqb (Snippet.isPublic (SnippetWithAuthor.snippet row)) true)
              (join_author db (snippets db)))).

Definition getUserOwnSnippets (authorId : string)
  : Promise t (list SnippetWithAuthor.t) :=
  query (fun db =>
    Sql.order_by_desc snippet_createdAt
      (filter (fun row =>
                 (Snippet.authorId (SnippetWithAuthor.snippet row) =? authorId)%string)
              (join_author db (snippets db)))).

Definition getPublicSnippets (limit offset : Z)
  : Promise t (list SnippetWithAuthor.t) :=
  query_or_fail (fun db =>
    Sql.limit_offset limit offset
      (Sql.order_by_desc snippet_createdAt
         (filter (fun row =>
                    Bool.eqb (Snippet.isPublic (SnippetWithAuthor.snippet row)) true)
                 (join_author db (snippets db))))).

(** [desc(sql`(likes + views)`)]: the sum is 32-bit arithmetic. *)
Definition score (row : SnippetWithAuthor.t) : Outcome Z :=
  Sql.int4 (Snippet.likes (SnippetWithAuthor.snippet row)
            + Snippet.views (SnippetWithAuthor.snippet row)).

Definition snippet_score (row : SnippetWithAuthor.t) : Z :=
  Snippet.likes (SnippetWithAuthor.snippet row)
  + Snippet.views (SnippetWithAuthor.snippet row).

Definition getTrendingSnippets (limit : Z)
  : Promise t (list SnippetWithAuthor.t) :=
  query_or_fail (fun db =>
    let rows :=
      filter (fun row =>
                Bool.eqb (Snippet.isPublic (SnippetWithAuthor.snippet row)) true)
             (join_author db (snippets db)) in
    match traverse score rows with
    | Threw e => Threw e
    | Returned _ =>
        Sql.limit_offset limit 0 (Sql.order_by_desc snippet_score rows)
    end).

Definition getAllSnippets (limit offset : Z)
  : Promise t (list SnippetWithAuthor.t) :=
  query_or_fail (fun db =>
    Sql.limit_offset limit offset
      (Sql.order_by_desc snippet_updatedAt (join_author db (snippets db)))).

(** [db.insert(snippets).values(snippet)]: the id, the counters and the two
    timestamps are column defaults ([gen_random_uuid()], 0, [now()]). *)
Definition snippet_row (id : string) (now : Z) (authorId : string)
    (snippet : InsertSnippet.t) : Snippet.t :=
  Snippet.mk id
    (InsertSnippet.title snippet)
    (InsertSnippet.description snippet)
    (match InsertSnippet.html snippet with Some s => s | None => EmptyString end)
    (match InsertSnippet.css snippet with Some s => s | None => EmptyString end)
    (match InsertSnippet.javascript snippet with
     | Some s => s | None => EmptyString end)
    (match InsertSnippet.isPublic snippet with Some b => b | None => false end)
    authorId 0 0 now now.

Definition insert_into {A} (key : A -> string) (table : t -> list A)
    (store : list A -> t -> t) (row : A) : Promise t unit :=
  execute (fun db =>
    match Sql.insert key row (table db) with
    | Returned rows => Returned (store rows db)
    | Threw e => Threw e
    end).

Definition createSnippet (id : string) (now : Z) (authorId : string)
    (snippet : InsertSnippet.t) : Promise t Snippet.t :=
  let row := snippet_row id now authorId snippet in
  insert_into Snippet.id snippets set_snippets row ;;; ret row.

(** [set({ ...updates, updatedAt: new Date() })]; a counter that is set must
    fit its column. *)
Definition set_snippet_columns (updates : PartialSnippet.t) (now : Z)
    (snippet : Snippet.t) : Outcome Snippet.t :=
  let row := spread_snippet snippet updates now in
  match Sql.int4 (Snippet.views row), Sql.int4 (Snippet.likes row) with
  | Returned _, Returned _ => Returned row
  | Threw e, _ => Threw e
  | _, Threw e => Threw e
  end.

Definition updateSnippet (now : Z) (id : string) (updates : PartialSnippet.t)
  : Promise t (option Snippet.t) :=
  fun db =>
    match Sql.update_where (fun snippet => (Snippet.id snippet =? id)%string)
            (set_snippet_columns updates now) (snippets db) with
    | Threw e => (Threw e, db)
    | Returned rows =>
        if Sql.distinct (map Snippet.id rows)
        then
          (Returned
             (Sql.first
                (map (fun snippet => spread_snippet snippet updates now)
                     (filter (fun snippet => (Snippet.id snippet =? id)%string)
                             (snippets db)))),
           set_snippets rows db)
        else (Threw UniqueViolation, db)
    end.

Definition deleteSnippet (id : string) : Promise t bool :=
  fun db =>
    let p := fun snippet => (Snippet.id snippet =? id)%string in
    (Returned (Sql.row_count p (snippets db) >? 0),
     set_snippets (Sql.delete_where p (snippets db)) db).

(** [UPDATE snippets SET views = views + 1 WHERE id = snippetId] and its
    sibling for [likes]. *)
Definition bump_views (d : Z) (snippetId : string) : Promise t unit :=
  execute (fun db =>
    match Sql.update_where
            (fun snippet => (Snippet.id snippet =? snippetId)%string)
            (fun snippet =>
               match Sql.int4 (Snippet.views snippet + d) with
               | Returned n => Returned (Snippet.with_views n snippet)
               | Threw e => Threw e
               end) (snippets db) with
    | Returned rows => Returned (set_snippets rows db)
    | Threw e => Threw e
    end).

Definition bump_likes (d : Z) (snippetId : string) : Promise t unit :=
  execute (fun db =>
    match Sql.update_where
            (fun snippet => (Snippet.id snippet =? snippetId)%string)
            (fun snippet =>
               match Sql.int4 (Snippet.likes snippet + d) with
               | Returned n => Returned (Snippet.with_likes n snippet)
               | Threw e => Threw e
               end) (snippets db) with
    | Returned rows => Returned (set_snippets rows db)
    | Threw e => Threw e
    end).

(** [eq(column, value)] on a nullable column: NULL matches nothing. *)
Definition eq_nullable (column value : option string) : bool :=
  match column, value with
  | Some c, Some v => (c =? v)%string
  | _, _ => false
  end.

Definition is_some {A} (o : option A) : bool :=
  match o with Some _ => true | None => false end.

Definition incrementViews (viewId : string) (now : Z) (snippetId : string)
    (userId ipAddress : option string) : Promise t unit :=
  seen <-
    (if Js.truthy userId then
       existingView <- query (fun db =>
         Sql.first
           (filter (fun view =>
                      (SnippetView.snippetId view =? snippetId)%string
                      && eq_nullable (SnippetView.userId view) userId)
                   (snippetViews db))) ;;
       ret (is_some existingView)
     else if Js.truthy ipAddress then
       existingView <- query (fun db =>
         Sql.first
           (filter (fun view =>
                      (SnippetView.snippetId view =? snippetId)%string
                      && eq_nullable (SnippetView.ipAddress view) ipAddress)
                   (snippetViews db))) ;;
       ret (is_some existingView)
     else ret false) ;;
  if seen then ret tt
  else
    insert_into SnippetView.id snippetViews set_snippetViews
      (SnippetView.mk viewId snippetId (Js.or_null userId)
         (Js.or_null ipAddress) now) ;;;
    bump_views 1 snippetId.

(** *** Like methods *)

Definition select_like (snippetId userId : string)
  : Promise t (option SnippetLike.t) :=
  query (fun db =>
    Sql.first
      (filter (fun like =>
                 (SnippetLike.snippetId like =? snippetId)%string
                 && (SnippetLike.userId like =? userId)%string)
              (snippetLikes db))).

Definition likeSnippet (likeId : string) (now : Z) (snippetId userId : string)
  : Promise t bool :=
  existingLike <- select_like snippetId userId ;;
  match existingLike with
  | Some _ => ret false
  | None =>
      insert_into SnippetLike.id snippetLikes set_snippetLikes
        (SnippetLike.mk likeId snippetId userId now) ;;;
      bump_likes 1 snippetId ;;;
      ret true
  end.

Definition unlikeSnippet (snippetId userId : string) : Promise t bool :=
  existingLike <- select_like snippetId userId ;;
  match existingLike with
  | None => ret false
  | Some _ =>
      execute (fun db =>
        Returned
          (set_snippetLikes
             (Sql.delete_where
                (fun like =>
                   (SnippetLike.snippetId like =? snippetId)%string
                   && (SnippetLike.userId like =? userId)%string)
                (snippetLikes db)) db)) ;;;
      bump_likes (-1) snippetId ;;;
      ret true
  end.

Definition isSnippetLiked (snippetId userId : string) : Promise t bool :=
  existingLike <- select_like snippetId userId ;;
  ret (is_some existingLike).

(** [snippets JOIN users JOIN snippet_likes ... ORDER BY snippet_likes.created_at DESC] *)
Definition getLikedSnippetsByUser (userId : string)
  : Promise t (list SnippetWithAuthor.t) :=
  query (fun db =>
    map fst
      (Sql.order_by_desc (fun row => SnippetLike.createdAt (snd row))
         (filter (fun row =>
                    (SnippetLike.userId (snd row) =? userId)%string
                    && Bool.eqb (Snippet.isPublic
                                   (SnippetWithAuthor.snippet (fst row))) true)
                 (flat_map (fun row =>
                              map (fun like => (row, like))
                                  (filter (fun like =>
                                             (Snippet.id (SnippetWithAuthor.snippet row)
                                              =? SnippetLike.snippetId like)%string)
                                          (snippetLikes db)))
                           (join_author db (snippets db)))))).

(** *** Search and filtering *)

Definition searchSnippets (query : string) (isPublic : bool)
  : Promise t (list SnippetWithAuthor.t) :=
  query_or_fail (fun db =>
    match Sql.like_tokens ("%" ++ query ++ "%") with
    | Threw e => Threw e
    | Returned pattern =>
        Returned
          (Sql.order_by_desc snippet_createdAt
             (filter (fun row =>
                        Bool.eqb (Snippet.isPublic (SnippetWithAuthor.snippet row))
                                 isPublic
                        && Sql.like_match pattern
                             (Snippet.title (SnippetWithAuthor.snippet row)))
                     (join_author db (snippets db))))
    end).

(** *** Follow methods *)

Definition select_follow (followerId followingId : string)
  : Promise t (option Follow.t) :=
  query (fun db =>
    Sql.first
      (filter (fun follow =>
                 (Follow.followerId follow =? followerId)%string
                 && (Follow.followingId follow =? followingId)%string)
              (follows db))).

Definition followUser (followId : string) (now : Z)
    (followerId followingId : string) : Promise t bool :=
  if (followerId =? followingId)%string then ret false
  else
    existingFollow <- select_follow followerId followingId ;;
    match existingFollow with
    | Some _ => ret false
    | None =>
        insert_into Follow.id follows set_follows
          (Follow.mk followId followerId followingId now) ;;;
        ret true
    end.

Definition unfollowUser (followerId followingId : string) : Promise t bool :=
  fun db =>
    let p := fun follow =>
      (Follow.followerId follow =? followerId)%string
      && (Follow.followingId follow =? followingId)%string in
    (Returned (Sql.row_count p (follows db) >? 0),
     set_follows (Sql.delete_where p (follows db)) db).

Definition isFollowing (followerId followingId : string) : Promise t bool :=
  follow <- select_follow followerId followingId ;;
  ret (is_some follow).

(** [users INNER JOIN follows ON users.id = follows.follower_id WHERE
    follows.following_id = userId] *)
Definition getFollowers (userId : string) : Promise t (list User.t) :=
  query (fun db =>
    flat_map (fun user =>
                map (fun _ => user)
                    (filter (fun follow =>
                               (User.id user =? Follow.followerId follow)%string
                               && (Follow.followingId follow =? userId)%string)
                            (follows db)))
             (users db)).

Definition getFollowing (userId : string) : Promise t (list User.t) :=
  query (fun db =>
    flat_map (fun user =>
                map (fun _ => user)
                    (filter (fun follow =>
                               (User.id user =? Follow.followingId follow)%string
                               && (Follow.followerId follow =? userId)%string)
                            (follows db)))
             (users db)).

(** *** Notification methods *)

(** [values({ ...insertNotification, id: randomUUID(), isRead: false,
    createdAt: new Date() })] *)
Definition notification_row (id : string) (now : Z)
    (insertNotification : InsertNotification.t) : Notification.t :=
  Notification.mk id
    (InsertNotification.userId insertNotification)
    (InsertNotification.type insertNotification)
    (InsertNotification.title insertNotification)
    (InsertNotification.message insertNotification)
    (InsertNotification.snippetId insertNotification)
    (InsertNotification.fromUserId insertNotification)
    false now.

Definition createNotification (id : string) (now : Z)
    (insertNotification : InsertNotification.t) : Promise t Notification.t :=
  let row := notification_row id now insertNotification in
  insert_into Notification.id notifications set_notifications row ;;; ret row.

Definition markNotificationRead (id userId : string) : Promise t bool :=
  fun db =>
    let p := fun notification =>
      (Notification.id notification =? id)%string
      && (Notification.userId notification =? userId)%string in
    (Returned (Sql.row_count p (notifications db) >? 0),
     set_notifications
       (map (fun notification =>
               if p notification then Notification.mark_read notification
               else notification) (notifications db)) db).

Definition markAllNotificationsRead (userId : string) : Promise t unit :=
  fun db =>
    let p := fun notification =>
      (Notification.userId notification =? userId)%string
      && Bool.eqb (Notification.isRead notification) false in
    (Returned tt,
     set_notifications
       (map (fun notification =>
               if p notification then Notification.mark_read notification
               else notification) (notifications db)) db).

Definition getUnreadNotificationCount (userId : string) : Promise t Z :=
  query (fun db =>
    Sql.row_count (fun notification =>
                     (Notification.userId notification =? userId)%string
                     && Bool.eqb (Notification.isRead notification) false)
                  (notifications db)).

(** *** Admin methods *)

(** [snippet_id IN (SELECT id FROM snippets WHERE author_id = userId)] *)
Definition authored_by (db : t) (userId snippetId : string) : bool :=
  existsb (fun snippet =>
             (Snippet.authorId snippet =? userId)%string
             && (Snippet.id snippet =? snippetId)%string)
          (snippets db).

(** No statement of the cascade can violate a constraint of the schema (it
    declares no foreign keys), so the [catch] branch is never taken. *)
Definition deleteUserAndSnippets (userId : string) : Promise t bool :=
  execute (fun db =>
    Returned
      (set_snippetLikes
         (Sql.delete_where
            (fun like =>
               authored_by db userId (SnippetLike.snippetId like)
               || (SnippetLike.userId like =? userId)%string)
            (snippetLikes db)) db)) ;;;
  execute (fun db =>
    Returned
      (set_snippetViews
         (Sql.delete_where
            (fun view =>
               authored_by db userId (SnippetView.snippetId view)
               || eq_nullable (SnippetView.userId view) (Some userId))
            (snippetViews db)) db)) ;;;
  execute (fun db =>
    Returned
      (set_follows
         (Sql.delete_where
            (fun follow =>
               (Follow.followerId follow =? userId)%string
               || (Follow.followingId follow =? userId)%string)
            (follows db)) db)) ;;;
  execute (fun db =>
    Returned
      (set_notifications
         (Sql.delete_where
            (fun notification =>
               (Notification.userId notification =? userId)%string
               || eq_nullable (Notification.fromUserId notification) (Some userId))
            (notifications db)) db)) ;;;
  execute (fun db =>
    Returned
      (set_snippets
         (Sql.delete_where
            (fun snippet => (Snippet.authorId snippet =? userId)%string)
            (snippets db)) db)) ;;;
  fun db =>
    let p := fun user => (User.id user =? userId)%string in
    (Returned (Sql.row_count p (users db) >? 0),
     set_users (Sql.delete_where p (users db)) db).

End DatabaseStorage.

(** ** The storage contract *)

Module IStorage.

Class t (S : Type) : Type := {
  getUser : string -> Promise S (option User.t);
  getUserByUsername : string -> Promise S (option User.t);
  getUserByEmail : string -> Promise S (option User.t);
  createUser : string -> string -> Z -> InsertUser.t -> Promise S User.t;
  createAdminUser :
    string -> string -> Z -> InsertUser.t -> Rank -> Promise S User.t;
  updateUser : string -> PartialUser.t -> Promise S (option User.t);
  getSnippet : string -> Promise S (option Snippet.t);
  getSnippetWithAuthor : string -> Promise S (option SnippetWithAuthor.t);
  getSnippetsByAuthor : string -> Promise S (list SnippetWithAuthor.t);
  getUserOwnSnippets : string -> Promise S (list SnippetWithAuthor.t);
  getPublicSnippets : Z -> Z -> Promise S (list SnippetWithAuthor.t);
  getTrendingSnippets : Z -> Z -> Promise S (list SnippetWithAuthor.t);
  createSnippet : string -> Z -> string -> InsertSnippet.t -> Promise S Snippet.t;
  updateSnippet : Z -> string -> PartialSnippet.t -> Promise S (option Snippet.t);
  deleteSnippet : string -> Promise S bool;
  incrementViews :
    string -> Z -> string -> option string -> option string -> Promise S unit;
  likeSnippet : string -> Z -> string -> string -> Promise S bool;
  unlikeSnippet : string -> string -> Promise S bool;
  isSnippetLiked : string -> string -> Promise S bool;
  getLikedSnippetsByUser : string -> Promise S (list SnippetWithAuthor.t);
  searchSnippets : string -> bool -> Promise S (list SnippetWithAuthor.t);
  getAllSnippets : Z -> Z -> Promise S (list SnippetWithAuthor.t);
  deleteUserAndSnippets : string -> Promise S bool;
  followUser : string -> Z -> string -> string -> Promise S bool;
  unfollowUser : string -> string -> Promise S bool;
  isFollowing : string -> string -> Promise S bool;
  getFollowers : string -> Promise S (list User.t);
  getFollowing : string -> Promise S (list User.t);
  createNotification :
    string -> Z -> InsertNotification.t -> Promise S Notification.t;
  markNotificationRead : string -> string -> Promise S bool;
  markAllNotificationsRead : string -> Promise S unit;
  getUnreadNotificationCount : string -> Promise S Z
}.

End IStorage.

#[export] Instance MemStorage_IStorage : IStorage.t MemStorage.t := {
  IStorage.getUser := MemStorage.getUser;
  IStorage.getUserByUsername := MemStorage.getUserByUsername;
  IStorage.getUserByEmail := MemStorage.getUserByEmail;
  IStorage.createUser := MemStorage.createUser;
  IStorage.createAdminUser := MemStorage.createAdminUser;
  IStorage.updateUser := MemStorage.updateUser;
  IStorage.getSnippet := MemStorage.getSnippet;
  IStorage.getSnippetWithAuthor := MemStorage.getSnippetWithAuthor;
  IStorage.getSnippetsByAuthor := MemStorage.getSnippetsByAuthor;
  IStorage.getUserOwnSnippets := MemStorage.getUserOwnSnippets;
  IStorage.getPublicSnippets := MemStorage.getPublicSnippets;
  IStorage.getTrendingSnippets := MemStorage.getTrendingSnippets;
  IStorage.createSnippet := MemStorage.createSnippet;
  IStorage.updateSnippet := MemStorage.updateSnippet;
  IStorage.deleteSnippet := MemStorage.deleteSnippet;
  IStorage.incrementViews := MemStorage.incrementViews;
  IStorage.likeSnippet := MemStorage.likeSnippet;
  IStorage.unlikeSnippet := MemStorage.unlikeSnippet;
  IStorage.isSnippetLiked := MemStorage.isSnippetLiked;
  IStorage.getLikedSnippetsByUser := MemStorage.getLikedSnippetsByUser;
  IStorage.searchSnippets := MemStorage.searchSnippets;
  IStorage.getAllSnippets := MemStorage.getAllSnippets;
  IStorage.deleteUserAndSnippets := MemStorage.deleteUserAndSnippets;
  IStorage.followUser := MemStorage.followUser;
  IStorage.unfollowUser := MemStorage.unfollowUser;
  IStorage.isFollowing := MemStorage.isFollowing;
  IStorage.getFollowers := MemStorage.getFollowers;
  IStorage.getFollowing := MemStorage.getFollowing;
  IStorage.createNotification := MemStorage.createNotification;
  IStorage.markNotificationRead := MemStorage.markNotificationRead;
  IStorage.markAllNotificationsRead := MemStorage.markAllNotificationsRead;
  IStorage.getUnreadNotificationCount := MemStorage.getUnreadNotificationCount
}.

(** The database's [now()] plays no part in [getTrendingSnippets]. *)
#[export] Instance DatabaseStorage_IStorage : IStorage.t Database.t := {
  IStorage.getUser := DatabaseStorage.getUser;
  IStorage.getUserByUsername := DatabaseStorage.getUserByUsername;
  IStorage.getUserByEmail := DatabaseStorage.getUserByEmail;
  IStorage.createUser := DatabaseStorage.createUser;
  IStorage.createAdminUser := DatabaseStorage.createAdminUser;
  IStorage.updateUser := DatabaseStorage.updateUser;
  IStorage.getSnippet := DatabaseStorage.getSnippet;
  IStorage.getSnippetWithAuthor := DatabaseStorage.getSnippetWithAuthor;
  IStorage.getSnippetsByAuthor := DatabaseStorage.getSnippetsByAuthor;
  IStorage.getUserOwnSnippets := DatabaseStorage.getUserOwnSnippets;
  IStorage.getPublicSnippets := DatabaseStorage.getPublicSnippets;
  IStorage.getTrendingSnippets := fun _ => DatabaseStorage.getTrendingSnippets;
  IStorage.createSnippet := DatabaseStorage.createSnippet;
  IStorage.updateSnippet := DatabaseStorage.updateSnippet;
  IStorage.deleteSnippet := DatabaseStorage.deleteSnippet;
  IStorage.incrementViews := DatabaseStorage.incrementViews;
  IStorage.likeSnippet := DatabaseStorage.likeSnippet;
  IStorage.unlikeSnippet := DatabaseStorage.unlikeSnippet;
  IStorage.isSnippetLiked := DatabaseStorage.isSnippetLiked;
  IStorage.getLikedSnippetsByUser := DatabaseStorage.getLikedSnippetsByUser;
  IStorage.searchSnippets := DatabaseStorage.searchSnippets;
  IStorage.getAllSnippets := DatabaseStorage.getAllSnippets;
  IStorage.deleteUserAndSnippets := DatabaseStorage.deleteUserAndSnippets;
  IStorage.followUser := DatabaseStorage.followUser;
  IStorage.unfollowUser := DatabaseStorage.unfollowUser;
  IStorage.isFollowing := DatabaseStorage.isFollowing;
  IStorage.getFollowers := DatabaseStorage.getFollowers;
  IStorage.getFollowing := DatabaseStorage.getFollowing;
  IStorage.createNotification := DatabaseStorage.createNotification;
  IStorage.markNotificationRead := DatabaseStorage.markNotificationRead;
  IStorage.markAllNotificationsRead := DatabaseStorage.markAllNotificationsRead;
  IStorage.getUnreadNotificationCount := DatabaseStorage.getUnreadNotificationCount
}.

(** ** Sequences of storage calls and what a client observes of them *)

Inductive Call : Type :=
| GetUser (id : string)
| GetUserByUsername (username : string)
| GetUserByEmail (email : string)
| CreateUser (uuid hashedPassword : string) (now : Z) (user : InsertUser.t)
| CreateAdminUser (uuid hashedPassword : string) (now : Z) (user : InsertUser.t)
    (rank : Rank)
| UpdateUser (id : string) (updates : PartialUser.t)
| GetSnippet (id : string)
| GetSnippetWithAuthor (id : string)
| GetSnippetsByAuthor (authorId : string)
| GetUserOwnSnippets (authorId : string)
| GetPublicSnippets (limit offset : Z)
| GetTrendingSnippets (now : Z) (limit : Z)
| CreateSnippet (uuid : string) (now : Z) (authorId : string)
    (snippet : InsertSnippet.t)
| UpdateSnippet (now : Z) (id : string) (updates : PartialSnippet.t)
| DeleteSnippet (id : string)
| IncrementViews (uuid : string) (now : Z) (snippetId : string)
    (userId ipAddress : option string)
| LikeSnippet (uuid : string) (now : Z) (snippetId userId : string)
| UnlikeSnippet (snippetId userId : string)
| IsSnippetLiked (snippetId userId : string)
| GetLikedSnippetsByUser (userId : string)
| SearchSnippets (query : string) (isPublic : bool)
| GetAllSnippets (limit offset : Z)
| DeleteUserAndSnippets (userId : string)
| FollowUser (uuid : string) (now : Z) (followerId followingId : string)
| UnfollowUser (followerId followingId : string)
| IsFollowing (followerId followingId : string)
| GetFollowers (userId : string)
| GetFollowing (userId : string)
| CreateNotification (uuid : string) (now : Z)
    (notification : InsertNotification.t)
| MarkNotificationRead (id userId : string)
| MarkAllNotificationsRead (userId : string)
| GetUnreadNotificationCount (userId : string).

Inductive Value : Type :=
| VVoid
| VBool (b : bool)
| VNumber (n : Z)
| VUser (u : User.t)
| VUserOpt (u : option User.t)
| VUsers (us : list User.t)
| VSnippet (s : Snippet.t)
| VSnippetOpt (s : option Snippet.t)
| VSnippetWithAuthorOpt (s : option SnippetWithAuthor.t)
| VSnippets (ss : list SnippetWithAuthor.t)
| VNotification (n : Notification.t).

Definition observe {S A} (inj : A -> Value) (c : Promise S A)
  : Promise S Value :=
  bind c (fun a => ret (inj a)).

Definition call {S} `{IStorage.t S} (c : Call) : Promise S Value :=
  match c with
  | GetUser id => observe VUserOpt (IStorage.getUser id)
  | GetUserByUsername n => observe VUserOpt (IStorage.getUserByUsername n)
  | GetUserByEmail e => observe VUserOpt (IStorage.getUserByEmail e)
  | CreateUser uuid h now u => observe VUser (IStorage.createUser uuid h now u)
  | CreateAdminUser uuid h now u r =>
      observe VUser (IStorage.createAdminUser uuid h now u r)
  | UpdateUser id p => observe VUserOpt (IStorage.updateUser id p)
  | GetSnippet id => observe VSnippetOpt (IStorage.getSnippet id)
  | GetSnippetWithAuthor id =>
      observe VSnippetWithAuthorOpt (IStorage.getSnippetWithAuthor id)
  | GetSnippetsByAuthor a => observe VSnippets (IStorage.getSnippetsByAuthor a)
  | GetUserOwnSnippets a => observe VSnippets (IStorage.getUserOwnSnippets a)
  | GetPublicSnippets l o => observe VSnippets (IStorage.getPublicSnippets l o)
  | GetTrendingSnippets now l =>
      observe VSnippets (IStorage.getTrendingSnippets now l)
  | CreateSnippet uuid now a s =>
      observe VSnippet (IStorage.createSnippet uuid now a s)
  | UpdateSnippet now id p =>
      observe VSnippetOpt (IStorage.updateSnippet now id p)
  | DeleteSnippet id => observe VBool (IStorage.deleteSnippet id)
  | IncrementViews uuid now s u ip =>
      observe (fun _ => VVoid) (IStorage.incrementViews uuid now s u ip)
  | LikeSnippet uuid now s u => observe VBool (IStorage.likeSnippet uuid now s u)
  | UnlikeSnippet s u => observe VBool (IStorage.unlikeSnippet s u)
  | IsSnippetLiked s u => observe VBool (IStorage.isSnippetLiked s u)
  | GetLikedSnippetsByUser u =>
      observe VSnippets (IStorage.getLikedSnippetsByUser u)
  | SearchSnippets q p => observe VSnippets (IStorage.searchSnippets q p)
  | GetAllSnippets l o => observe VSnippets (IStorage.getAllSnippets l o)
  | DeleteUserAndSnippets u => observe VBool (IStorage.deleteUserAndSnippets u)
  | FollowUser uuid now f g => observe VBool (IStorage.followUser uuid now f g)
  | UnfollowUser f g => observe VBool (IStorage.unfollowUser f g)
  | IsFollowing f g => observe VBool (IStorage.isFollowing f g)
  | GetFollowers u => observe VUsers (IStorage.getFollowers u)
  | GetFollowing u => observe VUsers (IStorage.getFollowing u)
  | CreateNotification uuid now n =>
      observe VNotification (IStorage.createNotification uuid now n)
  | MarkNotificationRead id u =>
      observe VBool (IStorage.markNotificationRead id u)
  | MarkAllNotificationsRead u =>
      observe (fun _ => VVoid) (IStorage.markAllNotificationsRead u)
  | GetUnreadNotificationCount u =>
      observe VNumber (IStorage.getUnreadNotificationCount u)
  end.

(** The calls are awaited one after the other; a rejected call leaves the
    store as it stands and the next one goes on from there. *)
Fixpoint run {S} `{IStorage.t S} (cs : list Call) (s : S)
  : list (Outcome Value) * S :=
  match cs with
  | [] => ([], s)
  | c :: cs' =>
      let (o, s1) := call c s in
      let (os, s2) := run cs' s1 in
      (o :: os, s2)
  end.

(** ** Route handlers ([registerRoutes]) *)

Module Request.

(** What the handlers read from an Express request: the session's [userId],
    [req.ip] and [req.connection.remoteAddress]. *)
Record t : Type := mk {
  session_userId : option string;
  ip : option string;
  remoteAddress : option string
}.

End Request.

Module Response.

Inductive Json : Type :=
| Message (message : string)
| ErrorMessage (error : Error)
| SnippetJson (snippet : Snippet.t)
| SnippetWithAuthorJson (snippet : SnippetWithAuthor.t).

Record t : Type := mk {
  status : Z;
  body : Json
}.

(** [res.json(x)] answers 200. *)
Definition json (b : Json) : t := mk 200 b.

End Response.

Module Routes.

Section Handlers.

Context {S : Type} `{IStorage.t S}.

Local Open Scope promise_scope.

(** [catch (error) { res.status(400).json({ message: error.message }) }] *)
Definition catch_400 (c : Promise S Response.t) : Promise S Response.t :=
  try_catch c (fun e => ret (Response.mk 400 (Response.ErrorMessage e))).

Definition requireAuth (req : Request.t) (next : string -> Promise S Response.t)
  : Promise S Response.t :=
  match Request.session_userId req with
  | Some userId =>
      if Js.truthy (Some userId) then next userId
      else ret (Response.mk 401 (Response.Message "Authentication required"))
  | None => ret (Response.mk 401 (Response.Message "Authentication required"))
  end.

Definition requireAdmin (req : Request.t)
    (next : string -> Promise S Response.t) : Promise S Response.t :=
  match Request.session_userId req with
  | Some userId =>
      if Js.truthy (Some userId) then
        user <- IStorage.getUser userId ;;
        match user with
        | Some u =>
            if Rank_eqb (User.rank u) RankAdmin then next userId
            else ret (Response.mk 403
                        (Response.Message "Admin privileges required"))
        | None =>
            ret (Response.mk 403 (Response.Message "Admin privileges required"))
        end
      else ret (Response.mk 401 (Response.Message "Authentication required"))
  | None => ret (Response.mk 401 (Response.Message "Authentication required"))
  end.

(** [req.session?.userId !== snippet.authorId] *)
Definition not_author (req : Request.t) (authorId : string) : bool :=
  match Request.session_userId req with
  | Some userId => negb (userId =? authorId)%string
  | None => true
  end.

(** [req.ip || req.connection.remoteAddress || 'unknown'] *)
Definition client_address (req : Request.t) : string :=
  Js.or_else (Request.ip req) (Js.or_else (Request.remoteAddress req) "unknown").

(** [GET /api/snippets/:id] *)
Definition get_snippet (viewId : string) (now : Z) (req : Request.t)
    (id : string) : Promise S Response.t :=
  catch_400
    (snippet <- IStorage.getSnippetWithAuthor id ;;
     match snippet with
     | None => ret (Response.mk 404 (Response.Message "Snippet not found"))
     | Some snippet =>
         if negb (Snippet.isPublic (SnippetWithAuthor.snippet snippet))
            && not_author req (Snippet.authorId (SnippetWithAuthor.snippet snippet))
         then ret (Response.mk 403 (Response.Message "Access denied"))
         else
           let userId := Request.session_userId req in
           let ipAddress := client_address req in
           IStorage.incrementViews viewId now id userId (Some ipAddress) ;;;
           if Js.truthy (Request.session_userId req) then
             isLiked <- IStorage.isSnippetLiked id
                          (Js.or_else (Request.session_userId req) EmptyString) ;;
             ret (Response.json
                    (Response.SnippetWithAuthorJson
                       (SnippetWithAuthor.with_isLiked isLiked snippet)))
           else
             ret (Response.json (Response.SnippetWithAuthorJson snippet))
     end).

(** The text of a notification:
    [`${author.displayName || author.username} posted a new snippet: "${snippet.title}"`] *)
Definition dquote : string := String (ascii_of_nat 34) EmptyString.

Definition new_snippet_message (author : User.t) (snippet : Snippet.t) : string :=
  Js.or_else (User.displayName author) (User.username author)
  ++ " posted a new snippet: " ++ dquote ++ Snippet.title snippet ++ dquote.

Definition new_snippet_notification (follower author : User.t)
    (snippet : Snippet.t) : InsertNotification.t :=
  InsertNotification.mk (User.id follower) "new_snippet" "New Snippet Posted"
    (new_snippet_message author snippet)
    (Some (Snippet.id snippet)) (Some (User.id author)).

(** The loop over the followers; the k-th turn draws its uuid and its clock
    reading from [fresh k]. *)
Fixpoint notify_followers (fresh : nat -> string * Z) (k : nat)
    (author : User.t) (snippet : Snippet.t) (followers : list User.t)
  : Promise S unit :=
  match followers with
  | [] => ret tt
  | follower :: rest =>
      IStorage.createNotification (fst (fresh k)) (snd (fresh k))
        (new_snippet_notification follower author snippet) ;;;
      notify_followers fresh (Datatypes.S k) author snippet rest
  end.

(** [POST /api/snippets]; [body] is what [insertSnippetSchema.parse(req.body)]
    yields, [None] when it throws. *)
Definition post_snippet (snippetUuid : string) (now : Z)
    (fresh : nat -> string * Z) (req : Request.t)
    (body : option InsertSnippet.t) : Promise S Response.t :=
  requireAuth req (fun userId =>
    catch_400
      (snippetData <- match body with
                      | Some d => ret d
                      | None => throw ZodError
                      end ;;
       snippet <- IStorage.createSnippet snippetUuid now userId snippetData ;;
       (if Snippet.isPublic snippet then
          try_catch
            (followers <- IStorage.getFollowers userId ;;
             author <- IStorage.getUser userId ;;
             match author with
             | Some author => notify_followers fresh 0 author snippet followers
             | None => ret tt
             end)
            (fun _ => ret tt)
        else ret tt) ;;;
       ret (Response.mk 201 (Response.SnippetJson snippet)))).

(** [POST /api/snippets/:id/like] *)
Definition post_like (likeId : string) (now : Z) (req : Request.t)
    (id : string) : Promise S Response.t :=
  requireAuth req (fun userId =>
    catch_400
      (success <- IStorage.likeSnippet likeId now id userId ;;
       if negb success
       then ret (Response.mk 400
                   (Response.Message "Already liked or snippet not found"))
       else ret (Response.json (Response.Message "Snippet liked successfully")))).

(** [POST /api/users/:username/follow] *)
Definition post_follow (followId : string) (now : Z) (req : Request.t)
    (username : string) : Promise S Response.t :=
  requireAuth req (fun userId =>
    catch_400
      (userToFollow <- IStorage.getUserByUsername username ;;
       match userToFollow with
       | None => ret (Response.mk 404 (Response.Message "User not found"))
       | Some userToFollow =>
           if (User.id userToFollow =? userId)%string
           then ret (Response.mk 400 (Response.Message "Cannot follow yourself"))
           else
             success <- IStorage.followUser followId now userId
                          (User.id userToFollow) ;;
             if negb success
             then ret (Response.mk 400
                         (Response.Message "Already following this user"))
             else ret (Response.json
                         (Response.Message "User followed successfully"))
       end)).

(** [DELETE /api/admin/users/:id] *)
Definition delete_user (req : Request.t) (id : string) : Promise S Response.t :=
  requireAdmin req (fun userId =>
    catch_400
      (if (id =? userId)%string
       then ret (Response.mk 400
                   (Response.Message "Cannot delete your own account"))
       else
         existingUser <- IStorage.getUser id ;;
         match existingUser with
         | None => ret (Response.mk 404 (Response.Message "User not found"))
         | Some _ =>
             IStorage.deleteUserAndSnippets id ;;;
             ret (Response.json
                    (Response.Message
                       "User and all their content deleted successfully"))
         end)).

End Handlers.

End Routes.

(** ** Vocabulary of the statements *)

(** Two calls of [incrementViews] come from the same viewer when they carry
    the same user id or, if neither carries a user id, the same IP address. *)
Definition same_viewer (userId ipAddress userId' ipAddress' : option string)
  : Prop :=
  (Js.truthy userId = true /\ userId' = userId)
  \/ (Js.truthy userId = false /\ Js.truthy userId' = false
      /\ Js.truthy ipAddress = true /\ ipAddress' = ipAddress).

(** [l] is in descending order of [key]. *)
Definition descending {A} (key : A -> Z) (l : list A) : Prop :=
  StronglySorted (fun a b => key a >= key b) l.

Definition trending_score (s : Snippet.t) : Z :=
  Snippet.likes s + Snippet.views s.

(** Every entry of a map sits under the id of its value, as it does when
    entries are stored with [map.set(x.id, x)]. *)
Definition keyed_by_id {V} (id : V -> string) (m : JsMap.t V) : Prop :=
  forall k v, In (k, v) m -> k = id v.

Definition MemStorage_keyed (st : MemStorage.t) : Prop :=
  keyed_by_id User.id (MemStorage.users st)
  /\ keyed_by_id Snippet.id (MemStorage.snippets st)
  /\ keyed_by_id SnippetLike.id (MemStorage.snippetLikes st)
  /\ keyed_by_id SnippetView.id (MemStorage.snippetViews st)
  /\ keyed_by_id Follow.id (MemStorage.follows st)
  /\ keyed_by_id Notification.id (MemStorage.notifications st).

(** Nothing in the six collections refers to [userId] any more; [owned] are
    the snippets [userId] had authored. *)
Definition no_trace_of (userId : string) (owned : list Snippet.t)
    (users : list User.t) (snippets : list Snippet.t)
    (likes : list SnippetLike.t) (views : list SnippetView.t)
    (follows : list Follow.t) (notifications : list Notification.t) : Prop :=
  (forall user, In user users -> User.id user <> userId)
  /\ (forall snippet, In snippet snippets -> Snippet.authorId snippet <> userId)
  /\ (forall like, In like likes ->
        SnippetLike.userId like <> userId
        /\ forall snippet, In snippet owned ->
             SnippetLike.snippetId like <> Snippet.id snippet)
  /\ (forall view, In view views ->
        SnippetView.userId view <> Some userId
        /\ forall snippet, In snippet owned ->
             SnippetView.snippetId view <> Snippet.id snippet)
  /\ (forall follow, In follow follows ->
        Follow.followerId follow <> userId
        /\ Follow.followingId follow <> userId)
  /\ (forall notification, In notification notifications ->
        Notification.userId notification <> userId
        /\ Notification.fromUserId notification <> Some userId).

(** The snippets a user has authored. *)
Definition owned_by (userId : string) (snippets : list Snippet.t)
  : list Snippet.t :=
  filter (fun snippet => (Snippet.authorId snippet =? userId)%string) snippets.

(** The follow records: nobody follows themselves and no pair is stored
    twice. *)
Definition follow_pair (f : Follow.t) : string * string :=
  (Follow.followerId f, Follow.followingId f).

Definition follows_invariant (fs : list Follow.t) : Prop :=
  (forall f, In f fs -> Follow.followerId f <> Follow.followingId f)
  /\ NoDup (map follow_pair fs).

(** The notifications [POST /api/snippets] is to write for a public
    snippet: one per follower, in the order of the loop, the k-th with the
    k-th uuid and clock reading; [row] is the storage's way of completing an
    inserted notification. *)
Fixpoint expected_notifications
    (row : string -> Z -> InsertNotification.t -> Notification.t)
    (fresh : nat -> string * Z) (k : nat) (author : User.t)
    (snippet : Snippet.t) (followers : list User.t) : list Notification.t :=
  match followers with
  | [] => []
  | follower :: rest =>
      row (fst (fresh k)) (snd (fresh k))
        (Routes.new_snippet_notification follower author snippet)
      :: expected_notifications row fresh (Datatypes.S k) author snippet rest
  end.

(** The uuids the loop draws for [n] followers, from turn [k] on. *)
Definition drawn_uuids (fresh : nat -> string * Z) (k n : nat) : list string :=
  map (fun j => fst (fresh j)) (seq k n).

(** The uuids are new to the notifications and differ from each other, as
    [randomUUID()] results do. *)
Definition fresh_uuids (uuids taken : list string) : Prop :=
  NoDup uuids /\ forall u, In u uuids -> ~ In u taken.

(** The notification block of [POST /api/snippets], as a store transformer:
    whatever happens inside it, the handler goes on. *)
Definition after_notifications {S} `{IStorage.t S} (fresh : nat -> string * Z)
    (userId : string) (snippet : Snippet.t) (s : S) : S :=
  if Snippet.isPublic snippet then
    snd (bind (IStorage.getFollowers userId)
           (fun followers =>
              bind (IStorage.getUser userId)
                (fun author =>
                   match author with
                   | Some author =>
                       Routes.notify_followers fresh 0 author snippet followers
                   | None => ret tt
                   end)) s)
  else s.

(** A call that does not rewrite the [id] of a stored user or snippet. The
    routes never do: their update bodies carry no [id]. *)
Definition keeps_ids (c : Call) : Prop :=
  match c with
  | UpdateUser _ updates => PartialUser.id updates = None
  | UpdateSnippet _ _ updates => PartialSnippet.id updates = None
  | _ => True
  end.




(** ** States and requests used to exercise the statements *)

Module Fixture.

Definition ann : InsertUser.t :=
  InsertUser.mk "ann" "pw-ann" "ann@snipply.dev" (Some "Ann") (Some "bio")
    (Some "Oslo") (Some "https://ann.dev").

Definition bob : InsertUser.t :=
  InsertUser.mk "bob" "pw-bob" "bob@snipply.dev" (Some "Bob") (Some "bio")
    (Some "Rome") (Some "https://bob.dev").

Definition root : InsertUser.t :=
  InsertUser.mk "root" "pw-root" "root@snipply.dev" (Some "Root") (Some "ops")
    (Some "Bern") (Some "https://root.dev").

Definition hello (public : bool) : InsertSnippet.t :=
  InsertSnippet.mk "Hello" (Some "greeting") (Some "<p>hi</p>")
    (Some "p { color: red }") (Some "console.log(1)") (Some public).

(** Ann, Bob and the admin Root register; Bob follows Ann; Ann owns a public
    snippet [s-pub] and a private one [s-priv]. *)
Definition setup : list Call :=
  [ CreateUser "u-ann" "h-ann" 1000 ann;
    CreateUser "u-bob" "h-bob" 1001 bob;
    CreateAdminUser "u-root" "h-root" 1002 root RankAdmin;
    FollowUser "f-1" 1003 "u-bob" "u-ann";
    CreateSnippet "s-pub" 2000 "u-ann" (hello true);
    CreateSnippet "s-priv" 2001 "u-ann" (hello false) ].

Definition mem : MemStorage.t := snd (run setup MemStorage.init).

Definition db : Database.t := snd (run setup Database.init).

Definition as_user (userId : string) : Request.t :=
  Request.mk (Some userId) (Some "10.0.0.7") None.

Definition anonymous : Request.t := Request.mk None (Some "10.0.0.7") None.

End Fixture.

Module LikeFixture.

(** Bob likes Ann's public snippet. *)
Definition mem_liked : MemStorage.t :=
  snd (MemStorage.likeSnippet "l-1" 3000 "s-pub" "u-bob" Fixture.mem).

Definition db_liked : Database.t :=
  snd (DatabaseStorage.likeSnippet "l-1" 3000 "s-pub" "u-bob" Fixture.db).

End LikeFixture.

Module TrendingFixture.

Definition day : Z := 24 * 60 * 60 * 1000.

(** Ann posts a public snippet; thirty days later the trending list is
    asked for. *)
Definition setup : list Call :=
  [ CreateUser "u-ann" "h-ann" 1000 Fixture.ann;
    CreateSnippet "s-old" 2000 "u-ann" (Fixture.hello true) ].

Definition now : Z := 2000 + 30 * day.

Definition mem : MemStorage.t := snd (run setup MemStorage.init).

Definition db : Database.t := snd (run setup Database.init).

End TrendingFixture.

Module ListingFixture.

Definition rename : PartialSnippet.t :=
  PartialSnippet.mk None (Some "Hello again") None None None None None None
    None None None None.

(** Ann posts [s-a], then [s-b], then edits [s-a]; the public list is asked
    for. *)
Definition calls : list Call :=
  [ CreateUser "u-ann" "h-ann" 1000 Fixture.ann;
    CreateSnippet "s-a" 2000 "u-ann" (Fixture.hello true);
    CreateSnippet "s-b" 3000 "u-ann" (Fixture.hello true);
    UpdateSnippet 4000 "s-a" rename;
    GetPublicSnippets 50 0 ].

(** The ids a list result shows, in order. *)
Definition listed (o : Outcome Value) : option (list string) :=
  match o with
  | Returned (VSnippets rows) =>
      Some (map (fun row => Snippet.id (SnippetWithAuthor.snippet row)) rows)
  | _ => None
  end.

End ListingFixture.

Module SearchFixture.

(** Ann posts a snippet titled "Hello"; it is searched for as "hello" and
    then as "red", a word of its CSS. *)
Definition calls : list Call :=
  [ CreateUser "u-ann" "h-ann" 1000 Fixture.ann;
    CreateSnippet "s-a" 2000 "u-ann" (Fixture.hello true);
    SearchSnippets "hello" true;
    SearchSnippets "red" true ].

End SearchFixture.

Module DeleteFixture.

Definition note : InsertNotification.t :=
  InsertNotification.mk "u-bob" "new_snippet" "New Snippet Posted"
    "Ann posted a new snippet" (Some "s-pub") (Some "u-ann").

(** On top of the common setup: Bob likes and views Ann's public snippet,
    Ann follows Bob back, and Bob holds a notification from Ann. *)
Definition setup : list Call :=
  (Fixture.setup
   ++ [ LikeSnippet "l-1" 3000 "s-pub" "u-bob";
        IncrementViews "v-1" 3001 "s-pub" (Some "u-bob") (Some "10.0.0.7");
        FollowUser "f-2" 3002 "u-ann" "u-bob";
        CreateNotification "n-1" 3003 note ])%list.

Definition mem : MemStorage.t := snd (run setup MemStorage.init).

Definition db : Database.t := snd (run setup Database.init).

End DeleteFixture.

Module NotifyFixture.

(** The k-th notification of a request gets the uuid [n-k]. *)
Definition fresh (k : nat) : string * Z :=
  (String (ascii_of_nat (48 + k)) "-note", 8000 + Z.of_nat k).

(** Root follows Ann too, so Ann has two followers (Bob and Root). *)
Definition setup : list Call :=
  (Fixture.setup ++ [ FollowUser "f-2" 1004 "u-root" "u-ann" ])%list.

Definition mem : MemStorage.t := snd (run setup MemStorage.init).

Definition db : Database.t := snd (run setup Database.init).

End NotifyFixture.

(** ** The rest of the storage contract *)

(** [UserProfile]: a user with the three counts and the follow flag. *)
Module UserProfile.
Record t : Type := mk {
  user : User.t;
  snippetsCount : Z;
  followersCount : Z;
  followingCount : Z;
  isFollowing : bool
}.
End UserProfile.

(** [NotificationWithDetails]: a notification with, when they can be found,
    the sender and the snippet it points at. *)
Module NotificationWithDetails.
Record FromUser : Type := mkFromUser {
  fromUser_id : string;
  fromUser_username : string;
  fromUser_displayName : option string;
  fromUser_profilePicture : option string
}.

Record SnippetRef : Type := mkSnippetRef {
  snippet_id : string;
  snippet_title : string
}.

Record t : Type := mk {
  notification : Notification.t;
  fromUser : option FromUser;
  snippet : option SnippetRef
}.

Definition fromUser_of (u : User.t) : FromUser :=
  mkFromUser (User.id u) (User.username u) (User.displayName u)
    (User.profilePicture u).

Definition snippet_of (s : Snippet.t) : SnippetRef :=
  mkSnippetRef (Snippet.id s) (Snippet.title s).
End NotificationWithDetails.

Module MemStorageRest.

Import MemStorage.

(** [compare] stands for [bcrypt.compare(password, hash)]. *)
Definition verifyPassword (compare : string -> string -> bool)
    (username password : string) : Promise t (option User.t) :=
  bind (getUserByUsername username) (fun user =>
    match user with
    | None => ret None
    | Some user =>
        let isValid := compare password (User.password user) in
        ret (if isValid then Some user else None)
    end).

Definition count {A} (p : A -> bool) (l : list A) : Z :=
  Z.of_nat (List.length (filter p l)).

Definition getUserProfile (username : string) (currentUserId : option string)
  : Promise t (option UserProfile.t) :=
  bind (getUserByUsername username) (fun user =>
    match user with
    | None => ret None
    | Some user =>
        fun st =>
          let snippetsCount :=
            count (fun snippet =>
                     (Snippet.authorId snippet =? User.id user)%string
                     && Snippet.isPublic snippet)
                  (JsMap.values (snippets st)) in
          let followersCount :=
            count (fun follow =>
                     (Follow.followingId follow =? User.id user)%string)
                  (JsMap.values (follows st)) in
          let followingCount :=
            count (fun follow =>
                     (Follow.followerId follow =? User.id user)%string)
                  (JsMap.values (follows st)) in
          bind (if Js.truthy currentUserId
                then isFollowing (Js.or_else currentUserId EmptyString)
                       (User.id user)
                else ret false)
               (fun isFollowing =>
                  ret (Some (UserProfile.mk user snippetsCount followersCount
                               followingCount isFollowing))) st
    end).

Definition with_details (st : t) (notification : Notification.t)
  : NotificationWithDetails.t :=
  NotificationWithDetails.mk notification
    (if Js.truthy (Notification.fromUserId notification) then
       match JsMap.get
               (Js.or_else (Notification.fromUserId notification) EmptyString)
               (users st) with
       | Some fromUser => Some (NotificationWithDetails.fromUser_of fromUser)
       | None => None
       end
     else None)
    (if Js.truthy (Notification.snippetId notification) then
       match JsMap.get
               (Js.or_else (Notification.snippetId notification) EmptyString)
               (snippets st) with
       | Some snippet => Some (NotificationWithDetails.snippet_of snippet)
       | None => None
       end
     else None).

Definition getNotifications (userId : string) (limit : Z)
  : Promise t (list NotificationWithDetails.t) :=
  fun st =>
    let userNotifications :=
      Js.slice 0 limit
        (Js.sort (fun a b => Notification.createdAt b - Notification.createdAt a)
           (filter (fun notification =>
                      (Notification.userId notification =? userId)%string)
                   (JsMap.values (notifications st)))) in
    (Returned (map (with_details st) userNotifications), st).

Definition searchUsers (query : string) : Promise t (list User.t) :=
  fun st =>
    let searchTerms := Js.split_space (Js.toLowerCase query) in
    (Returned
       (filter (fun user =>
                  let searchableText :=
                    Js.toLowerCase
                      (Js.join_space
                         [User.username user;
                          Js.or_else (User.displayName user) EmptyString;
                          User.email user;
                          Js.or_else (User.bio user) EmptyString]) in
                  forallb (fun term => Js.includes searchableText term)
                          searchTerms)
               (JsMap.values (users st))), st).

Definition getAllUsers (limit offset : Z) : Promise t (list User.t) :=
  fun st =>
    (Returned
       (Js.slice offset (offset + limit)
          (Js.sort (fun a b => User.createdAt b - User.createdAt a)
             (JsMap.values (users st)))), st).

End MemStorageRest.

Module DatabaseStorageRest.

Import Database.

Definition verifyPassword (compare : string -> string -> bool)
    (username password : string) : Promise t (option User.t) :=
  bind (DatabaseStorage.getUserByUsername username) (fun user =>
    match user with
    | None => ret None
    | Some user =>
        let isValid := compare password (User.password user) in
        ret (if isValid then Some user else None)
    end).

Definition getUserProfile (username : string) (currentUserId : option string)
  : Promise t (option UserProfile.t) :=
  bind (DatabaseStorage.getUserByUsername username) (fun user =>
    match user with
    | None => ret None
    | Some user =>
        bind (query (fun db =>
                Sql.row_count
                  (fun snippet =>
                     (Snippet.authorId snippet =? User.id user)%string
                     && Bool.eqb (Snippet.isPublic snippet) true)
                  (snippets db)))
          (fun snippetsCount =>
        bind (query (fun db =>
                Sql.row_count
                  (fun follow =>
                     (Follow.followingId follow =? User.id user)%string)
                  (follows db)))
          (fun followersCount =>
        bind (query (fun db =>
                Sql.row_count
                  (fun follow =>
                     (Follow.followerId follow =? User.id user)%string)
                  (follows db)))
          (fun followingCount =>
        bind (if Js.truthy currentUserId
              then DatabaseStorage.isFollowing
                     (Js.or_else currentUserId EmptyString) (User.id user)
              else ret false)
          (fun isFollowing =>
             ret (Some (UserProfile.mk user snippetsCount followersCount
                          followingCount isFollowing))))))
    end).

(** [await this.getUser(...)] and [await this.getSnippet(...)] per
    notification; both only read. *)
Definition with_details (db : t) (notification : Notification.t)
  : NotificationWithDetails.t :=
  NotificationWithDetails.mk notification
    (if Js.truthy (Notification.fromUserId notification) then
       match fst (DatabaseStorage.getUser
                    (Js.or_else (Notification.fromUserId notification)
                       EmptyString) db) with
       | Returned (Some fromUser) =>
           Some (NotificationWithDetails.fromUser_of fromUser)
       | _ => None
       end
     else None)
    (if Js.truthy (Notification.snippetId notification) then
       match fst (DatabaseStorage.getSnippet
                    (Js.or_else (Notification.snippetId notification)
                       EmptyString) db) with
       | Returned (Some snippet) =>
           Some (NotificationWithDetails.snippet_of snippet)
       | _ => None
       end
     else None).

Definition getNotifications (userId : string) (limit : Z)
  : Promise t (list NotificationWithDetails.t) :=
  query_or_fail (fun db =>
    match Sql.limit_offset limit 0
            (Sql.order_by_desc Notification.createdAt
               (filter (fun notification =>
                          (Notification.userId notification =? userId)%string)
                       (notifications db))) with
    | Threw e => Threw e
    | Returned notificationsResult =>
        Returned (map (with_details db) notificationsResult)
    end).

(** [LOWER(column) LIKE LOWER('%' + query + '%')]; a NULL column matches
    nothing. *)
Definition lower_like (pattern : list Sql.LikeToken) (column : option string)
  : bool :=
  match column with
  | Some c => Sql.like_match pattern (Js.toLowerCase c)
  | None => false
  end.

Definition searchUsers (query : string) : Promise t (list User.t) :=
  query_or_fail (fun db =>
    match Sql.like_tokens (Js.toLowerCase ("%" ++ query ++ "%")) with
    | Threw e => Threw e
    | Returned pattern =>
        Returned
          (Sql.order_by_desc User.createdAt
             (filter (fun user =>
                        lower_like pattern (Some (User.username user))
                        || lower_like pattern (User.displayName user)
                        || lower_like pattern (Some (User.email user))
                        || lower_like pattern (User.bio user))
                     (users db)))
    end).

Definition getAllUsers (limit offset : Z) : Promise t (list User.t) :=
  query_or_fail (fun db =>
    Sql.limit_offset limit offset (Sql.order_by_desc User.createdAt (users db))).

End DatabaseStorageRest.

Module IStorageRest.

(** The methods of [IStorage] that the first class leaves out. *)
Class t (S : Type) : Type := {
  verifyPassword :
    (string -> string -> bool) -> string -> string -> Promise S (option User.t);
  searchUsers : string -> Promise S (list User.t);
  getAllUsers : Z -> Z -> Promise S (list User.t);
  getUserProfile : string -> option string -> Promise S (option UserProfile.t);
  getNotifications : string -> Z -> Promise S (list NotificationWithDetails.t)
}.

End IStorageRest.

#[export] Instance MemStorage_IStorageRest : IStorageRest.t MemStorage.t := {
  IStorageRest.verifyPassword := MemStorageRest.verifyPassword;
  IStorageRest.searchUsers := MemStorageRest.searchUsers;
  IStorageRest.getAllUsers := MemStorageRest.getAllUsers;
  IStorageRest.getUserProfile := MemStorageRest.getUserProfile;
  IStorageRest.getNotifications := MemStorageRest.getNotifications
}.

#[export] Instance DatabaseStorage_IStorageRest : IStorageRest.t Database.t := {
  IStorageRest.verifyPassword := DatabaseStorageRest.verifyPassword;
  IStorageRest.searchUsers := DatabaseStorageRest.searchUsers;
  IStorageRest.getAllUsers := DatabaseStorageRest.getAllUsers;
  IStorageRest.getUserProfile := DatabaseStorageRest.getUserProfile;
  IStorageRest.getNotifications := DatabaseStorageRest.getNotifications
}.

(** ** The other routes of [registerRoutes] *)

(** [const { password, ...userWithoutPassword } = user]. *)
Module SafeUser.
Record t : Type := mk {
  id : string;
  username : string;
  email : string;
  displayName : option string;
  bio : option string;
  location : option string;
  website : option string;
  avatarUrl : option string;
  profilePicture : option string;
  rank : Rank;
  createdAt : Z
}.

Definition without_password (user : User.t) : t :=
  mk (User.id user) (User.username user) (User.email user)
     (User.displayName user) (User.bio user) (User.location user)
     (User.website user) (User.avatarUrl user) (User.profilePicture user)
     (User.rank user) (User.createdAt user).
End SafeUser.

Module Reply.

(** The bodies these routes send. *)
Inductive Json : Type :=
| Message (message : string)
| ErrorMessage (error : Error)
| AdminCreated (message id username : string) (rank : Rank)
| UserEnvelope (user : SafeUser.t)
| RankUpdated (message : string) (user : SafeUser.t)
| Snippets (snippets : list SnippetWithAuthor.t)
| UpdatedSnippet (snippet : option Snippet.t)
| Profile (user : SafeUser.t)
    (snippetsCount followersCount followingCount : Z) (isFollowing : bool)
| Users (users : list SafeUser.t)
| Count (count : Z)
| Stats (totalUsers totalSnippets totalAdmins publicSnippets privateSnippets : Z).

Record t : Type := mk {
  status : Z;
  body : Json
}.

(** [res.json(x)] answers 200. *)
Definition json (b : Json) : t := mk 200 b.

End Reply.

(** [loginSchema]: both fields are strings of at least one character. *)
Module LoginBody.
Record t : Type := mk {
  username : option string;
  password : option string
}.
End LoginBody.

(** What [insertSnippetSchema.partial().parse(req.body)] keeps of a body:
    the six fields of the insert schema, each of them optional; any other
    property of the body is stripped. *)
Module SnippetUpdates.
Record t : Type := mk {
  title : option string;
  description : option (option string);
  html : option string;
  css : option string;
  javascript : option string;
  isPublic : option bool
}.

Definition to_partial (u : t) : PartialSnippet.t :=
  PartialSnippet.mk None (title u) (description u) (html u) (css u)
    (javascript u) (isPublic u) None None None None None.
End SnippetUpdates.

Module Api.

Definition loginSchema (body : LoginBody.t) : option (string * string) :=
  match LoginBody.username body, LoginBody.password body with
  | Some username, Some password =>
      if (1 <=? String.length username)%nat && (1 <=? String.length password)%nat
      then Some (username, password)
      else None
  | _, _ => None
  end.

(** The account [POST /api/setup/admin] creates. *)
Definition admin_account : InsertUser.t :=
  InsertUser.mk "Felix9390" "1234567890" "felix9390@snipply.dev"
    (Some "Felix - Admin") (Some "System Administrator") None None.

(** [['admin', 'default'].includes(rank)] and the rank it names. *)
Definition rank_of (rank : string) : option Rank :=
  if (rank =? "admin")%string then Some RankAdmin
  else if (rank =? "default")%string then Some RankDefault
  else None.

Definition rank_name (rank : Rank) : string :=
  match rank with
  | RankAdmin => "admin"
  | RankDefault => "default"
  end.

Definition only_rank (rank : Rank) : PartialUser.t :=
  PartialUser.mk None None None None None None None None None None (Some rank)
    None.

Definition only_profilePicture (profilePicture : string) : PartialUser.t :=
  PartialUser.mk None None None None None None None None None
    (Some (Some profilePicture)) None None.

Section Handlers.

Context {S : Type} `{IStorage.t S} `{IStorageRest.t S}.

Local Open Scope promise_scope.

(** [catch (error) { res.status(400).json({ message: error.message }) }] *)
Definition catch_400 (c : Promise S Reply.t) : Promise S Reply.t :=
  try_catch c (fun e => ret (Reply.mk 400 (Reply.ErrorMessage e))).

Definition requireAuth (req : Request.t) (next : string -> Promise S Reply.t)
  : Promise S Reply.t :=
  match Request.session_userId req with
  | Some userId =>
      if Js.truthy (Some userId) then next userId
      else ret (Reply.mk 401 (Reply.Message "Authentication required"))
  | None => ret (Reply.mk 401 (Reply.Message "Authentication required"))
  end.

Definition requireAdmin (req : Request.t) (next : string -> Promise S Reply.t)
  : Promise S Reply.t :=
  match Request.session_userId req with
  | Some userId =>
      if Js.truthy (Some userId) then
        user <- IStorage.getUser userId ;;
        match user with
        | Some u =>
            if Rank_eqb (User.rank u) RankAdmin then next userId
            else ret (Reply.mk 403 (Reply.Message "Admin privileges required"))
        | None =>
            ret (Reply.mk 403 (Reply.Message "Admin privileges required"))
        end
      else ret (Reply.mk 401 (Reply.Message "Authentication required"))
  | None => ret (Reply.mk 401 (Reply.Message "Authentication required"))
  end.

(** [POST /api/setup/admin] *)
Definition setup_admin (uuid hashedPassword : string) (now : Z)
  : Promise S Reply.t :=
  try_catch
    (existingAdmin <- IStorage.getUserByUsername "Felix9390" ;;
     match existingAdmin with
     | Some _ =>
         ret (Reply.mk 400 (Reply.Message "Admin user already exists"))
     | None =>
         adminUser <- IStorage.createAdminUser uuid hashedPassword now
                        admin_account RankAdmin ;;
         ret (Reply.json
                (Reply.AdminCreated "Admin user created successfully"
                   (User.id adminUser) (User.username adminUser)
                   (User.rank adminUser)))
     end)
    (fun _ => ret (Reply.mk 500 (Reply.Message "Failed to create admin user"))).

(** [POST /api/auth/register]; [body] is what [insertUserSchema.parse]
    yields, [None] when it throws. The second component is the session's
    [userId] when the handler is done. *)
Definition register (uuid hashedPassword : string) (now : Z) (req : Request.t)
    (body : option InsertUser.t) : Promise S (Reply.t * option string) :=
  try_catch
    (userData <- match body with
                 | Some d => ret d
                 | None => throw ZodError
                 end ;;
     existingUsername <-
       IStorage.getUserByUsername (InsertUser.username userData) ;;
     match existingUsername with
     | Some _ =>
         ret (Reply.mk 400 (Reply.Message "Username already exists"),
              Request.session_userId req)
     | None =>
         existingEmail <- IStorage.getUserByEmail (InsertUser.email userData) ;;
         match existingEmail with
         | Some _ =>
             ret (Reply.mk 400 (Reply.Message "Email already exists"),
                  Request.session_userId req)
         | None =>
             user <- IStorage.createUser uuid hashedPassword now userData ;;
             ret (Reply.json (Reply.UserEnvelope (SafeUser.without_password user)),
                  Some (User.id user))
         end
     end)
    (fun e =>
       ret (Reply.mk 400 (Reply.ErrorMessage e), Request.session_userId req)).

(** [POST /api/auth/login]; [compare] is [bcrypt.compare]. *)
Definition login (compare : string -> string -> bool) (req : Request.t)
    (body : LoginBody.t) : Promise S (Reply.t * option string) :=
  try_catch
    (credentials <- match loginSchema body with
                    | Some c => ret c
                    | None => throw ZodError
                    end ;;
     user <- IStorageRest.verifyPassword compare (fst credentials)
               (snd credentials) ;;
     match user with
     | None =>
         ret (Reply.mk 401 (Reply.Message "Invalid credentials"),
              Request.session_userId req)
     | Some user =>
         ret (Reply.json (Reply.UserEnvelope (SafeUser.without_password user)),
              Some (User.id user))
     end)
    (fun e =>
       ret (Reply.mk 400 (Reply.ErrorMessage e), Request.session_userId req)).

(** [POST /api/auth/logout]: the session is destroyed. *)
Definition logout (req : Request.t) : Promise S (Reply.t * option string) :=
  ret (Reply.json (Reply.Message "Logged out successfully"), None).

(** [GET /api/auth/me]; no [try] around it. *)
Definition me (req : Request.t) : Promise S Reply.t :=
  if negb (Js.truthy (Request.session_userId req))
  then ret (Reply.mk 401 (Reply.Message "Not authenticated"))
  else
    user <- IStorage.getUser
              (Js.or_else (Request.session_userId req) EmptyString) ;;
    match user with
    | None => ret (Reply.mk 404 (Reply.Message "User not found"))
    | Some user =>
        ret (Reply.json (Reply.UserEnvelope (SafeUser.without_password user)))
    end.

(** [GET /api/snippets/search]; [q] is the query parameter. *)
Definition search (q : option string) : Promise S Reply.t :=
  catch_400
    (if negb (Js.truthy q)
     then ret (Reply.mk 400 (Reply.Message "Search query required"))
     else
       snippets <- IStorage.searchSnippets (Js.or_else q EmptyString) true ;;
       ret (Reply.json (Reply.Snippets snippets))).

(** [PATCH /api/snippets/:id]; [body] is what
    [insertSnippetSchema.partial().parse(req.body)] yields. *)
Definition patch_snippet (now : Z) (req : Request.t) (id : string)
    (body : option SnippetUpdates.t) : Promise S Reply.t :=
  requireAuth req (fun userId =>
    catch_400
      (updates <- match body with
                  | Some u => ret u
                  | None => throw ZodError
                  end ;;
       existingSnippet <- IStorage.getSnippet id ;;
       match existingSnippet with
       | None => ret (Reply.mk 404 (Reply.Message "Snippet not found"))
       | Some existingSnippet =>
           if negb (Snippet.authorId existingSnippet =? userId)%string
           then ret (Reply.mk 403 (Reply.Message "Access denied"))
           else
             updatedSnippet <-
               IStorage.updateSnippet now id (SnippetUpdates.to_partial updates) ;;
             ret (Reply.json (Reply.UpdatedSnippet updatedSnippet))
       end)).

(** [DELETE /api/snippets/:id] *)
Definition delete_snippet (req : Request.t) (id : string) : Promise S Reply.t :=
  requireAuth req (fun userId =>
    catch_400
      (existingSnippet <- IStorage.getSnippet id ;;
       match existingSnippet with
       | None => ret (Reply.mk 404 (Reply.Message "Snippet not found"))
       | Some existingSnippet =>
           if negb (Snippet.authorId existingSnippet =? userId)%string
           then ret (Reply.mk 403 (Reply.Message "Access denied"))
           else
             IStorage.deleteSnippet id ;;;
             ret (Reply.json (Reply.Message "Snippet deleted successfully"))
       end)).

(** [DELETE /api/snippets/:id/like] *)
Definition delete_like (req : Request.t) (id : string) : Promise S Reply.t :=
  requireAuth req (fun userId =>
    catch_400
      (success <- IStorage.unlikeSnippet id userId ;;
       if negb success
       then ret (Reply.mk 400 (Reply.Message "Not liked or snippet not found"))
       else ret (Reply.json (Reply.Message "Snippet unliked successfully")))).

(** [GET /api/users/:username] *)
Definition get_profile (req : Request.t) (username : string)
  : Promise S Reply.t :=
  catch_400
    (userProfile <- IStorageRest.getUserProfile username
                      (Request.session_userId req) ;;
     match userProfile with
     | None => ret (Reply.mk 404 (Reply.Message "User not found"))
     | Some p =>
         ret (Reply.json
                (Reply.Profile (SafeUser.without_password (UserProfile.user p))
                   (UserProfile.snippetsCount p) (UserProfile.followersCount p)
                   (UserProfile.followingCount p) (UserProfile.isFollowing p)))
     end).

(** [GET /api/users/:username/liked] *)
Definition get_liked (req : Request.t) (username : string) : Promise S Reply.t :=
  catch_400
    (user <- IStorage.getUserByUsername username ;;
     match user with
     | None => ret (Reply.mk 404 (Reply.Message "User not found"))
     | Some user =>
         likedSnippets <- IStorage.getLikedSnippetsByUser (User.id user) ;;
         ret (Reply.json
                (Reply.Snippets
                   (if Js.truthy (Request.session_userId req)
                    then map (SnippetWithAuthor.with_isLiked true) likedSnippets
                    else likedSnippets)))
     end).

(** [for (const snippet of snippets) snippet.isLiked = await
    storage.isSnippetLiked(snippet.id, userId)] *)
Fixpoint mark_liked (userId : string) (snippets : list SnippetWithAuthor.t)
  : Promise S (list SnippetWithAuthor.t) :=
  match snippets with
  | [] => ret []
  | snippet :: rest =>
      isLiked <- IStorage.isSnippetLiked
                   (Snippet.id (SnippetWithAuthor.snippet snippet)) userId ;;
      rest' <- mark_liked userId rest ;;
      ret (SnippetWithAuthor.with_isLiked isLiked snippet :: rest')
  end.

(** [GET /api/my-snippets] *)
Definition my_snippets (req : Request.t) : Promise S Reply.t :=
  requireAuth req (fun userId =>
    catch_400
      (snippets <- IStorage.getUserOwnSnippets userId ;;
       snippets <- mark_liked userId snippets ;;
       ret (Reply.json (Reply.Snippets snippets)))).

(** [DELETE /api/users/:username/follow] *)
Definition delete_follow (req : Request.t) (username : string)
  : Promise S Reply.t :=
  requireAuth req (fun userId =>
    catch_400
      (userToUnfollow <- IStorage.getUserByUsername username ;;
       match userToUnfollow with
       | None => ret (Reply.mk 404 (Reply.Message "User not found"))
       | Some userToUnfollow =>
           success <- IStorage.unfollowUser userId (User.id userToUnfollow) ;;
           if negb success
           then ret (Reply.mk 400 (Reply.Message "Not following this user"))
           else ret (Reply.json (Reply.Message "User unfollowed successfully"))
       end)).

(** [GET /api/following] and [GET /api/followers] *)
Definition following (req : Request.t) : Promise S Reply.t :=
  requireAuth req (fun userId =>
    catch_400
      (following <- IStorage.getFollowing userId ;;
       ret (Reply.json (Reply.Users (map SafeUser.without_password following))))).

Definition followers (req : Request.t) : Promise S Reply.t :=
  requireAuth req (fun userId =>
    catch_400
      (followers <- IStorage.getFollowers userId ;;
       ret (Reply.json (Reply.Users (map SafeUser.without_password followers))))).

(** [PUT /api/notifications/:id/read] *)
Definition notification_read (req : Request.t) (id : string)
  : Promise S Reply.t :=
  requireAuth req (fun userId =>
    catch_400
      (success <- IStorage.markNotificationRead id userId ;;
       if negb success
       then ret (Reply.mk 404 (Reply.Message "Notification not found"))
       else ret (Reply.json (Reply.Message "Notification marked as read")))).

(** [PUT /api/notifications/read-all] *)
Definition notifications_read_all (req : Request.t) : Promise S Reply.t :=
  requireAuth req (fun userId =>
    catch_400
      (IStorage.markAllNotificationsRead userId ;;;
       ret (Reply.json (Reply.Message "All notifications marked as read")))).

(** [GET /api/notifications/unread-count] *)
Definition unread_count (req : Request.t) : Promise S Reply.t :=
  requireAuth req (fun userId =>
    catch_400
      (count <- IStorage.getUnreadNotificationCount userId ;;
       ret (Reply.json (Reply.Count count)))).

(** [PUT /api/profile/picture]; [profilePicture] is the body's property when
    it is a string, [None] otherwise. *)
Definition profile_picture (req : Request.t) (profilePicture : option string)
  : Promise S Reply.t :=
  requireAuth req (fun userId =>
    catch_400
      (if negb (Js.truthy profilePicture)
       then ret (Reply.mk 400 (Reply.Message "Profile picture data is required"))
       else
         updatedUser <-
           IStorage.updateUser userId
             (only_profilePicture (Js.or_else profilePicture EmptyString)) ;;
         match updatedUser with
         | None => ret (Reply.mk 404 (Reply.Message "User not found"))
         | Some updatedUser =>
             ret (Reply.json
                    (Reply.UserEnvelope (SafeUser.without_password updatedUser)))
         end)).

(** [DELETE /api/admin/snippets/:id] *)
Definition admin_delete_snippet (req : Request.t) (id : string)
  : Promise S Reply.t :=
  requireAdmin req (fun _ =>
    catch_400
      (existingSnippet <- IStorage.getSnippet id ;;
       match existingSnippet with
       | None => ret (Reply.mk 404 (Reply.Message "Snippet not found"))
       | Some _ =>
           IStorage.deleteSnippet id ;;;
           ret (Reply.json
                  (Reply.Message "Snippet deleted successfully by admin"))
       end)).

(** [PATCH /api/admin/users/:id/rank]; [rank] is the body's property when it
    is a string, [None] otherwise. *)
Definition admin_rank (req : Request.t) (id : string) (rank : option string)
  : Promise S Reply.t :=
  requireAdmin req (fun userId =>
    catch_400
      (match (if Js.truthy rank
              then rank_of (Js.or_else rank EmptyString) else None) with
       | None =>
           ret (Reply.mk 400
                  (Reply.Message "Invalid rank. Must be 'admin' or 'default'"))
       | Some rank =>
           if (id =? userId)%string && Rank_eqb rank RankDefault
           then ret (Reply.mk 400 (Reply.Message "Cannot demote yourself"))
           else
             existingUser <- IStorage.getUser id ;;
             match existingUser with
             | None => ret (Reply.mk 404 (Reply.Message "User not found"))
             | Some _ =>
                 updatedUser <- IStorage.updateUser id (only_rank rank) ;;
                 match updatedUser with
                 | None =>
                     ret (Reply.mk 500 (Reply.Message "Failed to update user"))
                 | Some updatedUser =>
                     ret (Reply.json
                            (Reply.RankUpdated
                               ("User rank updated to " ++ rank_name rank)
                               (SafeUser.without_password updatedUser)))
                 end
             end
       end)).

Definition count_of {A} (p : A -> bool) (l : list A) : Z :=
  Z.of_nat (List.length (filter p l)).

(** [GET /api/admin/stats] *)
Definition admin_stats (req : Request.t) : Promise S Reply.t :=
  requireAdmin req (fun _ =>
    catch_400
      (users <- IStorageRest.getAllUsers 1000 0 ;;
       snippets <- IStorage.getAllSnippets 1000 0 ;;
       ret (Reply.json
              (Reply.Stats
                 (Z.of_nat (List.length users))
                 (Z.of_nat (List.length snippets))
                 (count_of (fun u => Rank_eqb (User.rank u) RankAdmin) users)
                 (count_of (fun s =>
                              Snippet.isPublic (SnippetWithAuthor.snippet s))
                           snippets)
                 (count_of (fun s =>
                              negb (Snippet.isPublic
                                      (SnippetWithAuthor.snippet s)))
                           snippets))))).

End Handlers.

End Api.

(** ** Vocabulary of the further properties *)

Module RoundTripFixture.

(** Root has not yet followed or liked anything of Ann's. *)
Definition mem_followed : MemStorage.t :=
  snd (MemStorage.followUser "f-9" 5000 "u-root" "u-ann" Fixture.mem).

Definition db_followed : Database.t :=
  snd (DatabaseStorage.followUser "f-9" 5000 "u-root" "u-ann" Fixture.db).

End RoundTripFixture.

(** A call that does not write a counter directly. The routes never do: the
    body of [PATCH /api/snippets/:id] is cut down to the six fields of the
    insert schema. *)
Definition keeps_counters (c : Call) : Prop :=
  match c with
  | UpdateSnippet _ _ updates =>
      PartialSnippet.views updates = None /\ PartialSnippet.likes updates = None
  | _ => True
  end.

Definition counters_nonneg (m : JsMap.t Snippet.t) : Prop :=
  forall k sn, In (k, sn) m -> 0 <= Snippet.views sn /\ 0 <= Snippet.likes sn.

(** The notifications map of MemStorage holds one entry per key, each under
    the id of its notification, as a [Map] filled with
    [set(notification.id, notification)] does. *)
Definition notifications_well_keyed (st : MemStorage.t) : Prop :=
  keyed_by_id Notification.id (MemStorage.notifications st)
  /\ NoDup (JsMap.keys (MemStorage.notifications st)).

Module InboxFixture.

Definition note (userId : string) : InsertNotification.t :=
  InsertNotification.mk userId "new_snippet" "New Snippet Posted"
    "Ann posted a new snippet" (Some "s-pub") (Some "u-ann").

(** Bob holds two unread notifications and Root one. *)
Definition setup : list Call :=
  (Fixture.setup
   ++ [ CreateNotification "n-1" 3001 (note "u-bob");
        CreateNotification "n-2" 3002 (note "u-root");
        CreateNotification "n-3" 3003 (note "u-bob") ])%list.

Definition mem : MemStorage.t := snd (run setup MemStorage.init).

Definition db : Database.t := snd (run setup Database.init).

End InboxFixture.

(** The calls behind the public lists: [GET /api/snippets] in its three
    forms, the search and the liked list of a profile. *)
Definition public_listing (c : Call) : Prop :=
  match c with
  | GetPublicSnippets _ _ | GetTrendingSnippets _ _ | GetSnippetsByAuthor _
  | GetLikedSnippetsByUser _ => True
  | SearchSnippets _ isPublic => isPublic = true
  | _ => False
  end.

(** A listed row shows a stored snippet together with the user stored under
    the snippet's [authorId]. *)
Definition MemStorage_row (st : MemStorage.t) (row : SnippetWithAuthor.t)
  : Prop :=
  In (SnippetWithAuthor.snippet row) (JsMap.values (MemStorage.snippets st))
  /\ exists user,
       JsMap.get (Snippet.authorId (SnippetWithAuthor.snippet row))
                 (MemStorage.users st) = Some user
       /\ SnippetWithAuthor.author row = author_of user.

Definition Database_row (db : Database.t) (row : SnippetWithAuthor.t) : Prop :=
  In (SnippetWithAuthor.snippet row) (Database.snippets db)
  /\ exists user,
       In user (Database.users db)
       /\ User.id user = Snippet.authorId (SnippetWithAuthor.snippet row)
       /\ SnippetWithAuthor.author row = Database.author_columns user.

(** What an edit must not touch: the id, the author, the two counters and
    the creation time of a snippet. *)
Definition same_identity_and_counters (old new : Snippet.t) : Prop :=
  Snippet.id new = Snippet.id old
  /\ Snippet.authorId new = Snippet.authorId old
  /\ Snippet.views new = Snippet.views old
  /\ Snippet.likes new = Snippet.likes old
  /\ Snippet.createdAt new = Snippet.createdAt old.

Module EditFixture.

Definition retitle : SnippetUpdates.t :=
  SnippetUpdates.mk (Some "Hello again") None None None None (Some false).

End EditFixture.

(** No two users share a username or an e-mail address. *)
Definition distinct_accounts (users : list User.t) : Prop :=
  NoDup (map User.username users) /\ NoDup (map User.email users).

Module SignupFixture.

Definition cat : InsertUser.t :=
  InsertUser.mk "cat" "pw-cat" "cat@snipply.dev" None None None None.

(** Stand-ins for [bcrypt.hash] and [bcrypt.compare]: the hash of [pw-x]
    is [h-x], as in the accounts of [Fixture]. *)
Definition hash (password : string) : string :=
  "h-" ++ String.substring 3 (String.length password - 3) password.

Definition compare (password hashed : string) : bool :=
  (hash password =? hashed)%string.

End SignupFixture.

(** ** The client: the trending page and the code editor *)

Module TrendingPage.

(** [const topSnippet = trendingSnippets[0]] *)
Definition topSnippet {A} (trendingSnippets : list A) : option A :=
  nth_error trendingSnippets 0.

(** [const otherTrending = trendingSnippets.slice(1, 11)] *)
Definition otherTrending {A} (trendingSnippets : list A) : list A :=
  Js.slice 1 11 trendingSnippets.

(** [trendingSnippets.length > 11 && trendingSnippets.slice(11).map(...)];
    [slice(11)] runs to the end of the array. *)
Definition moreTrending {A} (trendingSnippets : list A) : list A :=
  if Z.of_nat (List.length trendingSnippets) >? 11
  then Js.slice 11 (Z.of_nat (List.length trendingSnippets)) trendingSnippets
  else [].

(** The number shown beside the [index]-th entry of the ranking:
    [{index + 2}]. *)
Definition rank (index : nat) : nat := (index + 2)%nat.

(** The snippets on the page from top to bottom: the featured card, the
    ranking, the grid. *)
Definition shown {A} (trendingSnippets : list A) : list A :=
  (match topSnippet trendingSnippets with
   | Some snippet => [snippet]
   | None => []
   end
   ++ otherTrending trendingSnippets ++ moreTrending trendingSnippets)%list.

End TrendingPage.

Module CodeEditor.

(** [String.prototype.substring(start, end)] on non-negative indices: both
    are clamped to the length and swapped when [start > end]. *)
Definition substring (start end_ : nat) (s : string) : string :=
  let a := Nat.min start (String.length s) in
  let b := Nat.min end_ (String.length s) in
  String.substring (Nat.min a b) (Nat.max a b - Nat.min a b) s.

(** [value.substring(end)]. *)
Definition substring_from (start : nat) (s : string) : string :=
  substring start (String.length s) s.

(** [handleKeyDown]: on Tab the handler calls [onChange(newValue)] and then
    puts the cursor at [start + 2]; any other key is left to the textarea.
    [selectionStart] and [selectionEnd] are the textarea's. *)
Definition handleKeyDown (key value : string) (selectionStart selectionEnd : nat)
  : option (string * nat) :=
  if (key =? "Tab")%string then
    let newValue :=
      substring 0 selectionStart value ++ "  "
      ++ substring_from selectionEnd value in
    Some (newValue, (selectionStart + 2)%nat)
  else None.

(** [getPlaceholder]. *)
Definition getPlaceholder (placeholder : option string) (language : string)
  : string :=
  if Js.truthy placeholder then Js.or_else placeholder EmptyString
  else if (language =? "html")%string then "<!-- Write your HTML here -->"
  else if (language =? "css")%string then "/* Write your CSS here */"
  else if (language =? "javascript")%string then "// Write your JavaScript here"
  else EmptyString.

End CodeEditor.

(** ** Vocabulary of the route properties *)

(** The reading methods of a storage leave the store [s] as it is. *)
Definition reads_keep {S : Type} `{IStorage.t S} `{IStorageRest.t S} (s : S)
  : Prop :=
  (forall id, snd (IStorage.getUser id s) = s)
  /\ (forall username, snd (IStorage.getUserByUsername username s) = s)
  /\ (forall q isPublic, snd (IStorage.searchSnippets q isPublic s) = s)
  /\ (forall username viewer,
        snd (IStorageRest.getUserProfile username viewer s) = s)
  /\ (forall userId, snd (IStorage.getLikedSnippetsByUser userId s) = s)
  /\ (forall userId, snd (IStorage.getUserOwnSnippets userId s) = s)
  /\ (forall snippetId userId,
        snd (IStorage.isSnippetLiked snippetId userId s) = s)
  /\ (forall userId, snd (IStorage.getFollowing userId s) = s)
  /\ (forall userId, snd (IStorage.getFollowers userId s) = s)
  /\ (forall userId, snd (IStorage.getUnreadNotificationCount userId s) = s)
  /\ (forall limit offset, snd (IStorageRest.getAllUsers limit offset s) = s)
  /\ (forall limit offset, snd (IStorage.getAllSnippets limit offset s) = s).

(** The [GET] routes that only read, with the arguments they take. *)
Inductive ReadingRoute : Type :=
| RouteMe
| RouteSearch (q : option string)
| RouteProfile (username : string)
| RouteLiked (username : string)
| RouteMySnippets
| RouteFollowing
| RouteFollowers
| RouteUnreadCount
| RouteAdminStats.

Definition serve {S : Type} `{IStorage.t S} `{IStorageRest.t S}
    (route : ReadingRoute) (req : Request.t) : Promise S Reply.t :=
  match route with
  | RouteMe => Api.me req
  | RouteSearch q => Api.search q
  | RouteProfile username => Api.get_profile req username
  | RouteLiked username => Api.get_liked req username
  | RouteMySnippets => Api.my_snippets req
  | RouteFollowing => Api.following req
  | RouteFollowers => Api.followers req
  | RouteUnreadCount => Api.unread_count req
  | RouteAdminStats => Api.admin_stats req
  end.

(** The user record with a new profile picture and nothing else changed. *)
Definition with_picture (profilePicture : string) (user : User.t) : User.t :=
  User.mk (User.id user) (User.username user) (User.password user)
    (User.email user) (User.displayName user) (User.bio user)
    (User.location user) (User.website user) (User.avatarUrl user)
    (Some profilePicture) (User.rank user) (User.createdAt user).

Module PictureFixture.

Definition picture : string := "data:image/png;base64,AA".

(** Bob as MemStorage and as DatabaseStorage hold him after [Fixture.setup]. *)
Definition mem_bob : User.t :=
  MemStorage.new_user "u-bob" "h-bob" 1001 RankDefault Fixture.bob.

Definition db_bob : User.t :=
  DatabaseStorage.user_row "u-bob" "h-bob" 1001 RankDefault Fixture.bob.

(** Bob has set his picture. *)
Definition db_pictured : Database.t :=
  snd (Api.profile_picture (Fixture.as_user "u-bob") (Some picture) Fixture.db).

End PictureFixture.

(** ** Vocabulary of the order of database lists *)

(** The rows have pairwise different sort keys: [ORDER BY key] then leaves
    the database no choice among them. *)
Definition distinct_keys {A} (key : A -> Z) (rows : list A) : Prop :=
  NoDup (map key rows).

(** [sorted] is an answer [ORDER BY key DESC] may give for [rows]. *)
Definition ordered_by_desc {A} (key : A -> Z) (rows sorted : list A) : Prop :=
  Permutation rows sorted /\ descending key sorted.

(** ** States in which a record outlives what it refers to *)

Module CascadeFixture.




End CascadeFixture.

Module OrphanFixture.

Definition fresh (k : nat) : string * Z := ("n-none", 7002).

(** The admin Root deletes Ann's account through
    [DELETE /api/admin/users/:id]; Ann's session outlives the account and
    posts a private snippet through [POST /api/snippets]. *)
Definition mem : MemStorage.t :=
  snd (Routes.post_snippet "s-orphan" 7001 fresh (Fixture.as_user "u-ann")
         (Some (Fixture.hello false))
         (snd (Routes.delete_user (Fixture.as_user "u-root") "u-ann"
                 Fixture.mem))).

Definition db : Database.t :=
  snd (Routes.post_snippet "s-orphan" 7001 fresh (Fixture.as_user "u-ann")
         (Some (Fixture.hello false))
         (snd (Routes.delete_user (Fixture.as_user "u-root") "u-ann"
                 Fixture.db))).

End OrphanFixture.

(** * Properties *)

(** ** Lists, maps and promises *)

Section ListFacts.

Context {A : Type}.

Lemma find_none_iff (p : A -> bool) (l : list A) :
  find p l = None <-> (forall x, In x l -> p x = false).
Proof.
  split.
  - intros Hnone x Hin. exact (find_none p l Hnone x Hin).
  - induction l as [|a l IH]; intros Hall; simpl; [reflexivity|].
    rewrite (Hall a (or_introl eq_refl)). apply IH.
    intros x Hin. apply Hall. now right.
Qed.

Lemma find_hit (p : A -> bool) (l : list A) (x : A) :
  In x l -> p x = true -> exists y, find p l = Some y.
Proof.
  intros Hin Hp. destruct (find p l) as [y|] eqn:E; [now exists y|].
  rewrite (find_none p l E x Hin) in Hp. discriminate.
Qed.

Lemma first_filter_none_iff (p : A -> bool) (l : list A) :
  Sql.first (filter p l) = None <-> (forall x, In x l -> p x = false).
Proof.
  unfold Sql.first. split.
  - intros Hnone x Hin. destruct (p x) eqn:E; [|reflexivity].
    assert (Hf : In x (filter p l)) by (apply filter_In; now split).
    destruct (filter p l); [contradiction|discriminate].
  - intros Hall. destruct (filter p l) as [|y r] eqn:E; [reflexivity|].
    assert (Hy : In y (filter p l)) by (rewrite E; now left).
    apply filter_In in Hy. destruct Hy as [Hin Hp].
    rewrite (Hall y Hin) in Hp. discriminate.
Qed.

Lemma first_filter_hit (p : A -> bool) (l : list A) (x : A) :
  In x l -> p x = true -> exists y, Sql.first (filter p l) = Some y.
Proof.
  intros Hin Hp. destruct (Sql.first (filter p l)) as [y|] eqn:E; [now exists y|].
  rewrite (proj1 (first_filter_none_iff p l) E x Hin) in Hp. discriminate.
Qed.

Lemma taken_false_iff (key : A -> string) (k : string) (rows : list A) :
  Sql.taken key k rows = false <-> (forall r, In r rows -> key r <> k).
Proof.
  unfold Sql.taken. split.
  - intros Hex r Hin Heq.
    assert (Ht : existsb (fun r0 => (key r0 =? k)%string) rows = true).
    { apply existsb_exists. exists r. split; [exact Hin|].
      now apply String.eqb_eq. }
    congruence.
  - intros Hall. destruct (existsb _ rows) eqn:E; [|reflexivity].
    apply existsb_exists in E. destruct E as [r [Hin Heq]].
    apply String.eqb_eq in Heq. now elim (Hall r Hin).
Qed.

End ListFacts.

Section JsMapFacts.

Context {V : Type}.

Lemma JsMap_replace_In (k : string) (v : V) (m : JsMap.t V) :
  JsMap.has k m = true -> In (k, v) (JsMap.replace k v m).
Proof.
  unfold JsMap.has. induction m as [|[k' v'] m IH]; simpl; [discriminate|].
  destruct (k' =? k)%string eqn:E.
  - intros _. apply String.eqb_eq in E. subst. simpl. now left.
  - intros Hh. simpl. right. now apply IH.
Qed.

Lemma JsMap_set_In (k : string) (v : V) (m : JsMap.t V) :
  In (k, v) (JsMap.set k v m).
Proof.
  unfold JsMap.set. destruct (JsMap.has k m) eqn:E.
  - now apply JsMap_replace_In.
  - apply in_or_app. right. now left.
Qed.

Lemma JsMap_set_value (k : string) (v : V) (m : JsMap.t V) :
  In v (JsMap.values (JsMap.set k v m)).
Proof.
  unfold JsMap.values. apply in_map_iff. exists (k, v). split; [reflexivity|].
  apply JsMap_set_In.
Qed.

Lemma JsMap_get_In (k : string) (v : V) (m : JsMap.t V) :
  JsMap.get k m = Some v -> In (k, v) m.
Proof.
  induction m as [|[k' v'] m IH]; simpl; [discriminate|].
  destruct (k' =? k)%string eqn:E.
  - intros [= ->]. apply String.eqb_eq in E. subst. now left.
  - intros Hg. right. now apply IH.
Qed.

Lemma JsMap_get_none (k : string) (m : JsMap.t V) :
  JsMap.get k m = None <-> ~ In k (JsMap.keys m).
Proof.
  unfold JsMap.keys. induction m as [|[k' v'] m IH]; simpl.
  - split; [intros _ []|reflexivity].
  - destruct (k' =? k)%string eqn:E.
    + apply String.eqb_eq in E. subst. split; [discriminate|].
      intros Hn. elim Hn. now left.
    + apply String.eqb_neq in E. rewrite IH. split.
      * intros Hn [Hk|Hk]; [now elim E|now elim Hn].
      * intros Hn Hk. apply Hn. now right.
Qed.

End JsMapFacts.

Section PromiseFacts.

Context {A : Type}.

Lemma traverse_id_on (p : A -> bool) (f : A -> Outcome A) (rows : list A) :
  (forall r, In r rows -> p r = false) ->
  Sql.update_where p f rows = Returned rows.
Proof.
  unfold Sql.update_where. induction rows as [|r rows IH]; intros Hall; simpl.
  - reflexivity.
  - rewrite (Hall r (or_introl eq_refl)). rewrite IH; [reflexivity|].
    intros x Hx. apply Hall. now right.
Qed.

End PromiseFacts.

(** ** Liking a snippet *)





(** What [POST /api/snippets/:id/like] answers, from what the storage call
    returns. *)
Lemma post_like_answer {S} `{IStorage.t S} likeId now req id userId
    (success : bool) (st st1 : S) :
  Request.session_userId req = Some userId ->
  Js.truthy (Some userId) = true ->
  IStorage.likeSnippet likeId now id userId st = (Returned success, st1) ->
  Routes.post_like likeId now req id st
  = (Returned
       (if success
        then Response.json (Response.Message "Snippet liked successfully")
        else Response.mk 400
               (Response.Message "Already liked or snippet not found")), st1).
Proof.
  intros Hs Ht Hl.
  unfold Routes.post_like, Routes.requireAuth, Routes.catch_400, try_catch, bind.
  rewrite Hs, Ht, Hl. now destruct success.
Qed.

(** The like count of the fixture after the two calls: one like, not two. *)
Example like_twice_counts_once :
  option_map Snippet.likes
    (JsMap.get "s-pub" (MemStorage.snippets LikeFixture.mem_liked)) = Some 1
  /\ map Snippet.likes (Database.snippets LikeFixture.db_liked) = [1; 0].
Proof. split; vm_compute; reflexivity. Qed.

(** C9. Liking an id that names no snippet, by a user who holds no like on
    that id, returns [true] and stores a like record that points at the
    missing snippet; the route answers 200 "Snippet liked successfully"
    rather than its 400 branch. For DatabaseStorage the new uuid must not be
    the key of a stored like. *)
Theorem C9_like_of_missing_snippet_succeeds :
  (forall st likeId now snippetId userId,
      JsMap.get snippetId (MemStorage.snippets st) = None ->
      (forall like, In like (JsMap.values (MemStorage.snippetLikes st)) ->
                    ~ (SnippetLike.snippetId like = snippetId
                       /\ SnippetLike.userId like = userId)) ->
      let st1 :=
        MemStorage.set_snippetLikes
          (JsMap.set likeId (SnippetLike.mk likeId snippetId userId now)
             (MemStorage.snippetLikes st)) st in
      MemStorage.likeSnippet likeId now snippetId userId st
      = (Returned true, st1)
      /\ (Js.truthy (Some userId) = true ->
          Routes.post_like likeId now (Request.mk (Some userId) None None)
            snippetId st
          = (Returned (Response.mk 200
                         (Response.Message "Snippet liked successfully")), st1)))
  /\ (forall db likeId now snippetId userId,
         (forall snippet, In snippet (Database.snippets db) ->
                          Snippet.id snippet <> snippetId) ->
         (forall like, In like (Database.snippetLikes db) ->
                       ~ (SnippetLike.snippetId like = snippetId
                          /\ SnippetLike.userId like = userId)) ->
         (forall like, In like (Database.snippetLikes db) ->
                       SnippetLike.id like <> likeId) ->
         let db1 :=
           Database.set_snippetLikes
             (Database.snippetLikes db
              ++ [SnippetLike.mk likeId snippetId userId now])%list db in
         DatabaseStorage.likeSnippet likeId now snippetId userId db
         = (Returned true, db1)
         /\ (Js.truthy (Some userId) = true ->
             Routes.post_like likeId now (Request.mk (Some userId) None None)
               snippetId db
             = (Returned (Response.mk 200
                            (Response.Message "Snippet liked successfully")),
                db1))).
Proof.
  split.
  - intros st likeId now snippetId userId Hmissing Hnew st1.
    assert (Hlike : MemStorage.likeSnippet likeId now snippetId userId st
                    = (Returned true, st1)).
    { unfold MemStorage.likeSnippet.
      replace (find _ (JsMap.values (MemStorage.snippetLikes st)))
        with (@None SnippetLike.t).
      - simpl. rewrite Hmissing. reflexivity.
      - symmetry. apply find_none_iff. intros like Hin.
        destruct (SnippetLike.snippetId like =? snippetId)%string eqn:Es;
          [|reflexivity].
        destruct (SnippetLike.userId like =? userId)%string eqn:Eu;
          [|reflexivity].
        apply String.eqb_eq in Es, Eu. now elim (Hnew like Hin). }
    split; [exact Hlike|]. intros Ht.
    exact (@post_like_answer _ MemStorage_IStorage likeId now
             (Request.mk (Some userId) None None) snippetId userId true _ _
             eq_refl Ht Hlike).
  - intros db likeId now snippetId userId Hmissing Hnew Hfresh db1.
    assert (Hlike : DatabaseStorage.likeSnippet likeId now snippetId userId db
                    = (Returned true, db1)).
    { unfold DatabaseStorage.likeSnippet, DatabaseStorage.select_like, bind,
        Database.query, ret, DatabaseStorage.insert_into,
        DatabaseStorage.bump_likes, Database.execute, Sql.insert.
      replace (Sql.first (filter _ (Database.snippetLikes db)))
        with (@None SnippetLike.t).
      - replace (Sql.taken SnippetLike.id _ (Database.snippetLikes db))
          with false.
        + simpl. rewrite traverse_id_on.
          * subst db1. now destruct db.
          * intros r Hr. apply String.eqb_neq. now apply Hmissing.
        + symmetry. apply taken_false_iff. exact Hfresh.
      - symmetry. apply first_filter_none_iff. intros like Hin.
        destruct (SnippetLike.snippetId like =? snippetId)%string eqn:Es;
          [|reflexivity].
        destruct (SnippetLike.userId like =? userId)%string eqn:Eu;
          [|reflexivity].
        apply String.eqb_eq in Es, Eu. now elim (Hnew like Hin). }
    split; [exact Hlike|]. intros Ht.
    exact (@post_like_answer _ DatabaseStorage_IStorage likeId now
             (Request.mk (Some userId) None None) snippetId userId true _ _
             eq_refl Ht Hlike).
Qed.

Lemma C9_like_of_missing_snippet_succeeds_witness :
  MemStorage.likeSnippet "l-9" 4000 "s-gone" "u-bob" LikeFixture.mem_liked
  = (Returned true,
     MemStorage.set_snippetLikes
       (JsMap.set "l-9" (SnippetLike.mk "l-9" "s-gone" "u-bob" 4000)
          (MemStorage.snippetLikes LikeFixture.mem_liked))
       LikeFixture.mem_liked)
  /\ Routes.post_like "l-9" 4000 (Request.mk (Some "u-bob") None None) "s-gone"
       LikeFixture.db_liked
     = (Returned (Response.mk 200
                    (Response.Message "Snippet liked successfully")),
        Database.set_snippetLikes
          (Database.snippetLikes LikeFixture.db_liked
           ++ [SnippetLike.mk "l-9" "s-gone" "u-bob" 4000])%list
          LikeFixture.db_liked).
Proof.
  split.
  - apply (proj1 C9_like_of_missing_snippet_succeeds LikeFixture.mem_liked
             "l-9" 4000 "s-gone" "u-bob").
    + reflexivity.
    + vm_compute. intros like [<-|[]] [Hs _]. discriminate.
  - apply (proj2 C9_like_of_missing_snippet_succeeds LikeFixture.db_liked
             "l-9" 4000 "s-gone" "u-bob").
    + vm_compute. intros snippet [<-|[<-|[]]]; discriminate.
    + vm_compute. intros like [<-|[]] [Hs _]. discriminate.
    + vm_compute. intros like [<-|[]]. discriminate.
    + reflexivity.
Defined.

(** ** Counting views *)

Lemma or_null_truthy (o : option string) :
  Js.truthy o = true -> Js.or_null o = o.
Proof. unfold Js.or_null. now intros ->. Qed.

Lemma strict_eq_refl_truthy (o : option string) :
  Js.truthy o = true -> Js.strict_eq o o = true.
Proof.
  destruct o as [s|]; simpl; [|discriminate]. intros _. apply String.eqb_refl.
Qed.

Lemma eq_nullable_refl_truthy (o : option string) :
  Js.truthy o = true -> DatabaseStorage.eq_nullable o o = true.
Proof.
  destruct o as [s|]; simpl; [|discriminate]. intros _. apply String.eqb_refl.
Qed.

(** The record a counted view leaves behind is found again by a later call
    of the same viewer. *)
Lemma view_found_again_mem viewId now snippetId userId ipAddress userId' ipAddress' :
  same_viewer userId ipAddress userId' ipAddress' ->
  let view := SnippetView.mk viewId snippetId (Js.or_null userId)
                (Js.or_null ipAddress) now in
  (SnippetView.snippetId view =? snippetId)%string
  && (if Js.truthy userId'
      then Js.strict_eq (SnippetView.userId view) userId'
      else Js.strict_eq (SnippetView.ipAddress view) ipAddress') = true.
Proof.
  intros [[Hu ->]|[Hu [Hu' [Hip ->]]]]; simpl; rewrite String.eqb_refl; simpl.
  - rewrite Hu, (or_null_truthy _ Hu). now apply strict_eq_refl_truthy.
  - rewrite Hu', (or_null_truthy _ Hip). now apply strict_eq_refl_truthy.
Qed.

Lemma MemStorage_incrementViews_seen st viewId now snippetId userId ipAddress view :
  In view (JsMap.values (MemStorage.snippetViews st)) ->
  (SnippetView.snippetId view =? snippetId)%string
  && (if Js.truthy userId
      then Js.strict_eq (SnippetView.userId view) userId
      else Js.strict_eq (SnippetView.ipAddress view) ipAddress) = true ->
  MemStorage.incrementViews viewId now snippetId userId ipAddress st
  = (Returned tt, st).
Proof.
  intros Hin Hp. unfold MemStorage.incrementViews.
  destruct (find_hit
              (fun view =>
                 (SnippetView.snippetId view =? snippetId)%string
                 && (if Js.truthy userId
                     then Js.strict_eq (SnippetView.userId view) userId
                     else Js.strict_eq (SnippetView.ipAddress view) ipAddress))
              _ view Hin Hp) as [y Hy].
  rewrite Hy. reflexivity.
Qed.

Lemma MemStorage_incrementViews_twice st viewId now viewId' now' snippetId
    userId ipAddress userId' ipAddress' :
  same_viewer userId ipAddress userId' ipAddress' ->
  let st1 :=
    snd (MemStorage.incrementViews viewId now snippetId userId ipAddress st) in
  MemStorage.incrementViews viewId' now' snippetId userId' ipAddress' st1
  = (Returned tt, st1).
Proof.
  intros Hsame st1. subst st1.
  destruct (MemStorage.incrementViews viewId now snippetId userId ipAddress st)
    as [o st1] eqn:E.
  simpl. unfold MemStorage.incrementViews in E.
  destruct (find _ (JsMap.values (MemStorage.snippetViews st)))
    as [seen|] eqn:Efind.
  - injection E as _ <-. apply find_some in Efind. destruct Efind as [Hin Hp].
    apply MemStorage_incrementViews_seen with (view := seen); [exact Hin|].
    apply andb_true_iff in Hp. destruct Hp as [Hs Hp]. rewrite Hs. simpl.
    destruct Hsame as [[Hu ->]|[Hu [Hu' [Hip ->]]]].
    + rewrite Hu in *. exact Hp.
    + rewrite Hu in Hp. rewrite Hu'. exact Hp.
  - pose proof (view_found_again_mem viewId now snippetId Hsame) as Hnew.
    simpl in Hnew.
    set (view := SnippetView.mk viewId snippetId (Js.or_null userId)
                   (Js.or_null ipAddress) now) in *.
    apply MemStorage_incrementViews_seen with (view := view); [|exact Hnew].
    simpl in E.
    destruct (JsMap.get snippetId (MemStorage.snippets st));
      injection E as _ <-; simpl; apply JsMap_set_value.
Qed.

Lemma DatabaseStorage_incrementViews_seen db viewId now snippetId userId
    ipAddress view :
  In view (Database.snippetViews db) ->
  SnippetView.snippetId view = snippetId ->
  Js.truthy userId || Js.truthy ipAddress = true ->
  (if Js.truthy userId
   then DatabaseStorage.eq_nullable (SnippetView.userId view) userId
   else DatabaseStorage.eq_nullable (SnippetView.ipAddress view) ipAddress)
  = true ->
  DatabaseStorage.incrementViews viewId now snippetId userId ipAddress db
  = (Returned tt, db).
Proof.
  intros Hin Hs Hid Hp.
  unfold DatabaseStorage.incrementViews, bind, Database.query, ret.
  destruct (Js.truthy userId) eqn:Hu.
  - destruct (first_filter_hit
                (fun view =>
                   (SnippetView.snippetId view =? snippetId)%string
                   && DatabaseStorage.eq_nullable (SnippetView.userId view) userId)
                _ view Hin) as [y Hy].
    + now rewrite Hs, String.eqb_refl, Hp.
    + rewrite Hy. reflexivity.
  - simpl in Hid. rewrite Hid.
    destruct (first_filter_hit
                (fun view =>
                   (SnippetView.snippetId view =? snippetId)%string
                   && DatabaseStorage.eq_nullable (SnippetView.ipAddress view)
                        ipAddress)
                _ view Hin) as [y Hy].
    + now rewrite Hs, String.eqb_refl, Hp.
    + rewrite Hy. reflexivity.
Qed.

(** Recording the view and bumping the counter: unless the insert is
    refused, the view record is stored, whatever the counter update does. *)
Lemma insert_and_count_records db view snippetId :
  let r :=
    bind (DatabaseStorage.insert_into SnippetView.id Database.snippetViews
            Database.set_snippetViews view)
         (fun _ => DatabaseStorage.bump_views 1 snippetId) db in
  fst r <> Threw UniqueViolation ->
  In view (Database.snippetViews (snd r)).
Proof.
  unfold bind, DatabaseStorage.insert_into, DatabaseStorage.bump_views,
    Database.execute, Sql.insert.
  destruct (Sql.taken _ _ _); simpl; [congruence|].
  intros _. destruct (Sql.update_where _ _ _); simpl;
    apply in_or_app; right; now left.
Qed.

(** [incrementViews] in one piece: the lookup that applies, then either
    nothing or the insert and the counter update. *)
Lemma DatabaseStorage_incrementViews_eq db viewId now snippetId userId ipAddress :
  DatabaseStorage.incrementViews viewId now snippetId userId ipAddress db
  = if (if Js.truthy userId then
          DatabaseStorage.is_some
            (Sql.first
               (filter (fun view =>
                          (SnippetView.snippetId view =? snippetId)%string
                          && DatabaseStorage.eq_nullable (SnippetView.userId view)
                               userId)
                       (Database.snippetViews db)))
        else if Js.truthy ipAddress then
          DatabaseStorage.is_some
            (Sql.first
               (filter (fun view =>
                          (SnippetView.snippetId view =? snippetId)%string
                          && DatabaseStorage.eq_nullable
                               (SnippetView.ipAddress view) ipAddress)
                       (Database.snippetViews db)))
        else false)
    then (Returned tt, db)
    else bind (DatabaseStorage.insert_into SnippetView.id Database.snippetViews
                 Database.set_snippetViews
                 (SnippetView.mk viewId snippetId (Js.or_null userId)
                    (Js.or_null ipAddress) now))
              (fun _ => DatabaseStorage.bump_views 1 snippetId) db.
Proof.
  unfold DatabaseStorage.incrementViews, Database.query, ret.
  unfold bind at 1.
  destruct (Js.truthy userId); [|destruct (Js.truthy ipAddress)];
    unfold bind at 1; try destruct (Sql.first _); reflexivity.
Qed.

Lemma first_filter_some {A} (p : A -> bool) (l : list A) :
  DatabaseStorage.is_some (Sql.first (filter p l)) = true ->
  exists x, In x l /\ p x = true.
Proof.
  unfold Sql.first. destruct (filter p l) as [|x r] eqn:E; [discriminate|].
  intros _. exists x. apply filter_In. rewrite E. now left.
Qed.

Lemma DatabaseStorage_incrementViews_twice db viewId now viewId' now' snippetId
    userId ipAddress userId' ipAddress' :
  same_viewer userId ipAddress userId' ipAddress' ->
  let r :=
    DatabaseStorage.incrementViews viewId now snippetId userId ipAddress db in
  fst r <> Threw UniqueViolation ->
  DatabaseStorage.incrementViews viewId' now' snippetId userId' ipAddress' (snd r)
  = (Returned tt, snd r).
Proof.
  intros Hsame r Hok.
  set (view := SnippetView.mk viewId snippetId (Js.or_null userId)
                 (Js.or_null ipAddress) now).
  assert (Hid' : Js.truthy userId' || Js.truthy ipAddress' = true).
  { destruct Hsame as [[Hu ->]|[_ [_ [Hip ->]]]].
    - now rewrite Hu.
    - rewrite Hip. apply orb_true_r. }
  assert (Hnew : In view (Database.snippetViews (snd r)) ->
                 DatabaseStorage.incrementViews viewId' now' snippetId userId'
                   ipAddress' (snd r) = (Returned tt, snd r)).
  { intros Hin.
    apply DatabaseStorage_incrementViews_seen with (view := view);
      [exact Hin|reflexivity|exact Hid'|].
    destruct Hsame as [[Hu ->]|[Hu [Hu' [Hip ->]]]]; simpl.
    - rewrite Hu, (or_null_truthy _ Hu). now apply eq_nullable_refl_truthy.
    - rewrite Hu', (or_null_truthy _ Hip). now apply eq_nullable_refl_truthy. }
  assert (Hold : forall seen,
             In seen (Database.snippetViews db) ->
             (SnippetView.snippetId seen =? snippetId)%string
             && (if Js.truthy userId
                 then DatabaseStorage.eq_nullable (SnippetView.userId seen) userId
                 else DatabaseStorage.eq_nullable (SnippetView.ipAddress seen)
                        ipAddress) = true ->
             DatabaseStorage.incrementViews viewId' now' snippetId userId'
               ipAddress' db = (Returned tt, db)).
  { intros seen Hin Hp. apply andb_true_iff in Hp. destruct Hp as [Hs Hp].
    apply String.eqb_eq in Hs.
    apply DatabaseStorage_incrementViews_seen with (view := seen);
      [exact Hin|exact Hs|exact Hid'|].
    destruct Hsame as [[Hu ->]|[Hu [Hu' [Hip ->]]]].
    - rewrite Hu in *. exact Hp.
    - rewrite Hu in Hp. rewrite Hu'. exact Hp. }
  revert Hok Hnew. subst r. rewrite DatabaseStorage_incrementViews_eq.
  fold view.
  destruct (Js.truthy userId) eqn:Hu; [|destruct (Js.truthy ipAddress) eqn:Hip].
  - destruct (DatabaseStorage.is_some _) eqn:Eseen.
    + intros _ _. simpl. apply first_filter_some in Eseen.
      destruct Eseen as [seen [Hin Hp]]. now apply Hold with (seen := seen).
    + intros Hok Hnew. apply Hnew. now apply insert_and_count_records.
  - destruct (DatabaseStorage.is_some _) eqn:Eseen.
    + intros _ _. simpl. apply first_filter_some in Eseen.
      destruct Eseen as [seen [Hin Hp]]. now apply Hold with (seen := seen).
    + intros Hok Hnew. apply Hnew. now apply insert_and_count_records.
  - intros Hok Hnew. apply Hnew. now apply insert_and_count_records.
Qed.

(** C4. After [incrementViews] for a snippet and a viewer (a user id, or an
    IP address when no user id is given), a second call for the same snippet
    and viewer returns without touching the store, so the view counter moves
    at most once. For DatabaseStorage the first call must not have been
    refused for a duplicate uuid. *)
Theorem C4_second_view_is_noop :
  (forall st viewId now viewId' now' snippetId userId ipAddress userId' ipAddress',
      same_viewer userId ipAddress userId' ipAddress' ->
      let st1 :=
        snd (MemStorage.incrementViews viewId now snippetId userId ipAddress st) in
      MemStorage.incrementViews viewId' now' snippetId userId' ipAddress' st1
      = (Returned tt, st1))
  /\ (forall db viewId now viewId' now' snippetId userId ipAddress userId'
             ipAddress',
         same_viewer userId ipAddress userId' ipAddress' ->
         let r :=
           DatabaseStorage.incrementViews viewId now snippetId userId ipAddress
             db in
         fst r <> Threw UniqueViolation ->
         DatabaseStorage.incrementViews viewId' now' snippetId userId'
           ipAddress' (snd r)
         = (Returned tt, snd r)).
Proof.
  split.
  - intros. now apply MemStorage_incrementViews_twice.
  - intros. now apply DatabaseStorage_incrementViews_twice.
Qed.

Lemma C4_second_view_is_noop_witness :
  (let st1 :=
     snd (MemStorage.incrementViews "v-1" 5000 "s-pub" (Some "u-bob")
            (Some "10.0.0.7") Fixture.mem) in
   MemStorage.incrementViews "v-2" 5001 "s-pub" (Some "u-bob")
     (Some "10.0.0.9") st1 = (Returned tt, st1))
  /\ (let r :=
        DatabaseStorage.incrementViews "v-1" 5000 "s-pub" None
          (Some "10.0.0.7") Fixture.db in
      DatabaseStorage.incrementViews "v-2" 5001 "s-pub" None (Some "10.0.0.7")
        (snd r) = (Returned tt, snd r)).
Proof.
  split.
  - apply (proj1 C4_second_view_is_noop Fixture.mem "v-1" 5000 "v-2" 5001
             "s-pub" (Some "u-bob") (Some "10.0.0.7") (Some "u-bob")
             (Some "10.0.0.9")).
    left. split; reflexivity.
  - apply (proj2 C4_second_view_is_noop Fixture.db "v-1" 5000 "v-2" 5001
             "s-pub" None (Some "10.0.0.7") None (Some "10.0.0.7")).
    + right. repeat split; reflexivity.
    + vm_compute. discriminate.
Defined.

(** The counter of the fixture's snippet after two views by one viewer. *)
Example view_twice_counts_once :
  option_map Snippet.views
    (JsMap.get "s-pub"
       (MemStorage.snippets
          (snd (MemStorage.incrementViews "v-2" 5001 "s-pub" (Some "u-bob") None
                  (snd (MemStorage.incrementViews "v-1" 5000 "s-pub"
                          (Some "u-bob") None Fixture.mem))))))
  = Some 1.
Proof. vm_compute. reflexivity. Qed.

(** Through the route: Bob opens Ann's public snippet twice, from the same
    session, and an anonymous visitor opens it twice from another address;
    each of the two is counted once. *)
Example get_twice_counts_once :
  let visit (req : Request.t) (uuid : string) (db : Database.t) :=
    snd (Routes.get_snippet uuid 5000 req "s-pub" db) in
  let visitor := Request.mk None (Some "10.0.0.8") None in
  map Snippet.views
    (Database.snippets
       (visit visitor "v-4"
          (visit visitor "v-3"
             (visit (Fixture.as_user "u-bob") "v-2"
                (visit (Fixture.as_user "u-bob") "v-1" Fixture.db)))))
  = [2; 0].
Proof. vm_compute. reflexivity. Qed.

(** ** Reading a private snippet *)

(** What [GET /api/snippets/:id] answers when the snippet it fetched is
    private and the session is not its author's: 403, whatever the storage
    behind the contract, and before any other storage call. *)
Lemma get_snippet_denied {S} `{IStorage.t S} viewId now req id snippet
    (st st1 : S) :
  IStorage.getSnippetWithAuthor id st = (Returned (Some snippet), st1) ->
  Snippet.isPublic (SnippetWithAuthor.snippet snippet) = false ->
  Routes.not_author req (Snippet.authorId (SnippetWithAuthor.snippet snippet))
  = true ->
  Routes.get_snippet viewId now req id st
  = (Returned (Response.mk 403 (Response.Message "Access denied")), st1).
Proof.
  intros Hget Hpriv Hna.
  unfold Routes.get_snippet, Routes.catch_400, try_catch, bind.
  rewrite Hget, Hpriv, Hna. reflexivity.
Qed.

(** The author does get the private snippet. *)
Example author_reads_private_snippet :
  option_map Response.status
    (match fst (Routes.get_snippet "v-7" 6000 (Fixture.as_user "u-ann") "s-priv"
                  Fixture.db) with
     | Returned r => Some r
     | Threw _ => None
     end) = Some 200.
Proof. vm_compute. reflexivity. Qed.

(** Root does pass [requireAdmin]: the admin routes let Root delete a user,
    the snippet route still refuses Root the private snippet. *)
Example root_passes_requireAdmin :
  fst (Routes.delete_user (Fixture.as_user "u-root") "u-bob" Fixture.db)
  = Returned (Response.mk 200
                (Response.Message
                   "User and all their content deleted successfully")).
Proof. vm_compute. reflexivity. Qed.

(** ** Sorting and slicing *)

Section SortFacts.

Context {A : Type}.

Lemma insert_sorted_perm (cmp : A -> A -> Z) (x : A) (l : list A) :
  Permutation (Js.insert_sorted cmp x l) (x :: l).
Proof.
  induction l as [|y l IH]; simpl; [reflexivity|].
  destruct (cmp x y >? 0); [|reflexivity].
  rewrite IH. apply perm_swap.
Qed.

Lemma sort_perm (cmp : A -> A -> Z) (l : list A) :
  Permutation (Js.sort cmp l) l.
Proof.
  unfold Js.sort. induction l as [|x l IH]; simpl; [reflexivity|].
  rewrite insert_sorted_perm. now constructor.
Qed.

Variable key : A -> Z.

Lemma insert_sorted_descending (x : A) (l : list A) :
  descending key l ->
  descending key (Js.insert_sorted (fun a b => key b - key a) x l).
Proof.
  unfold descending. induction l as [|y l IH]; intros Hs; simpl.
  - constructor; constructor.
  - inversion Hs as [|? ? Hl Hy]; subst.
    destruct (key y - key x >? 0) eqn:E.
    + constructor; [now apply IH|].
      apply Z.gtb_lt in E.
      apply Forall_forall. intros b Hb.
      apply (Permutation_in _ (insert_sorted_perm _ x l)) in Hb.
      destruct Hb as [<-|Hb]; [lia|].
      rewrite Forall_forall in Hy. now apply Hy.
    + assert (Hge : key x >= key y).
      { destruct (Z.gtb_spec (key y - key x) 0); [discriminate|lia]. }
      constructor; [exact Hs|].
      constructor; [exact Hge|].
      eapply Forall_impl; [|exact Hy]. simpl. intros b Hb. lia.
Qed.

Lemma sort_descending (l : list A) :
  descending key (Js.sort (fun a b => key b - key a) l).
Proof.
  unfold Js.sort. induction l as [|x l IH]; simpl.
  - constructor.
  - now apply insert_sorted_descending.
Qed.

End SortFacts.

Section SliceFacts.

Context {A : Type}.

Lemma firstn_sub (n : nat) (l : list A) (x : A) :
  In x (firstn n l) -> In x l.
Proof.
  revert l. induction n as [|n IH]; intros [|y l]; simpl; try tauto.
  intros [->|Hin]; [now left|right; now apply IH].
Qed.

Lemma skipn_sub (n : nat) (l : list A) (x : A) :
  In x (skipn n l) -> In x l.
Proof.
  revert l. induction n as [|n IH]; intros [|y l]; simpl; try tauto.
  intros Hin. right. now apply IH.
Qed.

Lemma slice_sub (start end_ : Z) (l : list A) (x : A) :
  In x (Js.slice start end_ l) -> In x l.
Proof.
  unfold Js.slice. intros Hin. apply firstn_sub in Hin.
  now apply skipn_sub in Hin.
Qed.

Variable R : A -> A -> Prop.

Lemma firstn_sorted (n : nat) (l : list A) :
  StronglySorted R l -> StronglySorted R (firstn n l).
Proof.
  revert l. induction n as [|n IH]; intros [|y l] Hs; simpl;
    try constructor.
  - inversion Hs; subst. now apply IH.
  - inversion Hs as [|? ? _ Hy]; subst.
    apply Forall_forall. intros b Hb. apply firstn_sub in Hb.
    rewrite Forall_forall in Hy. now apply Hy.
Qed.

Lemma skipn_sorted (n : nat) (l : list A) :
  StronglySorted R l -> StronglySorted R (skipn n l).
Proof.
  revert l. induction n as [|n IH]; intros [|y l] Hs; simpl;
    try assumption.
  inversion Hs; subst. now apply IH.
Qed.

Lemma slice_sorted (start end_ : Z) (l : list A) :
  StronglySorted R l -> StronglySorted R (Js.slice start end_ l).
Proof.
  intros Hs. unfold Js.slice. now apply firstn_sorted, skipn_sorted.
Qed.

End SliceFacts.

Lemma traverse_returned {A B} (f : A -> Outcome B) (g : B -> A) (l : list A)
    (rows : list B) :
  (forall a b, f a = Returned b -> g b = a) ->
  traverse f l = Returned rows -> map g rows = l.
Proof.
  intros Hfg. revert rows. induction l as [|a l IH]; intros rows; simpl.
  - now intros [= <-].
  - destruct (f a) as [b|] eqn:Ea; [|discriminate].
    destruct (traverse f l) as [bs|]; [|discriminate].
    intros [= <-]. simpl. now rewrite (Hfg a b Ea), (IH bs eq_refl).
Qed.

Lemma attach_author_snippet st snippet row :
  MemStorage.attach_author st snippet = Returned row ->
  SnippetWithAuthor.snippet row = snippet.
Proof.
  unfold MemStorage.attach_author.
  destruct (JsMap.get _ _); [|discriminate]. now intros [= <-].
Qed.

(** ** The trending list *)

(** MemStorage keeps the seven-day window: whatever the store and the limit,
    a returned list holds public snippets created after [weekAgo now], in
    descending order of likes + views, and the store is left alone. *)
Lemma MemStorage_getTrendingSnippets_window st st1 now limit rows :
  MemStorage.getTrendingSnippets now limit st = (Returned rows, st1) ->
  st1 = st
  /\ Forall (fun row =>
               Snippet.isPublic (SnippetWithAuthor.snippet row) = true
               /\ weekAgo now < Snippet.createdAt (SnippetWithAuthor.snippet row))
            rows
  /\ descending trending_score (map SnippetWithAuthor.snippet rows).
Proof.
  unfold MemStorage.getTrendingSnippets. intros [= Htr <-].
  split; [reflexivity|].
  pose proof (traverse_returned _ SnippetWithAuthor.snippet _
                (attach_author_snippet st) Htr) as Hrows.
  split.
  - apply Forall_forall. intros row Hrow.
    assert (Hin : In (SnippetWithAuthor.snippet row)
                     (map SnippetWithAuthor.snippet rows))
      by now apply in_map.
    rewrite Hrows in Hin. apply slice_sub in Hin.
    apply (Permutation_in _ (sort_perm _ _)) in Hin.
    apply filter_In in Hin. destruct Hin as [_ Hp].
    apply andb_true_iff in Hp. destruct Hp as [Hpub Hnew].
    split; [exact Hpub|]. now apply Z.gtb_lt in Hnew.
  - rewrite Hrows. unfold descending. apply slice_sorted.
    exact (sort_descending trending_score _).
Qed.

(** MemStorage does return the list when every listed snippet has its
    author: the statement above is not about a method that always throws. *)
Example MemStorage_getTrendingSnippets_returns :
  option_map (map (fun row => Snippet.id (SnippetWithAuthor.snippet row)))
    (match fst (MemStorage.getTrendingSnippets 3000 20 Fixture.mem) with
     | Returned rows => Some rows
     | Threw _ => None
     end) = Some ["s-pub"].
Proof. vm_compute. reflexivity. Qed.

(** C1. DatabaseStorage does not keep the window. Ann's public snippet is
    created at time 2000; thirty days later [getTrendingSnippets] of
    DatabaseStorage still lists it, although it was created before
    [weekAgo now]; MemStorage, given the same calls, lists nothing. *)
Theorem C1_DatabaseStorage_trending_ignores_age :
  (exists row,
      fst (DatabaseStorage.getTrendingSnippets 10 TrendingFixture.db)
      = Returned [row]
      /\ Snippet.id (SnippetWithAuthor.snippet row) = "s-old"
      /\ Snippet.isPublic (SnippetWithAuthor.snippet row) = true
      /\ Snippet.createdAt (SnippetWithAuthor.snippet row)
         <= weekAgo TrendingFixture.now)
  /\ fst (MemStorage.getTrendingSnippets TrendingFixture.now 10
            TrendingFixture.mem) = Returned [].
Proof.
  split.
  - eexists. split; [vm_compute; reflexivity|].
    repeat split. vm_compute. discriminate.
  - vm_compute. reflexivity.
Qed.

(** ** One contract, two implementations *)

(** C2. The two implementations are not interchangeable. After the same
    calls from the empty store (Ann registers, posts [s-a], posts [s-b],
    edits [s-a]), every call so far having returned the same value from
    both, [getPublicSnippets] lists [s-a] before [s-b] in MemStorage, which
    sorts by [updatedAt], and [s-b] before [s-a] in DatabaseStorage, which
    sorts by [createdAt]. *)
Theorem C2_storages_diverge_on_public_listing :
  let mem_seen := fst (run ListingFixture.calls MemStorage.init) in
  let db_seen := fst (run ListingFixture.calls Database.init) in
  firstn 4 mem_seen = firstn 4 db_seen
  /\ ListingFixture.listed (nth 4 mem_seen (Threw TypeError))
     = Some ["s-a"; "s-b"]
  /\ ListingFixture.listed (nth 4 db_seen (Threw TypeError))
     = Some ["s-b"; "s-a"]
  /\ mem_seen <> db_seen.
Proof.
  repeat split; try (vm_compute; reflexivity).
  intros Heq.
  assert (Hl : ListingFixture.listed
                 (nth 4 (fst (run ListingFixture.calls MemStorage.init))
                    (Threw TypeError))
               = ListingFixture.listed
                   (nth 4 (fst (run ListingFixture.calls Database.init))
                      (Threw TypeError)))
    by now rewrite Heq.
  vm_compute in Hl. discriminate.
Qed.

(** The same gap seen through the trending list (the window that
    DatabaseStorage leaves out) and through search (MemStorage matches every
    term, in any letter case, against all text of a snippet; DatabaseStorage
    matches the query as one case-sensitive pattern against the title). *)
Example storages_diverge_on_trending :
  ListingFixture.listed
    (fst (call (GetTrendingSnippets TrendingFixture.now 10) TrendingFixture.mem))
  = Some []
  /\ ListingFixture.listed
       (fst (call (GetTrendingSnippets TrendingFixture.now 10)
               TrendingFixture.db))
     = Some ["s-old"].
Proof. split; vm_compute; reflexivity. Qed.

Example storages_diverge_on_search :
  map ListingFixture.listed (fst (run SearchFixture.calls MemStorage.init))
  = [None; None; Some ["s-a"]; Some ["s-a"]]
  /\ map ListingFixture.listed (fst (run SearchFixture.calls Database.init))
     = [None; None; Some []; Some []].
Proof. split; vm_compute; reflexivity. Qed.

(** ** Deleting a user *)

Section DeleteFacts.

Context {V : Type}.

Lemma JsMap_delete_In (k : string) (m : JsMap.t V) (e : string * V) :
  In e (JsMap.delete k m) <-> In e m /\ fst e <> k.
Proof.
  unfold JsMap.delete. rewrite filter_In, negb_true_iff, String.eqb_neq.
  reflexivity.
Qed.

Lemma JsMap_delete_all_In (ks : list string) (m : JsMap.t V) (e : string * V) :
  In e (JsMap.delete_all ks m) <-> In e m /\ ~ In (fst e) ks.
Proof.
  unfold JsMap.delete_all. revert m.
  induction ks as [|k ks IH]; intros m; simpl.
  - tauto.
  - rewrite IH, JsMap_delete_In. intuition congruence.
Qed.

Lemma JsMap_get_delete (k : string) (m : JsMap.t V) :
  JsMap.get k (JsMap.delete k m) = None.
Proof.
  apply JsMap_get_none. unfold JsMap.keys. intros Hin.
  apply in_map_iff in Hin. destruct Hin as [e [He Hin]].
  apply JsMap_delete_In in Hin. now destruct Hin.
Qed.

Lemma JsMap_values_In (m : JsMap.t V) (v : V) :
  In v (JsMap.values m) <-> exists k, In (k, v) m.
Proof.
  unfold JsMap.values. rewrite in_map_iff. split.
  - intros [[k v'] [Hv Hin]]. simpl in Hv. subst. now exists k.
  - intros [k Hin]. now exists (k, v).
Qed.

Variable id : V -> string.

(** [values().filter(p).forEach(x => m.delete(x.id))] leaves no value that
    satisfies [p], and adds none. *)
Lemma purge_spec (p : V -> bool) (m : JsMap.t V) (e : string * V) :
  keyed_by_id id m ->
  In e (JsMap.delete_all (map id (filter p (JsMap.values m))) m) ->
  In e m /\ p (snd e) = false.
Proof.
  intros Hkey Hin. apply JsMap_delete_all_In in Hin. destruct Hin as [Hin Hno].
  split; [exact Hin|]. destruct (p (snd e)) eqn:Ep; [|reflexivity].
  elim Hno. destruct e as [k v]. simpl in *.
  rewrite (Hkey k v Hin). apply in_map. apply filter_In. split; [|exact Ep].
  apply JsMap_values_In. now exists k.
Qed.

Lemma keyed_sub (m m' : JsMap.t V) :
  keyed_by_id id m -> (forall e, In e m' -> In e m) -> keyed_by_id id m'.
Proof. intros Hkey Hsub k v Hin. apply Hkey. now apply Hsub. Qed.

End DeleteFacts.

Lemma delete_snippet_cascade_spec st a :
  keyed_by_id SnippetLike.id (MemStorage.snippetLikes st) ->
  keyed_by_id SnippetView.id (MemStorage.snippetViews st) ->
  let st' := MemStorage.delete_snippet_cascade st a in
  MemStorage.users st' = MemStorage.users st
  /\ MemStorage.follows st' = MemStorage.follows st
  /\ MemStorage.notifications st' = MemStorage.notifications st
  /\ (forall e, In e (MemStorage.snippets st') ->
                In e (MemStorage.snippets st) /\ fst e <> Snippet.id a)
  /\ (forall e, In e (MemStorage.snippetLikes st') ->
                In e (MemStorage.snippetLikes st)
                /\ SnippetLike.snippetId (snd e) <> Snippet.id a)
  /\ (forall e, In e (MemStorage.snippetViews st') ->
                In e (MemStorage.snippetViews st)
                /\ SnippetView.snippetId (snd e) <> Snippet.id a).
Proof.
  intros Hlikes Hviews. unfold MemStorage.delete_snippet_cascade. simpl.
  split; [reflexivity|]. split; [reflexivity|]. split; [reflexivity|].
  split; [|split].
  - intros e He. now apply JsMap_delete_In in He.
  - intros e He.
    apply purge_spec with (id := SnippetLike.id) in He; [|exact Hlikes].
    destruct He as [He Hp]. split; [exact He|]. now apply String.eqb_neq in Hp.
  - intros e He.
    apply purge_spec with (id := SnippetView.id) in He; [|exact Hviews].
    destruct He as [He Hp]. split; [exact He|]. now apply String.eqb_neq in Hp.
Qed.

Lemma delete_snippet_cascade_fold l : forall st,
  keyed_by_id SnippetLike.id (MemStorage.snippetLikes st) ->
  keyed_by_id SnippetView.id (MemStorage.snippetViews st) ->
  let st1 := fold_left MemStorage.delete_snippet_cascade l st in
  MemStorage.users st1 = MemStorage.users st
  /\ MemStorage.follows st1 = MemStorage.follows st
  /\ MemStorage.notifications st1 = MemStorage.notifications st
  /\ (forall e, In e (MemStorage.snippets st1) ->
                In e (MemStorage.snippets st)
                /\ forall a, In a l -> fst e <> Snippet.id a)
  /\ (forall e, In e (MemStorage.snippetLikes st1) ->
                In e (MemStorage.snippetLikes st)
                /\ forall a, In a l ->
                     SnippetLike.snippetId (snd e) <> Snippet.id a)
  /\ (forall e, In e (MemStorage.snippetViews st1) ->
                In e (MemStorage.snippetViews st)
                /\ forall a, In a l ->
                     SnippetView.snippetId (snd e) <> Snippet.id a).
Proof.
  induction l as [|a l IH]; intros st Hlikes Hviews; simpl.
  - repeat split; try assumption; intros a [].
  - destruct (delete_snippet_cascade_spec st a Hlikes Hviews)
      as [Hu [Hf [Hn [Hs [Hl Hv]]]]].
    assert (Hlikes' : keyed_by_id SnippetLike.id
                        (MemStorage.snippetLikes
                           (MemStorage.delete_snippet_cascade st a))).
    { apply keyed_sub with (m := MemStorage.snippetLikes st); [exact Hlikes|].
      intros e He. now apply Hl. }
    assert (Hviews' : keyed_by_id SnippetView.id
                        (MemStorage.snippetViews
                           (MemStorage.delete_snippet_cascade st a))).
    { apply keyed_sub with (m := MemStorage.snippetViews st); [exact Hviews|].
      intros e He. now apply Hv. }
    destruct (IH _ Hlikes' Hviews') as [Hu1 [Hf1 [Hn1 [Hs1 [Hl1 Hv1]]]]].
    split; [congruence|]. split; [congruence|]. split; [congruence|].
    split; [|split].
    + intros e He. destruct (Hs1 e He) as [He' Hrest].
      destruct (Hs e He') as [He0 Hne]. split; [exact He0|].
      intros b [<-|Hb]; [exact Hne|now apply Hrest].
    + intros e He. destruct (Hl1 e He) as [He' Hrest].
      destruct (Hl e He') as [He0 Hne]. split; [exact He0|].
      intros b [<-|Hb]; [exact Hne|now apply Hrest].
    + intros e He. destruct (Hv1 e He) as [He' Hrest].
      destruct (Hv e He') as [He0 Hne]. split; [exact He0|].
      intros b [<-|Hb]; [exact Hne|now apply Hrest].
Qed.

Lemma strict_eq_some_false (stored : option string) (v : string) :
  Js.strict_eq stored (Some v) = false -> stored <> Some v.
Proof.
  intros Hf ->. simpl in Hf. now rewrite String.eqb_refl in Hf.
Qed.

Lemma eq_nullable_some_false (column : option string) (v : string) :
  DatabaseStorage.eq_nullable column (Some v) = false -> column <> Some v.
Proof.
  intros Hf ->. simpl in Hf. now rewrite String.eqb_refl in Hf.
Qed.

Lemma MemStorage_deleteUserAndSnippets_spec st userId user :
  MemStorage_keyed st ->
  JsMap.get userId (MemStorage.users st) = Some user ->
  exists st',
    MemStorage.deleteUserAndSnippets userId st = (Returned true, st')
    /\ JsMap.get userId (MemStorage.users st') = None
    /\ no_trace_of userId
         (owned_by userId (JsMap.values (MemStorage.snippets st)))
         (JsMap.values (MemStorage.users st'))
         (JsMap.values (MemStorage.snippets st'))
         (JsMap.values (MemStorage.snippetLikes st'))
         (JsMap.values (MemStorage.snippetViews st'))
         (JsMap.values (MemStorage.follows st'))
         (JsMap.values (MemStorage.notifications st')).
Proof.
  intros [Hku [Hks [Hkl [Hkv [Hkf Hkn]]]]] Hget.
  unfold MemStorage.deleteUserAndSnippets. rewrite Hget.
  eexists. split; [reflexivity|].
  fold (owned_by userId (JsMap.values (MemStorage.snippets st))).
  set (owned := owned_by userId (JsMap.values (MemStorage.snippets st))).
  destruct (delete_snippet_cascade_fold owned st Hkl Hkv)
    as [Hu [Hf [Hn [Hs [Hl Hv]]]]].
  set (st1 := fold_left MemStorage.delete_snippet_cascade owned st) in *.
  assert (Hkl1 : keyed_by_id SnippetLike.id (MemStorage.snippetLikes st1)).
  { apply keyed_sub with (m := MemStorage.snippetLikes st); [exact Hkl|].
    intros e He. now apply Hl. }
  assert (Hkv1 : keyed_by_id SnippetView.id (MemStorage.snippetViews st1)).
  { apply keyed_sub with (m := MemStorage.snippetViews st); [exact Hkv|].
    intros e He. now apply Hv. }
  simpl. split; [apply JsMap_get_delete|].
  unfold no_trace_of. repeat apply conj.
  - intros u Hin. apply JsMap_values_In in Hin. destruct Hin as [k Hin].
    apply JsMap_delete_In in Hin. destruct Hin as [Hin Hne]. simpl in Hne.
    rewrite Hu in Hin. now rewrite <- (Hku k u Hin).
  - intros s Hin Hauthor. apply JsMap_values_In in Hin. destruct Hin as [k Hin].
    destruct (Hs _ Hin) as [Hin0 Hrest]. simpl in Hrest.
    apply (Hrest s); [|exact (Hks k s Hin0)].
    apply filter_In. split; [|now apply String.eqb_eq].
    apply JsMap_values_In. now exists k.
  - intros like Hin. apply JsMap_values_In in Hin. destruct Hin as [k Hin].
    apply purge_spec with (id := SnippetLike.id) in Hin; [|exact Hkl1].
    destruct Hin as [Hin Hp]. simpl in Hp. split; [now apply String.eqb_neq|].
    intros s Hs'. exact (proj2 (Hl _ Hin) s Hs').
  - intros view Hin. apply JsMap_values_In in Hin. destruct Hin as [k Hin].
    apply purge_spec with (id := SnippetView.id) in Hin; [|exact Hkv1].
    destruct Hin as [Hin Hp]. simpl in Hp.
    split; [now apply strict_eq_some_false|].
    intros s Hs'. exact (proj2 (Hv _ Hin) s Hs').
  - intros follow Hin. apply JsMap_values_In in Hin. destruct Hin as [k Hin].
    apply purge_spec with (id := Follow.id) in Hin;
      [|rewrite Hf; exact Hkf].
    destruct Hin as [_ Hp]. simpl in Hp. apply orb_false_iff in Hp.
    destruct Hp as [Hp1 Hp2]. split; now apply String.eqb_neq.
  - intros n Hin. apply JsMap_values_In in Hin. destruct Hin as [k Hin].
    apply purge_spec with (id := Notification.id) in Hin;
      [|rewrite Hn; exact Hkn].
    destruct Hin as [_ Hp]. simpl in Hp. apply orb_false_iff in Hp.
    destruct Hp as [Hp1 Hp2].
    split; [now apply String.eqb_neq|now apply strict_eq_some_false].
Qed.

Lemma authored_by_false db userId snippetId :
  DatabaseStorage.authored_by db userId snippetId = false ->
  forall snippet, In snippet (owned_by userId (Database.snippets db)) ->
                  snippetId <> Snippet.id snippet.
Proof.
  unfold DatabaseStorage.authored_by, owned_by. intros Hf snippet Hin Heq.
  apply filter_In in Hin. destruct Hin as [Hin Ha].
  assert (Ht : existsb (fun s => (Snippet.authorId s =? userId)%string
                                 && (Snippet.id s =? snippetId)%string)
                       (Database.snippets db) = true).
  { apply existsb_exists. exists snippet. split; [exact Hin|].
    rewrite Ha. simpl. apply String.eqb_eq. now symmetry. }
  congruence.
Qed.

Lemma delete_where_In {A} (p : A -> bool) (rows : list A) (r : A) :
  In r (Sql.delete_where p rows) <-> In r rows /\ p r = false.
Proof.
  unfold Sql.delete_where. rewrite filter_In, negb_true_iff. reflexivity.
Qed.

Lemma row_count_positive {A} (p : A -> bool) (rows : list A) (r : A) :
  In r rows -> p r = true -> (Sql.row_count p rows >? 0) = true.
Proof.
  intros Hin Hp. unfold Sql.row_count.
  assert (Hf : In r (filter p rows)) by (apply filter_In; now split).
  destruct (filter p rows); [contradiction|]. reflexivity.
Qed.

Lemma DatabaseStorage_deleteUserAndSnippets_spec db userId user :
  In user (Database.users db) ->
  User.id user = userId ->
  exists db',
    DatabaseStorage.deleteUserAndSnippets userId db = (Returned true, db')
    /\ no_trace_of userId (owned_by userId (Database.snippets db))
         (Database.users db') (Database.snippets db')
         (Database.snippetLikes db') (Database.snippetViews db')
         (Database.follows db') (Database.notifications db').
Proof.
  intros Hin Hid.
  unfold DatabaseStorage.deleteUserAndSnippets, bind, Database.execute.
  simpl.
  rewrite (row_count_positive (fun u => (User.id u =? userId)%string) _ user Hin)
    by now apply String.eqb_eq.
  eexists. split; [reflexivity|]. simpl.
  unfold no_trace_of. repeat apply conj.
  - intros u Hu. apply delete_where_In in Hu. destruct Hu as [_ Hp].
    now apply String.eqb_neq.
  - intros s Hs. apply delete_where_In in Hs. destruct Hs as [_ Hp].
    now apply String.eqb_neq.
  - intros like Hl. apply delete_where_In in Hl. destruct Hl as [_ Hp].
    apply orb_false_iff in Hp. destruct Hp as [Hp1 Hp2].
    split; [now apply String.eqb_neq|].
    exact (@authored_by_false db _ _ Hp1).
  - intros view Hv. apply delete_where_In in Hv. destruct Hv as [_ Hp].
    apply orb_false_iff in Hp. destruct Hp as [Hp1 Hp2].
    split; [now apply eq_nullable_some_false|].
    exact (@authored_by_false _ _ _ Hp1).
  - intros follow Hf. apply delete_where_In in Hf. destruct Hf as [_ Hp].
    apply orb_false_iff in Hp. destruct Hp as [Hp1 Hp2].
    split; now apply String.eqb_neq.
  - intros n Hn. apply delete_where_In in Hn. destruct Hn as [_ Hp].
    apply orb_false_iff in Hp. destruct Hp as [Hp1 Hp2].
    split; [now apply String.eqb_neq|now apply eq_nullable_some_false].
Qed.

(** C5. [deleteUserAndSnippets] of a stored user returns [true] and leaves
    no user record of that id, no snippet authored by the user, no like or
    view by the user or on a snippet the user had authored, no follow with
    the user on either side and no notification to or from the user. For
    MemStorage the maps are keyed by the ids of their values, as every entry
    is when it is stored. *)
Theorem C5_deleteUserAndSnippets_cascades :
  (forall st userId user,
      MemStorage_keyed st ->
      JsMap.get userId (MemStorage.users st) = Some user ->
      exists st',
        MemStorage.deleteUserAndSnippets userId st = (Returned true, st')
        /\ JsMap.get userId (MemStorage.users st') = None
        /\ no_trace_of userId
             (owned_by userId (JsMap.values (MemStorage.snippets st)))
             (JsMap.values (MemStorage.users st'))
             (JsMap.values (MemStorage.snippets st'))
             (JsMap.values (MemStorage.snippetLikes st'))
             (JsMap.values (MemStorage.snippetViews st'))
             (JsMap.values (MemStorage.follows st'))
             (JsMap.values (MemStorage.notifications st')))
  /\ (forall db userId user,
         In user (Database.users db) ->
         User.id user = userId ->
         exists db',
           DatabaseStorage.deleteUserAndSnippets userId db
           = (Returned true, db')
           /\ no_trace_of userId (owned_by userId (Database.snippets db))
                (Database.users db') (Database.snippets db')
                (Database.snippetLikes db') (Database.snippetViews db')
                (Database.follows db') (Database.notifications db')).
Proof.
  split.
  - intros st userId user. apply MemStorage_deleteUserAndSnippets_spec.
  - intros db userId user. apply DatabaseStorage_deleteUserAndSnippets_spec.
Qed.

Lemma DeleteFixture_mem_keyed : MemStorage_keyed DeleteFixture.mem.
Proof.
  unfold MemStorage_keyed, keyed_by_id. vm_compute.
  repeat split; intros k v Hin;
    repeat (destruct Hin as [Hin|Hin]; [now inversion Hin|]);
    contradiction.
Qed.

Lemma C5_deleteUserAndSnippets_cascades_witness :
  (exists st',
      MemStorage.deleteUserAndSnippets "u-ann" DeleteFixture.mem
      = (Returned true, st')
      /\ JsMap.get "u-ann" (MemStorage.users st') = None
      /\ no_trace_of "u-ann"
           (owned_by "u-ann"
              (JsMap.values (MemStorage.snippets DeleteFixture.mem)))
           (JsMap.values (MemStorage.users st'))
           (JsMap.values (MemStorage.snippets st'))
           (JsMap.values (MemStorage.snippetLikes st'))
           (JsMap.values (MemStorage.snippetViews st'))
           (JsMap.values (MemStorage.follows st'))
           (JsMap.values (MemStorage.notifications st')))
  /\ (exists db',
         DatabaseStorage.deleteUserAndSnippets "u-ann" DeleteFixture.db
         = (Returned true, db')
         /\ no_trace_of "u-ann"
              (owned_by "u-ann" (Database.snippets DeleteFixture.db))
              (Database.users db') (Database.snippets db')
              (Database.snippetLikes db') (Database.snippetViews db')
              (Database.follows db') (Database.notifications db')).
Proof.
  split.
  - apply (proj1 C5_deleteUserAndSnippets_cascades DeleteFixture.mem "u-ann"
             (MemStorage.new_user "u-ann" "h-ann" 1000 RankDefault Fixture.ann)).
    + exact DeleteFixture_mem_keyed.
    + vm_compute. reflexivity.
  - apply (proj2 C5_deleteUserAndSnippets_cascades DeleteFixture.db "u-ann"
             (DatabaseStorage.user_row "u-ann" "h-ann" 1000 RankDefault
                Fixture.ann)).
    + vm_compute. left. reflexivity.
    + reflexivity.
Defined.

(** What is left of the fixture once Ann is deleted: Bob, Root, and nothing
    that points at Ann or at her snippets. *)
Example delete_ann_leaves :
  let st' := snd (MemStorage.deleteUserAndSnippets "u-ann" DeleteFixture.mem) in
  JsMap.keys (MemStorage.users st') = ["u-bob"; "u-root"]
  /\ JsMap.keys (MemStorage.snippets st') = []
  /\ JsMap.keys (MemStorage.snippetLikes st') = []
  /\ JsMap.keys (MemStorage.snippetViews st') = []
  /\ JsMap.keys (MemStorage.follows st') = []
  /\ JsMap.keys (MemStorage.notifications st') = [].
Proof. vm_compute. repeat split. Qed.

(** ** Follow records *)

Ltac break_match :=
  match goal with
  | |- context [match ?x with _ => _ end] => destruct x eqn:?
  end.

Lemma observe_store {S A} (inj : A -> Value) (c : Promise S A) (s : S) :
  snd (observe inj c s) = snd (c s).
Proof.
  unfold observe, bind, ret. now destruct (c s) as [[a|e] s'].
Qed.

Section FollowFacts.

Lemma NoDup_map_filter {A B} (g : A -> B) (p : A -> bool) (l : list A) :
  NoDup (map g l) -> NoDup (map g (filter p l)).
Proof.
  induction l as [|a l IH]; simpl; [auto|].
  intros Hnd. inversion Hnd as [|? ? Hnotin Hnd']; subst.
  destruct (p a); simpl; [|now apply IH].
  constructor; [|now apply IH].
  intros Hin. apply Hnotin. apply in_map_iff in Hin.
  destruct Hin as [x [Hx Hin]]. apply filter_In in Hin.
  apply in_map_iff. exists x. tauto.
Qed.

Lemma follows_invariant_filter (p : string * Follow.t -> bool)
    (m : JsMap.t Follow.t) :
  follows_invariant (JsMap.values m) ->
  follows_invariant (JsMap.values (filter p m)).
Proof.
  unfold follows_invariant, JsMap.values. intros [Hne Hnd]. split.
  - intros f Hin. apply Hne. apply in_map_iff in Hin.
    destruct Hin as [e [He Hin]]. apply filter_In in Hin.
    apply in_map_iff. exists e. tauto.
  - rewrite map_map in *. now apply NoDup_map_filter.
Qed.

Lemma follows_invariant_delete_all (ks : list string) (m : JsMap.t Follow.t) :
  follows_invariant (JsMap.values m) ->
  follows_invariant (JsMap.values (JsMap.delete_all ks m)).
Proof.
  unfold JsMap.delete_all. revert m. induction ks as [|k ks IH]; intros m Hinv.
  - exact Hinv.
  - simpl. apply IH. now apply follows_invariant_filter.
Qed.

Lemma replace_values_pairs (k : string) (v : Follow.t) (m : JsMap.t Follow.t) :
  ~ In (follow_pair v) (map follow_pair (JsMap.values m)) ->
  NoDup (map follow_pair (JsMap.values m)) ->
  NoDup (map follow_pair (JsMap.values (JsMap.replace k v m)))
  /\ forall f, In f (JsMap.values (JsMap.replace k v m)) ->
               f = v \/ In f (JsMap.values m).
Proof.
  unfold JsMap.values. induction m as [|[k' v'] m IH]; simpl; intros Hnew Hnd.
  - split; [constructor|tauto].
  - inversion Hnd as [|? ? Hnotin Hnd']; subst.
    destruct (k' =? k)%string; simpl.
    + split; [|intros f [<-|Hin]; tauto].
      constructor; [|exact Hnd']. tauto.
    + destruct IH as [IHnd IHin]; [tauto|exact Hnd'|].
      split.
      * constructor; [|exact IHnd]. intros Hin.
        apply in_map_iff in Hin. destruct Hin as [f [Hf Hin]].
        destruct (IHin f Hin) as [->|Hold].
        -- apply Hnew. left. now symmetry.
        -- apply Hnotin. rewrite <- Hf. now apply in_map.
      * intros f [<-|Hin]; [tauto|]. destruct (IHin f Hin); tauto.
Qed.

Lemma follows_invariant_set (k : string) (v : Follow.t) (m : JsMap.t Follow.t) :
  Follow.followerId v <> Follow.followingId v ->
  ~ In (follow_pair v) (map follow_pair (JsMap.values m)) ->
  follows_invariant (JsMap.values m) ->
  follows_invariant (JsMap.values (JsMap.set k v m)).
Proof.
  intros Hv Hnew [Hne Hnd]. unfold JsMap.set. destruct (JsMap.has k m).
  - destruct (replace_values_pairs k v m Hnew Hnd) as [Hnd' Hin'].
    split; [|exact Hnd'].
    intros f Hf. destruct (Hin' f Hf) as [->|Hold]; [exact Hv|now apply Hne].
  - unfold JsMap.values in *. rewrite map_app. simpl. split.
    + intros f Hf. apply in_app_or in Hf. destruct Hf as [Hf|[<-|[]]];
        [now apply Hne|exact Hv].
    + rewrite map_app. simpl.
      apply NoDup_app; [exact Hnd|repeat constructor; intros []|].
      intros x Hx [<-|[]]. now apply Hnew.
Qed.

Lemma follows_invariant_app (v : Follow.t) (fs : list Follow.t) :
  Follow.followerId v <> Follow.followingId v ->
  ~ In (follow_pair v) (map follow_pair fs) ->
  follows_invariant fs ->
  follows_invariant (fs ++ [v]).
Proof.
  intros Hv Hnew [Hne Hnd]. split.
  - intros f Hf. apply in_app_or in Hf. destruct Hf as [Hf|[<-|[]]];
      [now apply Hne|exact Hv].
  - rewrite map_app. simpl.
    apply NoDup_app; [exact Hnd|repeat constructor; intros []|].
    intros x Hx [<-|[]]. now apply Hnew.
Qed.

(** No stored pair equals [(followerId, followingId)] when the lookup of
    [followUser] finds nothing. *)
Lemma no_pair_when_not_found (followerId followingId : string)
    (fs : list Follow.t) :
  (forall f, In f fs ->
             (Follow.followerId f =? followerId)%string
             && (Follow.followingId f =? followingId)%string = false) ->
  ~ In (followerId, followingId) (map follow_pair fs).
Proof.
  intros Hnone Hin. apply in_map_iff in Hin. destruct Hin as [f [Hf Hin]].
  unfold follow_pair in Hf. injection Hf as Hf1 Hf2.
  specialize (Hnone f Hin). now rewrite Hf1, Hf2, !String.eqb_refl in Hnone.
Qed.

End FollowFacts.

Lemma delete_snippet_cascade_fold_follows l : forall st,
  MemStorage.follows (fold_left MemStorage.delete_snippet_cascade l st)
  = MemStorage.follows st.
Proof.
  induction l as [|a l IH]; intros st; simpl; [reflexivity|].
  now rewrite IH.
Qed.

Lemma MemStorage_call_follows (c : Call) (st : MemStorage.t) :
  follows_invariant (JsMap.values (MemStorage.follows st)) ->
  follows_invariant (JsMap.values (MemStorage.follows (snd (call c st)))).
Proof.
  intros Hinv.
  destruct c; unfold call; rewrite observe_store; simpl; try exact Hinv;
    try (match goal with
         | |- follows_invariant
                (JsMap.values (MemStorage.follows (snd ?t))) =>
             replace (MemStorage.follows (snd t)) with (MemStorage.follows st);
             [exact Hinv|]
         end;
         unfold MemStorage.updateUser, MemStorage.updateSnippet,
           MemStorage.getSnippetWithAuthor, MemStorage.getSnippetsByAuthor,
           MemStorage.getUserOwnSnippets,
           MemStorage.incrementViews, MemStorage.likeSnippet,
           MemStorage.unlikeSnippet, MemStorage.markNotificationRead;
         repeat break_match; reflexivity).
  - (* deleteUserAndSnippets *)
    unfold MemStorage.deleteUserAndSnippets.
    destruct (JsMap.get userId (MemStorage.users st)); [|exact Hinv].
    simpl. rewrite delete_snippet_cascade_fold_follows.
    now apply follows_invariant_delete_all.
  - (* followUser *)
    unfold MemStorage.followUser.
    destruct (followerId =? followingId)%string eqn:Eself; [exact Hinv|].
    destruct (find _ (JsMap.values (MemStorage.follows st))) eqn:Efind;
      [exact Hinv|].
    simpl. apply follows_invariant_set.
    + simpl. now apply String.eqb_neq.
    + apply no_pair_when_not_found. now apply find_none_iff.
    + exact Hinv.
  - (* unfollowUser *)
    unfold MemStorage.unfollowUser.
    destruct (find _ (JsMap.values (MemStorage.follows st))); [|exact Hinv].
    simpl. unfold JsMap.delete. now apply follows_invariant_filter.
Qed.

Lemma follows_invariant_delete_where (p : Follow.t -> bool) (fs : list Follow.t) :
  follows_invariant fs -> follows_invariant (Sql.delete_where p fs).
Proof.
  unfold follows_invariant, Sql.delete_where. intros [Hne Hnd]. split.
  - intros f Hin. apply filter_In in Hin. now apply Hne.
  - now apply NoDup_map_filter.
Qed.

Lemma insert_user_follows row db db' :
  DatabaseStorage.insert_user row db = Returned db' ->
  Database.follows db' = Database.follows db.
Proof.
  unfold DatabaseStorage.insert_user. destruct (_ || _); [discriminate|].
  now intros [= <-].
Qed.

Lemma createUser_row_follows row db :
  Database.follows
    (snd (bind (Database.execute (DatabaseStorage.insert_user row))
            (fun _ => ret row) db))
  = Database.follows db.
Proof.
  unfold bind, Database.execute, ret.
  destruct (DatabaseStorage.insert_user row db) eqn:E; simpl; [|reflexivity].
  now apply insert_user_follows with (row := row).
Qed.

Lemma bump_likes_follows d snippetId db :
  Database.follows (snd (DatabaseStorage.bump_likes d snippetId db))
  = Database.follows db.
Proof.
  unfold DatabaseStorage.bump_likes, Database.execute.
  now destruct (Sql.update_where _ _ _).
Qed.

Lemma bump_views_follows d snippetId db :
  Database.follows (snd (DatabaseStorage.bump_views d snippetId db))
  = Database.follows db.
Proof.
  unfold DatabaseStorage.bump_views, Database.execute.
  now destruct (Sql.update_where _ _ _).
Qed.

Lemma DatabaseStorage_call_follows (c : Call) (db : Database.t) :
  follows_invariant (Database.follows db) ->
  follows_invariant (Database.follows (snd (call c db))).
Proof.
  intros Hinv.
  assert (Hsame : forall db', Database.follows db' = Database.follows db ->
                              follows_invariant (Database.follows db'))
    by (intros db' ->; exact Hinv).
  destruct c; unfold call; rewrite observe_store; simpl; try exact Hinv.
  - (* createUser *)
    apply Hsame, createUser_row_follows.
  - (* createAdminUser *)
    apply Hsame, createUser_row_follows.
  - (* updateUser *)
    apply Hsame. unfold DatabaseStorage.updateUser.
    repeat break_match; reflexivity.
  - (* createSnippet *)
    apply Hsame.
    unfold DatabaseStorage.createSnippet, DatabaseStorage.insert_into, bind,
      Database.execute, ret.
    now destruct (Sql.insert _ _ _).
  - (* updateSnippet *)
    apply Hsame. unfold DatabaseStorage.updateSnippet.
    repeat break_match; reflexivity.
  - (* incrementViews *)
    apply Hsame. rewrite DatabaseStorage_incrementViews_eq.
    break_match; [reflexivity|].
    unfold bind, DatabaseStorage.insert_into, Database.execute.
    destruct (Sql.insert _ _ _); simpl; [|reflexivity].
    now rewrite bump_views_follows.
  - (* likeSnippet *)
    apply Hsame.
    unfold DatabaseStorage.likeSnippet, DatabaseStorage.select_like, bind,
      Database.query, ret, DatabaseStorage.insert_into, Database.execute.
    destruct (Sql.first _); [reflexivity|].
    destruct (Sql.insert _ _ _); simpl; [|reflexivity].
    match goal with
    | |- context [DatabaseStorage.bump_likes ?d ?s ?x] =>
        pose proof (bump_likes_follows d s x) as Hb;
        destruct (DatabaseStorage.bump_likes d s x) as [[u|e] db2]
    end; simpl in *; now rewrite Hb.
  - (* unlikeSnippet *)
    apply Hsame.
    unfold DatabaseStorage.unlikeSnippet, DatabaseStorage.select_like, bind,
      Database.query, ret, Database.execute.
    destruct (Sql.first _); [|reflexivity]. simpl.
    match goal with
    | |- context [DatabaseStorage.bump_likes ?d ?s ?x] =>
        pose proof (bump_likes_follows d s x) as Hb;
        destruct (DatabaseStorage.bump_likes d s x) as [[u|e] db2]
    end; simpl in *; now rewrite Hb.
  - (* deleteUserAndSnippets *)
    now apply follows_invariant_delete_where.
  - (* followUser *)
    unfold DatabaseStorage.followUser.
    destruct (followerId =? followingId)%string eqn:Eself; [exact Hinv|].
    unfold DatabaseStorage.select_follow, bind, Database.query, ret,
      DatabaseStorage.insert_into, Database.execute, Sql.insert.
    destruct (Sql.first _) eqn:Efirst; [exact Hinv|].
    destruct (Sql.taken _ _ _); [exact Hinv|]. simpl.
    apply follows_invariant_app.
    + simpl. now apply String.eqb_neq.
    + apply no_pair_when_not_found. now apply first_filter_none_iff.
    + exact Hinv.
  - (* unfollowUser *)
    now apply follows_invariant_delete_where.
  - (* createNotification *)
    apply Hsame.
    unfold DatabaseStorage.createNotification, DatabaseStorage.insert_into,
      bind, Database.execute, ret.
    now destruct (Sql.insert _ _ _).
Qed.

Lemma run_store {S} `{IStorage.t S} (c : Call) (cs : list Call) (s : S) :
  snd (run (c :: cs) s) = snd (run cs (snd (call c s))).
Proof.
  simpl. destruct (call c s) as [o s1]. simpl.
  now destruct (run cs s1) as [os s2].
Qed.

Lemma run_invariant {S} `{IStorage.t S} (P : S -> Prop) :
  (forall c s, P s -> P (snd (call c s))) ->
  forall cs s, P s -> P (snd (run cs s)).
Proof.
  intros Hstep cs. induction cs as [|c cs IH]; intros s Hs.
  - exact Hs.
  - rewrite run_store. apply IH. now apply Hstep.
Qed.

Lemma follows_invariant_nil : follows_invariant [].
Proof. split; [intros f []|constructor]. Qed.

(** C8. In every store reached from the empty one by storage calls, in
    MemStorage and in DatabaseStorage alike, no follow record has
    [followerId = followingId] and no (followerId, followingId) pair is
    stored twice; and [followUser f f] returns [false] and changes nothing,
    in any store. *)
Theorem C8_follow_records_invariant :
  (forall cs : list Call,
      follows_invariant
        (JsMap.values (MemStorage.follows (snd (run cs MemStorage.init)))))
  /\ (forall cs : list Call,
         follows_invariant (Database.follows (snd (run cs Database.init))))
  /\ (forall st uuid now f,
         MemStorage.followUser uuid now f f st = (Returned false, st))
  /\ (forall db uuid now f,
         DatabaseStorage.followUser uuid now f f db = (Returned false, db)).
Proof.
  repeat apply conj.
  - intros cs.
    apply (run_invariant
             (fun st => follows_invariant (JsMap.values (MemStorage.follows st)))).
    + intros c s. apply MemStorage_call_follows.
    + exact follows_invariant_nil.
  - intros cs.
    apply (run_invariant (fun db => follows_invariant (Database.follows db))).
    + intros c s. apply DatabaseStorage_call_follows.
    + exact follows_invariant_nil.
  - intros st uuid now f. unfold MemStorage.followUser.
    now rewrite String.eqb_refl.
  - intros db uuid now f. unfold DatabaseStorage.followUser.
    now rewrite String.eqb_refl.
Qed.

(** The route check in front of [followUser]: following one's own username
    is answered 400 before the storage is asked to write. *)
Example follow_self_is_refused :
  Routes.post_follow "f-9" 7000 (Fixture.as_user "u-ann") "ann" Fixture.db
  = (Returned (Response.mk 400 (Response.Message "Cannot follow yourself")),
     Fixture.db)
  /\ Routes.post_follow "f-9" 7000 (Fixture.as_user "u-bob") "ann" Fixture.db
     = (Returned (Response.mk 400
                    (Response.Message "Already following this user")),
        Fixture.db).
Proof. split; vm_compute; reflexivity. Qed.

(** ** Notifying the followers of a new snippet *)

Lemma JsMap_set_fresh {V} (k : string) (v : V) (m : JsMap.t V) :
  ~ In k (JsMap.keys m) -> JsMap.set k v m = (m ++ [(k, v)])%list.
Proof.
  intros Hnew. unfold JsMap.set, JsMap.has.
  now rewrite (proj2 (JsMap_get_none k m) Hnew).
Qed.

Lemma drawn_uuids_step (fresh : nat -> string * Z) (k n : nat) :
  drawn_uuids fresh k (S n) = fst (fresh k) :: drawn_uuids fresh (S k) n.
Proof. reflexivity. Qed.

Lemma fresh_uuids_step (u : string) (us taken : list string) :
  fresh_uuids (u :: us) taken ->
  ~ In u taken /\ fresh_uuids us (taken ++ [u]).
Proof.
  intros [Hnd Hnew]. inversion Hnd as [|? ? Hu Hnd']; subst.
  split; [apply Hnew; now left|].
  split; [exact Hnd'|].
  intros w Hw Hin. apply in_app_or in Hin. destruct Hin as [Hin|[<-|[]]].
  - apply (Hnew w); [now right|exact Hin].
  - exact (Hu Hw).
Qed.

Lemma DatabaseStorage_createNotification_fresh db id now ins :
  ~ In id (map Notification.id (Database.notifications db)) ->
  DatabaseStorage.createNotification id now ins db
  = (Returned (DatabaseStorage.notification_row id now ins),
     Database.set_notifications
       (Database.notifications db
        ++ [DatabaseStorage.notification_row id now ins])%list db).
Proof.
  intros Hnew.
  unfold DatabaseStorage.createNotification, DatabaseStorage.insert_into, bind,
    Database.execute, ret, Sql.insert.
  replace (Sql.taken Notification.id _ (Database.notifications db)) with false;
    [reflexivity|].
  symmetry. apply taken_false_iff. intros r Hr Heq. apply Hnew.
  apply in_map_iff. exists r. now split.
Qed.

Lemma notify_followers_db fresh author snippet followers : forall k db,
  fresh_uuids (drawn_uuids fresh k (List.length followers))
    (map Notification.id (Database.notifications db)) ->
  Routes.notify_followers fresh k author snippet followers db
  = (Returned tt,
     Database.set_notifications
       (Database.notifications db
        ++ expected_notifications DatabaseStorage.notification_row fresh k
             author snippet followers)%list db).
Proof.
  induction followers as [|follower rest IH]; intros k db Hfresh.
  - simpl. unfold ret. rewrite app_nil_r. now destruct db.
  - simpl List.length in Hfresh. rewrite drawn_uuids_step in Hfresh.
    apply fresh_uuids_step in Hfresh. destruct Hfresh as [Hnew Hrest].
    cbn [Routes.notify_followers expected_notifications]. unfold bind.
    cbn [IStorage.createNotification DatabaseStorage_IStorage].
    rewrite (DatabaseStorage_createNotification_fresh db _ _ _ Hnew).
    rewrite IH.
    + cbn [Database.notifications Database.set_notifications].
      rewrite <- app_assoc. now destruct db.
    + cbn [Database.notifications Database.set_notifications].
      rewrite map_app. exact Hrest.
Qed.

Lemma notify_followers_mem fresh author snippet followers : forall k st,
  fresh_uuids (drawn_uuids fresh k (List.length followers))
    (JsMap.keys (MemStorage.notifications st)) ->
  Routes.notify_followers fresh k author snippet followers st
  = (Returned tt,
     MemStorage.set_notifications
       (MemStorage.notifications st
        ++ map (fun n => (Notification.id n, n))
             (expected_notifications MemStorage.new_notification fresh k
                author snippet followers))%list st).
Proof.
  induction followers as [|follower rest IH]; intros k st Hfresh.
  - simpl. unfold ret. rewrite app_nil_r. now destruct st.
  - simpl List.length in Hfresh. rewrite drawn_uuids_step in Hfresh.
    apply fresh_uuids_step in Hfresh. destruct Hfresh as [Hnew Hrest].
    cbn [Routes.notify_followers expected_notifications map]. unfold bind.
    cbn [IStorage.createNotification MemStorage_IStorage].
    unfold MemStorage.createNotification.
    rewrite (JsMap_set_fresh _ _ _ Hnew).
    rewrite IH.
    + cbn [MemStorage.notifications MemStorage.set_notifications].
      rewrite <- app_assoc. now destruct st.
    + cbn [MemStorage.notifications MemStorage.set_notifications].
      unfold JsMap.keys in *. rewrite map_app. exact Hrest.
Qed.

Lemma try_catch_swallow {S} (c : Promise S unit) (s : S) :
  try_catch c (fun _ => ret tt) s = (Returned tt, snd (c s)).
Proof.
  unfold try_catch, ret. now destruct (c s) as [[[]|e] s'].
Qed.

(** [POST /api/snippets] answers 201 with the snippet as soon as
    [createSnippet] has returned it: nothing the notification block does,
    and no error it runs into, changes the answer. *)
Lemma post_snippet_answer {S} `{IStorage.t S} snippetUuid now fresh req userId
    data snippet (s s1 : S) :
  Request.session_userId req = Some userId ->
  Js.truthy (Some userId) = true ->
  IStorage.createSnippet snippetUuid now userId data s = (Returned snippet, s1) ->
  Routes.post_snippet snippetUuid now fresh req (Some data) s
  = (Returned (Response.mk 201 (Response.SnippetJson snippet)),
     after_notifications fresh userId snippet s1).
Proof.
  intros Hsession Htruthy Hcreate.
  unfold Routes.post_snippet, Routes.requireAuth, Routes.catch_400.
  rewrite Hsession, Htruthy.
  unfold try_catch at 1. unfold bind at 1. unfold ret at 1.
  unfold bind at 1. rewrite Hcreate.
  unfold bind at 1. unfold after_notifications.
  destruct (Snippet.isPublic snippet).
  - rewrite try_catch_swallow. reflexivity.
  - reflexivity.
Qed.

Lemma notify_followers_db_snippets fresh author snippet followers : forall k db,
  Database.snippets
    (snd (Routes.notify_followers fresh k author snippet followers db))
  = Database.snippets db.
Proof.
  induction followers as [|follower rest IH]; intros k db; [reflexivity|].
  cbn [Routes.notify_followers]. unfold bind.
  cbn [IStorage.createNotification DatabaseStorage_IStorage].
  unfold DatabaseStorage.createNotification, DatabaseStorage.insert_into, bind,
    Database.execute, ret.
  destruct (Sql.insert _ _ _); [|reflexivity].
  rewrite IH. reflexivity.
Qed.

Lemma notify_followers_mem_snippets fresh author snippet followers : forall k st,
  MemStorage.snippets
    (snd (Routes.notify_followers fresh k author snippet followers st))
  = MemStorage.snippets st.
Proof.
  induction followers as [|follower rest IH]; intros k st; [reflexivity|].
  cbn [Routes.notify_followers]. unfold bind.
  cbn [IStorage.createNotification MemStorage_IStorage].
  unfold MemStorage.createNotification. rewrite IH. reflexivity.
Qed.

Lemma after_notifications_db_snippets fresh userId snippet db :
  Database.snippets (after_notifications fresh userId snippet db)
  = Database.snippets db.
Proof.
  unfold after_notifications. destruct (Snippet.isPublic snippet); [|reflexivity].
  unfold bind. cbn [IStorage.getFollowers IStorage.getUser
                      DatabaseStorage_IStorage].
  unfold DatabaseStorage.getFollowers, DatabaseStorage.getUser, Database.query.
  destruct (Sql.first _); [|reflexivity].
  apply notify_followers_db_snippets.
Qed.

Lemma after_notifications_mem_snippets fresh userId snippet st :
  MemStorage.snippets (after_notifications fresh userId snippet st)
  = MemStorage.snippets st.
Proof.
  unfold after_notifications. destruct (Snippet.isPublic snippet); [|reflexivity].
  unfold bind. cbn [IStorage.getFollowers IStorage.getUser MemStorage_IStorage].
  unfold MemStorage.getFollowers, MemStorage.getUser.
  destruct (JsMap.get _ _); [|reflexivity].
  apply notify_followers_mem_snippets.
Qed.

Lemma after_notifications_db_public fresh userId snippet db author followers :
  Snippet.isPublic snippet = true ->
  DatabaseStorage.getUser userId db = (Returned (Some author), db) ->
  DatabaseStorage.getFollowers userId db = (Returned followers, db) ->
  fresh_uuids (drawn_uuids fresh 0 (List.length followers))
    (map Notification.id (Database.notifications db)) ->
  after_notifications fresh userId snippet db
  = Database.set_notifications
      (Database.notifications db
       ++ expected_notifications DatabaseStorage.notification_row fresh 0
            author snippet followers)%list db.
Proof.
  intros Hpub Huser Hfollowers Hfresh. unfold after_notifications.
  rewrite Hpub. unfold bind.
  cbn [IStorage.getFollowers IStorage.getUser DatabaseStorage_IStorage].
  rewrite Hfollowers, Huser.
  now rewrite (notify_followers_db fresh author snippet followers 0 db Hfresh).
Qed.

Lemma after_notifications_mem_public fresh userId snippet st author followers :
  Snippet.isPublic snippet = true ->
  MemStorage.getUser userId st = (Returned (Some author), st) ->
  MemStorage.getFollowers userId st = (Returned followers, st) ->
  fresh_uuids (drawn_uuids fresh 0 (List.length followers))
    (JsMap.keys (MemStorage.notifications st)) ->
  after_notifications fresh userId snippet st
  = MemStorage.set_notifications
      (MemStorage.notifications st
       ++ map (fun n => (Notification.id n, n))
            (expected_notifications MemStorage.new_notification fresh 0
               author snippet followers))%list st.
Proof.
  intros Hpub Huser Hfollowers Hfresh. unfold after_notifications.
  rewrite Hpub. unfold bind.
  cbn [IStorage.getFollowers IStorage.getUser MemStorage_IStorage].
  rewrite Hfollowers, Huser.
  now rewrite (notify_followers_mem fresh author snippet followers 0 st Hfresh).
Qed.

Lemma DatabaseStorage_createSnippet_fresh db id now authorId data :
  ~ In id (map Snippet.id (Database.snippets db)) ->
  DatabaseStorage.createSnippet id now authorId data db
  = (Returned (DatabaseStorage.snippet_row id now authorId data),
     Database.set_snippets
       (Database.snippets db
        ++ [DatabaseStorage.snippet_row id now authorId data])%list db).
Proof.
  intros Hnew.
  unfold DatabaseStorage.createSnippet, DatabaseStorage.insert_into, bind,
    Database.execute, ret, Sql.insert.
  replace (Sql.taken Snippet.id _ (Database.snippets db)) with false;
    [reflexivity|].
  symmetry. apply taken_false_iff. intros r Hr Heq. apply Hnew.
  apply in_map_iff. exists r. now split.
Qed.

(** C6, as the code has it. An authenticated [POST /api/snippets] with a
    valid body answers 201 with the created snippet and keeps it stored,
    whatever the notification block does (an error in it is swallowed). A
    snippet that is not public notifies nobody. For a public snippet whose
    author has a user record, and uuids that are fresh, the notifications
    grow by exactly one 'new_snippet' notification per follower returned by
    [getFollowers], each pointing at the snippet and its author. *)
Theorem C6_public_snippet_notifies_followers :
  (forall st snippetUuid now fresh req userId data,
      Request.session_userId req = Some userId ->
      Js.truthy (Some userId) = true ->
      let snippet := MemStorage.new_snippet snippetUuid now userId data in
      let st1 :=
        MemStorage.set_snippets
          (JsMap.set snippetUuid snippet (MemStorage.snippets st)) st in
      exists st',
        Routes.post_snippet snippetUuid now fresh req (Some data) st
        = (Returned (Response.mk 201 (Response.SnippetJson snippet)), st')
        /\ MemStorage.snippets st' = MemStorage.snippets st1
        /\ (Snippet.isPublic snippet = false -> st' = st1)
        /\ (Snippet.isPublic snippet = true ->
            forall author followers,
              MemStorage.getUser userId st = (Returned (Some author), st) ->
              MemStorage.getFollowers userId st = (Returned followers, st) ->
              fresh_uuids (drawn_uuids fresh 0 (List.length followers))
                (JsMap.keys (MemStorage.notifications st)) ->
              st' = MemStorage.set_notifications
                      (MemStorage.notifications st
                       ++ map (fun n => (Notification.id n, n))
                            (expected_notifications MemStorage.new_notification
                               fresh 0 author snippet followers))%list st1))
  /\ (forall db snippetUuid now fresh req userId data,
         Request.session_userId req = Some userId ->
         Js.truthy (Some userId) = true ->
         ~ In snippetUuid (map Snippet.id (Database.snippets db)) ->
         let snippet :=
           DatabaseStorage.snippet_row snippetUuid now userId data in
         let db1 :=
           Database.set_snippets (Database.snippets db ++ [snippet])%list db in
         exists db',
           Routes.post_snippet snippetUuid now fresh req (Some data) db
           = (Returned (Response.mk 201 (Response.SnippetJson snippet)), db')
           /\ Database.snippets db' = Database.snippets db1
           /\ (Snippet.isPublic snippet = false -> db' = db1)
           /\ (Snippet.isPublic snippet = true ->
               forall author followers,
                 DatabaseStorage.getUser userId db
                 = (Returned (Some author), db) ->
                 DatabaseStorage.getFollowers userId db
                 = (Returned followers, db) ->
                 fresh_uuids (drawn_uuids fresh 0 (List.length followers))
                   (map Notification.id (Database.notifications db)) ->
                 db' = Database.set_notifications
                         (Database.notifications db
                          ++ expected_notifications
                               DatabaseStorage.notification_row fresh 0 author
                               snippet followers)%list db1)).
Proof.
  split.
  - intros st snippetUuid now fresh req userId data Hsession Htruthy snippet st1.
    exists (after_notifications fresh userId snippet st1).
    split; [|split; [|split]].
    + now apply post_snippet_answer with (userId := userId).
    + apply after_notifications_mem_snippets.
    + intros Hpriv. unfold after_notifications. now rewrite Hpriv.
    + intros Hpub author followers Huser Hfollowers Hfresh.
      assert (Huser1 : MemStorage.getUser userId st1
                       = (Returned (Some author), st1)).
      { unfold MemStorage.getUser in *. injection Huser as Huser.
        subst st1. cbn [MemStorage.users MemStorage.set_snippets].
        now rewrite Huser. }
      assert (Hfollowers1 : MemStorage.getFollowers userId st1
                            = (Returned followers, st1)).
      { unfold MemStorage.getFollowers, MemStorage.lookup_users in *.
        injection Hfollowers as Hf. subst st1.
        cbn [MemStorage.users MemStorage.follows MemStorage.set_snippets].
        now rewrite Hf. }
      rewrite (@after_notifications_mem_public fresh userId snippet st1 author
                 followers Hpub Huser1 Hfollowers1 Hfresh).
      reflexivity.
  - intros db snippetUuid now fresh req userId data Hsession Htruthy Hnew
      snippet db1.
    exists (after_notifications fresh userId snippet db1).
    split; [|split; [|split]].
    + apply post_snippet_answer with (userId := userId);
        [exact Hsession|exact Htruthy|].
      now apply DatabaseStorage_createSnippet_fresh.
    + apply after_notifications_db_snippets.
    + intros Hpriv. unfold after_notifications. now rewrite Hpriv.
    + intros Hpub author followers Huser Hfollowers Hfresh.
      assert (Huser1 : DatabaseStorage.getUser userId db1
                       = (Returned (Some author), db1)).
      { unfold DatabaseStorage.getUser, Database.query in *.
        injection Huser as Huser. subst db1.
        cbn [Database.users Database.set_snippets]. now rewrite Huser. }
      assert (Hfollowers1 : DatabaseStorage.getFollowers userId db1
                            = (Returned followers, db1)).
      { unfold DatabaseStorage.getFollowers, Database.query in *.
        injection Hfollowers as Hf. subst db1.
        cbn [Database.users Database.follows Database.set_snippets].
        now rewrite Hf. }
      rewrite (@after_notifications_db_public fresh userId snippet db1 author
                 followers Hpub Huser1 Hfollowers1 Hfresh).
      reflexivity.
Qed.

(** C6 as stated fails for a private snippet. Ann has two followers; she
    posts a snippet that is not public; the answer is 201 and the snippet is
    stored, yet no follower gets a notification. *)
Lemma C6_private_snippet_notifies_nobody :
  let r :=
    Routes.post_snippet "s-new" 8000 NotifyFixture.fresh
      (Fixture.as_user "u-ann") (Some (Fixture.hello false)) NotifyFixture.db in
  (exists snippet,
      fst r = Returned (Response.mk 201 (Response.SnippetJson snippet))
      /\ Snippet.id snippet = "s-new"
      /\ In snippet (Database.snippets (snd r)))
  /\ (exists followers,
         DatabaseStorage.getFollowers "u-ann" NotifyFixture.db
         = (Returned followers, NotifyFixture.db)
         /\ map User.id followers = ["u-bob"; "u-root"]
         /\ ~ (forall follower, In follower followers ->
                 exists n,
                   In n (Database.notifications (snd r))
                   /\ Notification.userId n = User.id follower
                   /\ Notification.type n = "new_snippet"
                   /\ Notification.snippetId n = Some "s-new"
                   /\ Notification.fromUserId n = Some "u-ann")).
Proof.
  split.
  - eexists. split; [vm_compute; reflexivity|]. split; [reflexivity|].
    vm_compute. tauto.
  - eexists. split; [vm_compute; reflexivity|]. split; [reflexivity|].
    intros Hall.
    destruct (Hall _ (or_introl eq_refl)) as [n [Hin _]].
    vm_compute in Hin. exact Hin.
Qed.

Lemma NotifyFixture_fresh :
  fresh_uuids (drawn_uuids NotifyFixture.fresh 0 2) [].
Proof.
  split.
  - vm_compute. repeat constructor; simpl; intuition discriminate.
  - intros u _ [].
Qed.

Lemma C6_public_snippet_notifies_followers_witness :
  exists db',
    Routes.post_snippet "s-new" 8000 NotifyFixture.fresh
      (Fixture.as_user "u-ann") (Some (Fixture.hello true)) NotifyFixture.db
    = (Returned
         (Response.mk 201
            (Response.SnippetJson
               (DatabaseStorage.snippet_row "s-new" 8000 "u-ann"
                  (Fixture.hello true)))), db')
    /\ map (fun n => (Notification.id n, Notification.userId n,
                      Notification.type n, Notification.snippetId n,
                      Notification.fromUserId n))
           (Database.notifications db')
       = [ ("0-note", "u-bob", "new_snippet", Some "s-new", Some "u-ann");
           ("1-note", "u-root", "new_snippet", Some "s-new", Some "u-ann") ].
Proof.
  destruct (proj2 C6_public_snippet_notifies_followers NotifyFixture.db "s-new"
              8000 NotifyFixture.fresh (Fixture.as_user "u-ann") "u-ann"
              (Fixture.hello true) eq_refl eq_refl)
    as [db' [Hanswer [_ [_ Hpublic]]]].
  - vm_compute. intuition discriminate.
  - exists db'. split; [exact Hanswer|].
    rewrite (Hpublic eq_refl
               (DatabaseStorage.user_row "u-ann" "h-ann" 1000 RankDefault
                  Fixture.ann)
               [DatabaseStorage.user_row "u-bob" "h-bob" 1001 RankDefault
                  Fixture.bob;
                DatabaseStorage.user_row "u-root" "h-root" 1002 RankAdmin
                  Fixture.root]
               eq_refl eq_refl NotifyFixture_fresh).
    vm_compute. reflexivity.
Defined.

(** A notification write that fails is swallowed: when the second uuid is
    already taken, the loop stops after the first follower, and the answer
    is still 201. *)
Example failed_notification_is_swallowed :
  let taken :=
    snd (DatabaseStorage.createNotification "1-note" 7000 DeleteFixture.note
           NotifyFixture.db) in
  let r :=
    Routes.post_snippet "s-new" 8000 NotifyFixture.fresh
      (Fixture.as_user "u-ann") (Some (Fixture.hello true)) taken in
  option_map Response.status
    (match fst r with Returned a => Some a | Threw _ => None end) = Some 201
  /\ map Notification.id (Database.notifications (snd r))
     = ["1-note"; "0-note"].
Proof. split; vm_compute; reflexivity. Qed.

(** ** The representation invariant of MemStorage *)

(** Every map of MemStorage is keyed by the id of its values in every store
    reached from the empty one, as long as no update rewrites an id: the
    hypothesis of the cascade statement is an invariant of the program. *)

Section KeyedFacts.
Context {V : Type} (id : V -> string).

Lemma JsMap_replace_sub (k : string) (v : V) (m : JsMap.t V) (e : string * V) :
  In e (JsMap.replace k v m) -> e = (k, v) \/ In e m.
Proof.
  induction m as [|[k' v'] m IH]; simpl; [tauto|].
  destruct (k' =? k)%string eqn:E.
  - apply String.eqb_eq in E. subst. simpl. intros [<-|Hin]; tauto.
  - simpl. intros [<-|Hin]; [tauto|]. destruct (IH Hin); tauto.
Qed.

Lemma JsMap_set_sub (k : string) (v : V) (m : JsMap.t V) (e : string * V) :
  In e (JsMap.set k v m) -> e = (k, v) \/ In e m.
Proof.
  unfold JsMap.set. destruct (JsMap.has k m).
  - apply JsMap_replace_sub.
  - intros Hin. apply in_app_or in Hin. destruct Hin as [Hin|[<-|[]]]; tauto.
Qed.

Lemma keyed_set (k : string) (v : V) (m : JsMap.t V) :
  keyed_by_id id m -> k = id v -> keyed_by_id id (JsMap.set k v m).
Proof.
  intros Hkey Hk k' v' Hin. apply JsMap_set_sub in Hin.
  destruct Hin as [[= -> ->]|Hin]; [exact Hk|now apply Hkey].
Qed.

Lemma keyed_delete (k : string) (m : JsMap.t V) :
  keyed_by_id id m -> keyed_by_id id (JsMap.delete k m).
Proof.
  intros Hkey. apply keyed_sub with (m := m); [exact Hkey|].
  intros e He. now apply JsMap_delete_In in He.
Qed.

Lemma keyed_delete_all (ks : list string) (m : JsMap.t V) :
  keyed_by_id id m -> keyed_by_id id (JsMap.delete_all ks m).
Proof.
  intros Hkey. apply keyed_sub with (m := m); [exact Hkey|].
  intros e He. now apply JsMap_delete_all_In in He.
Qed.

Lemma keyed_get (k : string) (v : V) (m : JsMap.t V) :
  keyed_by_id id m -> JsMap.get k m = Some v -> k = id v.
Proof. intros Hkey Hget. apply Hkey. now apply JsMap_get_In. Qed.

Lemma keyed_nil : keyed_by_id id [].
Proof. intros k v []. Qed.

End KeyedFacts.

Ltac keyed_done :=
  unfold MemStorage_keyed; simpl;
  repeat apply conj;
  repeat first [ assumption | reflexivity
               | apply keyed_delete | apply keyed_delete_all
               | apply keyed_set ].

Lemma mark_all_keyed (l : list Notification.t) :
  forall m, keyed_by_id Notification.id m ->
  keyed_by_id Notification.id
    (fold_left (fun m n => JsMap.set (Notification.id n) (Notification.mark_read n) m) l m).
Proof.
  induction l as [|n l IH]; intros m Hm; simpl; [exact Hm|].
  apply IH. now apply keyed_set.
Qed.

Lemma MemStorage_call_keyed (c : Call) (st : MemStorage.t) :
  keeps_ids c -> MemStorage_keyed st -> MemStorage_keyed (snd (call c st)).
Proof.
  intros Hids Hkeyed.
  destruct c; unfold call; rewrite observe_store; simpl; try exact Hkeyed;
  pose proof Hkeyed as Hall;
  destruct Hkeyed as [Hku [Hks [Hkl [Hkv [Hkf Hkn]]]]];
  try (keyed_done; fail).
  - (* updateUser *)
    unfold MemStorage.updateUser.
    destruct (JsMap.get id (MemStorage.users st)) as [user|] eqn:E;
      [|exact Hall].
    keyed_done. simpl in Hids. unfold spread_user. simpl. rewrite Hids. simpl.
    now apply keyed_get with (m := MemStorage.users st).
  - unfold MemStorage.getSnippetWithAuthor. repeat break_match; exact Hall.
  - unfold MemStorage.getSnippetsByAuthor. repeat break_match; exact Hall.
  - unfold MemStorage.getUserOwnSnippets. repeat break_match; exact Hall.
  - (* updateSnippet *)
    unfold MemStorage.updateSnippet.
    destruct (JsMap.get id (MemStorage.snippets st)) as [snippet|] eqn:E;
      [|exact Hall].
    keyed_done. simpl in Hids. unfold spread_snippet. simpl. rewrite Hids.
    simpl. now apply keyed_get with (m := MemStorage.snippets st).
  - (* incrementViews *)
    unfold MemStorage.incrementViews.
    destruct (find _ _); [exact Hall|]. simpl.
    destruct (JsMap.get snippetId (MemStorage.snippets st)) eqn:E;
      keyed_done.
    simpl. now apply keyed_get with (m := MemStorage.snippets st).
  - (* likeSnippet *)
    unfold MemStorage.likeSnippet.
    destruct (find _ _); [exact Hall|]. simpl.
    destruct (JsMap.get snippetId (MemStorage.snippets st)) eqn:E;
      keyed_done.
    simpl. now apply keyed_get with (m := MemStorage.snippets st).
  - (* unlikeSnippet *)
    unfold MemStorage.unlikeSnippet.
    destruct (find _ _); [|exact Hall]. simpl.
    destruct (JsMap.get snippetId (MemStorage.snippets st)) eqn:E;
      [destruct (Z.gtb _ _)|]; keyed_done.
    simpl. now apply keyed_get with (m := MemStorage.snippets st).
  - (* deleteUserAndSnippets *)
    unfold MemStorage.deleteUserAndSnippets.
    destruct (JsMap.get userId (MemStorage.users st)); [|exact Hall].
    match goal with
    | |- context [fold_left MemStorage.delete_snippet_cascade ?l st] =>
        destruct (delete_snippet_cascade_fold l st Hkl Hkv)
          as [Hu [Hf [Hn [Hs [Hl Hv]]]]];
        set (st1 := fold_left MemStorage.delete_snippet_cascade l st) in *
    end.
    unfold MemStorage_keyed. simpl. rewrite Hu, Hf, Hn.
    repeat apply conj;
      repeat first [ assumption | apply keyed_delete | apply keyed_delete_all ].
    + apply keyed_sub with (m := MemStorage.snippets st); [exact Hks|].
      intros e He. now apply Hs.
    + apply keyed_sub with (m := MemStorage.snippetLikes st); [exact Hkl|].
      intros e He. now apply Hl.
    + apply keyed_sub with (m := MemStorage.snippetViews st); [exact Hkv|].
      intros e He. now apply Hv.
  - (* followUser *)
    unfold MemStorage.followUser.
    destruct (followerId =? followingId)%string; [exact Hall|].
    destruct (find _ _); [exact Hall|]. keyed_done.
  - (* unfollowUser *)
    unfold MemStorage.unfollowUser.
    destruct (find _ _); [|exact Hall]. keyed_done.
  - (* markNotificationRead *)
    unfold MemStorage.markNotificationRead.
    destruct (JsMap.get id (MemStorage.notifications st)) eqn:E;
      [|exact Hall].
    destruct (negb _); [exact Hall|]. keyed_done.
    simpl. now apply keyed_get with (m := MemStorage.notifications st).
  - (* markAllNotificationsRead *)
    unfold MemStorage_keyed. simpl. repeat apply conj; try assumption.
    apply mark_all_keyed. intros k v Hin. apply in_map_iff in Hin.
    destruct Hin as [[k0 v0] [He Hin]]. simpl in He.
    destruct (_ && _); injection He as <- <-; simpl; now apply Hkn.
Qed.

Lemma MemStorage_keyed_reachable (cs : list Call) :
  Forall keeps_ids cs -> MemStorage_keyed (snd (run cs MemStorage.init)).
Proof.
  assert (Hgen : forall st, MemStorage_keyed st -> Forall keeps_ids cs ->
                            MemStorage_keyed (snd (run cs st))).
  { induction cs as [|c cs IH]; intros st Hst Hcs; [exact Hst|].
    inversion Hcs; subst. rewrite run_store. apply IH; [|assumption].
    now apply MemStorage_call_keyed. }
  intros Hcs. apply Hgen; [|exact Hcs].
  unfold MemStorage_keyed. simpl. repeat split; apply keyed_nil.
Qed.

(** ** Private snippets are never served to others *)

Lemma get_snippet_missing {S} `{IStorage.t S} viewId now req id (st st1 : S) :
  IStorage.getSnippetWithAuthor id st = (Returned None, st1) ->
  Routes.get_snippet viewId now req id st
  = (Returned (Response.mk 404 (Response.Message "Snippet not found")), st1).
Proof.
  intros Hget. unfold Routes.get_snippet, Routes.catch_400, try_catch, bind.
  now rewrite Hget.
Qed.

Lemma join_author_In db rows row :
  In row (Database.join_author db rows) ->
  In (SnippetWithAuthor.snippet row) rows.
Proof.
  unfold Database.join_author. intros Hin. apply in_flat_map in Hin.
  destruct Hin as [snippet [Hs Hin]]. apply in_map_iff in Hin.
  destruct Hin as [user [<- _]]. exact Hs.
Qed.

(** Whether or not its author still has a user record, a stored private
    snippet is not handed to a requester who is not its author: the answer
    is 403, or 404 when the author record is gone, and the store is left
    alone. *)
Lemma private_snippet_never_served_mem st viewId now req id snippet :
  JsMap.get id (MemStorage.snippets st) = Some snippet ->
  Snippet.isPublic snippet = false ->
  Request.session_userId req <> Some (Snippet.authorId snippet) ->
  Routes.get_snippet viewId now req id st
  = (Returned (Response.mk 403 (Response.Message "Access denied")), st)
  \/ Routes.get_snippet viewId now req id st
     = (Returned (Response.mk 404 (Response.Message "Snippet not found")), st).
Proof.
  intros Hget Hpriv Hother.
  destruct (JsMap.get (Snippet.authorId snippet) (MemStorage.users st))
    as [author|] eqn:Eauthor.
  - left.
    apply get_snippet_denied
      with (snippet := SnippetWithAuthor.mk snippet (author_of author) None).
    + cbn [IStorage.getSnippetWithAuthor MemStorage_IStorage].
      unfold MemStorage.getSnippetWithAuthor. now rewrite Hget, Eauthor.
    + exact Hpriv.
    + unfold Routes.not_author. simpl.
      destruct (Request.session_userId req) as [u|]; [|reflexivity].
      apply negb_true_iff, String.eqb_neq. congruence.
  - right. apply get_snippet_missing.
    cbn [IStorage.getSnippetWithAuthor MemStorage_IStorage].
    unfold MemStorage.getSnippetWithAuthor. now rewrite Hget, Eauthor.
Qed.

Lemma private_snippet_never_served_db db viewId now req id :
  (forall snippet, In snippet (Database.snippets db) ->
                   Snippet.id snippet = id ->
                   Snippet.isPublic snippet = false
                   /\ Request.session_userId req
                      <> Some (Snippet.authorId snippet)) ->
  Routes.get_snippet viewId now req id db
  = (Returned (Response.mk 403 (Response.Message "Access denied")), db)
  \/ Routes.get_snippet viewId now req id db
     = (Returned (Response.mk 404 (Response.Message "Snippet not found")), db).
Proof.
  intros Hrows.
  destruct (Sql.first
              (filter (fun row =>
                         (Snippet.id (SnippetWithAuthor.snippet row) =? id)%string)
                      (Database.join_author db (Database.snippets db))))
    as [row|] eqn:Efirst.
  - left.
    assert (Hrow : In row
                     (filter (fun row =>
                                (Snippet.id (SnippetWithAuthor.snippet row)
                                 =? id)%string)
                             (Database.join_author db (Database.snippets db)))).
    { unfold Sql.first in Efirst. destruct (filter _ _); [discriminate|].
      injection Efirst as ->. now left. }
    apply filter_In in Hrow. destruct Hrow as [Hin Hid].
    apply String.eqb_eq in Hid. apply join_author_In in Hin.
    destruct (Hrows _ Hin Hid) as [Hpriv Hother].
    apply get_snippet_denied with (snippet := row).
    + cbn [IStorage.getSnippetWithAuthor DatabaseStorage_IStorage].
      unfold DatabaseStorage.getSnippetWithAuthor, Database.query.
      now rewrite Efirst.
    + exact Hpriv.
    + unfold Routes.not_author.
      destruct (Request.session_userId req) as [u|]; [|reflexivity].
      apply negb_true_iff, String.eqb_neq. congruence.
  - right. apply get_snippet_missing.
    cbn [IStorage.getSnippetWithAuthor DatabaseStorage_IStorage].
    unfold DatabaseStorage.getSnippetWithAuthor, Database.query.
    now rewrite Efirst.
Qed.

(** ** A like stays until it is taken back *)

(** The like record of a successful [likeSnippet] survives every storage
    call except the same user's [unlikeSnippet] of the same snippet and the
    admin cascade (which deletes the user or the snippet along with it); in
    MemStorage, where [Map.set] overwrites, the uuid must not be drawn again
    either. So a later [likeSnippet] of the pair is still refused. *)




Section JsMapKeyFacts.

Context {V : Type}.







End JsMapKeyFacts.










(** ** Round trips of the storage *)

Section JsMapRoundTrip.

Context {V : Type}.

Lemma JsMap_has_keys (k : string) (m : JsMap.t V) :
  JsMap.has k m = false <-> ~ In k (JsMap.keys m).
Proof.
  unfold JsMap.has. rewrite <- JsMap_get_none.
  destruct (JsMap.get k m); split; congruence.
Qed.

Lemma JsMap_set_append (k : string) (v : V) (m : JsMap.t V) :
  ~ In k (JsMap.keys m) -> JsMap.set k v m = (m ++ [(k, v)])%list.
Proof.
  intros Hk. unfold JsMap.set. now rewrite (proj2 (JsMap_has_keys k m) Hk).
Qed.

Lemma JsMap_delete_absent (k : string) (m : JsMap.t V) :
  ~ In k (JsMap.keys m) -> JsMap.delete k m = m.
Proof.
  unfold JsMap.delete, JsMap.keys.
  induction m as [|[k' v'] m IH]; simpl; intros Hk; [reflexivity|].
  destruct (k' =? k)%string eqn:E.
  - apply String.eqb_eq in E. elim Hk. now left.
  - simpl. f_equal. apply IH. intros Hin. apply Hk. now right.
Qed.

Lemma JsMap_delete_appended (k : string) (v : V) (m : JsMap.t V) :
  ~ In k (JsMap.keys m) -> JsMap.delete k (m ++ [(k, v)])%list = m.
Proof.
  intros Hk. unfold JsMap.delete. rewrite filter_app. simpl.
  rewrite String.eqb_refl. simpl. rewrite app_nil_r.
  now apply JsMap_delete_absent.
Qed.

Lemma JsMap_values_app (m m' : JsMap.t V) :
  JsMap.values (m ++ m')%list = (JsMap.values m ++ JsMap.values m')%list.
Proof. unfold JsMap.values. apply map_app. Qed.

Lemma JsMap_get_replace_same (k : string) (v : V) (m : JsMap.t V) :
  JsMap.has k m = true -> JsMap.get k (JsMap.replace k v m) = Some v.
Proof.
  unfold JsMap.has. induction m as [|[k' v'] m IH]; simpl; [discriminate|].
  destruct (k' =? k)%string eqn:E; simpl; rewrite E; [reflexivity|exact IH].
Qed.

Lemma JsMap_get_app_absent (k : string) (m m' : JsMap.t V) :
  JsMap.get k m = None -> JsMap.get k (m ++ m')%list = JsMap.get k m'.
Proof.
  induction m as [|[k' v'] m IH]; simpl; [reflexivity|].
  destruct (k' =? k)%string; [discriminate|exact IH].
Qed.

Lemma JsMap_get_set_same (k : string) (v : V) (m : JsMap.t V) :
  JsMap.get k (JsMap.set k v m) = Some v.
Proof.
  unfold JsMap.set. destruct (JsMap.has k m) eqn:E.
  - now apply JsMap_get_replace_same.
  - unfold JsMap.has in E. destruct (JsMap.get k m) eqn:G; [discriminate|].
    rewrite JsMap_get_app_absent by exact G. simpl.
    now rewrite String.eqb_refl.
Qed.

Lemma JsMap_replace_restore (k : string) (v v0 : V) (m : JsMap.t V) :
  JsMap.get k m = Some v0 -> JsMap.replace k v0 (JsMap.replace k v m) = m.
Proof.
  induction m as [|[k' v'] m IH]; simpl; [discriminate|].
  destruct (k' =? k)%string eqn:E; simpl; rewrite E.
  - now intros [= ->].
  - intros G. f_equal. now apply IH.
Qed.

Lemma JsMap_set_restore (k : string) (v v0 : V) (m : JsMap.t V) :
  JsMap.get k m = Some v0 -> JsMap.set k v0 (JsMap.set k v m) = m.
Proof.
  intros G. unfold JsMap.set at 2.
  assert (Hh : JsMap.has k m = true) by (unfold JsMap.has; now rewrite G).
  rewrite Hh. unfold JsMap.set.
  assert (Hh' : JsMap.has k (JsMap.replace k v m) = true).
  { unfold JsMap.has. now rewrite JsMap_get_replace_same. }
  rewrite Hh'. now apply JsMap_replace_restore.
Qed.

End JsMapRoundTrip.

Lemma find_appended {A} (p : A -> bool) (l : list A) (x : A) :
  find p l = None -> find p (l ++ [x]) = if p x then Some x else None.
Proof.
  induction l as [|a l IH]; simpl; [reflexivity|].
  destruct (p a); [discriminate|exact IH].
Qed.

Lemma filter_none {A} (p : A -> bool) (l : list A) :
  (forall x, In x l -> p x = false) -> filter p l = [].
Proof.
  induction l as [|a l IH]; simpl; intros Hall; [reflexivity|].
  rewrite (Hall a (or_introl eq_refl)). apply IH.
  intros x Hx. apply Hall. now right.
Qed.

Lemma filter_all {A} (p : A -> bool) (l : list A) :
  (forall x, In x l -> p x = true) -> filter p l = l.
Proof.
  induction l as [|a l IH]; simpl; intros Hall; [reflexivity|].
  rewrite (Hall a (or_introl eq_refl)). f_equal. apply IH.
  intros x Hx. apply Hall. now right.
Qed.

Lemma delete_where_appended {A} (p : A -> bool) (rows : list A) (row : A) :
  (forall x, In x rows -> p x = false) -> p row = true ->
  Sql.delete_where p (rows ++ [row]) = rows.
Proof.
  intros Hall Hrow. unfold Sql.delete_where. rewrite filter_app. simpl.
  rewrite Hrow. simpl. rewrite app_nil_r. apply filter_all.
  intros x Hx. now rewrite (Hall x Hx).
Qed.

Lemma row_count_appended {A} (p : A -> bool) (rows : list A) (row : A) :
  (forall x, In x rows -> p x = false) -> p row = true ->
  Sql.row_count p (rows ++ [row]) = 1.
Proof.
  intros Hall Hrow. unfold Sql.row_count. rewrite filter_app. simpl.
  rewrite Hrow. now rewrite filter_none by exact Hall.
Qed.

Lemma MemStorage_set_follows_back (st : MemStorage.t) m :
  MemStorage.set_follows (MemStorage.follows st) (MemStorage.set_follows m st)
  = st.
Proof. now destruct st. Qed.

Lemma Database_set_follows_back (db : Database.t) r :
  Database.set_follows (Database.follows db) (Database.set_follows r db) = db.
Proof. now destruct db. Qed.

Lemma MemStorage_follow_round_trip st st1 uuid now f g :
  ~ In uuid (JsMap.keys (MemStorage.follows st)) ->
  MemStorage.followUser uuid now f g st = (Returned true, st1) ->
  MemStorage.isFollowing f g st1 = (Returned true, st1)
  /\ MemStorage.unfollowUser f g st1 = (Returned true, st).
Proof.
  intros Hfresh. unfold MemStorage.followUser.
  destruct (f =? g)%string; [discriminate|].
  destruct (find _ _) eqn:Hfind; [discriminate|].
  intros [= <-].
  rewrite JsMap_set_append by exact Hfresh.
  unfold MemStorage.isFollowing, MemStorage.unfollowUser. simpl.
  rewrite JsMap_values_app. simpl. split.
  - do 2 f_equal. apply existsb_exists.
    exists (Follow.mk uuid f g now). split.
    + apply in_or_app. right. now left.
    + simpl. now rewrite !String.eqb_refl.
  - rewrite find_appended by exact Hfind. simpl. rewrite !String.eqb_refl.
    simpl. rewrite JsMap_delete_appended by exact Hfresh.
    f_equal. apply MemStorage_set_follows_back.
Qed.

Lemma DatabaseStorage_follow_round_trip db db1 uuid now f g :
  DatabaseStorage.followUser uuid now f g db = (Returned true, db1) ->
  DatabaseStorage.isFollowing f g db1 = (Returned true, db1)
  /\ DatabaseStorage.unfollowUser f g db1 = (Returned true, db).
Proof.
  unfold DatabaseStorage.followUser.
  destruct (f =? g)%string; [discriminate|].
  unfold bind, DatabaseStorage.select_follow, Database.query,
    DatabaseStorage.insert_into, Database.execute, Sql.insert, ret.
  destruct (Sql.first _) eqn:Hsel; [discriminate|].
  destruct (Sql.taken _ _ _); [discriminate|].
  intros [= <-].
  pose proof (proj1 (first_filter_none_iff _ _) Hsel) as Hnone.
  unfold DatabaseStorage.isFollowing, DatabaseStorage.unfollowUser, bind,
    DatabaseStorage.select_follow, Database.query, ret. simpl.
  split.
  - rewrite filter_app. rewrite filter_none by exact Hnone. simpl.
    now rewrite !String.eqb_refl.
  - rewrite row_count_appended; [|exact Hnone|simpl; now rewrite !String.eqb_refl].
    rewrite delete_where_appended;
      [|exact Hnone|simpl; now rewrite !String.eqb_refl].
    simpl. f_equal. apply Database_set_follows_back.
Qed.

(** X1. A follow that succeeded shows in [isFollowing], and the
    [unfollowUser] that answers it puts the store back exactly as it was
    before the follow. For MemStorage the follow's uuid is new to the map. *)
Theorem follow_unfollow_round_trip :
  (forall st st1 uuid now f g,
     ~ In uuid (JsMap.keys (MemStorage.follows st)) ->
     MemStorage.followUser uuid now f g st = (Returned true, st1) ->
     MemStorage.isFollowing f g st1 = (Returned true, st1)
     /\ MemStorage.unfollowUser f g st1 = (Returned true, st))
  /\ (forall db db1 uuid now f g,
        DatabaseStorage.followUser uuid now f g db = (Returned true, db1) ->
        DatabaseStorage.isFollowing f g db1 = (Returned true, db1)
        /\ DatabaseStorage.unfollowUser f g db1 = (Returned true, db)).
Proof.
  split.
  - intros. eapply MemStorage_follow_round_trip; eassumption.
  - intros. eapply DatabaseStorage_follow_round_trip; eassumption.
Qed.

Lemma follow_unfollow_round_trip_witness :
  (MemStorage.isFollowing "u-root" "u-ann" RoundTripFixture.mem_followed
   = (Returned true, RoundTripFixture.mem_followed)
   /\ MemStorage.unfollowUser "u-root" "u-ann" RoundTripFixture.mem_followed
      = (Returned true, Fixture.mem))
  /\ (DatabaseStorage.isFollowing "u-root" "u-ann" RoundTripFixture.db_followed
      = (Returned true, RoundTripFixture.db_followed)
      /\ DatabaseStorage.unfollowUser "u-root" "u-ann"
           RoundTripFixture.db_followed
         = (Returned true, Fixture.db)).
Proof.
  split.
  - apply (proj1 follow_unfollow_round_trip Fixture.mem
             RoundTripFixture.mem_followed "f-9" 5000 "u-root" "u-ann").
    + vm_compute. intros [H|[]]. discriminate.
    + reflexivity.
  - apply (proj2 follow_unfollow_round_trip Fixture.db
             RoundTripFixture.db_followed "f-9" 5000 "u-root" "u-ann").
    reflexivity.
Defined.

Lemma NoDup_map_eq {A B} (g : A -> B) (l : list A) (a b : A) :
  NoDup (map g l) -> In a l -> In b l -> g a = g b -> a = b.
Proof.
  induction l as [|x l IH]; simpl; intros Hnd Ha Hb Heq; [contradiction|].
  inversion Hnd as [|? ? Hx Hl]; subst.
  destruct Ha as [<-|Ha], Hb as [<-|Hb].
  - reflexivity.
  - elim Hx. rewrite Heq. now apply in_map.
  - elim Hx. rewrite <- Heq. now apply in_map.
  - now apply IH.
Qed.

Lemma MemStorage_unfollow_ends st f g :
  keyed_by_id Follow.id (MemStorage.follows st) ->
  follows_invariant (JsMap.values (MemStorage.follows st)) ->
  MemStorage.isFollowing f g (snd (MemStorage.unfollowUser f g st))
  = (Returned false, snd (MemStorage.unfollowUser f g st)).
Proof.
  intros Hkeyed [_ Hnd]. unfold MemStorage.unfollowUser.
  destruct (find _ _) as [follow|] eqn:Hfind; simpl.
  - unfold MemStorage.isFollowing. simpl. do 2 f_equal.
    destruct (existsb _ _) eqn:E; [|reflexivity].
    apply existsb_exists in E. destruct E as [v [Hv Hp]].
    apply find_some in Hfind. destruct Hfind as [Hin Hpf].
    unfold JsMap.values in Hv. apply in_map_iff in Hv.
    destruct Hv as [[k v'] [Hsnd He]]. simpl in Hsnd. subst v'.
    apply JsMap_delete_In in He. destruct He as [He Hk]. simpl in Hk.
    assert (Hvin : In v (JsMap.values (MemStorage.follows st))).
    { unfold JsMap.values. apply in_map_iff. now exists (k, v). }
    assert (Heq : v = follow).
    { apply (NoDup_map_eq follow_pair _ _ _ Hnd Hvin Hin).
      unfold follow_pair.
      apply andb_true_iff in Hp. apply andb_true_iff in Hpf.
      destruct Hp as [H1 H2], Hpf as [H3 H4].
      apply String.eqb_eq in H1, H2, H3, H4. congruence. }
    subst v. now rewrite (Hkeyed _ _ He) in Hk.
  - unfold MemStorage.isFollowing. do 2 f_equal.
    destruct (existsb _ _) eqn:E; [|reflexivity].
    apply existsb_exists in E. destruct E as [v [Hv Hp]].
    rewrite (find_none _ _ Hfind v Hv) in Hp. discriminate.
Qed.

Lemma DatabaseStorage_unfollow_ends db f g :
  DatabaseStorage.isFollowing f g (snd (DatabaseStorage.unfollowUser f g db))
  = (Returned false, snd (DatabaseStorage.unfollowUser f g db)).
Proof.
  unfold DatabaseStorage.unfollowUser, DatabaseStorage.isFollowing, bind,
    DatabaseStorage.select_follow, Database.query, ret. simpl.
  rewrite (proj2 (first_filter_none_iff _ _)); [reflexivity|].
  intros x Hx. apply delete_where_In in Hx. now destruct Hx as [_ Hx].
Qed.

(** X2. After [unfollowUser f g], [isFollowing f g] is false: in every
    MemStorage store reached from the empty one by calls that do not rewrite
    an id, and in every DatabaseStorage store. *)
Theorem unfollow_ends_following :
  (forall cs f g,
     Forall keeps_ids cs ->
     MemStorage.isFollowing f g
       (snd (MemStorage.unfollowUser f g (snd (run cs MemStorage.init))))
     = (Returned false,
        snd (MemStorage.unfollowUser f g (snd (run cs MemStorage.init)))))
  /\ (forall db f g,
        DatabaseStorage.isFollowing f g
          (snd (DatabaseStorage.unfollowUser f g db))
        = (Returned false, snd (DatabaseStorage.unfollowUser f g db))).
Proof.
  split.
  - intros cs f g Hcs. apply MemStorage_unfollow_ends.
    + now destruct (MemStorage_keyed_reachable Hcs) as (_ & _ & _ & _ & Hf & _).
    + apply (run_invariant
               (fun st => follows_invariant (JsMap.values (MemStorage.follows st)))).
      * intros c s. apply MemStorage_call_follows.
      * exact follows_invariant_nil.
  - intros db f g. apply DatabaseStorage_unfollow_ends.
Qed.

Lemma unfollow_ends_following_witness :
  MemStorage.isFollowing "u-bob" "u-ann"
    (snd (MemStorage.unfollowUser "u-bob" "u-ann"
            (snd (run Fixture.setup MemStorage.init))))
  = (Returned false,
     snd (MemStorage.unfollowUser "u-bob" "u-ann"
            (snd (run Fixture.setup MemStorage.init)))).
Proof.
  apply (proj1 unfollow_ends_following Fixture.setup "u-bob" "u-ann").
  unfold Fixture.setup. repeat constructor.
Defined.

Lemma with_likes_back (n : Z) (s : Snippet.t) :
  Snippet.with_likes (n - 1) (Snippet.with_likes n s) = Snippet.with_likes (n - 1) s.
Proof. reflexivity. Qed.

Lemma with_likes_same (s : Snippet.t) :
  Snippet.with_likes (Snippet.likes s) s = s.
Proof. now destruct s. Qed.

Lemma with_likes_restore (s : Snippet.t) :
  Snippet.with_likes (Snippet.likes s + 1 - 1)
    (Snippet.with_likes (Snippet.likes s + 1) s) = s.
Proof.
  destruct s. unfold Snippet.with_likes. simpl. f_equal. lia.
Qed.

Lemma MemStorage_like_round_trip st st1 uuid now s u :
  ~ In uuid (JsMap.keys (MemStorage.snippetLikes st)) ->
  (forall sn, JsMap.get s (MemStorage.snippets st) = Some sn ->
              0 <= Snippet.likes sn) ->
  MemStorage.likeSnippet uuid now s u st = (Returned true, st1) ->
  MemStorage.isSnippetLiked s u st1 = (Returned true, st1)
  /\ MemStorage.unlikeSnippet s u st1 = (Returned true, st).
Proof.
  intros Hfresh Hpos. unfold MemStorage.likeSnippet.
  destruct (find _ _) eqn:Hfind; [discriminate|].
  rewrite JsMap_set_append by exact Hfresh. simpl.
  assert (Hliked :
    existsb (fun like => (SnippetLike.snippetId like =? s)%string
                         && (SnippetLike.userId like =? u)%string)
      (JsMap.values (MemStorage.snippetLikes st ++ [(uuid, SnippetLike.mk uuid s u now)])%list)
    = true).
  { apply existsb_exists. exists (SnippetLike.mk uuid s u now). split.
    - rewrite JsMap_values_app. apply in_or_app. right. now left.
    - simpl. now rewrite !String.eqb_refl. }
  destruct (JsMap.get s (MemStorage.snippets st)) as [sn|] eqn:Hget;
    intros [= <-]; unfold MemStorage.isSnippetLiked, MemStorage.unlikeSnippet;
    simpl; rewrite Hliked; (split; [reflexivity|]);
    rewrite JsMap_values_app; simpl;
    rewrite find_appended by exact Hfind; simpl; rewrite !String.eqb_refl;
    simpl; rewrite JsMap_delete_appended by exact Hfresh.
  - rewrite JsMap_get_set_same. simpl.
    assert (Hgt : (Snippet.likes sn + 1 >? 0) = true)
      by (apply Z.gtb_lt; specialize (Hpos sn eq_refl); lia).
    rewrite Hgt. rewrite with_likes_restore.
    rewrite JsMap_set_restore by exact Hget. now destruct st.
  - rewrite Hget. now destruct st.
Qed.

Lemma int4_returned (z n : Z) :
  Sql.int4 z = Returned n -> n = z /\ Sql.int4_min <= z <= Sql.int4_max.
Proof.
  unfold Sql.int4. destruct (_ && _) eqn:E; [|discriminate].
  intros [= <-]. apply andb_true_iff in E. destruct E as [H1 H2].
  apply Z.leb_le in H1, H2. lia.
Qed.

Lemma int4_in_range (z : Z) :
  Sql.int4_min <= z <= Sql.int4_max -> Sql.int4 z = Returned z.
Proof.
  intros [H1 H2]. unfold Sql.int4.
  apply Z.leb_le in H1, H2. now rewrite H1, H2.
Qed.

Lemma bump_likes_back (s : string) (rows rows' : list Snippet.t) :
  (forall sn, In sn rows -> Sql.int4_min <= Snippet.likes sn) ->
  Sql.update_where (fun snippet => (Snippet.id snippet =? s)%string)
    (fun snippet =>
       match Sql.int4 (Snippet.likes snippet + 1) with
       | Returned n => Returned (Snippet.with_likes n snippet)
       | Threw e => Threw e
       end) rows = Returned rows' ->
  Sql.update_where (fun snippet => (Snippet.id snippet =? s)%string)
    (fun snippet =>
       match Sql.int4 (Snippet.likes snippet + -1) with
       | Returned n => Returned (Snippet.with_likes n snippet)
       | Threw e => Threw e
       end) rows' = Returned rows.
Proof.
  unfold Sql.update_where. revert rows'.
  induction rows as [|r rows IH]; intros rows' Hmin; simpl.
  - now intros [= <-].
  - destruct (Snippet.id r =? s)%string eqn:E.
    + destruct (Sql.int4 (Snippet.likes r + 1)) as [n|] eqn:Hi; [|discriminate].
      destruct (traverse _ rows) as [rs|] eqn:Hrs; [|discriminate].
      intros [= <-]. simpl. rewrite E.
      apply int4_returned in Hi. destruct Hi as [-> [_ Hmax]].
      pose proof (Hmin r (or_introl eq_refl)) as Hlow.
      rewrite int4_in_range by lia.
      rewrite (IH rs); [|intros sn Hsn; apply Hmin; now right|reflexivity].
      f_equal. f_equal. destruct r. unfold Snippet.with_likes. simpl.
      f_equal. lia.
    + destruct (traverse _ rows) as [rs|] eqn:Hrs; [|discriminate].
      intros [= <-]. simpl. rewrite E.
      rewrite (IH rs); [reflexivity|intros sn Hsn; apply Hmin; now right|reflexivity].
Qed.

Lemma DatabaseStorage_like_round_trip db db1 uuid now s u :
  (forall sn, In sn (Database.snippets db) -> Sql.int4_min <= Snippet.likes sn) ->
  DatabaseStorage.likeSnippet uuid now s u db = (Returned true, db1) ->
  DatabaseStorage.isSnippetLiked s u db1 = (Returned true, db1)
  /\ DatabaseStorage.unlikeSnippet s u db1 = (Returned true, db).
Proof.
  intros Hmin. unfold DatabaseStorage.likeSnippet.
  unfold bind at 1. unfold DatabaseStorage.select_like at 1, Database.query at 1.
  destruct (Sql.first _) eqn:Hsel; [discriminate|].
  pose proof (proj1 (first_filter_none_iff _ _) Hsel) as Hnone.
  unfold bind, DatabaseStorage.insert_into, Database.execute, Sql.insert, ret.
  destruct (Sql.taken _ _ _); [discriminate|].
  unfold DatabaseStorage.bump_likes, Database.execute. simpl.
  destruct (Sql.update_where _ _ _) as [rows'|] eqn:Hup; [|discriminate].
  intros [= <-].
  unfold DatabaseStorage.isSnippetLiked, DatabaseStorage.unlikeSnippet, bind,
    DatabaseStorage.select_like, Database.query, Database.execute, ret,
    DatabaseStorage.bump_likes, Database.execute. simpl.
  rewrite filter_app. rewrite filter_none by exact Hnone. simpl.
  rewrite !String.eqb_refl. simpl. split; [reflexivity|].
  rewrite (@bump_likes_back s _ _ Hmin Hup).
  rewrite delete_where_appended;
    [|exact Hnone|simpl; now rewrite !String.eqb_refl].
  now destruct db.
Qed.

(** X3. A like that succeeded shows in [isSnippetLiked], and the
    [unlikeSnippet] that answers it puts the store back exactly as it was,
    the like record and the snippet's counter included. MemStorage needs a
    like uuid that is new to the map and a counter that is not negative
    (it only decrements a positive one); DatabaseStorage needs counters that
    fit their 32-bit column. *)
Theorem like_unlike_round_trip :
  (forall st st1 uuid now s u,
     ~ In uuid (JsMap.keys (MemStorage.snippetLikes st)) ->
     (forall sn, JsMap.get s (MemStorage.snippets st) = Some sn ->
                 0 <= Snippet.likes sn) ->
     MemStorage.likeSnippet uuid now s u st = (Returned true, st1) ->
     MemStorage.isSnippetLiked s u st1 = (Returned true, st1)
     /\ MemStorage.unlikeSnippet s u st1 = (Returned true, st))
  /\ (forall db db1 uuid now s u,
        (forall sn, In sn (Database.snippets db) ->
                    Sql.int4_min <= Snippet.likes sn) ->
        DatabaseStorage.likeSnippet uuid now s u db = (Returned true, db1) ->
        DatabaseStorage.isSnippetLiked s u db1 = (Returned true, db1)
        /\ DatabaseStorage.unlikeSnippet s u db1 = (Returned true, db)).
Proof.
  split.
  - intros. eapply MemStorage_like_round_trip; eassumption.
  - intros. eapply DatabaseStorage_like_round_trip; eassumption.
Qed.

Lemma like_unlike_round_trip_witness :
  (MemStorage.isSnippetLiked "s-pub" "u-bob" LikeFixture.mem_liked
   = (Returned true, LikeFixture.mem_liked)
   /\ MemStorage.unlikeSnippet "s-pub" "u-bob" LikeFixture.mem_liked
      = (Returned true, Fixture.mem))
  /\ (DatabaseStorage.isSnippetLiked "s-pub" "u-bob" LikeFixture.db_liked
      = (Returned true, LikeFixture.db_liked)
      /\ DatabaseStorage.unlikeSnippet "s-pub" "u-bob" LikeFixture.db_liked
         = (Returned true, Fixture.db)).
Proof.
  split.
  - apply (proj1 like_unlike_round_trip Fixture.mem LikeFixture.mem_liked
             "l-1" 3000 "s-pub" "u-bob").
    + vm_compute. intros [].
    + intros sn Hsn. vm_compute in Hsn. injection Hsn as <-. simpl. lia.
    + reflexivity.
  - apply (proj2 like_unlike_round_trip Fixture.db LikeFixture.db_liked
             "l-1" 3000 "s-pub" "u-bob").
    + intros sn Hin. vm_compute in Hin.
      destruct Hin as [<-|[<-|[]]]; simpl; unfold Sql.int4_min; lia.
    + reflexivity.
Defined.

(** ** Counters *)

Lemma counters_set (k : string) (sn : Snippet.t) (m : JsMap.t Snippet.t) :
  counters_nonneg m -> 0 <= Snippet.views sn -> 0 <= Snippet.likes sn ->
  counters_nonneg (JsMap.set k sn m).
Proof.
  intros Hm Hv Hl k' sn' Hin. apply (@JsMap_set_sub _ Snippet.id) in Hin.
  destruct Hin as [Heq|Hin].
  - injection Heq as -> ->. now split.
  - now apply (Hm k').
Qed.

Lemma counters_sub (m m' : JsMap.t Snippet.t) :
  counters_nonneg m -> (forall e, In e m' -> In e m) -> counters_nonneg m'.
Proof. intros Hm Hsub k sn Hin. apply (Hm k). now apply Hsub. Qed.

Lemma counters_get (k : string) (sn : Snippet.t) (m : JsMap.t Snippet.t) :
  counters_nonneg m -> JsMap.get k m = Some sn ->
  0 <= Snippet.views sn /\ 0 <= Snippet.likes sn.
Proof. intros Hm Hget. apply (Hm k). now apply JsMap_get_In. Qed.

Lemma cascade_fold_snippets l : forall st e,
  In e (MemStorage.snippets (fold_left MemStorage.delete_snippet_cascade l st)) ->
  In e (MemStorage.snippets st).
Proof.
  induction l as [|a l IH]; intros st e; simpl; [tauto|].
  intros Hin. apply IH in Hin. unfold MemStorage.delete_snippet_cascade in Hin.
  simpl in Hin. now apply JsMap_delete_In in Hin.
Qed.

Lemma MemStorage_call_counters (c : Call) (st : MemStorage.t) :
  keeps_counters c ->
  counters_nonneg (MemStorage.snippets st) ->
  counters_nonneg (MemStorage.snippets (snd (call c st))).
Proof.
  intros Hc Hinv.
  destruct c; unfold call; rewrite observe_store; simpl; try exact Hinv.
  - unfold MemStorage.updateUser. repeat break_match; exact Hinv.
  - unfold MemStorage.getSnippetWithAuthor. repeat break_match; exact Hinv.
  - unfold MemStorage.getSnippetsByAuthor. repeat break_match; exact Hinv.
  - unfold MemStorage.getUserOwnSnippets. repeat break_match; exact Hinv.
  - (* createSnippet *)
    apply counters_set; [exact Hinv|simpl; lia|simpl; lia].
  - (* updateSnippet *)
    unfold MemStorage.updateSnippet.
    destruct (JsMap.get id (MemStorage.snippets st)) as [snippet|] eqn:E;
      [|exact Hinv].
    simpl. destruct Hc as [Hv Hl].
    destruct (counters_get _ Hinv E) as [H1 H2].
    apply counters_set; [exact Hinv| |]; unfold spread_snippet; simpl.
    + now rewrite Hv.
    + now rewrite Hl.
  - (* deleteSnippet *)
    apply counters_sub with (m := MemStorage.snippets st); [exact Hinv|].
    intros e He. now apply JsMap_delete_In in He.
  - (* incrementViews *)
    unfold MemStorage.incrementViews.
    destruct (find _ _); [exact Hinv|]. simpl.
    destruct (JsMap.get snippetId (MemStorage.snippets st)) eqn:E;
      [|exact Hinv].
    simpl. destruct (counters_get _ Hinv E) as [H1 H2].
    apply counters_set; [exact Hinv|simpl; lia|simpl; lia].
  - (* likeSnippet *)
    unfold MemStorage.likeSnippet.
    destruct (find _ _); [exact Hinv|]. simpl.
    destruct (JsMap.get snippetId (MemStorage.snippets st)) eqn:E;
      [|exact Hinv].
    simpl. destruct (counters_get _ Hinv E) as [H1 H2].
    apply counters_set; [exact Hinv|simpl; lia|simpl; lia].
  - (* unlikeSnippet *)
    unfold MemStorage.unlikeSnippet.
    destruct (find _ _); [|exact Hinv]. simpl.
    destruct (JsMap.get snippetId (MemStorage.snippets st)) eqn:E;
      [|exact Hinv].
    destruct (Z.gtb _ _) eqn:G; [|exact Hinv].
    simpl. destruct (counters_get _ Hinv E) as [H1 H2].
    apply Z.gtb_lt in G.
    apply counters_set; [exact Hinv|simpl; lia|simpl; lia].
  - (* deleteUserAndSnippets *)
    unfold MemStorage.deleteUserAndSnippets.
    destruct (JsMap.get userId (MemStorage.users st)); [|exact Hinv].
    simpl. apply counters_sub with (m := MemStorage.snippets st); [exact Hinv|].
    intros e He. now apply cascade_fold_snippets in He.
  - (* followUser *)
    unfold MemStorage.followUser. repeat break_match; exact Hinv.
  - unfold MemStorage.unfollowUser. repeat break_match; exact Hinv.
  - unfold MemStorage.markNotificationRead. repeat break_match; exact Hinv.
Qed.

(** X4. In MemStorage no counter goes below zero: every snippet of a store
    reached from the empty one has [views >= 0] and [likes >= 0], as long as
    no call writes a counter directly. [unlikeSnippet] only decrements a
    positive counter. *)
Theorem MemStorage_counters_never_negative (cs : list Call) :
  Forall keeps_counters cs ->
  counters_nonneg (MemStorage.snippets (snd (run cs MemStorage.init))).
Proof.
  assert (Hgen : forall st, counters_nonneg (MemStorage.snippets st) ->
                            Forall keeps_counters cs ->
                            counters_nonneg (MemStorage.snippets (snd (run cs st)))).
  { induction cs as [|c cs IH]; intros st Hst Hcs; [exact Hst|].
    inversion Hcs; subst. rewrite run_store. apply IH; [|assumption].
    now apply MemStorage_call_counters. }
  intros Hcs. apply Hgen; [|exact Hcs]. intros k sn [].
Qed.

Lemma MemStorage_counters_never_negative_witness :
  counters_nonneg
    (MemStorage.snippets
       (snd (run (DeleteFixture.setup ++ [UnlikeSnippet "s-pub" "u-bob";
                                          UnlikeSnippet "s-pub" "u-bob"])%list
               MemStorage.init))).
Proof.
  apply MemStorage_counters_never_negative.
  unfold DeleteFixture.setup, Fixture.setup. simpl. repeat constructor.
Defined.

(** ** Notifications *)

Lemma length_filter_map {A} (p : A -> bool) (g : A -> A) (l : list A) :
  (forall x, In x l -> p (g x) = p x) ->
  List.length (filter p (map g l)) = List.length (filter p l).
Proof.
  induction l as [|a l IH]; simpl; intros Hall; [reflexivity|].
  rewrite (Hall a (or_introl eq_refl)).
  destruct (p a); simpl; rewrite IH; auto.
Qed.

Lemma JsMap_replace_present {V} (k : string) (v : V) (m : JsMap.t V) :
  NoDup (JsMap.keys m) -> In (k, v) m -> JsMap.replace k v m = m.
Proof.
  unfold JsMap.keys.
  induction m as [|[k' v'] m IH]; simpl; intros Hnd Hin; [reflexivity|].
  inversion Hnd as [|? ? Hk Hm]; subst.
  destruct (k' =? k)%string eqn:E.
  - apply String.eqb_eq in E. subst k'.
    destruct Hin as [[= ->]|Hin]; [reflexivity|].
    elim Hk. apply in_map_iff. now exists (k, v).
  - destruct Hin as [[= -> _]|Hin].
    + now rewrite String.eqb_refl in E.
    + f_equal. now apply IH.
Qed.

Lemma JsMap_set_present {V} (k : string) (v : V) (m : JsMap.t V) :
  NoDup (JsMap.keys m) -> In (k, v) m -> JsMap.set k v m = m.
Proof.
  intros Hnd Hin. unfold JsMap.set.
  assert (Hh : JsMap.has k m = true).
  { destruct (JsMap.has k m) eqn:E; [reflexivity|].
    apply JsMap_has_keys in E. elim E. unfold JsMap.keys.
    apply in_map_iff. now exists (k, v). }
  rewrite Hh. now apply JsMap_replace_present.
Qed.

Lemma mark_all_fold_not_due (due : Notification.t -> bool)
    (l : list Notification.t) :
  (forall n, due (Notification.mark_read n) = false) ->
  forall m : JsMap.t Notification.t,
  (forall e, In e m -> due (snd e) = false) ->
  forall e,
    In e (fold_left
            (fun m n => JsMap.set (Notification.id n) (Notification.mark_read n) m)
            l m) ->
    due (snd e) = false.
Proof.
  intros Hread. induction l as [|n l IH]; intros m Hm e; simpl.
  - apply Hm.
  - apply IH. intros e' He'.
    apply (@JsMap_set_sub _ Notification.id) in He'.
    destruct He' as [->|He']; [apply Hread|now apply Hm].
Qed.

Lemma mark_all_fold_same (l : list Notification.t) (m : JsMap.t Notification.t) :
  NoDup (JsMap.keys m) ->
  (forall n, In n l -> In (Notification.id n, Notification.mark_read n) m) ->
  fold_left
    (fun m n => JsMap.set (Notification.id n) (Notification.mark_read n) m) l m
  = m.
Proof.
  intros Hnd. induction l as [|n l IH]; simpl; intros Hall; [reflexivity|].
  rewrite JsMap_set_present; [|exact Hnd|apply Hall; now left].
  apply IH. intros n' Hn'. apply Hall. now right.
Qed.

Lemma MemStorage_mark_all_zero st u :
  MemStorage.getUnreadNotificationCount u
    (snd (MemStorage.markAllNotificationsRead u st))
  = (Returned 0, snd (MemStorage.markAllNotificationsRead u st)).
Proof.
  unfold MemStorage.getUnreadNotificationCount, MemStorage.markAllNotificationsRead.
  simpl. rewrite filter_none; [reflexivity|].
  intros n Hn. unfold JsMap.values in Hn. apply in_map_iff in Hn.
  destruct Hn as [e [<- He]].
  revert e He.
  apply (@mark_all_fold_not_due
           (fun n => (Notification.userId n =? u)%string
                     && negb (Notification.isRead n))).
  - intros n'. simpl. apply andb_false_r.
  - intros e He. apply in_map_iff in He. destruct He as [e0 [<- _]].
    destruct ((Notification.userId (snd e0) =? u)%string
              && negb (Notification.isRead (snd e0))) eqn:E;
      [simpl; apply andb_false_r|exact E].
Qed.

Lemma MemStorage_mark_all_stored st u :
  notifications_well_keyed st ->
  MemStorage.notifications (snd (MemStorage.markAllNotificationsRead u st))
  = map (fun e =>
           if (Notification.userId (snd e) =? u)%string
              && negb (Notification.isRead (snd e))
           then (fst e, Notification.mark_read (snd e)) else e)
        (MemStorage.notifications st).
Proof.
  intros [Hkeyed Hnd]. unfold MemStorage.markAllNotificationsRead. simpl.
  apply mark_all_fold_same.
  - unfold JsMap.keys. rewrite map_map.
    erewrite map_ext; [exact Hnd|].
    intros e. now destruct (_ && _).
  - intros n Hn. apply filter_In in Hn. destruct Hn as [Hn Hdue].
    unfold JsMap.values in Hn. apply in_map_iff in Hn.
    destruct Hn as [[k n'] [Heq He]]. simpl in Heq. subst n'.
    apply in_map_iff. exists (k, n). simpl. rewrite Hdue.
    split; [|exact He]. now rewrite (Hkeyed _ _ He).
Qed.

Lemma MemStorage_mark_all_others st u v :
  notifications_well_keyed st -> v <> u ->
  fst (MemStorage.getUnreadNotificationCount v
         (snd (MemStorage.markAllNotificationsRead u st)))
  = fst (MemStorage.getUnreadNotificationCount v st).
Proof.
  intros Hwk Hvu. unfold MemStorage.getUnreadNotificationCount.
  cbn beta iota delta [fst].
  rewrite (MemStorage_mark_all_stored u Hwk).
  do 2 f_equal. unfold JsMap.values. rewrite map_map.
  set (g := fun n => if (Notification.userId n =? u)%string
                        && negb (Notification.isRead n)
                     then Notification.mark_read n else n).
  rewrite (map_ext _ (fun e => g (snd e)));
    [|intros e; unfold g; now destruct (_ && _)].
  rewrite <- (map_map snd g).
  apply length_filter_map. intros n _. unfold g.
  assert (Hf : (u =? v)%string = false)
    by (apply String.eqb_neq; congruence).
  destruct ((Notification.userId n =? u)%string) eqn:E;
    destruct (Notification.isRead n) eqn:R; simpl; rewrite ?R;
    try reflexivity.
  apply String.eqb_eq in E. now rewrite E, Hf.
Qed.

Lemma DatabaseStorage_mark_all_zero db u :
  DatabaseStorage.getUnreadNotificationCount u
    (snd (DatabaseStorage.markAllNotificationsRead u db))
  = (Returned 0, snd (DatabaseStorage.markAllNotificationsRead u db)).
Proof.
  unfold DatabaseStorage.getUnreadNotificationCount, Database.query,
    DatabaseStorage.markAllNotificationsRead, Sql.row_count. simpl.
  rewrite filter_none; [reflexivity|].
  intros n Hn. apply in_map_iff in Hn. destruct Hn as [n0 [<- _]].
  destruct ((Notification.userId n0 =? u)%string
            && Bool.eqb (Notification.isRead n0) false) eqn:E;
    [simpl; apply andb_false_r|exact E].
Qed.

Lemma DatabaseStorage_mark_all_others db u v :
  v <> u ->
  fst (DatabaseStorage.getUnreadNotificationCount v
         (snd (DatabaseStorage.markAllNotificationsRead u db)))
  = fst (DatabaseStorage.getUnreadNotificationCount v db).
Proof.
  intros Hvu.
  unfold DatabaseStorage.getUnreadNotificationCount, Database.query,
    DatabaseStorage.markAllNotificationsRead, Sql.row_count. simpl.
  do 2 f_equal. apply length_filter_map. intros n _.
  assert (Hf : (u =? v)%string = false)
    by (apply String.eqb_neq; congruence).
  destruct ((Notification.userId n =? u)%string) eqn:E;
    destruct (Notification.isRead n) eqn:R; simpl; rewrite ?R;
    try reflexivity.
  apply String.eqb_eq in E. now rewrite E, Hf.
Qed.

Lemma truthy_some (userId : string) :
  Js.truthy (Some userId) = true -> userId <> EmptyString.
Proof.
  simpl. intros Ht ->. discriminate.
Qed.

Section ApiAnswers.

Context {S : Type} `{IStorage.t S} `{IStorageRest.t S}.

Lemma catch_400_store (c : Promise S Reply.t) (s : S) :
  snd (Api.catch_400 c s) = snd (c s).
Proof.
  unfold Api.catch_400, try_catch. now destruct (c s) as [[r|e] s1].
Qed.

Lemma bind_ret_store {A B} (c : Promise S A) (f : A -> B) (s : S) :
  snd (bind c (fun a => ret (f a)) s) = snd (c s).
Proof. unfold bind, ret. now destruct (c s) as [[a|e] s1]. Qed.

Lemma requireAuth_signed_in (req : Request.t) (userId : string)
    (next : string -> Promise S Reply.t) :
  Request.session_userId req = Some userId ->
  Js.truthy (Some userId) = true ->
  Api.requireAuth req next = next userId.
Proof. intros Hs Ht. unfold Api.requireAuth. now rewrite Hs, Ht. Qed.

Lemma notifications_read_all_store (req : Request.t) (userId : string) (s : S) :
  Request.session_userId req = Some userId ->
  Js.truthy (Some userId) = true ->
  snd (Api.notifications_read_all req s)
  = snd (IStorage.markAllNotificationsRead userId s).
Proof.
  intros Hs Ht. unfold Api.notifications_read_all.
  rewrite requireAuth_signed_in with (userId := userId);
    [|assumption|assumption].
  rewrite catch_400_store.
  apply (bind_ret_store (IStorage.markAllNotificationsRead userId)
           (fun _ => Reply.json (Reply.Message "All notifications marked as read"))).
Qed.

Lemma unread_count_answer (req : Request.t) (userId : string) (n : Z)
    (s s1 : S) :
  Request.session_userId req = Some userId ->
  Js.truthy (Some userId) = true ->
  IStorage.getUnreadNotificationCount userId s = (Returned n, s1) ->
  Api.unread_count req s = (Returned (Reply.json (Reply.Count n)), s1).
Proof.
  intros Hs Ht Hc. unfold Api.unread_count.
  rewrite requireAuth_signed_in with (userId := userId);
    [|assumption|assumption].
  unfold Api.catch_400, try_catch, bind, ret. now rewrite Hc.
Qed.

End ApiAnswers.

(** X5. After [PUT /api/notifications/read-all] a signed-in user's
    [GET /api/notifications/unread-count] answers 0, on both storages; and
    [markAllNotificationsRead u] leaves the unread count of every other user
    as it was (for MemStorage: in a map with one entry per key, each under
    its notification's id). *)
Theorem read_all_clears_own_unread_count_only :
  (forall (st : MemStorage.t) req userId,
     Request.session_userId req = Some userId ->
     Js.truthy (Some userId) = true ->
     Api.unread_count req (snd (Api.notifications_read_all req st))
     = (Returned (Reply.json (Reply.Count 0)),
        snd (Api.notifications_read_all req st)))
  /\ (forall (db : Database.t) req userId,
        Request.session_userId req = Some userId ->
        Js.truthy (Some userId) = true ->
        Api.unread_count req (snd (Api.notifications_read_all req db))
        = (Returned (Reply.json (Reply.Count 0)),
           snd (Api.notifications_read_all req db)))
  /\ (forall st u v,
        notifications_well_keyed st -> v <> u ->
        fst (MemStorage.getUnreadNotificationCount v
               (snd (MemStorage.markAllNotificationsRead u st)))
        = fst (MemStorage.getUnreadNotificationCount v st))
  /\ (forall db u v,
        v <> u ->
        fst (DatabaseStorage.getUnreadNotificationCount v
               (snd (DatabaseStorage.markAllNotificationsRead u db)))
        = fst (DatabaseStorage.getUnreadNotificationCount v db)).
Proof.
  repeat apply conj.
  - intros st req userId Hs Ht.
    rewrite notifications_read_all_store with (userId := userId);
      [|assumption|assumption].
    eapply unread_count_answer; [exact Hs|exact Ht|].
    apply MemStorage_mark_all_zero.
  - intros db req userId Hs Ht.
    rewrite notifications_read_all_store with (userId := userId);
      [|assumption|assumption].
    eapply unread_count_answer; [exact Hs|exact Ht|].
    apply DatabaseStorage_mark_all_zero.
  - intros. now apply MemStorage_mark_all_others.
  - intros. now apply DatabaseStorage_mark_all_others.
Qed.

Lemma InboxFixture_mem_well_keyed : notifications_well_keyed InboxFixture.mem.
Proof.
  split.
  - intros k v Hin. vm_compute in Hin.
    destruct Hin as [Heq|[Heq|[Heq|[]]]]; injection Heq as <- <-; reflexivity.
  - vm_compute. repeat constructor; simpl; intuition discriminate.
Qed.

Lemma read_all_clears_own_unread_count_only_witness :
  Api.unread_count (Fixture.as_user "u-bob")
    (snd (Api.notifications_read_all (Fixture.as_user "u-bob") InboxFixture.mem))
  = (Returned (Reply.json (Reply.Count 0)),
     snd (Api.notifications_read_all (Fixture.as_user "u-bob") InboxFixture.mem))
  /\ fst (MemStorage.getUnreadNotificationCount "u-root"
            (snd (MemStorage.markAllNotificationsRead "u-bob" InboxFixture.mem)))
     = fst (MemStorage.getUnreadNotificationCount "u-root" InboxFixture.mem).
Proof.
  split.
  - apply (proj1 read_all_clears_own_unread_count_only InboxFixture.mem
             (Fixture.as_user "u-bob") "u-bob"); reflexivity.
  - apply (proj1 (proj2 (proj2 read_all_clears_own_unread_count_only))
             InboxFixture.mem "u-bob" "u-root").
    + exact InboxFixture_mem_well_keyed.
    + discriminate.
Defined.

Lemma map_id_on {A} (g : A -> A) (l : list A) :
  (forall x, In x l -> g x = x) -> map g l = l.
Proof.
  induction l as [|a l IH]; simpl; intros Hall; [reflexivity|].
  rewrite (Hall a (or_introl eq_refl)). f_equal. apply IH.
  intros x Hx. apply Hall. now right.
Qed.

Lemma MemStorage_markNotificationRead_foreign st id u :
  (forall n, JsMap.get id (MemStorage.notifications st) = Some n ->
             Notification.userId n <> u) ->
  MemStorage.markNotificationRead id u st = (Returned false, st).
Proof.
  intros Hother. unfold MemStorage.markNotificationRead.
  destruct (JsMap.get id (MemStorage.notifications st)) as [n|]; [|reflexivity].
  specialize (Hother n eq_refl). apply String.eqb_neq in Hother.
  now rewrite Hother.
Qed.

Lemma DatabaseStorage_markNotificationRead_foreign db id u :
  (forall n, In n (Database.notifications db) -> Notification.id n = id ->
             Notification.userId n <> u) ->
  DatabaseStorage.markNotificationRead id u db = (Returned false, db).
Proof.
  intros Hother. unfold DatabaseStorage.markNotificationRead.
  assert (Hp : forall n, In n (Database.notifications db) ->
                 (Notification.id n =? id)%string
                 && (Notification.userId n =? u)%string = false).
  { intros n Hn. destruct (Notification.id n =? id)%string eqn:E; [|reflexivity].
    apply String.eqb_eq in E. simpl. apply String.eqb_neq. now apply Hother. }
  unfold Sql.row_count. rewrite filter_none by exact Hp. simpl.
  rewrite map_id_on; [now destruct db|].
  intros n Hn. now rewrite (Hp n Hn).
Qed.

(** X6. Only its recipient can mark a notification as read:
    [PUT /api/notifications/:id/read] by a signed-in user for an id that is
    unknown or belongs to somebody else answers 404 "Notification not found"
    and the store stays as it was, on both storages. *)
Theorem notification_read_only_by_recipient :
  (forall (st : MemStorage.t) req userId id,
     Request.session_userId req = Some userId ->
     Js.truthy (Some userId) = true ->
     (forall n, JsMap.get id (MemStorage.notifications st) = Some n ->
                Notification.userId n <> userId) ->
     Api.notification_read req id st
     = (Returned (Reply.mk 404 (Reply.Message "Notification not found")), st))
  /\ (forall (db : Database.t) req userId id,
        Request.session_userId req = Some userId ->
        Js.truthy (Some userId) = true ->
        (forall n, In n (Database.notifications db) ->
                   Notification.id n = id -> Notification.userId n <> userId) ->
        Api.notification_read req id db
        = (Returned (Reply.mk 404 (Reply.Message "Notification not found")), db)).
Proof.
  split.
  - intros st req userId id Hs Ht Hother. unfold Api.notification_read.
    rewrite requireAuth_signed_in with (userId := userId);
      [|assumption|assumption].
    unfold Api.catch_400, try_catch, bind, ret.
    change (IStorage.markNotificationRead id userId st)
      with (MemStorage.markNotificationRead id userId st).
    now rewrite MemStorage_markNotificationRead_foreign.
  - intros db req userId id Hs Ht Hother. unfold Api.notification_read.
    rewrite requireAuth_signed_in with (userId := userId);
      [|assumption|assumption].
    unfold Api.catch_400, try_catch, bind, ret.
    change (IStorage.markNotificationRead id userId db)
      with (DatabaseStorage.markNotificationRead id userId db).
    now rewrite DatabaseStorage_markNotificationRead_foreign.
Qed.

Lemma notification_read_only_by_recipient_witness :
  Api.notification_read (Fixture.as_user "u-root") "n-1" InboxFixture.mem
  = (Returned (Reply.mk 404 (Reply.Message "Notification not found")),
     InboxFixture.mem)
  /\ Api.notification_read (Fixture.as_user "u-root") "n-1" InboxFixture.db
     = (Returned (Reply.mk 404 (Reply.Message "Notification not found")),
        InboxFixture.db).
Proof.
  split.
  - apply (proj1 notification_read_only_by_recipient InboxFixture.mem
             (Fixture.as_user "u-root") "u-root" "n-1");
      [reflexivity|reflexivity|].
    intros n Hn. vm_compute in Hn. injection Hn as <-. discriminate.
  - apply (proj2 notification_read_only_by_recipient InboxFixture.db
             (Fixture.as_user "u-root") "u-root" "n-1");
      [reflexivity|reflexivity|].
    intros n Hn Hid. vm_compute in Hn.
    destruct Hn as [<-|[<-|[<-|[]]]]; simpl; discriminate.
Defined.

Lemma replace_count_drop {V} (p : V -> bool) (k : string) (n v : V)
    (m : JsMap.t V) :
  JsMap.get k m = Some n -> p n = true -> p v = false ->
  Datatypes.S (List.length (filter p (JsMap.values (JsMap.replace k v m))))
  = List.length (filter p (JsMap.values m)).
Proof.
  intros Hget Hn Hv. unfold JsMap.values. revert Hget.
  induction m as [|[k' a] m IH]; simpl; [discriminate|].
  destruct (k' =? k)%string eqn:E; simpl.
  - intros [= ->]. now rewrite Hn, Hv.
  - intros Hget. destruct (p a); simpl; rewrite <- (IH Hget); reflexivity.
Qed.

Lemma replace_count_same {V} (p : V -> bool) (k : string) (n v : V)
    (m : JsMap.t V) :
  JsMap.get k m = Some n -> p v = p n ->
  List.length (filter p (JsMap.values (JsMap.replace k v m)))
  = List.length (filter p (JsMap.values m)).
Proof.
  intros Hget Hv. unfold JsMap.values. revert Hget.
  induction m as [|[k' a] m IH]; simpl; [discriminate|].
  destruct (k' =? k)%string eqn:E; simpl.
  - intros Heq. injection Heq as Heq. subst a. rewrite Hv.
    now destruct (p n).
  - intros Hget. destruct (p a); simpl; rewrite (IH Hget); reflexivity.
Qed.

Lemma JsMap_set_is_replace {V} (k : string) (n v : V) (m : JsMap.t V) :
  JsMap.get k m = Some n -> JsMap.set k v m = JsMap.replace k v m.
Proof.
  intros Hget. unfold JsMap.set, JsMap.has. now rewrite Hget.
Qed.

Lemma MemStorage_markNotificationRead_own st id u n :
  JsMap.get id (MemStorage.notifications st) = Some n ->
  Notification.userId n = u ->
  MemStorage.markNotificationRead id u st
  = (Returned true,
     MemStorage.set_notifications
       (JsMap.replace id (Notification.mark_read n) (MemStorage.notifications st))
       st).
Proof.
  intros Hget Hu. unfold MemStorage.markNotificationRead. rewrite Hget.
  rewrite Hu, String.eqb_refl. simpl.
  rewrite JsMap_set_is_replace with (n := n) by exact Hget. reflexivity.
Qed.

Lemma mark_one_count_drop (p : Notification.t -> bool) (id u : string)
    (n : Notification.t) (rows : list Notification.t) :
  NoDup (map Notification.id rows) -> In n rows ->
  Notification.id n = id -> Notification.userId n = u ->
  p n = true -> p (Notification.mark_read n) = false ->
  Datatypes.S
    (List.length
       (filter p
          (map (fun r => if (Notification.id r =? id)%string
                            && (Notification.userId r =? u)%string
                         then Notification.mark_read r else r) rows)))
  = List.length (filter p rows).
Proof.
  intros Hnd Hin Hid Hu Hn Hread.
  induction rows as [|a rows IH]; simpl; [contradiction|].
  inversion Hnd as [|? ? Ha Hrows]; subst.
  destruct Hin as [->|Hin].
  - rewrite !String.eqb_refl. simpl. rewrite Hread, Hn. simpl. f_equal.
    rewrite map_id_on; [reflexivity|].
    intros r Hr. destruct (Notification.id r =? Notification.id n)%string eqn:E;
      [|reflexivity].
    apply String.eqb_eq in E. elim Ha. rewrite <- E. now apply in_map.
  - assert (Hne : (Notification.id a =? Notification.id n)%string = false).
    { apply String.eqb_neq. intros Heq. apply Ha. rewrite Heq.
      now apply in_map. }
    rewrite Hne. simpl. destruct (p a); simpl; rewrite <- (IH Hrows Hin);
      reflexivity.
Qed.

Lemma mark_one_count_same (p : Notification.t -> bool) (id u : string)
    (rows : list Notification.t) :
  (forall r, Notification.userId r = u -> p (Notification.mark_read r) = p r) ->
  List.length
    (filter p
       (map (fun r => if (Notification.id r =? id)%string
                         && (Notification.userId r =? u)%string
                      then Notification.mark_read r else r) rows))
  = List.length (filter p rows).
Proof.
  intros Hp. apply length_filter_map. intros r _.
  destruct (Notification.id r =? id)%string; [|reflexivity].
  destruct (Notification.userId r =? u)%string eqn:E; [|reflexivity].
  simpl. apply Hp. now apply String.eqb_eq.
Qed.

(** X7. Marking one's own unread notification as read lowers one's unread
    count by exactly one and leaves everybody else's count as it was. In
    DatabaseStorage the notification ids are distinct (the primary key). *)
Theorem mark_read_lowers_unread_count_by_one :
  (forall st id u n v,
     JsMap.get id (MemStorage.notifications st) = Some n ->
     Notification.userId n = u -> Notification.isRead n = false ->
     v <> u ->
     let st1 := snd (MemStorage.markNotificationRead id u st) in
     fst (MemStorage.markNotificationRead id u st) = Returned true
     /\ (forall c, fst (MemStorage.getUnreadNotificationCount u st) = Returned c ->
                   fst (MemStorage.getUnreadNotificationCount u st1)
                   = Returned (c - 1))
     /\ fst (MemStorage.getUnreadNotificationCount v st1)
        = fst (MemStorage.getUnreadNotificationCount v st))
  /\ (forall db id u n v,
        NoDup (map Notification.id (Database.notifications db)) ->
        In n (Database.notifications db) ->
        Notification.id n = id ->
        Notification.userId n = u -> Notification.isRead n = false ->
        v <> u ->
        let db1 := snd (DatabaseStorage.markNotificationRead id u db) in
        fst (DatabaseStorage.markNotificationRead id u db) = Returned true
        /\ (forall c,
              fst (DatabaseStorage.getUnreadNotificationCount u db) = Returned c ->
              fst (DatabaseStorage.getUnreadNotificationCount u db1)
              = Returned (c - 1))
        /\ fst (DatabaseStorage.getUnreadNotificationCount v db1)
           = fst (DatabaseStorage.getUnreadNotificationCount v db)).
Proof.
  split.
  - intros st id u n v Hget Hu Hr Hvu.
    rewrite (MemStorage_markNotificationRead_own _ _ Hget Hu). simpl.
    unfold MemStorage.getUnreadNotificationCount. simpl.
    repeat apply conj.
    + reflexivity.
    + intros c [= <-]. f_equal.
      rewrite <- (@replace_count_drop _
                    (fun x => (Notification.userId x =? u)%string
                              && negb (Notification.isRead x))
                    id n (Notification.mark_read n) _ Hget).
      * lia.
      * now rewrite Hu, String.eqb_refl, Hr.
      * simpl. apply andb_false_r.
    + do 2 f_equal.
      apply replace_count_same with (n := n); [exact Hget|].
      simpl. rewrite Hu.
      assert (Hf : (u =? v)%string = false)
        by (apply String.eqb_neq; congruence).
      now rewrite Hf.
  - intros db id u n v Hnd Hin Hid Hu Hr Hvu.
    unfold DatabaseStorage.markNotificationRead,
      DatabaseStorage.getUnreadNotificationCount, Database.query, Sql.row_count.
    simpl. repeat apply conj.
    + f_equal. apply Z.gtb_lt.
      assert (Hpos : In n (filter (fun x => (Notification.id x =? id)%string
                                            && (Notification.userId x =? u)%string)
                             (Database.notifications db))).
      { apply filter_In. split; [exact Hin|].
        now rewrite Hid, Hu, !String.eqb_refl. }
      destruct (filter _ _); [contradiction|]. simpl. lia.
    + intros c [= <-]. f_equal.
      rewrite <- (@mark_one_count_drop
                    (fun x => (Notification.userId x =? u)%string
                              && Bool.eqb (Notification.isRead x) false)
                    id u n _ Hnd Hin Hid Hu).
      * lia.
      * now rewrite Hu, String.eqb_refl, Hr.
      * simpl. apply andb_false_r.
    + do 2 f_equal. apply mark_one_count_same.
      intros r Hru. simpl. rewrite Hru.
      assert (Hf : (u =? v)%string = false)
        by (apply String.eqb_neq; congruence).
      now rewrite Hf.
Qed.

Lemma mark_read_lowers_unread_count_by_one_witness :
  fst (MemStorage.markNotificationRead "n-1" "u-bob" InboxFixture.mem)
  = Returned true.
Proof.
  refine (proj1 (proj1 mark_read_lowers_unread_count_by_one InboxFixture.mem
                   "n-1" "u-bob"
                   (MemStorage.new_notification "n-1" 3001
                      (InboxFixture.note "u-bob"))
                   "u-root" _ _ _ _)).
  - reflexivity.
  - reflexivity.
  - reflexivity.
  - discriminate.
Defined.

Lemma slice_from_start_length {A} (limit : Z) (l : list A) :
  0 <= limit -> Z.of_nat (List.length (Js.slice 0 limit l)) <= limit.
Proof.
  intros Hl. unfold Js.slice, Js.clamp_index. simpl.
  assert (H0 : (limit <? 0) = false) by (apply Z.ltb_ge; lia).
  rewrite H0.
  pose proof (length_firstn
                (Z.to_nat (Z.min limit (Z.of_nat (List.length l))
                           - Z.min 0 (Z.of_nat (List.length l))))
                (skipn (Z.to_nat (Z.min 0 (Z.of_nat (List.length l)))) l)) as Hlen.
  rewrite Hlen. lia.
Qed.



Lemma first_filter_some_In {A} (p : A -> bool) (l : list A) (x : A) :
  Sql.first (filter p l) = Some x -> In x l /\ p x = true.
Proof.
  unfold Sql.first. intros Hf. apply filter_In.
  destruct (filter p l) as [|y r]; [discriminate|].
  injection Hf as ->. now left.
Qed.






(** With the limit -1 DatabaseStorage returns both of Bob's notifications,
    MemStorage's [slice(0, -1)] all but the oldest. *)
Example getNotifications_negative_limit :
  match fst (DatabaseStorageRest.getNotifications "u-bob" (-1) InboxFixture.db)
  with
  | Returned rows =>
      map (fun d => Notification.id (NotificationWithDetails.notification d))
          rows = ["n-3"; "n-1"]
  | Threw _ => False
  end
  /\ match fst (MemStorageRest.getNotifications "u-bob" (-1) InboxFixture.mem)
     with
     | Returned rows =>
         map (fun d => Notification.id (NotificationWithDetails.notification d))
             rows = ["n-3"]
     | Threw _ => False
     end.
Proof. split; vm_compute; reflexivity. Qed.

(** ** Listings *)

Lemma traverse_In {A B} (f : A -> Outcome B) (l : list A) (rows : list B) :
  traverse f l = Returned rows ->
  forall b, In b rows -> exists a, In a l /\ f a = Returned b.
Proof.
  revert rows. induction l as [|a l IH]; intros rows; simpl.
  - intros [= <-] b [].
  - destruct (f a) as [b0|] eqn:Ea; [|discriminate].
    destruct (traverse f l) as [bs|]; [|discriminate].
    intros [= <-] b [<-|Hb].
    + exists a. split; [now left|exact Ea].
    + destruct (IH bs eq_refl b Hb) as [a' [Ha' Hf]].
      exists a'. split; [now right|exact Hf].
Qed.

Lemma attach_author_row st (l : list Snippet.t) (rows : list SnippetWithAuthor.t)
    (P : Snippet.t -> Prop) :
  (forall snippet, In snippet l ->
     In snippet (JsMap.values (MemStorage.snippets st)) /\ P snippet) ->
  traverse (MemStorage.attach_author st) l = Returned rows ->
  Forall (fun row => MemStorage_row st row /\ P (SnippetWithAuthor.snippet row))
         rows.
Proof.
  intros Hl Htr. apply Forall_forall. intros row Hrow.
  destruct (traverse_In _ _ Htr row Hrow) as [snippet [Hin Hat]].
  unfold MemStorage.attach_author in Hat.
  destruct (JsMap.get _ _) as [user|] eqn:G; [|discriminate].
  injection Hat as <-. unfold MemStorage_row. simpl.
  destruct (Hl snippet Hin) as [Hs HP].
  split; [|exact HP]. split; [exact Hs|].
  exists user. now split.
Qed.

Lemma sorted_slice_In {A} (cmp : A -> A -> Z) (p : A -> bool) (a b : Z)
    (l : list A) (x : A) :
  In x (Js.slice a b (Js.sort cmp (filter p l))) -> In x l /\ p x = true.
Proof.
  intros Hin. apply slice_sub in Hin.
  apply (Permutation_in _ (sort_perm _ _)) in Hin. now apply filter_In in Hin.
Qed.

Ltac break_hyp H :=
  repeat match type of H with
         | context [match ?x with _ => _ end] => destruct x eqn:?
         | context [if ?x then _ else _] => destruct x eqn:?
         end.

Ltac not_a_listing :=
  let H := fresh "H" in
  intros H; break_hyp H; discriminate H.

Lemma MemStorage_listing (c : Call) (st st1 : MemStorage.t)
    (rows : list SnippetWithAuthor.t) :
  call c st = (Returned (VSnippets rows), st1) ->
  st1 = st
  /\ Forall (fun row =>
               MemStorage_row st row
               /\ (public_listing c ->
                   Snippet.isPublic (SnippetWithAuthor.snippet row) = true))
            rows.
Proof.
  destruct c; unfold call, observe, bind, ret; simpl;
    try (not_a_listing; fail).
  - (* getSnippetsByAuthor *)
    unfold MemStorage.getSnippetsByAuthor.
    destruct (JsMap.get authorId (MemStorage.users st)) as [author|] eqn:G;
      intros [= <- <-]; (split; [reflexivity|]); [|constructor].
    apply Forall_forall. intros row Hrow. apply in_map_iff in Hrow.
    destruct Hrow as [snippet [<- Hs]]. unfold MemStorage_row. simpl.
    apply (Permutation_in _ (sort_perm _ _)) in Hs.
    apply filter_In in Hs. destruct Hs as [Hin Hp].
    apply andb_true_iff in Hp. destruct Hp as [Ha Hpub].
    apply String.eqb_eq in Ha.
    split; [|intros _; exact Hpub]. split; [exact Hin|].
    exists author. rewrite Ha. now split.
  - (* getUserOwnSnippets *)
    unfold MemStorage.getUserOwnSnippets.
    destruct (JsMap.get authorId (MemStorage.users st)) as [author|] eqn:G;
      intros [= <- <-]; (split; [reflexivity|]); [|constructor].
    apply Forall_forall. intros row Hrow. apply in_map_iff in Hrow.
    destruct Hrow as [snippet [<- Hs]]. unfold MemStorage_row. simpl.
    apply (Permutation_in _ (sort_perm _ _)) in Hs.
    apply filter_In in Hs. destruct Hs as [Hin Ha].
    apply String.eqb_eq in Ha.
    split; [|intros []]. split; [exact Hin|].
    exists author. rewrite Ha. now split.
  - (* getPublicSnippets *)
    unfold MemStorage.getPublicSnippets.
    destruct (traverse _ _) as [rs|] eqn:Htr; [|discriminate].
    intros [= <- <-]. split; [reflexivity|].
    refine (Forall_impl _ _
              (@attach_author_row st _ _
                 (fun snippet => Snippet.isPublic snippet = true) _ Htr)).
    + intros row [Hrow Hpub]. split; [exact Hrow|intros _; exact Hpub].
    + intros snippet Hs. now apply sorted_slice_In in Hs.
  - (* getTrendingSnippets *)
    unfold MemStorage.getTrendingSnippets.
    destruct (traverse _ _) as [rs|] eqn:Htr; [|discriminate].
    intros [= <- <-]. split; [reflexivity|].
    refine (Forall_impl _ _
              (@attach_author_row st _ _
                 (fun snippet => Snippet.isPublic snippet = true) _ Htr)).
    + intros row [Hrow Hpub]. split; [exact Hrow|intros _; exact Hpub].
    + intros snippet Hs. apply sorted_slice_In in Hs.
      destruct Hs as [Hin Hp]. apply andb_true_iff in Hp. tauto.
  - (* getLikedSnippetsByUser *)
    unfold MemStorage.getLikedSnippetsByUser.
    intros [= <- <-]. split; [reflexivity|].
    apply Forall_forall. intros row Hrow. apply in_flat_map in Hrow.
    destruct Hrow as [o [Ho Hrow]]. apply in_map_iff in Ho.
    destruct Ho as [like [<- _]].
    unfold MemStorage.snippet_with_author in Hrow.
    destruct (JsMap.get (SnippetLike.snippetId like) (MemStorage.snippets st))
      as [snippet|] eqn:Gs; [|contradiction].
    destruct (JsMap.get (Snippet.authorId snippet) (MemStorage.users st))
      as [user|] eqn:Gu; [|contradiction].
    simpl in Hrow. destruct (Snippet.isPublic snippet) eqn:Hpub; [|contradiction].
    destruct Hrow as [<-|[]]. unfold MemStorage_row. simpl.
    split; [|intros _; exact Hpub]. split.
    + apply JsMap_get_In in Gs. unfold JsMap.values. apply in_map_iff.
      now exists (SnippetLike.snippetId like, snippet).
    + exists user. now split.
  - (* searchSnippets *)
    unfold MemStorage.searchSnippets.
    destruct (traverse _ _) as [rs|] eqn:Htr; [|discriminate].
    intros [= <- <-]. split; [reflexivity|].
    refine (Forall_impl _ _
              (@attach_author_row st _ _
                 (fun snippet => isPublic = true ->
                                 Snippet.isPublic snippet = true) _ Htr)).
    + intros row [Hrow Hpub]. split; [exact Hrow|exact Hpub].
    + intros snippet Hs. apply (Permutation_in _ (sort_perm _ _)) in Hs.
      apply filter_In in Hs. destruct Hs as [Hin Hp].
      split; [exact Hin|]. intros ->. simpl in Hp.
      now destruct (Snippet.isPublic snippet).
  - (* getAllSnippets *)
    unfold MemStorage.getAllSnippets.
    destruct (traverse _ _) as [rs|] eqn:Htr; [|discriminate].
    intros [= <- <-]. split; [reflexivity|].
    refine (Forall_impl _ _
              (@attach_author_row st _ _ (fun _ => True) _ Htr)).
    + intros row [Hrow _]. split; [exact Hrow|intros []].
    + intros snippet Hs. apply slice_sub in Hs.
      apply (Permutation_in _ (sort_perm _ _)) in Hs. now split.
Qed.

Lemma join_author_row db row :
  In row (Database.join_author db (Database.snippets db)) -> Database_row db row.
Proof.
  unfold Database.join_author, Database_row. intros Hin.
  apply in_flat_map in Hin. destruct Hin as [snippet [Hs Hin]].
  apply in_map_iff in Hin. destruct Hin as [user [<- Hu]].
  apply filter_In in Hu. destruct Hu as [Hu Hid]. apply String.eqb_eq in Hid.
  simpl. split; [exact Hs|]. exists user. now repeat split.
Qed.

Lemma limit_offset_In {A} (limit offset : Z) (rows rs : list A) (x : A) :
  Sql.limit_offset limit offset rows = Returned rs -> In x rs -> In x rows.
Proof.
  unfold Sql.limit_offset. destruct (offset <? 0); [discriminate|].
  destruct (limit <? 0); intros [= <-] Hin; [|apply firstn_sub in Hin];
    now apply skipn_sub in Hin.
Qed.

Lemma order_by_desc_In {A} (key : A -> Z) (rows : list A) (x : A) :
  In x (Sql.order_by_desc key rows) -> In x rows.
Proof.
  unfold Sql.order_by_desc. apply Permutation_in, sort_perm.
Qed.

Lemma DatabaseStorage_listing (c : Call) (db db1 : Database.t)
    (rows : list SnippetWithAuthor.t) :
  call c db = (Returned (VSnippets rows), db1) ->
  db1 = db
  /\ Forall (fun row =>
               Database_row db row
               /\ (public_listing c ->
                   Snippet.isPublic (SnippetWithAuthor.snippet row) = true))
            rows.
Proof.
  destruct c; unfold call, observe, bind, ret; simpl;
    try (not_a_listing; fail).
  - (* getSnippetsByAuthor *)
    unfold DatabaseStorage.getSnippetsByAuthor, Database.query.
    intros [= <- <-]. split; [reflexivity|].
    apply Forall_forall. intros row Hrow. apply order_by_desc_In in Hrow.
    apply filter_In in Hrow. destruct Hrow as [Hin Hp].
    apply andb_true_iff in Hp. destruct Hp as [_ Hpub].
    apply Bool.eqb_prop in Hpub.
    split; [now apply join_author_row|intros _; exact Hpub].
  - (* getUserOwnSnippets *)
    unfold DatabaseStorage.getUserOwnSnippets, Database.query.
    intros [= <- <-]. split; [reflexivity|].
    apply Forall_forall. intros row Hrow. apply order_by_desc_In in Hrow.
    apply filter_In in Hrow. destruct Hrow as [Hin _].
    split; [now apply join_author_row|intros []].
  - (* getPublicSnippets *)
    unfold DatabaseStorage.getPublicSnippets, Database.query_or_fail.
    destruct (Sql.limit_offset _ _ _) as [rs|] eqn:Hlim; [|discriminate].
    intros [= <- <-]. split; [reflexivity|].
    apply Forall_forall. intros row Hrow.
    eapply limit_offset_In in Hrow; [|exact Hlim].
    apply order_by_desc_In in Hrow.
    apply filter_In in Hrow. destruct Hrow as [Hin Hpub].
    apply Bool.eqb_prop in Hpub.
    split; [now apply join_author_row|intros _; exact Hpub].
  - (* getTrendingSnippets *)
    unfold DatabaseStorage.getTrendingSnippets, Database.query_or_fail.
    destruct (traverse _ _); [|discriminate].
    destruct (Sql.limit_offset _ _ _) as [rs|] eqn:Hlim; [|discriminate].
    intros [= <- <-]. split; [reflexivity|].
    apply Forall_forall. intros row Hrow.
    eapply limit_offset_In in Hrow; [|exact Hlim].
    apply order_by_desc_In in Hrow.
    apply filter_In in Hrow. destruct Hrow as [Hin Hpub].
    apply Bool.eqb_prop in Hpub.
    split; [now apply join_author_row|intros _; exact Hpub].
  - (* getLikedSnippetsByUser *)
    unfold DatabaseStorage.getLikedSnippetsByUser, Database.query.
    intros [= <- <-]. split; [reflexivity|].
    apply Forall_forall. intros row Hrow. apply in_map_iff in Hrow.
    destruct Hrow as [[row' like] [Heq Hrow]]. simpl in Heq. subst row'.
    apply order_by_desc_In in Hrow.
    apply filter_In in Hrow. destruct Hrow as [Hin Hp]. simpl in Hp.
    apply andb_true_iff in Hp. destruct Hp as [_ Hpub].
    apply Bool.eqb_prop in Hpub.
    apply in_flat_map in Hin. destruct Hin as [row0 [Hjoin Hin]].
    apply in_map_iff in Hin. destruct Hin as [like0 [[= <- <-] _]].
    split; [now apply join_author_row|intros _; exact Hpub].
  - (* searchSnippets *)
    unfold DatabaseStorage.searchSnippets, Database.query_or_fail.
    destruct (Sql.like_tokens _) as [pattern|]; [|discriminate].
    intros [= <- <-]. split; [reflexivity|].
    apply Forall_forall. intros row Hrow. apply order_by_desc_In in Hrow.
    apply filter_In in Hrow. destruct Hrow as [Hin Hp].
    apply andb_true_iff in Hp. destruct Hp as [Hpub _].
    apply Bool.eqb_prop in Hpub.
    split; [now apply join_author_row|]. simpl. now intros <-.
  - (* getAllSnippets *)
    unfold DatabaseStorage.getAllSnippets, Database.query_or_fail.
    destruct (Sql.limit_offset _ _ _) as [rs|] eqn:Hlim; [|discriminate].
    intros [= <- <-]. split; [reflexivity|].
    apply Forall_forall. intros row Hrow.
    eapply limit_offset_In in Hrow; [|exact Hlim].
    apply order_by_desc_In in Hrow.
    split; [now apply join_author_row|intros []].
Qed.

(** X9. No public list shows a private snippet: whatever
    [getPublicSnippets], [getTrendingSnippets], [getSnippetsByAuthor],
    [getLikedSnippetsByUser] and [searchSnippets] (with its default
    [isPublic = true]) return, in either storage and from any store, every
    row has [isPublic = true]; and the calls leave the store as it was. *)
Theorem public_listings_hide_private_snippets :
  (forall c (st st1 : MemStorage.t) rows,
     public_listing c ->
     call c st = (Returned (VSnippets rows), st1) ->
     st1 = st
     /\ Forall (fun row =>
                  Snippet.isPublic (SnippetWithAuthor.snippet row) = true)
               rows)
  /\ (forall c (db db1 : Database.t) rows,
        public_listing c ->
        call c db = (Returned (VSnippets rows), db1) ->
        db1 = db
        /\ Forall (fun row =>
                     Snippet.isPublic (SnippetWithAuthor.snippet row) = true)
                  rows).
Proof.
  split.
  - intros c st st1 rows Hc Hcall.
    destruct (MemStorage_listing _ _ Hcall) as [Hst Hrows].
    split; [exact Hst|]. eapply Forall_impl; [|exact Hrows].
    intros row [_ Hpub]. now apply Hpub.
  - intros c db db1 rows Hc Hcall.
    destruct (DatabaseStorage_listing _ _ Hcall) as [Hst Hrows].
    split; [exact Hst|]. eapply Forall_impl; [|exact Hrows].
    intros row [_ Hpub]. now apply Hpub.
Qed.

(** X10. Every row of every list of snippets shows a stored snippet
    together with the user stored under that snippet's [authorId]; a snippet
    whose author is gone is never shown with somebody else's name. *)
Theorem listed_rows_carry_their_author :
  (forall c (st st1 : MemStorage.t) rows,
     call c st = (Returned (VSnippets rows), st1) ->
     Forall (MemStorage_row st) rows)
  /\ (forall c (db db1 : Database.t) rows,
        call c db = (Returned (VSnippets rows), db1) ->
        Forall (Database_row db) rows).
Proof.
  split.
  - intros c st st1 rows Hcall.
    destruct (MemStorage_listing _ _ Hcall) as [_ Hrows].
    eapply Forall_impl; [|exact Hrows]. now intros row [Hrow _].
  - intros c db db1 rows Hcall.
    destruct (DatabaseStorage_listing _ _ Hcall) as [_ Hrows].
    eapply Forall_impl; [|exact Hrows]. now intros row [Hrow _].
Qed.

Lemma public_listings_hide_private_snippets_witness :
  exists rows,
    call (GetPublicSnippets 50 0) Fixture.mem
    = (Returned (VSnippets rows), Fixture.mem)
    /\ map (fun row => Snippet.id (SnippetWithAuthor.snippet row)) rows
       = ["s-pub"]
    /\ Forall (fun row =>
                 Snippet.isPublic (SnippetWithAuthor.snippet row) = true)
              rows.
Proof.
  eexists. split; [reflexivity|]. split; [reflexivity|].
  refine (proj2 (proj1 public_listings_hide_private_snippets
                   (GetPublicSnippets 50 0) Fixture.mem Fixture.mem _ _ _)).
  - exact I.
  - reflexivity.
Defined.

Lemma listed_rows_carry_their_author_witness :
  exists rows,
    call (GetUserOwnSnippets "u-ann") Fixture.db
    = (Returned (VSnippets rows), Fixture.db)
    /\ map (fun row => Snippet.id (SnippetWithAuthor.snippet row)) rows
       = ["s-priv"; "s-pub"]
    /\ Forall (Database_row Fixture.db) rows.
Proof.
  eexists. split; [reflexivity|]. split; [reflexivity|].
  refine (proj2 listed_rows_carry_their_author
            (GetUserOwnSnippets "u-ann") Fixture.db Fixture.db _ _).
  reflexivity.
Defined.

(** ** Pages *)

Lemma firstn_skipn_tile {A} (a b o : nat) (l : list A) :
  (firstn a (skipn o l) ++ firstn b (skipn (o + a) l))%list
  = firstn (a + b) (skipn o l).
Proof.
  replace (skipn (o + a) l) with (skipn a (skipn o l)).
  - generalize (skipn o l). clear l. intros l. revert l.
    induction a as [|a IH]; intros l; simpl; [reflexivity|].
    destruct l as [|x l]; simpl.
    + now destruct b.
    + f_equal. apply IH.
  - rewrite skipn_skipn. f_equal. lia.
Qed.

Lemma slice_page {A} (offset limit : Z) (l : list A) :
  0 <= offset -> 0 <= limit ->
  Js.slice offset (offset + limit) l
  = firstn (Z.to_nat limit) (skipn (Z.to_nat offset) l).
Proof.
  intros Ho Hl. unfold Js.slice, Js.clamp_index.
  assert (H1 : (offset <? 0) = false) by (apply Z.ltb_ge; lia).
  assert (H2 : (offset + limit <? 0) = false) by (apply Z.ltb_ge; lia).
  rewrite H1, H2.
  set (len := Z.of_nat (List.length l)).
  destruct (Z_le_gt_dec len offset) as [Hbig|Hsmall].
  - rewrite (Z.min_r offset len) by lia.
    rewrite !skipn_all2 by (unfold len in Hbig; lia).
    now rewrite !firstn_nil.
  - rewrite (Z.min_l offset len) by lia.
    destruct (Z_le_gt_dec (offset + limit) len) as [Hin|Hout].
    + rewrite Z.min_l by lia. f_equal. lia.
    + rewrite Z.min_r by lia.
      rewrite !firstn_all2; [reflexivity| |];
        rewrite length_skipn; unfold len in *; lia.
Qed.

Lemma traverse_app {A B} (f : A -> Outcome B) (l1 l2 : list A) (rows : list B) :
  traverse f (l1 ++ l2) = Returned rows ->
  exists r1 r2,
    traverse f l1 = Returned r1 /\ traverse f l2 = Returned r2
    /\ rows = (r1 ++ r2)%list.
Proof.
  revert rows. induction l1 as [|a l1 IH]; intros rows; simpl.
  - intros H. exists [], rows. now repeat split.
  - destruct (f a) as [b|]; [|discriminate].
    destruct (traverse f (l1 ++ l2)) as [bs|] eqn:E; [|discriminate].
    intros [= <-]. destruct (IH bs eq_refl) as [r1 [r2 [H1 [H2 ->]]]].
    exists (b :: r1), r2. rewrite H1. now repeat split.
Qed.

Lemma slice_tile {A} (o l1 l2 : Z) (all : list A) :
  0 <= o -> 0 <= l1 -> 0 <= l2 ->
  Js.slice o (o + (l1 + l2)) all
  = (Js.slice o (o + l1) all ++ Js.slice (o + l1) (o + l1 + l2) all)%list.
Proof.
  intros Ho H1 H2. rewrite !slice_page by lia.
  rewrite !Z2Nat.inj_add by lia. symmetry. apply firstn_skipn_tile.
Qed.

Lemma limit_offset_tile {A} (o l1 l2 : Z) (all : list A) :
  0 <= o -> 0 <= l1 -> 0 <= l2 ->
  exists p1 p2,
    Sql.limit_offset l1 o all = Returned p1
    /\ Sql.limit_offset l2 (o + l1) all = Returned p2
    /\ Sql.limit_offset (l1 + l2) o all = Returned (p1 ++ p2)%list.
Proof.
  intros Ho H1 H2. unfold Sql.limit_offset.
  assert (E1 : (l1 <? 0) = false) by (apply Z.ltb_ge; lia).
  assert (E2 : (l2 <? 0) = false) by (apply Z.ltb_ge; lia).
  assert (E3 : (o <? 0) = false) by (apply Z.ltb_ge; lia).
  assert (E4 : (o + l1 <? 0) = false) by (apply Z.ltb_ge; lia).
  assert (E5 : (l1 + l2 <? 0) = false) by (apply Z.ltb_ge; lia).
  rewrite E1, E2, E3, E4, E5.
  eexists. eexists. repeat split.
  rewrite !Z2Nat.inj_add by lia. now rewrite firstn_skipn_tile.
Qed.

Lemma MemStorage_page_tile st (o l1 l2 : Z) (all : list Snippet.t)
    (rows : list SnippetWithAuthor.t) :
  0 <= o -> 0 <= l1 -> 0 <= l2 ->
  traverse (MemStorage.attach_author st) (Js.slice o (o + (l1 + l2)) all)
  = Returned rows ->
  exists p1 p2,
    traverse (MemStorage.attach_author st) (Js.slice o (o + l1) all)
    = Returned p1
    /\ traverse (MemStorage.attach_author st)
         (Js.slice (o + l1) (o + l1 + l2) all) = Returned p2
    /\ rows = (p1 ++ p2)%list.
Proof.
  intros Ho H1 H2. rewrite slice_tile by lia. apply traverse_app.
Qed.

Lemma descending_perm_unique {A} (key : A -> Z) (l1 l2 : list A) :
  distinct_keys key l1 -> Permutation l1 l2 ->
  descending key l1 -> descending key l2 -> l1 = l2.
Proof.
  unfold distinct_keys, descending. revert l2.
  induction l1 as [|a t1 IH]; intros l2 Hnd Hperm Hs1 Hs2.
  - now apply Permutation_nil in Hperm.
  - destruct l2 as [|b t2].
    + apply Permutation_sym, Permutation_nil in Hperm. discriminate.
    + assert (Ha : In a (b :: t2))
        by (apply (Permutation_in _ Hperm); now left).
      assert (Hb : In b (a :: t1))
        by (apply (Permutation_in _ (Permutation_sym Hperm)); now left).
      inversion Hs1 as [|? ? Hs1' Hall1]; subst.
      inversion Hs2 as [|? ? Hs2' Hall2]; subst.
      assert (Hab : a = b).
      { destruct Ha as [Ha|Ha]; [now symmetry|].
        destruct Hb as [Hb|Hb]; [now symmetry|].
        apply (NoDup_map_eq key (a :: t1)); simpl; auto.
        pose proof (proj1 (Forall_forall _ _) Hall1 b Hb).
        pose proof (proj1 (Forall_forall _ _) Hall2 a Ha).
        cbv beta in *. lia. }
      subst b. f_equal. apply IH.
      * simpl in Hnd. now inversion Hnd.
      * now apply Permutation_cons_inv with (a := a).
      * exact Hs1'.
      * exact Hs2'.
Qed.

Lemma order_by_desc_unique {A} (key : A -> Z) (rows sorted : list A) :
  distinct_keys key rows -> ordered_by_desc key rows sorted ->
  sorted = Sql.order_by_desc key rows.
Proof.
  intros Hnd [Hperm Hsorted]. apply descending_perm_unique with (key := key).
  - unfold distinct_keys in *.
    exact (Permutation_NoDup (Permutation_map key Hperm) Hnd).
  - transitivity rows; [now apply Permutation_sym|].
    apply Permutation_sym. unfold Sql.order_by_desc. apply sort_perm.
  - exact Hsorted.
  - unfold Sql.order_by_desc. apply sort_descending.
Qed.

(** X11. Consecutive pages tile a list: for non-negative [offset],
    [limit1] and [limit2], the page [(limit1, offset)] followed by the page
    [(limit2, offset + limit1)] is the page [(limit1 + limit2, offset)], for
    [getPublicSnippets], [getAllSnippets] and [getAllUsers]. For MemStorage
    this holds when the long page can be built, that is, when no listed
    snippet has lost its author. For DatabaseStorage it holds when the rows
    that are ordered have pairwise different sort keys: every answer
    [ORDER BY] may give is then the same list, whereas rows with equal keys
    may come in another order in each of the three queries. *)
Theorem consecutive_pages_tile :
  (forall st o l1 l2 rows,
     0 <= o -> 0 <= l1 -> 0 <= l2 ->
     fst (MemStorage.getPublicSnippets (l1 + l2) o st) = Returned rows ->
     exists p1 p2,
       fst (MemStorage.getPublicSnippets l1 o st) = Returned p1
       /\ fst (MemStorage.getPublicSnippets l2 (o + l1) st) = Returned p2
       /\ rows = (p1 ++ p2)%list)
  /\ (forall st o l1 l2 rows,
        0 <= o -> 0 <= l1 -> 0 <= l2 ->
        fst (MemStorage.getAllSnippets (l1 + l2) o st) = Returned rows ->
        exists p1 p2,
          fst (MemStorage.getAllSnippets l1 o st) = Returned p1
          /\ fst (MemStorage.getAllSnippets l2 (o + l1) st) = Returned p2
          /\ rows = (p1 ++ p2)%list)
  /\ (forall st o l1 l2,
        0 <= o -> 0 <= l1 -> 0 <= l2 ->
        exists p1 p2,
          fst (MemStorageRest.getAllUsers l1 o st) = Returned p1
          /\ fst (MemStorageRest.getAllUsers l2 (o + l1) st) = Returned p2
          /\ fst (MemStorageRest.getAllUsers (l1 + l2) o st)
             = Returned (p1 ++ p2)%list)
  /\ (forall db o l1 l2 sorted1 sorted2 sorted,
        0 <= o -> 0 <= l1 -> 0 <= l2 ->
        distinct_keys DatabaseStorage.snippet_createdAt
          (filter (fun row =>
                     Bool.eqb (Snippet.isPublic (SnippetWithAuthor.snippet row))
                       true)
                  (Database.join_author db (Database.snippets db))) ->
        ordered_by_desc DatabaseStorage.snippet_createdAt
          (filter (fun row =>
                     Bool.eqb (Snippet.isPublic (SnippetWithAuthor.snippet row))
                       true)
                  (Database.join_author db (Database.snippets db))) sorted1 ->
        ordered_by_desc DatabaseStorage.snippet_createdAt
          (filter (fun row =>
                     Bool.eqb (Snippet.isPublic (SnippetWithAuthor.snippet row))
                       true)
                  (Database.join_author db (Database.snippets db))) sorted2 ->
        ordered_by_desc DatabaseStorage.snippet_createdAt
          (filter (fun row =>
                     Bool.eqb (Snippet.isPublic (SnippetWithAuthor.snippet row))
                       true)
                  (Database.join_author db (Database.snippets db))) sorted ->
        exists p1 p2,
          Sql.limit_offset l1 o sorted1 = Returned p1
          /\ Sql.limit_offset l2 (o + l1) sorted2 = Returned p2
          /\ Sql.limit_offset (l1 + l2) o sorted = Returned (p1 ++ p2)%list
          /\ fst (DatabaseStorage.getPublicSnippets l1 o db) = Returned p1
          /\ fst (DatabaseStorage.getPublicSnippets l2 (o + l1) db) = Returned p2
          /\ fst (DatabaseStorage.getPublicSnippets (l1 + l2) o db)
             = Returned (p1 ++ p2)%list)
  /\ (forall db o l1 l2 sorted1 sorted2 sorted,
        0 <= o -> 0 <= l1 -> 0 <= l2 ->
        distinct_keys DatabaseStorage.snippet_updatedAt
          (Database.join_author db (Database.snippets db)) ->
        ordered_by_desc DatabaseStorage.snippet_updatedAt
          (Database.join_author db (Database.snippets db)) sorted1 ->
        ordered_by_desc DatabaseStorage.snippet_updatedAt
          (Database.join_author db (Database.snippets db)) sorted2 ->
        ordered_by_desc DatabaseStorage.snippet_updatedAt
          (Database.join_author db (Database.snippets db)) sorted ->
        exists p1 p2,
          Sql.limit_offset l1 o sorted1 = Returned p1
          /\ Sql.limit_offset l2 (o + l1) sorted2 = Returned p2
          /\ Sql.limit_offset (l1 + l2) o sorted = Returned (p1 ++ p2)%list
          /\ fst (DatabaseStorage.getAllSnippets l1 o db) = Returned p1
          /\ fst (DatabaseStorage.getAllSnippets l2 (o + l1) db) = Returned p2
          /\ fst (DatabaseStorage.getAllSnippets (l1 + l2) o db)
             = Returned (p1 ++ p2)%list)
  /\ (forall db o l1 l2 sorted1 sorted2 sorted,
        0 <= o -> 0 <= l1 -> 0 <= l2 ->
        distinct_keys User.createdAt (Database.users db) ->
        ordered_by_desc User.createdAt (Database.users db) sorted1 ->
        ordered_by_desc User.createdAt (Database.users db) sorted2 ->
        ordered_by_desc User.createdAt (Database.users db) sorted ->
        exists p1 p2,
          Sql.limit_offset l1 o sorted1 = Returned p1
          /\ Sql.limit_offset l2 (o + l1) sorted2 = Returned p2
          /\ Sql.limit_offset (l1 + l2) o sorted = Returned (p1 ++ p2)%list
          /\ fst (DatabaseStorageRest.getAllUsers l1 o db) = Returned p1
          /\ fst (DatabaseStorageRest.getAllUsers l2 (o + l1) db) = Returned p2
          /\ fst (DatabaseStorageRest.getAllUsers (l1 + l2) o db)
             = Returned (p1 ++ p2)%list).
Proof.
  repeat apply conj.
  - intros st o l1 l2 rows Ho H1 H2. unfold MemStorage.getPublicSnippets.
    simpl. now apply MemStorage_page_tile.
  - intros st o l1 l2 rows Ho H1 H2. unfold MemStorage.getAllSnippets.
    simpl. now apply MemStorage_page_tile.
  - intros st o l1 l2 Ho H1 H2. unfold MemStorageRest.getAllUsers. simpl.
    eexists. eexists. repeat split.
    rewrite slice_tile by lia. reflexivity.
  - intros db o l1 l2 sorted1 sorted2 sorted Ho H1 H2 Hkeys Hs1 Hs2 Hs.
    rewrite (order_by_desc_unique Hkeys Hs1), (order_by_desc_unique Hkeys Hs2),
      (order_by_desc_unique Hkeys Hs).
    unfold DatabaseStorage.getPublicSnippets, Database.query_or_fail. simpl.
    destruct (limit_offset_tile
                (Sql.order_by_desc DatabaseStorage.snippet_createdAt
                   (filter (fun row =>
                              Bool.eqb (Snippet.isPublic
                                          (SnippetWithAuthor.snippet row)) true)
                           (Database.join_author db (Database.snippets db))))
                Ho H1 H2) as (p1 & p2 & E1 & E2 & E3).
    exists p1, p2. now rewrite E1, E2, E3.
  - intros db o l1 l2 sorted1 sorted2 sorted Ho H1 H2 Hkeys Hs1 Hs2 Hs.
    rewrite (order_by_desc_unique Hkeys Hs1), (order_by_desc_unique Hkeys Hs2),
      (order_by_desc_unique Hkeys Hs).
    unfold DatabaseStorage.getAllSnippets, Database.query_or_fail. simpl.
    destruct (limit_offset_tile
                (Sql.order_by_desc DatabaseStorage.snippet_updatedAt
                   (Database.join_author db (Database.snippets db)))
                Ho H1 H2) as (p1 & p2 & E1 & E2 & E3).
    exists p1, p2. now rewrite E1, E2, E3.
  - intros db o l1 l2 sorted1 sorted2 sorted Ho H1 H2 Hkeys Hs1 Hs2 Hs.
    rewrite (order_by_desc_unique Hkeys Hs1), (order_by_desc_unique Hkeys Hs2),
      (order_by_desc_unique Hkeys Hs).
    unfold DatabaseStorageRest.getAllUsers, Database.query_or_fail. simpl.
    destruct (limit_offset_tile
                (Sql.order_by_desc User.createdAt (Database.users db))
                Ho H1 H2) as (p1 & p2 & E1 & E2 & E3).
    exists p1, p2. now rewrite E1, E2, E3.
Qed.

Lemma Fixture_db_snippets_distinct :
  distinct_keys DatabaseStorage.snippet_updatedAt
    (Database.join_author Fixture.db (Database.snippets Fixture.db)).
Proof.
  unfold distinct_keys. vm_compute.
  repeat (constructor; [simpl; intuition discriminate|]). constructor.
Qed.

Lemma order_by_desc_ordered {A} (key : A -> Z) (rows : list A) :
  ordered_by_desc key rows (Sql.order_by_desc key rows).
Proof.
  split.
  - apply Permutation_sym, sort_perm.
  - apply sort_descending.
Qed.

Lemma consecutive_pages_tile_witness :
  exists p1 p2,
    Sql.limit_offset 1 0
      (Sql.order_by_desc DatabaseStorage.snippet_updatedAt
         (Database.join_author Fixture.db (Database.snippets Fixture.db)))
    = Returned p1
    /\ Sql.limit_offset 1 (0 + 1)
         (Sql.order_by_desc DatabaseStorage.snippet_updatedAt
            (Database.join_author Fixture.db (Database.snippets Fixture.db)))
       = Returned p2
    /\ Sql.limit_offset (1 + 1) 0
         (Sql.order_by_desc DatabaseStorage.snippet_updatedAt
            (Database.join_author Fixture.db (Database.snippets Fixture.db)))
       = Returned (p1 ++ p2)%list
    /\ fst (DatabaseStorage.getAllSnippets 1 0 Fixture.db) = Returned p1
    /\ fst (DatabaseStorage.getAllSnippets 1 (0 + 1) Fixture.db) = Returned p2
    /\ fst (DatabaseStorage.getAllSnippets (1 + 1) 0 Fixture.db)
       = Returned (p1 ++ p2)%list.
Proof.
  apply (proj1 (proj2 (proj2 (proj2 (proj2 consecutive_pages_tile))))
           Fixture.db 0 1 1).
  - lia.
  - lia.
  - lia.
  - exact Fixture_db_snippets_distinct.
  - apply order_by_desc_ordered.
  - apply order_by_desc_ordered.
  - apply order_by_desc_ordered.
Defined.

(** ** Creating, reading and deleting a snippet *)

Section JsMapLookup.

Context {V : Type}.

Lemma JsMap_get_replace_other (k k' : string) (v : V) (m : JsMap.t V) :
  k' <> k -> JsMap.get k' (JsMap.replace k v m) = JsMap.get k' m.
Proof.
  intros Hne. induction m as [|[k0 v0] m IH]; simpl; [reflexivity|].
  destruct (k0 =? k)%string eqn:E; simpl.
  - apply String.eqb_eq in E. subst k0.
    assert (Hf : (k =? k')%string = false)
      by (apply String.eqb_neq; congruence).
    now rewrite Hf.
  - destruct (k0 =? k')%string; [reflexivity|exact IH].
Qed.

Lemma JsMap_get_app (k : string) (m m' : JsMap.t V) :
  JsMap.get k (m ++ m')%list
  = match JsMap.get k m with Some v => Some v | None => JsMap.get k m' end.
Proof.
  induction m as [|[k0 v0] m IH]; simpl; [reflexivity|].
  destruct (k0 =? k)%string; [reflexivity|exact IH].
Qed.

Lemma JsMap_get_set_other (k k' : string) (v : V) (m : JsMap.t V) :
  k' <> k -> JsMap.get k' (JsMap.set k v m) = JsMap.get k' m.
Proof.
  intros Hne. unfold JsMap.set. destruct (JsMap.has k m).
  - now apply JsMap_get_replace_other.
  - rewrite JsMap_get_app. simpl.
    assert (Hf : (k =? k')%string = false)
      by (apply String.eqb_neq; congruence).
    rewrite Hf. now destruct (JsMap.get k' m).
Qed.

Lemma JsMap_get_delete_other (k k' : string) (m : JsMap.t V) :
  k' <> k -> JsMap.get k' (JsMap.delete k m) = JsMap.get k' m.
Proof.
  intros Hne. unfold JsMap.delete.
  induction m as [|[k0 v0] m IH]; simpl; [reflexivity|].
  destruct (k0 =? k)%string eqn:E; simpl.
  - apply String.eqb_eq in E. subst k0.
    assert (Hf : (k =? k')%string = false)
      by (apply String.eqb_neq; congruence).
    now rewrite Hf.
  - destruct (k0 =? k')%string; [reflexivity|exact IH].
Qed.

End JsMapLookup.

Lemma first_filter_app_none {A} (p : A -> bool) (l l' : list A) :
  (forall x, In x l -> p x = false) ->
  Sql.first (filter p (l ++ l')) = Sql.first (filter p l').
Proof.
  intros Hnone. rewrite filter_app. now rewrite filter_none by exact Hnone.
Qed.

Lemma first_filter_app_other {A} (p : A -> bool) (l : list A) (x : A) :
  p x = false -> Sql.first (filter p (l ++ [x])) = Sql.first (filter p l).
Proof.
  intros Hx. rewrite filter_app. simpl. rewrite Hx. now rewrite app_nil_r.
Qed.

(** X12. A snippet that was created can be read back under its id, with
    both counters at zero, and creating it changes what no other id reads.
    DatabaseStorage refuses an id that is taken and leaves the table as it
    was; MemStorage stores the new snippet over the old one. *)
Theorem created_snippet_reads_back :
  (forall st id now authorId data,
     let created := MemStorage.new_snippet id now authorId data in
     let st1 := snd (MemStorage.createSnippet id now authorId data st) in
     MemStorage.createSnippet id now authorId data st = (Returned created, st1)
     /\ MemStorage.getSnippet id st1 = (Returned (Some created), st1)
     /\ Snippet.views created = 0 /\ Snippet.likes created = 0
     /\ Snippet.authorId created = authorId
     /\ (forall id', id' <> id ->
           fst (MemStorage.getSnippet id' st1) = fst (MemStorage.getSnippet id' st)))
  /\ (forall db db1 id now authorId data created,
        DatabaseStorage.createSnippet id now authorId data db
        = (Returned created, db1) ->
        DatabaseStorage.getSnippet id db1 = (Returned (Some created), db1)
        /\ Snippet.id created = id
        /\ Snippet.views created = 0 /\ Snippet.likes created = 0
        /\ Snippet.authorId created = authorId
        /\ (forall id', id' <> id ->
              fst (DatabaseStorage.getSnippet id' db1)
              = fst (DatabaseStorage.getSnippet id' db)))
  /\ (forall db id now authorId data,
        Sql.taken Snippet.id id (Database.snippets db) = true ->
        DatabaseStorage.createSnippet id now authorId data db
        = (Threw UniqueViolation, db)).
Proof.
  repeat apply conj.
  - intros st id now authorId data created st1. unfold st1, created.
    unfold MemStorage.createSnippet, MemStorage.getSnippet. simpl.
    rewrite JsMap_get_set_same. repeat split.
    intros id' Hne. now rewrite JsMap_get_set_other.
  - intros db db1 id now authorId data created.
    unfold DatabaseStorage.createSnippet, DatabaseStorage.insert_into, bind,
      Database.execute, ret, Sql.insert. simpl.
    destruct (Sql.taken _ _ _) eqn:Htaken; [discriminate|].
    intros [= <- <-].
    pose proof (proj1 (taken_false_iff _ _ _) Htaken) as Hfree.
    unfold DatabaseStorage.getSnippet, Database.query. simpl.
    repeat split.
    + rewrite first_filter_app_none; [simpl; now rewrite String.eqb_refl|].
      intros x Hx. apply String.eqb_neq. now apply Hfree.
    + intros id' Hne. rewrite first_filter_app_other; [reflexivity|].
      simpl. apply String.eqb_neq. congruence.
  - intros db id now authorId data Htaken.
    unfold DatabaseStorage.createSnippet, DatabaseStorage.insert_into, bind,
      Database.execute, ret, Sql.insert. simpl. now rewrite Htaken.
Qed.

Lemma created_snippet_reads_back_witness :
  (exists created db1,
     DatabaseStorage.createSnippet "s-new" 6000 "u-bob" (Fixture.hello true)
       Fixture.db = (Returned created, db1)
     /\ DatabaseStorage.getSnippet "s-new" db1 = (Returned (Some created), db1))
  /\ DatabaseStorage.createSnippet "s-pub" 6000 "u-bob" (Fixture.hello true)
       Fixture.db = (Threw UniqueViolation, Fixture.db).
Proof.
  split.
  - eexists. eexists. split; [reflexivity|].
    refine (proj1 (proj1 (proj2 created_snippet_reads_back)
                     Fixture.db _ "s-new" 6000 "u-bob" (Fixture.hello true) _ _)).
    reflexivity.
  - apply (proj2 (proj2 created_snippet_reads_back)). reflexivity.
Defined.

Lemma first_filter_delete_where_other {A} (p q : A -> bool) (rows : list A) :
  (forall x, q x = true -> p x = false) ->
  Sql.first (filter q (Sql.delete_where p rows)) = Sql.first (filter q rows).
Proof.
  intros Hpq. unfold Sql.delete_where. f_equal.
  induction rows as [|a rows IH]; simpl; [reflexivity|].
  destruct (q a) eqn:Q.
  - rewrite (Hpq a Q). simpl. rewrite Q. now f_equal.
  - destruct (negb (p a)); simpl; [now rewrite Q|exact IH].
Qed.

(** X13. [deleteSnippet id] answers whether a snippet was stored under [id];
    afterwards [id] reads as missing and every other id reads as before. The
    likes and the views of the deleted snippet are left in the store. *)
Theorem deleteSnippet_removes_that_snippet_only :
  (forall st id,
     let st1 := snd (MemStorage.deleteSnippet id st) in
     (fst (MemStorage.deleteSnippet id st) = Returned true
      <-> exists snippet, fst (MemStorage.getSnippet id st) = Returned (Some snippet))
     /\ MemStorage.getSnippet id st1 = (Returned None, st1)
     /\ (forall id', id' <> id ->
           fst (MemStorage.getSnippet id' st1) = fst (MemStorage.getSnippet id' st))
     /\ MemStorage.snippetLikes st1 = MemStorage.snippetLikes st
     /\ MemStorage.snippetViews st1 = MemStorage.snippetViews st)
  /\ (forall db id,
        let db1 := snd (DatabaseStorage.deleteSnippet id db) in
        (fst (DatabaseStorage.deleteSnippet id db) = Returned true
         <-> exists snippet,
               fst (DatabaseStorage.getSnippet id db) = Returned (Some snippet))
        /\ DatabaseStorage.getSnippet id db1 = (Returned None, db1)
        /\ (forall id', id' <> id ->
              fst (DatabaseStorage.getSnippet id' db1)
              = fst (DatabaseStorage.getSnippet id' db))
        /\ Database.snippetLikes db1 = Database.snippetLikes db
        /\ Database.snippetViews db1 = Database.snippetViews db).
Proof.
  split.
  - intros st id. unfold MemStorage.deleteSnippet, MemStorage.getSnippet.
    simpl. repeat apply conj; try reflexivity.
    + unfold JsMap.has. intros H.
      destruct (JsMap.get id (MemStorage.snippets st)) as [snippet|];
        [now exists snippet|discriminate].
    + unfold JsMap.has. intros [snippet Hs]. injection Hs as ->. reflexivity.
    + now rewrite JsMap_get_delete.
    + intros id' Hne. now rewrite JsMap_get_delete_other.
  - intros db id. unfold DatabaseStorage.deleteSnippet, DatabaseStorage.getSnippet,
      Database.query. simpl. repeat apply conj; try reflexivity.
    + unfold Sql.row_count, Sql.first. intros H.
      destruct (filter _ (Database.snippets db)) as [|snippet r];
        [discriminate|now exists snippet].
    + unfold Sql.row_count, Sql.first. intros [snippet Hs].
      destruct (filter _ (Database.snippets db)) as [|x r]; [discriminate|].
      reflexivity.
    + rewrite (proj2 (first_filter_none_iff _ _)); [reflexivity|].
      intros x Hx. apply delete_where_In in Hx. now destruct Hx.
    + intros id' Hne. f_equal. apply first_filter_delete_where_other.
      intros x Hx. apply String.eqb_eq in Hx. apply String.eqb_neq. congruence.
Qed.

Lemma deleteSnippet_removes_that_snippet_only_witness :
  fst (MemStorage.getSnippet "s-priv"
         (snd (MemStorage.deleteSnippet "s-pub" Fixture.mem)))
  = fst (MemStorage.getSnippet "s-priv" Fixture.mem).
Proof.
  apply (proj1 (proj2 (proj2 (proj1 deleteSnippet_removes_that_snippet_only
                                Fixture.mem "s-pub")))).
  discriminate.
Defined.

(** ** Editing and deleting a snippet through the routes *)

Section ApiGuards.

Context {S : Type} `{IStorage.t S} `{IStorageRest.t S}.

Lemma requireAuth_anonymous (req : Request.t)
    (next : string -> Promise S Reply.t) (s : S) :
  Js.truthy (Request.session_userId req) = false ->
  Api.requireAuth req next s
  = (Returned (Reply.mk 401 (Reply.Message "Authentication required")), s).
Proof.
  unfold Api.requireAuth. destruct (Request.session_userId req) as [u|];
    [|reflexivity].
  intros Ht. now rewrite Ht.
Qed.

Lemma patch_snippet_guard (now : Z) (req : Request.t) (userId id : string)
    (updates : SnippetUpdates.t) (found : option Snippet.t) (s : S) :
  Request.session_userId req = Some userId ->
  Js.truthy (Some userId) = true ->
  IStorage.getSnippet id s = (Returned found, s) ->
  (forall snippet, found = Some snippet -> Snippet.authorId snippet <> userId) ->
  Api.patch_snippet now req id (Some updates) s
  = (Returned
       (match found with
        | None => Reply.mk 404 (Reply.Message "Snippet not found")
        | Some _ => Reply.mk 403 (Reply.Message "Access denied")
        end), s).
Proof.
  intros Hs Ht Hget Hother. unfold Api.patch_snippet.
  rewrite requireAuth_signed_in with (userId := userId);
    [|assumption|assumption].
  unfold Api.catch_400, try_catch, bind, ret. rewrite Hget.
  destruct found as [snippet|]; [|reflexivity].
  specialize (Hother snippet eq_refl). apply String.eqb_neq in Hother.
  now rewrite Hother.
Qed.

Lemma delete_snippet_guard (req : Request.t) (userId id : string)
    (found : option Snippet.t) (s : S) :
  Request.session_userId req = Some userId ->
  Js.truthy (Some userId) = true ->
  IStorage.getSnippet id s = (Returned found, s) ->
  (forall snippet, found = Some snippet -> Snippet.authorId snippet <> userId) ->
  Api.delete_snippet req id s
  = (Returned
       (match found with
        | None => Reply.mk 404 (Reply.Message "Snippet not found")
        | Some _ => Reply.mk 403 (Reply.Message "Access denied")
        end), s).
Proof.
  intros Hs Ht Hget Hother. unfold Api.delete_snippet.
  rewrite requireAuth_signed_in with (userId := userId);
    [|assumption|assumption].
  unfold Api.catch_400, try_catch, bind, ret. rewrite Hget.
  destruct found as [snippet|]; [|reflexivity].
  specialize (Hother snippet eq_refl). apply String.eqb_neq in Hother.
  now rewrite Hother.
Qed.

End ApiGuards.

(** X14. Only its author can edit or delete a snippet through
    [PATCH /api/snippets/:id] and [DELETE /api/snippets/:id]: whatever the
    storage behind [IStorage], a request without a session is answered 401
    whatever its body; a signed-in [PATCH] whose body the schema rejects is
    answered 400 before the snippet is looked up, whoever sends it; and a
    signed-in [DELETE], or [PATCH] with a body the schema accepts, is
    answered 404 for a missing snippet and 403 "Access denied" when the
    sender is anybody but the author (an admin included). In all these cases
    the store is left as it was. *)
Theorem snippet_edits_refused_to_non_authors :
  forall (S : Type) (storage : IStorage.t S) (rest : IStorageRest.t S)
         now req id (st : S),
    (forall body,
       Js.truthy (Request.session_userId req) = false ->
       Api.patch_snippet now req id body st
       = (Returned (Reply.mk 401 (Reply.Message "Authentication required")), st)
       /\ Api.delete_snippet req id st
          = (Returned (Reply.mk 401 (Reply.Message "Authentication required")),
             st))
    /\ (forall userId,
          Request.session_userId req = Some userId ->
          Js.truthy (Some userId) = true ->
          Api.patch_snippet now req id None st
          = (Returned (Reply.mk 400 (Reply.ErrorMessage ZodError)), st))
    /\ (forall userId updates,
          Request.session_userId req = Some userId ->
          Js.truthy (Some userId) = true ->
          IStorage.getSnippet id st = (Returned None, st) ->
          Api.patch_snippet now req id (Some updates) st
          = (Returned (Reply.mk 404 (Reply.Message "Snippet not found")), st)
          /\ Api.delete_snippet req id st
             = (Returned (Reply.mk 404 (Reply.Message "Snippet not found")), st))
    /\ (forall userId updates snippet,
          Request.session_userId req = Some userId ->
          Js.truthy (Some userId) = true ->
          IStorage.getSnippet id st = (Returned (Some snippet), st) ->
          Snippet.authorId snippet <> userId ->
          Api.patch_snippet now req id (Some updates) st
          = (Returned (Reply.mk 403 (Reply.Message "Access denied")), st)
          /\ Api.delete_snippet req id st
             = (Returned (Reply.mk 403 (Reply.Message "Access denied")), st)).
Proof.
  intros S storage rest now req id st. repeat apply conj.
  - intros body Ht. split; now apply requireAuth_anonymous.
  - intros userId Hs Ht. unfold Api.patch_snippet.
    rewrite requireAuth_signed_in with (userId := userId);
      [|assumption|assumption].
    reflexivity.
  - intros userId updates Hs Ht Hget. split.
    + apply (patch_snippet_guard now req id updates Hs Ht Hget). discriminate.
    + apply (delete_snippet_guard req id Hs Ht Hget). discriminate.
  - intros userId updates snippet Hs Ht Hget Hother. split.
    + apply (patch_snippet_guard now req id updates Hs Ht Hget).
      now intros sn [= <-].
    + apply (delete_snippet_guard req id Hs Ht Hget). now intros sn [= <-].
Qed.

Lemma snippet_edits_refused_to_non_authors_witness :
  (Api.patch_snippet 7000 (Fixture.as_user "u-root") "s-pub"
     (Some (SnippetUpdates.mk (Some "Mine now") None None None None None))
     Fixture.db
   = (Returned (Reply.mk 403 (Reply.Message "Access denied")), Fixture.db)
   /\ Api.delete_snippet (Fixture.as_user "u-root") "s-pub" Fixture.db
      = (Returned (Reply.mk 403 (Reply.Message "Access denied")), Fixture.db))
  /\ (Api.patch_snippet 7000 Fixture.anonymous "s-pub"
        (Some (SnippetUpdates.mk (Some "Mine now") None None None None None))
        Fixture.mem
      = (Returned (Reply.mk 401 (Reply.Message "Authentication required")),
         Fixture.mem)
      /\ Api.delete_snippet Fixture.anonymous "s-pub" Fixture.mem
         = (Returned (Reply.mk 401 (Reply.Message "Authentication required")),
            Fixture.mem))
  /\ Api.patch_snippet 7000 (Fixture.as_user "u-root") "s-pub" None Fixture.db
     = (Returned (Reply.mk 400 (Reply.ErrorMessage ZodError)), Fixture.db)
  /\ (Api.patch_snippet 7000 (Fixture.as_user "u-root") "s-none"
        (Some (SnippetUpdates.mk (Some "Mine now") None None None None None))
        Fixture.mem
      = (Returned (Reply.mk 404 (Reply.Message "Snippet not found")),
         Fixture.mem)
      /\ Api.delete_snippet (Fixture.as_user "u-root") "s-none" Fixture.mem
         = (Returned (Reply.mk 404 (Reply.Message "Snippet not found")),
            Fixture.mem)).
Proof.
  split; [|split; [|split]].
  - eapply (proj2 (proj2 (proj2 (snippet_edits_refused_to_non_authors
                                   DatabaseStorage_IStorage
                                   DatabaseStorage_IStorageRest
                                   7000 (Fixture.as_user "u-root") "s-pub"
                                   Fixture.db)))
              "u-root").
    + reflexivity.
    + reflexivity.
    + vm_compute. reflexivity.
    + simpl. discriminate.
  - apply (proj1 (snippet_edits_refused_to_non_authors
                    MemStorage_IStorage MemStorage_IStorageRest
                    7000 Fixture.anonymous "s-pub" Fixture.mem)).
    reflexivity.
  - apply (proj1 (proj2 (snippet_edits_refused_to_non_authors
                           DatabaseStorage_IStorage DatabaseStorage_IStorageRest
                           7000 (Fixture.as_user "u-root") "s-pub" Fixture.db))
             "u-root"); reflexivity.
  - apply (proj1 (proj2 (proj2 (snippet_edits_refused_to_non_authors
                                  MemStorage_IStorage MemStorage_IStorageRest
                                  7000 (Fixture.as_user "u-root") "s-none"
                                  Fixture.mem)))
             "u-root"); reflexivity.
Defined.

Lemma first_map {A B} (f : A -> B) (l : list A) :
  Sql.first (map f l) = option_map f (Sql.first l).
Proof. now destruct l. Qed.

Lemma traverse_map_In {A} (p : A -> bool) (f : A -> Outcome A) (g : A -> A)
    (rows rows' : list A) :
  (forall r r', f r = Returned r' -> r' = g r) ->
  Sql.update_where p f rows = Returned rows' ->
  rows' = map (fun r => if p r then g r else r) rows.
Proof.
  intros Hfg. unfold Sql.update_where. revert rows'.
  induction rows as [|r rows IH]; intros rows'; simpl.
  - now intros [= <-].
  - destruct (if p r then f r else Returned r) as [r1|] eqn:E; [|discriminate].
    destruct (traverse _ rows) as [rs|]; [|discriminate].
    intros [= <-]. rewrite (IH rs eq_refl). f_equal.
    destruct (p r); [now apply Hfg|now injection E].
Qed.

Lemma first_filter_map_same {A} (p : A -> bool) (g : A -> A) (rows : list A) :
  (forall r, p (g r) = p r) ->
  Sql.first (filter p (map (fun r => if p r then g r else r) rows))
  = option_map g (Sql.first (filter p rows)).
Proof.
  intros Hp. induction rows as [|r rows IH]; simpl; [reflexivity|].
  destruct (p r) eqn:E.
  - rewrite Hp, E. reflexivity.
  - rewrite E. exact IH.
Qed.

Lemma spread_patch_keeps (old : Snippet.t) (updates : SnippetUpdates.t) (now : Z) :
  let new := spread_snippet old (SnippetUpdates.to_partial updates) now in
  Snippet.id new = Snippet.id old
  /\ Snippet.authorId new = Snippet.authorId old
  /\ Snippet.views new = Snippet.views old
  /\ Snippet.likes new = Snippet.likes old
  /\ Snippet.createdAt new = Snippet.createdAt old
  /\ Snippet.updatedAt new = now.
Proof. now repeat split. Qed.

Ltac refused H200 :=
  let Hp := fresh "Hp" in
  intros Hp; cbv beta in Hp; injection Hp as <- <-; discriminate H200.

Lemma MemStorage_patch_200 now req id body st reply st1 :
  Api.patch_snippet now req id body st = (Returned reply, st1) ->
  Reply.status reply = 200 ->
  exists old updates,
    body = Some updates
    /\ fst (MemStorage.getSnippet id st) = Returned (Some old)
    /\ Request.session_userId req = Some (Snippet.authorId old)
    /\ Reply.body reply
       = Reply.UpdatedSnippet
           (Some (spread_snippet old (SnippetUpdates.to_partial updates) now))
    /\ fst (MemStorage.getSnippet id st1)
       = Returned
           (Some (spread_snippet old (SnippetUpdates.to_partial updates) now)).
Proof.
  intros Hp H200. revert Hp.
  unfold Api.patch_snippet, Api.requireAuth, Api.catch_400, try_catch, bind,
    ret, throw.
  destruct (Request.session_userId req) as [userId|];
    [|refused H200].
  destruct (Js.truthy (Some userId)); [|refused H200].
  destruct body as [updates|]; [|refused H200].
  change (IStorage.getSnippet id st) with (MemStorage.getSnippet id st).
  change (@IStorage.updateSnippet MemStorage.t _ now id)
    with (MemStorage.updateSnippet now id).
  unfold MemStorage.getSnippet, MemStorage.updateSnippet.
  destruct (JsMap.get id (MemStorage.snippets st)) as [old|] eqn:G;
    [|refused H200].
  destruct (Snippet.authorId old =? userId)%string eqn:E; simpl;
    [|refused H200].
  rewrite G. intros [= <- <-]. exists old, updates. apply String.eqb_eq in E.
  simpl. rewrite JsMap_get_set_same. subst userId. now repeat split.
Qed.

Lemma DatabaseStorage_patch_200 now req id body db reply db1 :
  Api.patch_snippet now req id body db = (Returned reply, db1) ->
  Reply.status reply = 200 ->
  exists old updates,
    body = Some updates
    /\ fst (DatabaseStorage.getSnippet id db) = Returned (Some old)
    /\ Request.session_userId req = Some (Snippet.authorId old)
    /\ Reply.body reply
       = Reply.UpdatedSnippet
           (Some (spread_snippet old (SnippetUpdates.to_partial updates) now))
    /\ fst (DatabaseStorage.getSnippet id db1)
       = Returned
           (Some (spread_snippet old (SnippetUpdates.to_partial updates) now)).
Proof.
  intros Hp H200. revert Hp.
  unfold Api.patch_snippet, Api.requireAuth, Api.catch_400, try_catch, bind,
    ret, throw.
  destruct (Request.session_userId req) as [userId|];
    [|refused H200].
  destruct (Js.truthy (Some userId)); [|refused H200].
  destruct body as [updates|]; [|refused H200].
  change (IStorage.getSnippet id db) with (DatabaseStorage.getSnippet id db).
  change (@IStorage.updateSnippet Database.t _ now id)
    with (DatabaseStorage.updateSnippet now id).
  unfold DatabaseStorage.getSnippet, Database.query,
    DatabaseStorage.updateSnippet.
  destruct (Sql.first (filter _ (Database.snippets db))) as [old|] eqn:G;
    [|refused H200].
  destruct (Snippet.authorId old =? userId)%string eqn:E; simpl;
    [|refused H200].
  destruct (Sql.update_where _ _ _) as [rows|] eqn:Hup;
    [|refused H200].
  destruct (Sql.distinct _); [|refused H200].
  intros [= <- <-]. exists old, updates. apply String.eqb_eq in E.
  subst userId. simpl. rewrite first_map, G. simpl.
  repeat split.
  apply traverse_map_In
    with (g := fun r => spread_snippet r (SnippetUpdates.to_partial updates) now)
    in Hup.
  - rewrite Hup.
    rewrite (first_filter_map_same
               (fun snippet => (Snippet.id snippet =? id)%string)
               (fun r => spread_snippet r (SnippetUpdates.to_partial updates) now)).
    + now rewrite G.
    + reflexivity.
  - intros r r'. unfold DatabaseStorage.set_snippet_columns.
    destruct (Sql.int4 _); [|discriminate].
    destruct (Sql.int4 _); [|discriminate]. now intros [= <-].
Qed.

(** X15. A [PATCH /api/snippets/:id] that answers 200 was sent by the
    snippet's author, and the snippet it stores and returns has the id, the
    author, the view and like counters and the creation time it had before,
    and [updatedAt] set to the time of the request: the body cannot forge
    any of them. On both storages. *)
Theorem patch_keeps_identity_and_counters :
  (forall now req id body (st st1 : MemStorage.t) reply,
     Api.patch_snippet now req id body st = (Returned reply, st1) ->
     Reply.status reply = 200 ->
     exists old new,
       fst (MemStorage.getSnippet id st) = Returned (Some old)
       /\ Request.session_userId req = Some (Snippet.authorId old)
       /\ Reply.body reply = Reply.UpdatedSnippet (Some new)
       /\ fst (MemStorage.getSnippet id st1) = Returned (Some new)
       /\ same_identity_and_counters old new
       /\ Snippet.updatedAt new = now)
  /\ (forall now req id body (db db1 : Database.t) reply,
        Api.patch_snippet now req id body db = (Returned reply, db1) ->
        Reply.status reply = 200 ->
        exists old new,
          fst (DatabaseStorage.getSnippet id db) = Returned (Some old)
          /\ Request.session_userId req = Some (Snippet.authorId old)
          /\ Reply.body reply = Reply.UpdatedSnippet (Some new)
          /\ fst (DatabaseStorage.getSnippet id db1) = Returned (Some new)
          /\ same_identity_and_counters old new
          /\ Snippet.updatedAt new = now).
Proof.
  split.
  - intros now req id body st st1 reply Hp H200.
    destruct (MemStorage_patch_200 _ _ _ _ _ Hp H200)
      as (old & updates & _ & Hold & Hs & Hbody & Hnew).
    exists old, (spread_snippet old (SnippetUpdates.to_partial updates) now).
    repeat split; assumption.
  - intros now req id body db db1 reply Hp H200.
    destruct (DatabaseStorage_patch_200 _ _ _ _ _ Hp H200)
      as (old & updates & _ & Hold & Hs & Hbody & Hnew).
    exists old, (spread_snippet old (SnippetUpdates.to_partial updates) now).
    repeat split; assumption.
Qed.

Lemma patch_keeps_identity_and_counters_witness :
  exists reply db1 old new,
    Api.patch_snippet 7000 (Fixture.as_user "u-ann") "s-pub"
      (Some EditFixture.retitle) LikeFixture.db_liked = (Returned reply, db1)
    /\ Reply.status reply = 200
    /\ Reply.body reply = Reply.UpdatedSnippet (Some new)
    /\ fst (DatabaseStorage.getSnippet "s-pub" LikeFixture.db_liked)
       = Returned (Some old)
    /\ Snippet.likes old = 1
    /\ Snippet.isPublic new = false
    /\ same_identity_and_counters old new.
Proof.
  destruct (proj2 patch_keeps_identity_and_counters 7000
              (Fixture.as_user "u-ann") "s-pub" (Some EditFixture.retitle)
              LikeFixture.db_liked
              (snd (Api.patch_snippet 7000 (Fixture.as_user "u-ann") "s-pub"
                      (Some EditFixture.retitle) LikeFixture.db_liked))
              (Reply.json
                 (Reply.UpdatedSnippet
                    (Some (spread_snippet
                             (Snippet.with_likes 1
                                (DatabaseStorage.snippet_row "s-pub" 2000 "u-ann"
                                   (Fixture.hello true)))
                             (SnippetUpdates.to_partial EditFixture.retitle)
                             7000)))))
    as (old & new & Hold & _ & Hbody & _ & Hsame & _).
  - reflexivity.
  - reflexivity.
  - eexists. eexists. exists old, new.
    split; [reflexivity|]. split; [reflexivity|].
    split; [exact Hbody|]. split; [exact Hold|].
    vm_compute in Hold. injection Hold as <-.
    simpl in Hbody. injection Hbody as <-.
    split; [reflexivity|]. split; [reflexivity|exact Hsame].
Defined.

(** ** Accounts *)

Lemma NoDup_app_fresh {A} (l : list A) (x : A) :
  NoDup l -> ~ In x l -> NoDup (l ++ [x]).
Proof.
  intros Hnd Hx. induction l as [|a l IH]; simpl.
  - constructor; [intros []|constructor].
  - inversion Hnd as [|? ? Ha Hl]; subst. constructor.
    + intros Hin. apply in_app_or in Hin. destruct Hin as [Hin|[->|[]]].
      * now apply Ha.
      * apply Hx. now left.
    + apply IH; [exact Hl|]. intros Hin. apply Hx. now right.
Qed.

Lemma NoDup_replace_fresh {V B} (f : V -> B) (k : string) (v : V)
    (m : JsMap.t V) :
  NoDup (map f (JsMap.values m)) -> ~ In (f v) (map f (JsMap.values m)) ->
  NoDup (map f (JsMap.values (JsMap.replace k v m))).
Proof.
  unfold JsMap.values. induction m as [|[k' v'] m IH]; simpl; intros Hnd Hv.
  - constructor.
  - inversion Hnd as [|? ? Ha Hm]; subst.
    destruct (k' =? k)%string; simpl.
    + constructor; [|exact Hm]. intros Hin. apply Hv. now right.
    + constructor.
      * intros Hin. apply in_map_iff in Hin. destruct Hin as [x [Hfx Hx]].
        apply in_map_iff in Hx. destruct Hx as [[k0 x0] [Hsnd He]].
        simpl in Hsnd. subst x0.
        apply (@JsMap_replace_sub _ (fun _ => EmptyString)) in He.
        destruct He as [[= _ ->]|He].
        -- apply Hv. left. now symmetry.
        -- apply Ha. rewrite <- Hfx. apply in_map_iff. exists x. split; [reflexivity|].
           apply in_map_iff. now exists (k0, x).
      * apply IH; [exact Hm|]. intros Hin. apply Hv. now right.
Qed.

Lemma NoDup_set_fresh {V B} (f : V -> B) (k : string) (v : V) (m : JsMap.t V) :
  NoDup (map f (JsMap.values m)) -> ~ In (f v) (map f (JsMap.values m)) ->
  NoDup (map f (JsMap.values (JsMap.set k v m))).
Proof.
  intros Hnd Hv. unfold JsMap.set. destruct (JsMap.has k m).
  - now apply NoDup_replace_fresh.
  - rewrite JsMap_values_app, map_app. simpl. now apply NoDup_app_fresh.
Qed.

Lemma find_none_not_in {A} (key : A -> string) (k : string) (l : list A) :
  find (fun x => (key x =? k)%string) l = None -> ~ In k (map key l).
Proof.
  intros Hf Hin. apply in_map_iff in Hin. destruct Hin as [x [Hk Hx]].
  pose proof (find_none _ _ Hf x Hx) as Hne. simpl in Hne.
  apply String.eqb_neq in Hne. congruence.
Qed.

Lemma first_filter_none_not_in {A} (key : A -> string) (k : string)
    (l : list A) :
  Sql.first (filter (fun x => (key x =? k)%string) l) = None ->
  ~ In k (map key l).
Proof.
  intros Hf Hin. apply in_map_iff in Hin. destruct Hin as [x [Hk Hx]].
  pose proof (proj1 (first_filter_none_iff _ _) Hf x Hx) as Hne. simpl in Hne.
  apply String.eqb_neq in Hne. congruence.
Qed.

Lemma MemStorage_register_spec uuid hashed now req body st :
  let result := Api.register uuid hashed now req body st in
  (distinct_accounts (JsMap.values (MemStorage.users st)) ->
   distinct_accounts (JsMap.values (MemStorage.users (snd result))))
  /\ exists reply session,
       fst result = Returned (reply, session)
       /\ (Reply.status reply = 200 ->
           exists data,
             body = Some data
             /\ let user := MemStorage.new_user uuid hashed now RankDefault data in
                Reply.body reply
                = Reply.UserEnvelope (SafeUser.without_password user)
                /\ session = Some uuid
                /\ User.rank user = RankDefault
                /\ MemStorage.getUser uuid (snd result)
                   = (Returned (Some user), snd result))
       /\ (Reply.status reply <> 200 ->
           snd result = st /\ session = Request.session_userId req).
Proof.
  cbv zeta. unfold Api.register, try_catch, bind, ret, throw.
  change (@IStorage.getUserByUsername MemStorage.t _)
    with MemStorage.getUserByUsername.
  change (@IStorage.getUserByEmail MemStorage.t _)
    with MemStorage.getUserByEmail.
  change (@IStorage.createUser MemStorage.t _) with MemStorage.createUser.
  unfold MemStorage.getUserByUsername, MemStorage.getUserByEmail,
    MemStorage.createUser.
  destruct body as [data|]; simpl.
  2:{ split; [exact (fun Hd => Hd)|]. eexists. eexists. split; [reflexivity|].
      split; [discriminate|]. intros _. now split. }
  destruct (find (fun user => (User.username user =? InsertUser.username data)%string)
              (JsMap.values (MemStorage.users st))) as [u1|] eqn:Hname.
  { simpl. split; [exact (fun Hd => Hd)|]. eexists. eexists. split; [reflexivity|].
    split; [discriminate|]. intros _. now split. }
  simpl.
  destruct (find (fun user => (User.email user =? InsertUser.email data)%string)
              (JsMap.values (MemStorage.users st))) as [u2|] eqn:Hmail.
  { simpl. split; [exact (fun Hd => Hd)|]. eexists. eexists. split; [reflexivity|].
    split; [discriminate|]. intros _. now split. }
  simpl. split.
  - intros [Hn He]. split.
    + apply NoDup_set_fresh; [exact Hn|]. simpl. now apply find_none_not_in.
    + apply NoDup_set_fresh; [exact He|]. simpl. now apply find_none_not_in.
  - eexists. eexists. split; [reflexivity|]. split.
    + intros _. exists data. split; [reflexivity|]. simpl.
      unfold MemStorage.getUser. simpl. rewrite JsMap_get_set_same.
      now repeat split.
    + intros Hne. now elim Hne.
Qed.

Lemma DatabaseStorage_register_spec uuid hashed now req body db :
  let result := Api.register uuid hashed now req body db in
  (distinct_accounts (Database.users db) ->
   distinct_accounts (Database.users (snd result)))
  /\ exists reply session,
       fst result = Returned (reply, session)
       /\ (Reply.status reply = 200 ->
           exists data,
             body = Some data
             /\ let user :=
                  DatabaseStorage.user_row uuid hashed now RankDefault data in
                Reply.body reply
                = Reply.UserEnvelope (SafeUser.without_password user)
                /\ session = Some uuid
                /\ User.rank user = RankDefault
                /\ DatabaseStorage.getUser uuid (snd result)
                   = (Returned (Some user), snd result))
       /\ (Reply.status reply <> 200 ->
           snd result = db /\ session = Request.session_userId req).
Proof.
  cbv zeta. unfold Api.register, try_catch, bind, ret, throw.
  change (@IStorage.getUserByUsername Database.t _)
    with DatabaseStorage.getUserByUsername.
  change (@IStorage.getUserByEmail Database.t _)
    with DatabaseStorage.getUserByEmail.
  change (@IStorage.createUser Database.t _) with DatabaseStorage.createUser.
  unfold DatabaseStorage.getUserByUsername, DatabaseStorage.getUserByEmail,
    DatabaseStorage.createUser, Database.query, bind, ret, Database.execute,
    DatabaseStorage.insert_user.
  destruct body as [data|]; simpl.
  2:{ split; [exact (fun Hd => Hd)|]. eexists. eexists. split; [reflexivity|].
      split; [discriminate|]. intros _. now split. }
  destruct (Sql.first
              (filter (fun user => (User.username user =? InsertUser.username data)%string)
                 (Database.users db))) as [u1|] eqn:Hname.
  { simpl. split; [exact (fun Hd => Hd)|]. eexists. eexists.
    split; [reflexivity|]. split; [discriminate|]. intros _. now split. }
  simpl.
  destruct (Sql.first
              (filter (fun user => (User.email user =? InsertUser.email data)%string)
                 (Database.users db))) as [u2|] eqn:Hmail.
  { simpl. split; [exact (fun Hd => Hd)|]. eexists. eexists.
    split; [reflexivity|]. split; [discriminate|]. intros _. now split. }
  simpl.
  destruct (Sql.taken User.id uuid (Database.users db)) eqn:Hid; simpl.
  { split; [exact (fun Hd => Hd)|]. eexists. eexists.
    split; [reflexivity|]. split; [discriminate|]. intros _. now split. }
  assert (Hn : Sql.taken User.username (InsertUser.username data)
                 (Database.users db) = false).
  { apply taken_false_iff. intros r Hr Heq.
    apply (first_filter_none_not_in User.username _ _ Hname).
    rewrite <- Heq. now apply in_map. }
  assert (He : Sql.taken User.email (InsertUser.email data)
                 (Database.users db) = false).
  { apply taken_false_iff. intros r Hr Heq.
    apply (first_filter_none_not_in User.email _ _ Hmail).
    rewrite <- Heq. now apply in_map. }
  rewrite Hn, He. simpl. split.
  - intros [Hdn Hde]. split; rewrite map_app; simpl; apply NoDup_app_fresh;
      try assumption.
    + now apply (first_filter_none_not_in User.username).
    + now apply (first_filter_none_not_in User.email).
  - eexists. eexists. split; [reflexivity|]. split.
    + intros _. exists data. split; [reflexivity|]. simpl.
      unfold DatabaseStorage.getUser, Database.query. simpl.
      rewrite first_filter_app_none.
      * simpl. rewrite String.eqb_refl. now repeat split.
      * intros x Hx. apply String.eqb_neq.
        now apply (proj1 (taken_false_iff _ _ _) Hid).
    + intros Hne. now elim Hne.
Qed.

(** X16. [POST /api/auth/register] keeps usernames and e-mail addresses
    unique, on both storages: a store in which no two users share a
    username or an address is still such a store afterwards. When it
    answers 200 it has stored a user of rank [default] built from the body
    under the new id, which the session now holds; when it answers anything
    else the store and the session are as before. *)
Theorem register_keeps_accounts_distinct :
  (forall uuid hashed now req body (st : MemStorage.t),
     let result := Api.register uuid hashed now req body st in
     (distinct_accounts (JsMap.values (MemStorage.users st)) ->
      distinct_accounts (JsMap.values (MemStorage.users (snd result))))
     /\ exists reply session,
          fst result = Returned (reply, session)
          /\ (Reply.status reply = 200 ->
              exists data,
                body = Some data
                /\ let user :=
                     MemStorage.new_user uuid hashed now RankDefault data in
                   Reply.body reply
                   = Reply.UserEnvelope (SafeUser.without_password user)
                   /\ session = Some uuid
                   /\ User.rank user = RankDefault
                   /\ MemStorage.getUser uuid (snd result)
                      = (Returned (Some user), snd result))
          /\ (Reply.status reply <> 200 ->
              snd result = st /\ session = Request.session_userId req))
  /\ (forall uuid hashed now req body (db : Database.t),
        let result := Api.register uuid hashed now req body db in
        (distinct_accounts (Database.users db) ->
         distinct_accounts (Database.users (snd result)))
        /\ exists reply session,
             fst result = Returned (reply, session)
             /\ (Reply.status reply = 200 ->
                 exists data,
                   body = Some data
                   /\ let user :=
                        DatabaseStorage.user_row uuid hashed now RankDefault data
                      in
                      Reply.body reply
                      = Reply.UserEnvelope (SafeUser.without_password user)
                      /\ session = Some uuid
                      /\ User.rank user = RankDefault
                      /\ DatabaseStorage.getUser uuid (snd result)
                         = (Returned (Some user), snd result))
             /\ (Reply.status reply <> 200 ->
                 snd result = db /\ session = Request.session_userId req)).
Proof.
  split.
  - intros. apply MemStorage_register_spec.
  - intros. apply DatabaseStorage_register_spec.
Qed.

Lemma Fixture_mem_distinct :
  distinct_accounts (JsMap.values (MemStorage.users Fixture.mem)).
Proof.
  split; vm_compute; repeat constructor; simpl; intuition discriminate.
Qed.

Lemma register_keeps_accounts_distinct_witness :
  distinct_accounts
    (JsMap.values
       (MemStorage.users
          (snd (Api.register "u-cat" "h-cat" 9000 Fixture.anonymous
                  (Some SignupFixture.cat) Fixture.mem)))).
Proof.
  apply (proj1 (proj1 register_keeps_accounts_distinct "u-cat" "h-cat" 9000
                  Fixture.anonymous (Some SignupFixture.cat) Fixture.mem)).
  exact Fixture_mem_distinct.
Defined.

Lemma loginSchema_some body username password :
  Api.loginSchema body = Some (username, password) ->
  LoginBody.username body = Some username
  /\ LoginBody.password body = Some password
  /\ username <> EmptyString /\ password <> EmptyString.
Proof.
  unfold Api.loginSchema.
  destruct (LoginBody.username body) as [u|]; [|discriminate].
  destruct (LoginBody.password body) as [p|]; [|discriminate].
  destruct (_ && _) eqn:E; [|discriminate]. intros [= <- <-].
  apply andb_true_iff in E. destruct E as [E1 E2].
  repeat split; intros ->; discriminate.
Qed.

Lemma MemStorage_login_spec compare req body st :
  let result := Api.login compare req body st in
  snd result = st
  /\ exists reply session,
       fst result = Returned (reply, session)
       /\ (Reply.status reply = 200 ->
           exists user username password,
             LoginBody.username body = Some username
             /\ LoginBody.password body = Some password
             /\ In user (JsMap.values (MemStorage.users st))
             /\ User.username user = username
             /\ compare password (User.password user) = true
             /\ session = Some (User.id user)
             /\ Reply.body reply
                = Reply.UserEnvelope (SafeUser.without_password user))
       /\ (Reply.status reply <> 200 -> session = Request.session_userId req).
Proof.
  cbv zeta. unfold Api.login, try_catch, bind, ret, throw.
  change (@IStorageRest.verifyPassword MemStorage.t _)
    with MemStorageRest.verifyPassword.
  unfold MemStorageRest.verifyPassword, MemStorage.getUserByUsername, bind, ret.
  destruct (Api.loginSchema body) as [[username password]|] eqn:Hschema; simpl.
  2:{ split; [reflexivity|]. eexists. eexists. split; [reflexivity|].
      split; [discriminate|]. now intros _. }
  destruct (find (fun user => (User.username user =? username)%string)
              (JsMap.values (MemStorage.users st))) as [user|] eqn:Hfind; simpl.
  2:{ split; [reflexivity|]. eexists. eexists. split; [reflexivity|].
      split; [discriminate|]. now intros _. }
  destruct (compare password (User.password user)) eqn:Hcmp; simpl.
  2:{ split; [reflexivity|]. eexists. eexists. split; [reflexivity|].
      split; [discriminate|]. now intros _. }
  split; [reflexivity|]. eexists. eexists. split; [reflexivity|]. split.
  - intros _. exists user, username, password.
    destruct (loginSchema_some _ Hschema) as (Hu & Hp & _).
    apply find_some in Hfind. destruct Hfind as [Hin Hname].
    apply String.eqb_eq in Hname. now repeat split.
  - intros Hne. now elim Hne.
Qed.

Lemma DatabaseStorage_login_spec compare req body db :
  let result := Api.login compare req body db in
  snd result = db
  /\ exists reply session,
       fst result = Returned (reply, session)
       /\ (Reply.status reply = 200 ->
           exists user username password,
             LoginBody.username body = Some username
             /\ LoginBody.password body = Some password
             /\ In user (Database.users db)
             /\ User.username user = username
             /\ compare password (User.password user) = true
             /\ session = Some (User.id user)
             /\ Reply.body reply
                = Reply.UserEnvelope (SafeUser.without_password user))
       /\ (Reply.status reply <> 200 -> session = Request.session_userId req).
Proof.
  cbv zeta. unfold Api.login, try_catch, bind, ret, throw.
  change (@IStorageRest.verifyPassword Database.t _)
    with DatabaseStorageRest.verifyPassword.
  unfold DatabaseStorageRest.verifyPassword, DatabaseStorage.getUserByUsername,
    Database.query, bind, ret.
  destruct (Api.loginSchema body) as [[username password]|] eqn:Hschema; simpl.
  2:{ split; [reflexivity|]. eexists. eexists. split; [reflexivity|].
      split; [discriminate|]. now intros _. }
  destruct (Sql.first
              (filter (fun user => (User.username user =? username)%string)
                 (Database.users db))) as [user|] eqn:Hfind; simpl.
  2:{ split; [reflexivity|]. eexists. eexists. split; [reflexivity|].
      split; [discriminate|]. now intros _. }
  destruct (compare password (User.password user)) eqn:Hcmp; simpl.
  2:{ split; [reflexivity|]. eexists. eexists. split; [reflexivity|].
      split; [discriminate|]. now intros _. }
  split; [reflexivity|]. eexists. eexists. split; [reflexivity|]. split.
  - intros _. exists user, username, password.
    destruct (loginSchema_some _ Hschema) as (Hu & Hp & _).
    apply first_filter_some_In in Hfind. destruct Hfind as [Hin Hname].
    apply String.eqb_eq in Hname. now repeat split.
  - intros Hne. now elim Hne.
Qed.

(** X17. [POST /api/auth/login] never writes to the store, and it signs a
    user in (answers 200 and puts the user's id into the session) only for
    a stored user whose username is the one given and whose stored hash
    [bcrypt.compare] accepts for the password given; in every other case the
    session stays as it was. On both storages. *)
Theorem login_needs_the_password :
  (forall compare req body (st : MemStorage.t),
     let result := Api.login compare req body st in
     snd result = st
     /\ exists reply session,
          fst result = Returned (reply, session)
          /\ (Reply.status reply = 200 ->
              exists user username password,
                LoginBody.username body = Some username
                /\ LoginBody.password body = Some password
                /\ In user (JsMap.values (MemStorage.users st))
                /\ User.username user = username
                /\ compare password (User.password user) = true
                /\ session = Some (User.id user)
                /\ Reply.body reply
                   = Reply.UserEnvelope (SafeUser.without_password user))
          /\ (Reply.status reply <> 200 ->
              session = Request.session_userId req))
  /\ (forall compare req body (db : Database.t),
        let result := Api.login compare req body db in
        snd result = db
        /\ exists reply session,
             fst result = Returned (reply, session)
             /\ (Reply.status reply = 200 ->
                 exists user username password,
                   LoginBody.username body = Some username
                   /\ LoginBody.password body = Some password
                   /\ In user (Database.users db)
                   /\ User.username user = username
                   /\ compare password (User.password user) = true
                   /\ session = Some (User.id user)
                   /\ Reply.body reply
                      = Reply.UserEnvelope (SafeUser.without_password user))
             /\ (Reply.status reply <> 200 ->
                 session = Request.session_userId req)).
Proof.
  split.
  - intros. apply MemStorage_login_spec.
  - intros. apply DatabaseStorage_login_spec.
Qed.

Lemma login_needs_the_password_witness :
  exists user,
    In user (Database.users Fixture.db)
    /\ User.username user = "ann"
    /\ SignupFixture.compare "pw-ann" (User.password user) = true.
Proof.
  destruct (proj2 login_needs_the_password SignupFixture.compare
              Fixture.anonymous (LoginBody.mk (Some "ann") (Some "pw-ann"))
              Fixture.db)
    as [_ (reply & session & Hres & H200 & _)].
  vm_compute in Hres. injection Hres as <- <-.
  destruct (H200 eq_refl)
    as (user & username & password & Hu & Hp & Hin & Hname & Hcmp & _).
  injection Hu as <-. injection Hp as <-. exists user. now repeat split.
Defined.

Lemma find_replace_fresh {V} (p : V -> bool) (k : string) (v : V)
    (m : JsMap.t V) :
  (forall x, In x (JsMap.values m) -> p x = false) -> p v = true ->
  JsMap.has k m = true ->
  find p (JsMap.values (JsMap.replace k v m)) = Some v.
Proof.
  unfold JsMap.has, JsMap.values.
  induction m as [|[k' v'] m IH]; simpl; intros Hall Hv Hh; [discriminate|].
  destruct (k' =? k)%string; simpl.
  - now rewrite Hv.
  - rewrite (Hall v' (or_introl eq_refl)). apply IH; [|exact Hv|exact Hh].
    intros x Hx. apply Hall. now right.
Qed.

Lemma find_set_fresh {V} (p : V -> bool) (k : string) (v : V) (m : JsMap.t V) :
  (forall x, In x (JsMap.values m) -> p x = false) -> p v = true ->
  find p (JsMap.values (JsMap.set k v m)) = Some v.
Proof.
  intros Hall Hv. unfold JsMap.set. destruct (JsMap.has k m) eqn:Hh.
  - now apply find_replace_fresh.
  - rewrite JsMap_values_app. simpl. rewrite find_appended.
    + now rewrite Hv.
    + now apply find_none_iff.
Qed.

Lemma loginSchema_accepts username password :
  username <> EmptyString -> password <> EmptyString ->
  Api.loginSchema (LoginBody.mk (Some username) (Some password))
  = Some (username, password).
Proof.
  intros Hu Hp. unfold Api.loginSchema. simpl.
  destruct username; [now elim Hu|]. destruct password; [now elim Hp|].
  reflexivity.
Qed.

Lemma MemStorage_register_then_login uuid hashed now req req' data
    (st : MemStorage.t) compare reply session :
  fst (Api.register uuid hashed now req (Some data) st)
  = Returned (reply, session) ->
  Reply.status reply = 200 ->
  InsertUser.username data <> EmptyString ->
  InsertUser.password data <> EmptyString ->
  compare (InsertUser.password data) hashed = true ->
  let st1 := snd (Api.register uuid hashed now req (Some data) st) in
  Api.login compare req'
    (LoginBody.mk (Some (InsertUser.username data))
       (Some (InsertUser.password data))) st1
  = (Returned
       (Reply.json
          (Reply.UserEnvelope
             (SafeUser.without_password
                (MemStorage.new_user uuid hashed now RankDefault data))),
        Some uuid), st1).
Proof.
  intros Hreg H200 Hu Hp Hcmp. cbv zeta. revert Hreg.
  unfold Api.register, try_catch, bind, ret, throw.
  change (@IStorage.getUserByUsername MemStorage.t _)
    with MemStorage.getUserByUsername.
  change (@IStorage.getUserByEmail MemStorage.t _)
    with MemStorage.getUserByEmail.
  change (@IStorage.createUser MemStorage.t _) with MemStorage.createUser.
  unfold MemStorage.getUserByUsername, MemStorage.getUserByEmail,
    MemStorage.createUser. simpl.
  destruct (find (fun user => (User.username user =? InsertUser.username data)%string)
              (JsMap.values (MemStorage.users st))) as [u1|] eqn:Hname;
    simpl; [intros [= <- <-]; discriminate|].
  destruct (find (fun user => (User.email user =? InsertUser.email data)%string)
              (JsMap.values (MemStorage.users st))) as [u2|] eqn:Hmail;
    simpl; [intros [= <- <-]; discriminate|].
  intros _.
  unfold Api.login, try_catch, bind, ret, throw.
  rewrite loginSchema_accepts by assumption.
  change (@IStorageRest.verifyPassword MemStorage.t _)
    with MemStorageRest.verifyPassword.
  unfold MemStorageRest.verifyPassword, MemStorage.getUserByUsername, bind, ret.
  simpl.
  rewrite find_set_fresh.
  - simpl. now rewrite Hcmp.
  - now apply find_none_iff.
  - simpl. apply String.eqb_refl.
Qed.

Lemma DatabaseStorage_register_then_login uuid hashed now req req' data
    (db : Database.t) compare reply session :
  fst (Api.register uuid hashed now req (Some data) db)
  = Returned (reply, session) ->
  Reply.status reply = 200 ->
  InsertUser.username data <> EmptyString ->
  InsertUser.password data <> EmptyString ->
  compare (InsertUser.password data) hashed = true ->
  let db1 := snd (Api.register uuid hashed now req (Some data) db) in
  Api.login compare req'
    (LoginBody.mk (Some (InsertUser.username data))
       (Some (InsertUser.password data))) db1
  = (Returned
       (Reply.json
          (Reply.UserEnvelope
             (SafeUser.without_password
                (DatabaseStorage.user_row uuid hashed now RankDefault data))),
        Some uuid), db1).
Proof.
  intros Hreg H200 Hu Hp Hcmp. cbv zeta. revert Hreg.
  unfold Api.register, try_catch, bind, ret, throw.
  change (@IStorage.getUserByUsername Database.t _)
    with DatabaseStorage.getUserByUsername.
  change (@IStorage.getUserByEmail Database.t _)
    with DatabaseStorage.getUserByEmail.
  change (@IStorage.createUser Database.t _) with DatabaseStorage.createUser.
  unfold DatabaseStorage.getUserByUsername, DatabaseStorage.getUserByEmail,
    DatabaseStorage.createUser, Database.query, bind, ret, Database.execute,
    DatabaseStorage.insert_user. simpl.
  destruct (Sql.first
              (filter (fun user => (User.username user =? InsertUser.username data)%string)
                 (Database.users db))) as [u1|] eqn:Hname;
    simpl; [intros [= <- <-]; discriminate|].
  destruct (Sql.first
              (filter (fun user => (User.email user =? InsertUser.email data)%string)
                 (Database.users db))) as [u2|] eqn:Hmail;
    simpl; [intros [= <- <-]; discriminate|].
  destruct (_ || _) eqn:Htaken; simpl; [intros [= <- <-]; discriminate|].
  intros _.
  unfold Api.login, try_catch, bind, ret, throw.
  rewrite loginSchema_accepts by assumption.
  change (@IStorageRest.verifyPassword Database.t _)
    with DatabaseStorageRest.verifyPassword.
  unfold DatabaseStorageRest.verifyPassword, DatabaseStorage.getUserByUsername,
    Database.query, bind, ret. simpl.
  rewrite first_filter_app_none.
  - simpl. rewrite String.eqb_refl. simpl. now rewrite Hcmp.
  - now apply first_filter_none_iff.
Qed.

(** X18. Who has just registered can log in: after a
    [POST /api/auth/register] that answered 200, a [POST /api/auth/login]
    with the same username and password, both non-empty as the login schema
    requires, answers 200 with the new user and puts the new id into the
    session, provided [bcrypt.compare] accepts the password against the
    hash that was stored. On both storages. *)
Theorem register_then_login :
  (forall uuid hashed now req req' data (st : MemStorage.t) compare reply session,
     fst (Api.register uuid hashed now req (Some data) st)
     = Returned (reply, session) ->
     Reply.status reply = 200 ->
     InsertUser.username data <> EmptyString ->
     InsertUser.password data <> EmptyString ->
     compare (InsertUser.password data) hashed = true ->
     let st1 := snd (Api.register uuid hashed now req (Some data) st) in
     Api.login compare req'
       (LoginBody.mk (Some (InsertUser.username data))
          (Some (InsertUser.password data))) st1
     = (Returned
          (Reply.json
             (Reply.UserEnvelope
                (SafeUser.without_password
                   (MemStorage.new_user uuid hashed now RankDefault data))),
           Some uuid), st1))
  /\ (forall uuid hashed now req req' data (db : Database.t) compare reply
             session,
        fst (Api.register uuid hashed now req (Some data) db)
        = Returned (reply, session) ->
        Reply.status reply = 200 ->
        InsertUser.username data <> EmptyString ->
        InsertUser.password data <> EmptyString ->
        compare (InsertUser.password data) hashed = true ->
        let db1 := snd (Api.register uuid hashed now req (Some data) db) in
        Api.login compare req'
          (LoginBody.mk (Some (InsertUser.username data))
             (Some (InsertUser.password data))) db1
        = (Returned
             (Reply.json
                (Reply.UserEnvelope
                   (SafeUser.without_password
                      (DatabaseStorage.user_row uuid hashed now RankDefault
                         data))),
              Some uuid), db1)).
Proof.
  split.
  - intros. eapply MemStorage_register_then_login; eassumption.
  - intros. eapply DatabaseStorage_register_then_login; eassumption.
Qed.

Lemma register_then_login_witness :
  Api.login SignupFixture.compare Fixture.anonymous
    (LoginBody.mk (Some "cat") (Some "pw-cat"))
    (snd (Api.register "u-cat" "h-cat" 9000 Fixture.anonymous
            (Some SignupFixture.cat) Fixture.db))
  = (Returned
       (Reply.json
          (Reply.UserEnvelope
             (SafeUser.without_password
                (DatabaseStorage.user_row "u-cat" "h-cat" 9000 RankDefault
                   SignupFixture.cat))),
        Some "u-cat"),
     snd (Api.register "u-cat" "h-cat" 9000 Fixture.anonymous
            (Some SignupFixture.cat) Fixture.db)).
Proof.
  eapply (proj2 register_then_login "u-cat" "h-cat" 9000 Fixture.anonymous
            Fixture.anonymous SignupFixture.cat Fixture.db
            SignupFixture.compare).
  - vm_compute. reflexivity.
  - reflexivity.
  - discriminate.
  - discriminate.
  - reflexivity.
Defined.

(** ** The admin account and the admin routes *)

Lemma MemStorage_setup_admin_spec uuid hashed now (st : MemStorage.t) :
  let result := Api.setup_admin uuid hashed now st in
  exists reply,
    fst result = Returned reply
    /\ (Reply.status reply = 200 ->
        (exists admin,
           MemStorage.getUser uuid (snd result)
           = (Returned (Some admin), snd result)
           /\ User.rank admin = RankAdmin
           /\ User.username admin = "Felix9390")
        /\ forall uuid' hashed' now',
             Api.setup_admin uuid' hashed' now' (snd result)
             = (Returned (Reply.mk 400 (Reply.Message "Admin user already exists")),
                snd result))
    /\ (Reply.status reply <> 200 -> snd result = st).
Proof.
  cbv zeta. unfold Api.setup_admin, try_catch, bind, ret.
  change (@IStorage.getUserByUsername MemStorage.t _)
    with MemStorage.getUserByUsername.
  change (@IStorage.createAdminUser MemStorage.t _)
    with MemStorage.createAdminUser.
  unfold MemStorage.getUserByUsername, MemStorage.createAdminUser.
  destruct (find (fun user => (User.username user =? "Felix9390")%string)
              (JsMap.values (MemStorage.users st))) as [u|] eqn:Hfind; simpl.
  - eexists. split; [reflexivity|]. split; [discriminate|]. now intros _.
  - eexists. split; [reflexivity|]. split; [|intros Hne; now elim Hne].
    intros _. split.
    + eexists. unfold MemStorage.getUser. simpl. rewrite JsMap_get_set_same.
      now repeat split.
    + intros uuid' hashed' now'.
      rewrite find_set_fresh; [reflexivity| |reflexivity].
      now apply find_none_iff.
Qed.

Lemma DatabaseStorage_setup_admin_spec uuid hashed now (db : Database.t) :
  let result := Api.setup_admin uuid hashed now db in
  exists reply,
    fst result = Returned reply
    /\ (Reply.status reply = 200 ->
        (exists admin,
           DatabaseStorage.getUser uuid (snd result)
           = (Returned (Some admin), snd result)
           /\ User.rank admin = RankAdmin
           /\ User.username admin = "Felix9390")
        /\ forall uuid' hashed' now',
             Api.setup_admin uuid' hashed' now' (snd result)
             = (Returned (Reply.mk 400 (Reply.Message "Admin user already exists")),
                snd result))
    /\ (Reply.status reply <> 200 -> snd result = db).
Proof.
  cbv zeta. unfold Api.setup_admin, try_catch, bind, ret.
  change (@IStorage.getUserByUsername Database.t _)
    with DatabaseStorage.getUserByUsername.
  change (@IStorage.createAdminUser Database.t _)
    with DatabaseStorage.createAdminUser.
  unfold DatabaseStorage.getUserByUsername, DatabaseStorage.createAdminUser,
    Database.query, bind, ret, Database.execute, DatabaseStorage.insert_user.
  destruct (Sql.first
              (filter (fun user => (User.username user =? "Felix9390")%string)
                 (Database.users db))) as [u|] eqn:Hfind; simpl.
  - eexists. split; [reflexivity|]. split; [discriminate|]. now intros _.
  - destruct (Sql.taken User.id uuid (Database.users db)) eqn:Hid; simpl.
    { eexists. split; [reflexivity|]. split; [discriminate|]. now intros _. }
    destruct (_ || _) eqn:Htaken; simpl.
    { eexists. split; [reflexivity|]. split; [discriminate|]. now intros _. }
    eexists. split; [reflexivity|]. split; [|intros Hne; now elim Hne].
    intros _. split.
    + eexists. unfold DatabaseStorage.getUser, Database.query. simpl.
      rewrite first_filter_app_none.
      * simpl. rewrite String.eqb_refl. now repeat split.
      * intros x Hx. apply String.eqb_neq.
        now apply (proj1 (taken_false_iff _ _ _) Hid).
    + intros uuid' hashed' now'.
      rewrite first_filter_app_none; [reflexivity|].
      now apply first_filter_none_iff.
Qed.

(** X19. [POST /api/setup/admin] creates the admin account at most once: a
    call that answers 200 has stored a user of rank [admin] named Felix9390
    under the new id, and every later call, in the store it leaves, answers
    400 "Admin user already exists" without writing; a call that answers
    anything but 200 has written nothing. The handler never throws. On both
    storages. *)
Theorem setup_admin_runs_once :
  (forall uuid hashed now (st : MemStorage.t),
     let result := Api.setup_admin uuid hashed now st in
     exists reply,
       fst result = Returned reply
       /\ (Reply.status reply = 200 ->
           (exists admin,
              MemStorage.getUser uuid (snd result)
              = (Returned (Some admin), snd result)
              /\ User.rank admin = RankAdmin
              /\ User.username admin = "Felix9390")
           /\ forall uuid' hashed' now',
                Api.setup_admin uuid' hashed' now' (snd result)
                = (Returned
                     (Reply.mk 400 (Reply.Message "Admin user already exists")),
                   snd result))
       /\ (Reply.status reply <> 200 -> snd result = st))
  /\ (forall uuid hashed now (db : Database.t),
        let result := Api.setup_admin uuid hashed now db in
        exists reply,
          fst result = Returned reply
          /\ (Reply.status reply = 200 ->
              (exists admin,
                 DatabaseStorage.getUser uuid (snd result)
                 = (Returned (Some admin), snd result)
                 /\ User.rank admin = RankAdmin
                 /\ User.username admin = "Felix9390")
              /\ forall uuid' hashed' now',
                   Api.setup_admin uuid' hashed' now' (snd result)
                   = (Returned
                        (Reply.mk 400
                           (Reply.Message "Admin user already exists")),
                      snd result))
          /\ (Reply.status reply <> 200 -> snd result = db)).
Proof.
  split.
  - intros. apply MemStorage_setup_admin_spec.
  - intros. apply DatabaseStorage_setup_admin_spec.
Qed.

Lemma setup_admin_runs_once_witness :
  Api.setup_admin "u-2" "h-2" 9100
    (snd (Api.setup_admin "u-1" "h-1" 9000 Fixture.db))
  = (Returned (Reply.mk 400 (Reply.Message "Admin user already exists")),
     snd (Api.setup_admin "u-1" "h-1" 9000 Fixture.db)).
Proof.
  destruct (proj2 setup_admin_runs_once "u-1" "h-1" 9000 Fixture.db)
    as (reply & Hres & H200 & _).
  vm_compute in Hres. injection Hres as <-.
  exact (proj2 (H200 eq_refl) "u-2" "h-2" 9100).
Defined.

Section AdminGuards.

Context {S : Type} `{IStorage.t S} `{IStorageRest.t S}.

Lemma requireAdmin_anonymous (req : Request.t)
    (next : string -> Promise S Reply.t) (s : S) :
  Js.truthy (Request.session_userId req) = false ->
  Api.requireAdmin req next s
  = (Returned (Reply.mk 401 (Reply.Message "Authentication required")), s).
Proof.
  unfold Api.requireAdmin. destruct (Request.session_userId req) as [u|];
    [|reflexivity].
  intros Ht. now rewrite Ht.
Qed.

Lemma requireAdmin_refuses (req : Request.t) (userId : string)
    (found : option User.t) (next : string -> Promise S Reply.t) (s : S) :
  Request.session_userId req = Some userId ->
  Js.truthy (Some userId) = true ->
  IStorage.getUser userId s = (Returned found, s) ->
  (forall u, found = Some u -> User.rank u = RankDefault) ->
  Api.requireAdmin req next s
  = (Returned (Reply.mk 403 (Reply.Message "Admin privileges required")), s).
Proof.
  intros Hs Ht Hget Hrank. unfold Api.requireAdmin, bind, ret.
  rewrite Hs, Ht, Hget. destruct found as [u|]; [|reflexivity].
  now rewrite (Hrank u eq_refl).
Qed.

Lemma requireAdmin_admits (req : Request.t) (userId : string) (admin : User.t)
    (next : string -> Promise S Reply.t) (s : S) :
  Request.session_userId req = Some userId ->
  Js.truthy (Some userId) = true ->
  IStorage.getUser userId s = (Returned (Some admin), s) ->
  User.rank admin = RankAdmin ->
  Api.requireAdmin req next s = next userId s.
Proof.
  intros Hs Ht Hget Hrank. unfold Api.requireAdmin, bind, ret.
  now rewrite Hs, Ht, Hget, Hrank.
Qed.

Lemma Routes_requireAdmin_anonymous (req : Request.t)
    (next : string -> Promise S Response.t) (s : S) :
  Js.truthy (Request.session_userId req) = false ->
  Routes.requireAdmin req next s
  = (Returned (Response.mk 401 (Response.Message "Authentication required")), s).
Proof.
  unfold Routes.requireAdmin. destruct (Request.session_userId req) as [u|];
    [|reflexivity].
  intros Ht. now rewrite Ht.
Qed.

Lemma Routes_requireAdmin_refuses (req : Request.t) (userId : string)
    (found : option User.t) (next : string -> Promise S Response.t) (s : S) :
  Request.session_userId req = Some userId ->
  Js.truthy (Some userId) = true ->
  IStorage.getUser userId s = (Returned found, s) ->
  (forall u, found = Some u -> User.rank u = RankDefault) ->
  Routes.requireAdmin req next s
  = (Returned (Response.mk 403 (Response.Message "Admin privileges required")),
     s).
Proof.
  intros Hs Ht Hget Hrank. unfold Routes.requireAdmin, bind, ret.
  rewrite Hs, Ht, Hget. destruct found as [u|]; [|reflexivity].
  now rewrite (Hrank u eq_refl).
Qed.

Lemma Routes_requireAdmin_admits (req : Request.t) (userId : string)
    (admin : User.t) (next : string -> Promise S Response.t) (s : S) :
  Request.session_userId req = Some userId ->
  Js.truthy (Some userId) = true ->
  IStorage.getUser userId s = (Returned (Some admin), s) ->
  User.rank admin = RankAdmin ->
  Routes.requireAdmin req next s = next userId s.
Proof.
  intros Hs Ht Hget Hrank. unfold Routes.requireAdmin, bind, ret.
  now rewrite Hs, Ht, Hget, Hrank.
Qed.

End AdminGuards.

(** X20. The admin routes are closed to everybody else: whatever the storage
    behind [IStorage], [DELETE /api/admin/users/:id],
    [DELETE /api/admin/snippets/:id], [PATCH /api/admin/users/:id/rank] and
    [GET /api/admin/stats] answer 401 to a request without a session and 403
    "Admin privileges required" to a signed-in requester whose user record
    is missing or has rank [default]; the store is left as it was. *)
Theorem admin_routes_refuse_non_admins :
  forall (S : Type) (storage : IStorage.t S) (rest : IStorageRest.t S)
         req id rank (st : S),
    (Js.truthy (Request.session_userId req) = false ->
     Routes.delete_user req id st
     = (Returned (Response.mk 401 (Response.Message "Authentication required")),
        st)
     /\ Api.admin_delete_snippet req id st
        = (Returned (Reply.mk 401 (Reply.Message "Authentication required")), st)
     /\ Api.admin_rank req id rank st
        = (Returned (Reply.mk 401 (Reply.Message "Authentication required")), st)
     /\ Api.admin_stats req st
        = (Returned (Reply.mk 401 (Reply.Message "Authentication required")), st))
    /\ (forall userId found,
          Request.session_userId req = Some userId ->
          Js.truthy (Some userId) = true ->
          IStorage.getUser userId st = (Returned found, st) ->
          (forall u, found = Some u -> User.rank u = RankDefault) ->
          Routes.delete_user req id st
          = (Returned
               (Response.mk 403 (Response.Message "Admin privileges required")),
             st)
          /\ Api.admin_delete_snippet req id st
             = (Returned
                  (Reply.mk 403 (Reply.Message "Admin privileges required")), st)
          /\ Api.admin_rank req id rank st
             = (Returned
                  (Reply.mk 403 (Reply.Message "Admin privileges required")), st)
          /\ Api.admin_stats req st
             = (Returned
                  (Reply.mk 403 (Reply.Message "Admin privileges required")),
                st)).
Proof.
  intros S storage rest req id rank st. split.
  - intros Ht. repeat apply conj.
    + now apply Routes_requireAdmin_anonymous.
    + now apply requireAdmin_anonymous.
    + now apply requireAdmin_anonymous.
    + now apply requireAdmin_anonymous.
  - intros userId found Hs Ht Hget Hrank. repeat apply conj.
    + now apply Routes_requireAdmin_refuses with (userId := userId) (found := found).
    + now apply requireAdmin_refuses with (userId := userId) (found := found).
    + now apply requireAdmin_refuses with (userId := userId) (found := found).
    + now apply requireAdmin_refuses with (userId := userId) (found := found).
Qed.

Lemma admin_routes_refuse_non_admins_witness :
  Routes.delete_user (Fixture.as_user "u-bob") "u-ann" Fixture.db
  = (Returned (Response.mk 403 (Response.Message "Admin privileges required")),
     Fixture.db)
  /\ Api.admin_rank (Fixture.as_user "u-bob") "u-bob" (Some "admin") Fixture.db
     = (Returned (Reply.mk 403 (Reply.Message "Admin privileges required")),
        Fixture.db).
Proof.
  destruct (proj2 (admin_routes_refuse_non_admins
                     DatabaseStorage_IStorage DatabaseStorage_IStorageRest
                     (Fixture.as_user "u-bob") "u-ann" (Some "admin") Fixture.db)
              "u-bob"
              (Some (DatabaseStorage.user_row "u-bob" "h-bob" 1001 RankDefault
                       Fixture.bob)))
    as (Hdel & _ & _ & _).
  - reflexivity.
  - reflexivity.
  - reflexivity.
  - now intros u [= <-].
  - split; [exact Hdel|].
    refine (proj1 (proj2 (proj2 (proj2 (admin_routes_refuse_non_admins
                     DatabaseStorage_IStorage DatabaseStorage_IStorageRest
                     (Fixture.as_user "u-bob") "u-bob" (Some "admin") Fixture.db)
              "u-bob"
              (Some (DatabaseStorage.user_row "u-bob" "h-bob" 1001 RankDefault
                       Fixture.bob)) _ _ _ _)))).
    + reflexivity.
    + reflexivity.
    + reflexivity.
    + now intros u [= <-].
Defined.

Lemma cascade_fold_users l : forall st,
  MemStorage.users (fold_left MemStorage.delete_snippet_cascade l st)
  = MemStorage.users st.
Proof.
  induction l as [|a l IH]; intros st; simpl; [reflexivity|].
  now rewrite IH.
Qed.

Lemma MemStorage_deleteUserAndSnippets_other st id a :
  a <> id ->
  JsMap.get a (MemStorage.users (snd (MemStorage.deleteUserAndSnippets id st)))
  = JsMap.get a (MemStorage.users st).
Proof.
  intros Hne. unfold MemStorage.deleteUserAndSnippets.
  destruct (JsMap.get id (MemStorage.users st)); [|reflexivity].
  simpl. rewrite JsMap_get_delete_other by exact Hne.
  now rewrite cascade_fold_users.
Qed.

Lemma spread_same_rank (user : User.t) :
  spread_user user (Api.only_rank (User.rank user)) = user.
Proof. now destruct user. Qed.

Lemma MemStorage_admin_keeps_caller req a admin id rank (st : MemStorage.t) :
  Request.session_userId req = Some a ->
  Js.truthy (Some a) = true ->
  MemStorage.getUser a st = (Returned (Some admin), st) ->
  User.rank admin = RankAdmin ->
  fst (MemStorage.getUser a (snd (Routes.delete_user req id st)))
  = Returned (Some admin)
  /\ fst (MemStorage.getUser a (snd (Api.admin_rank req id rank st)))
     = Returned (Some admin)
  /\ fst (MemStorage.getUser a (snd (Api.admin_delete_snippet req id st)))
     = Returned (Some admin).
Proof.
  intros Hs Ht Hget Hrank.
  assert (Hga : JsMap.get a (MemStorage.users st) = Some admin)
    by (unfold MemStorage.getUser in Hget; now injection Hget).
  repeat apply conj.
  - unfold Routes.delete_user.
    rewrite Routes_requireAdmin_admits
      with (userId := a) (admin := admin); try assumption.
    unfold Routes.catch_400, try_catch, bind, ret.
    destruct (id =? a)%string eqn:E; [simpl; now rewrite Hga|].
    change (IStorage.getUser id st) with (MemStorage.getUser id st).
    change (@IStorage.deleteUserAndSnippets MemStorage.t _ id)
      with (MemStorage.deleteUserAndSnippets id).
    unfold MemStorage.getUser at 2.
    destruct (JsMap.get id (MemStorage.users st)) eqn:G;
      [|simpl; now rewrite Hga].
    apply String.eqb_neq in E.
    pose proof (@MemStorage_deleteUserAndSnippets_other st id a) as Hother.
    destruct (MemStorage.deleteUserAndSnippets id st) as [[b|e] st1]; simpl in *;
      rewrite Hother by congruence; now rewrite Hga.
  - unfold Api.admin_rank.
    rewrite requireAdmin_admits with (userId := a) (admin := admin);
      try assumption.
    unfold Api.catch_400, try_catch, bind, ret.
    destruct (if Js.truthy rank then Api.rank_of (Js.or_else rank EmptyString)
              else None) as [r|]; [|simpl; now rewrite Hga].
    destruct ((id =? a)%string && Rank_eqb r RankDefault) eqn:E;
      [simpl; now rewrite Hga|].
    change (IStorage.getUser id st) with (MemStorage.getUser id st).
    change (@IStorage.updateUser MemStorage.t _ id)
      with (MemStorage.updateUser id).
    unfold MemStorage.getUser at 2. unfold MemStorage.updateUser.
    destruct (String.eqb_spec id a) as [->|Hne].
    + rewrite Hga. simpl. rewrite Hga. simpl. rewrite JsMap_get_set_same.
      simpl in E. destruct r; [discriminate|].
      rewrite <- Hrank. now rewrite spread_same_rank.
    + destruct (JsMap.get id (MemStorage.users st)) as [user|] eqn:G; simpl;
        rewrite ?G; simpl;
        rewrite ?JsMap_get_set_other by congruence; now rewrite Hga.
  - unfold Api.admin_delete_snippet.
    rewrite requireAdmin_admits with (userId := a) (admin := admin);
      try assumption.
    unfold Api.catch_400, try_catch, bind, ret.
    change (IStorage.getSnippet id st) with (MemStorage.getSnippet id st).
    change (@IStorage.deleteSnippet MemStorage.t _ id)
      with (MemStorage.deleteSnippet id).
    unfold MemStorage.getSnippet, MemStorage.deleteSnippet.
    destruct (JsMap.get id (MemStorage.snippets st)); simpl; now rewrite Hga.
Qed.

Lemma first_filter_map_other {A} (p q : A -> bool) (g : A -> A) (rows : list A) :
  (forall r, q (g r) = q r) ->
  (forall r, q r = true -> p r = false) ->
  Sql.first (filter q (map (fun r => if p r then g r else r) rows))
  = Sql.first (filter q rows).
Proof.
  intros Hq Hpq. f_equal. induction rows as [|r rows IH]; simpl; [reflexivity|].
  destruct (q r) eqn:Q.
  - rewrite (Hpq r Q). rewrite Q. now f_equal.
  - destruct (p r); [rewrite Hq|]; rewrite Q; exact IH.
Qed.

Lemma DatabaseStorage_deleteUserAndSnippets_users db id :
  Database.users (snd (DatabaseStorage.deleteUserAndSnippets id db))
  = Sql.delete_where (fun user => (User.id user =? id)%string) (Database.users db).
Proof. reflexivity. Qed.

Lemma DatabaseStorage_updateUser_rank_other db id a r :
  a <> id ->
  fst (DatabaseStorage.getUser a
         (snd (DatabaseStorage.updateUser id (Api.only_rank r) db)))
  = fst (DatabaseStorage.getUser a db).
Proof.
  intros Hne. unfold DatabaseStorage.updateUser, DatabaseStorage.getUser,
    Database.query. simpl.
  destruct (_ && _); [|reflexivity]. simpl. f_equal.
  apply (first_filter_map_other
           (fun user => (User.id user =? id)%string)
           (fun user => (User.id user =? a)%string)
           (fun user => spread_user user (Api.only_rank r))).
  - reflexivity.
  - intros u Hu. apply String.eqb_eq in Hu. apply String.eqb_neq. congruence.
Qed.

Lemma DatabaseStorage_updateUser_rank_same db a admin :
  fst (DatabaseStorage.getUser a db) = Returned (Some admin) ->
  fst (DatabaseStorage.getUser a
         (snd (DatabaseStorage.updateUser a (Api.only_rank (User.rank admin)) db)))
  = Returned (Some admin).
Proof.
  unfold DatabaseStorage.updateUser, DatabaseStorage.getUser, Database.query.
  simpl. intros Hget. destruct (_ && _); [|exact Hget]. simpl.
  rewrite (first_filter_map_same
             (fun user => (User.id user =? a)%string)
             (fun user => spread_user user (Api.only_rank (User.rank admin)))).
  - injection Hget as ->. simpl. now rewrite spread_same_rank.
  - reflexivity.
Qed.

Lemma DatabaseStorage_admin_keeps_caller req a admin id rank (db : Database.t) :
  Request.session_userId req = Some a ->
  Js.truthy (Some a) = true ->
  DatabaseStorage.getUser a db = (Returned (Some admin), db) ->
  User.rank admin = RankAdmin ->
  fst (DatabaseStorage.getUser a (snd (Routes.delete_user req id db)))
  = Returned (Some admin)
  /\ fst (DatabaseStorage.getUser a (snd (Api.admin_rank req id rank db)))
     = Returned (Some admin)
  /\ fst (DatabaseStorage.getUser a (snd (Api.admin_delete_snippet req id db)))
     = Returned (Some admin).
Proof.
  intros Hs Ht Hget Hrank.
  assert (Hga : fst (DatabaseStorage.getUser a db) = Returned (Some admin))
    by now rewrite Hget.
  repeat apply conj.
  - unfold Routes.delete_user.
    rewrite Routes_requireAdmin_admits
      with (userId := a) (admin := admin); try assumption.
    unfold Routes.catch_400, try_catch, bind, ret.
    destruct (id =? a)%string eqn:E; [exact Hga|].
    apply String.eqb_neq in E.
    change (IStorage.getUser id db) with (DatabaseStorage.getUser id db).
    change (@IStorage.deleteUserAndSnippets Database.t _ id)
      with (DatabaseStorage.deleteUserAndSnippets id).
    unfold DatabaseStorage.getUser at 2. unfold Database.query.
    destruct (Sql.first (filter _ (Database.users db))); [|exact Hga].
    pose proof (DatabaseStorage_deleteUserAndSnippets_users db id) as Husers.
    destruct (DatabaseStorage.deleteUserAndSnippets id db) as [[b|e] db1];
      simpl in *; unfold DatabaseStorage.getUser, Database.query; simpl;
      rewrite Husers; (rewrite first_filter_delete_where_other;
        [exact Hga|]);
      intros x Hx; apply String.eqb_eq in Hx; apply String.eqb_neq; congruence.
  - unfold Api.admin_rank.
    rewrite requireAdmin_admits with (userId := a) (admin := admin);
      try assumption.
    unfold Api.catch_400, try_catch, bind, ret.
    destruct (if Js.truthy rank then Api.rank_of (Js.or_else rank EmptyString)
              else None) as [r|]; [|exact Hga].
    destruct ((id =? a)%string && Rank_eqb r RankDefault) eqn:E; [exact Hga|].
    change (IStorage.getUser id db) with (DatabaseStorage.getUser id db).
    change (@IStorage.updateUser Database.t _ id)
      with (DatabaseStorage.updateUser id).
    unfold DatabaseStorage.getUser at 2. unfold Database.query.
    destruct (Sql.first (filter _ (Database.users db))); [|exact Hga].
    assert (Hafter :
      fst (DatabaseStorage.getUser a
             (snd (DatabaseStorage.updateUser id (Api.only_rank r) db)))
      = Returned (Some admin)).
    { destruct (String.eqb_spec id a) as [->|Hne].
      - simpl in E. destruct r; [discriminate|]. rewrite <- Hrank.
        now apply DatabaseStorage_updateUser_rank_same.
      - rewrite DatabaseStorage_updateUser_rank_other by congruence.
        exact Hga. }
    destruct (DatabaseStorage.updateUser id (Api.only_rank r) db)
      as [[[u1|]|e] db1]; exact Hafter.
  - unfold Api.admin_delete_snippet.
    rewrite requireAdmin_admits with (userId := a) (admin := admin);
      try assumption.
    unfold Api.catch_400, try_catch, bind, ret.
    change (IStorage.getSnippet id db) with (DatabaseStorage.getSnippet id db).
    change (@IStorage.deleteSnippet Database.t _ id)
      with (DatabaseStorage.deleteSnippet id).
    unfold DatabaseStorage.getSnippet, DatabaseStorage.deleteSnippet,
      Database.query.
    destruct (Sql.first (filter _ (Database.snippets db))); exact Hga.
Qed.

(** X21. An admin cannot lock themselves out through the admin routes:
    whatever [DELETE /api/admin/users/:id], [PATCH /api/admin/users/:id/rank]
    and [DELETE /api/admin/snippets/:id] are asked to do by a signed-in
    admin, the admin's own user record reads afterwards as it did before,
    rank included (deleting or demoting oneself is refused). On both
    storages. *)
Theorem admin_routes_keep_the_caller :
  (forall req a admin id rank (st : MemStorage.t),
     Request.session_userId req = Some a ->
     Js.truthy (Some a) = true ->
     MemStorage.getUser a st = (Returned (Some admin), st) ->
     User.rank admin = RankAdmin ->
     fst (MemStorage.getUser a (snd (Routes.delete_user req id st)))
     = Returned (Some admin)
     /\ fst (MemStorage.getUser a (snd (Api.admin_rank req id rank st)))
        = Returned (Some admin)
     /\ fst (MemStorage.getUser a (snd (Api.admin_delete_snippet req id st)))
        = Returned (Some admin))
  /\ (forall req a admin id rank (db : Database.t),
        Request.session_userId req = Some a ->
        Js.truthy (Some a) = true ->
        DatabaseStorage.getUser a db = (Returned (Some admin), db) ->
        User.rank admin = RankAdmin ->
        fst (DatabaseStorage.getUser a (snd (Routes.delete_user req id db)))
        = Returned (Some admin)
        /\ fst (DatabaseStorage.getUser a (snd (Api.admin_rank req id rank db)))
           = Returned (Some admin)
        /\ fst (DatabaseStorage.getUser a
                  (snd (Api.admin_delete_snippet req id db)))
           = Returned (Some admin)).
Proof.
  split.
  - intros. now apply MemStorage_admin_keeps_caller.
  - intros. now apply DatabaseStorage_admin_keeps_caller.
Qed.

Lemma admin_routes_keep_the_caller_witness :
  fst (DatabaseStorage.getUser "u-root"
         (snd (Api.admin_rank (Fixture.as_user "u-root") "u-root"
                 (Some "default") Fixture.db)))
  = Returned (Some (DatabaseStorage.user_row "u-root" "h-root" 1002 RankAdmin
                      Fixture.root))
  /\ fst (DatabaseStorage.getUser "u-root"
            (snd (Routes.delete_user (Fixture.as_user "u-root") "u-ann"
                    Fixture.db)))
     = Returned (Some (DatabaseStorage.user_row "u-root" "h-root" 1002 RankAdmin
                         Fixture.root)).
Proof.
  split.
  - refine (proj1 (proj2 (proj2 admin_routes_keep_the_caller
                            (Fixture.as_user "u-root") "u-root" _ "u-root"
                            (Some "default") Fixture.db _ _ _ _))).
    + reflexivity.
    + reflexivity.
    + reflexivity.
    + reflexivity.
  - refine (proj1 (proj2 admin_routes_keep_the_caller
                     (Fixture.as_user "u-root") "u-root" _ "u-ann"
                     None Fixture.db _ _ _ _)).
    + reflexivity.
    + reflexivity.
    + reflexivity.
    + reflexivity.
Defined.

(** The admin route does delete other users: the statement above is not
    about routes that refuse everything. *)
Example admin_deletes_another_user :
  fst (DatabaseStorage.getUser "u-ann"
         (snd (Routes.delete_user (Fixture.as_user "u-root") "u-ann" Fixture.db)))
  = Returned None.
Proof. reflexivity. Qed.

(** ** The statistics of the admin page *)

Lemma count_of_split {A} (p : A -> bool) (l : list A) :
  Api.count_of p l + Api.count_of (fun x => negb (p x)) l
  = Z.of_nat (List.length l).
Proof.
  unfold Api.count_of. induction l as [|a l IH]; [reflexivity|].
  cbn [filter]. destruct (p a); cbn [negb List.length];
    rewrite !Nat2Z.inj_succ; lia.
Qed.

Lemma count_of_bounds {A} (p : A -> bool) (l : list A) :
  0 <= Api.count_of p l <= Z.of_nat (List.length l).
Proof.
  unfold Api.count_of. induction l as [|a l IH]; [simpl; lia|].
  cbn [filter]. destruct (p a); cbn [List.length];
    rewrite !Nat2Z.inj_succ; lia.
Qed.

Lemma admin_stats_body {S} `{IStorage.t S} `{IStorageRest.t S}
    (req : Request.t) (st st1 : S) (reply : Reply.t) tu ts ta pub priv :
  Api.admin_stats req st = (Returned reply, st1) ->
  Reply.body reply = Reply.Stats tu ts ta pub priv ->
  exists users snippets s0 s1,
    IStorageRest.getAllUsers 1000 0 s0 = (Returned users, s1)
    /\ IStorage.getAllSnippets 1000 0 s1 = (Returned snippets, st1)
    /\ tu = Z.of_nat (List.length users)
    /\ ts = Z.of_nat (List.length snippets)
    /\ ta = Api.count_of (fun u => Rank_eqb (User.rank u) RankAdmin) users
    /\ pub = Api.count_of
               (fun s => Snippet.isPublic (SnippetWithAuthor.snippet s)) snippets
    /\ priv = Api.count_of
                (fun s => negb (Snippet.isPublic (SnippetWithAuthor.snippet s)))
                snippets.
Proof.
  unfold Api.admin_stats, Api.requireAdmin, Api.catch_400, try_catch, bind, ret.
  destruct (Request.session_userId req) as [userId|];
    [|intros [= <- <-]; discriminate].
  destruct (Js.truthy (Some userId)); [|intros [= <- <-]; discriminate].
  destruct (IStorage.getUser userId st) as [[[u|]|e] s0];
    [|intros [= <- <-]; discriminate|discriminate].
  destruct (Rank_eqb (User.rank u) RankAdmin);
    [|intros [= <- <-]; discriminate].
  destruct (IStorageRest.getAllUsers 1000 0 s0) as [[users|e] s1] eqn:Hu;
    [|intros [= <- <-]; discriminate].
  destruct (IStorage.getAllSnippets 1000 0 s1) as [[snippets|e] s2] eqn:Hs;
    [|intros [= <- <-]; discriminate].
  intros [= <- <-]. simpl. intros [= <- <- <- <- <-].
  exists users, snippets, s0, s1. now repeat split.
Qed.

Lemma traverse_length {A B} (f : A -> Outcome B) (l : list A) (rows : list B) :
  traverse f l = Returned rows -> List.length rows = List.length l.
Proof.
  revert rows. induction l as [|a l IH]; intros rows; simpl.
  - now intros [= <-].
  - destruct (f a); [|discriminate].
    destruct (traverse f l) as [bs|]; [|discriminate].
    intros [= <-]. simpl. f_equal. now apply IH.
Qed.

Lemma limit_offset_length {A} (limit offset : Z) (rows rs : list A) :
  0 <= limit ->
  Sql.limit_offset limit offset rows = Returned rs ->
  Z.of_nat (List.length rs) <= limit.
Proof.
  intros Hlim. unfold Sql.limit_offset.
  destruct (offset <? 0); [discriminate|].
  apply Z.ltb_ge in Hlim. rewrite Hlim. apply Z.ltb_ge in Hlim.
  intros [= <-]. rewrite length_firstn. lia.
Qed.

(** X22. The numbers of [GET /api/admin/stats] add up: whatever the storage,
    [publicSnippets + privateSnippets = totalSnippets] and
    [0 <= totalAdmins <= totalUsers]. Both totals are counted over the first
    1000 users and snippets only, so on MemStorage and on DatabaseStorage
    neither total exceeds 1000. *)
Theorem admin_stats_add_up :
  (forall (S : Type) (storage : IStorage.t S) (rest : IStorageRest.t S)
          req (st st1 : S) reply tu ts ta pub priv,
     Api.admin_stats req st = (Returned reply, st1) ->
     Reply.body reply = Reply.Stats tu ts ta pub priv ->
     pub + priv = ts /\ 0 <= ta <= tu /\ 0 <= pub /\ 0 <= priv)
  /\ (forall req (st st1 : MemStorage.t) reply tu ts ta pub priv,
        Api.admin_stats req st = (Returned reply, st1) ->
        Reply.body reply = Reply.Stats tu ts ta pub priv ->
        tu <= 1000 /\ ts <= 1000)
  /\ (forall req (db db1 : Database.t) reply tu ts ta pub priv,
        Api.admin_stats req db = (Returned reply, db1) ->
        Reply.body reply = Reply.Stats tu ts ta pub priv ->
        tu <= 1000 /\ ts <= 1000).
Proof.
  repeat apply conj.
  - intros S storage rest req st st1 reply tu ts ta pub priv Hstats Hbody.
    destruct (admin_stats_body _ _ Hstats Hbody)
      as (users & snippets & s0 & s1 & _ & _ & -> & -> & -> & -> & ->).
    pose proof (count_of_split
                  (fun s => Snippet.isPublic (SnippetWithAuthor.snippet s))
                  snippets).
    pose proof (count_of_bounds
                  (fun u => Rank_eqb (User.rank u) RankAdmin) users).
    pose proof (count_of_bounds
                  (fun s => Snippet.isPublic (SnippetWithAuthor.snippet s))
                  snippets).
    pose proof (count_of_bounds
                  (fun s => negb (Snippet.isPublic (SnippetWithAuthor.snippet s)))
                  snippets).
    cbv beta in *. lia.
  - intros req st st1 reply tu ts ta pub priv Hstats Hbody.
    destruct (admin_stats_body _ _ Hstats Hbody)
      as (users & snippets & s0 & s1 & Hu & Hs & -> & -> & _).
    change (@IStorageRest.getAllUsers MemStorage.t _ 1000 0 s0)
      with (MemStorageRest.getAllUsers 1000 0 s0) in Hu.
    change (@IStorage.getAllSnippets MemStorage.t _ 1000 0 s1)
      with (MemStorage.getAllSnippets 1000 0 s1) in Hs.
    unfold MemStorageRest.getAllUsers in Hu.
    unfold MemStorage.getAllSnippets in Hs.
    apply (f_equal fst) in Hu, Hs. cbn [fst] in Hu, Hs.
    injection Hu as <-. apply traverse_length in Hs. rewrite Hs.
    change (0 + 1000) with 1000.
    split; apply slice_from_start_length; lia.
  - intros req db db1 reply tu ts ta pub priv Hstats Hbody.
    destruct (admin_stats_body _ _ Hstats Hbody)
      as (users & snippets & s0 & s1 & Hu & Hs & -> & -> & _).
    change (@IStorageRest.getAllUsers Database.t _ 1000 0 s0)
      with (DatabaseStorageRest.getAllUsers 1000 0 s0) in Hu.
    change (@IStorage.getAllSnippets Database.t _ 1000 0 s1)
      with (DatabaseStorage.getAllSnippets 1000 0 s1) in Hs.
    unfold DatabaseStorageRest.getAllUsers, Database.query_or_fail in Hu.
    unfold DatabaseStorage.getAllSnippets, Database.query_or_fail in Hs.
    apply (f_equal fst) in Hu, Hs. cbn [fst] in Hu, Hs.
    apply limit_offset_length in Hu; [|lia].
    apply limit_offset_length in Hs; [|lia]. now split.
Qed.

Lemma admin_stats_add_up_witness :
  Api.admin_stats (Fixture.as_user "u-root") Fixture.db
  = (Returned (Reply.json (Reply.Stats 3 2 1 1 1)), Fixture.db)
  /\ (1 + 1 = 2 /\ 0 <= 1 <= 3 /\ 0 <= 1 /\ 0 <= 1).
Proof.
  split; [reflexivity|].
  apply (proj1 admin_stats_add_up Database.t DatabaseStorage_IStorage
           DatabaseStorage_IStorageRest (Fixture.as_user "u-root")
           Fixture.db Fixture.db
           (Reply.json (Reply.Stats 3 2 1 1 1)) 3 2 1 1 1);
    reflexivity.
Defined.

(** ** Profiles *)

Lemma MemStorage_count_appended {A} (p : A -> bool) (l : list A) (x : A) :
  MemStorageRest.count p (l ++ [x])
  = MemStorageRest.count p l + (if p x then 1 else 0).
Proof.
  unfold MemStorageRest.count. rewrite filter_app, length_app. simpl.
  destruct (p x); simpl; lia.
Qed.

Lemma row_count_appended_general {A} (p : A -> bool) (l : list A) (x : A) :
  Sql.row_count p (l ++ [x]) = Sql.row_count p l + (if p x then 1 else 0).
Proof.
  unfold Sql.row_count. rewrite filter_app, length_app. simpl.
  destruct (p x); simpl; lia.
Qed.

Lemma MemStorage_follow_shows_on_profile st st1 uuid now f g name p :
  ~ In uuid (JsMap.keys (MemStorage.follows st)) ->
  Js.truthy (Some f) = true ->
  MemStorage.followUser uuid now f g st = (Returned true, st1) ->
  MemStorageRest.getUserProfile name (Some f) st = (Returned (Some p), st) ->
  User.id (UserProfile.user p) = g ->
  MemStorageRest.getUserProfile name (Some f) st1
  = (Returned
       (Some (UserProfile.mk (UserProfile.user p) (UserProfile.snippetsCount p)
                (UserProfile.followersCount p + 1)
                (UserProfile.followingCount p) true)), st1).
Proof.
  intros Hfresh Ht. unfold MemStorage.followUser.
  assert (Hfe : (f =? EmptyString)%string = false).
  { simpl in Ht. now apply negb_true_iff in Ht. }
  destruct (f =? g)%string eqn:Hfg; [discriminate|].
  destruct (find _ _) eqn:Hfind; [discriminate|].
  intros [= <-]. rewrite JsMap_set_append by exact Hfresh.
  unfold MemStorageRest.getUserProfile, bind, ret, MemStorage.getUserByUsername,
    MemStorage.isFollowing.
  simpl MemStorage.users.
  destruct (find (fun user => (User.username user =? name)%string)
              (JsMap.values (MemStorage.users st))) as [user|] eqn:Huser;
    [|discriminate].
  rewrite Ht. intros [= <-] Hid. simpl in Hid. subst g. simpl.
  rewrite Hfe in *. rewrite Huser. simpl.
  rewrite !JsMap_values_app. simpl.
  rewrite !MemStorage_count_appended. simpl.
  rewrite String.eqb_refl, Hfg. simpl.
  rewrite existsb_app. simpl. rewrite !String.eqb_refl. simpl.
  rewrite orb_true_r. do 3 f_equal. f_equal; lia.
Qed.

Lemma DatabaseStorage_follow_shows_on_profile db db1 uuid now f g name p :
  Js.truthy (Some f) = true ->
  DatabaseStorage.followUser uuid now f g db = (Returned true, db1) ->
  DatabaseStorageRest.getUserProfile name (Some f) db = (Returned (Some p), db) ->
  User.id (UserProfile.user p) = g ->
  DatabaseStorageRest.getUserProfile name (Some f) db1
  = (Returned
       (Some (UserProfile.mk (UserProfile.user p) (UserProfile.snippetsCount p)
                (UserProfile.followersCount p + 1)
                (UserProfile.followingCount p) true)), db1).
Proof.
  intros Ht.
  assert (Hfe : (f =? EmptyString)%string = false).
  { simpl in Ht. now apply negb_true_iff in Ht. }
  unfold DatabaseStorage.followUser.
  destruct (f =? g)%string eqn:Hfg; [discriminate|].
  unfold bind, DatabaseStorage.select_follow, Database.query,
    DatabaseStorage.insert_into, Database.execute, Sql.insert, ret.
  destruct (Sql.first _) eqn:Hsel; [discriminate|].
  destruct (Sql.taken _ _ _); [discriminate|].
  intros [= <-].
  pose proof (proj1 (first_filter_none_iff _ _) Hsel) as Hnone.
  unfold DatabaseStorageRest.getUserProfile, bind, ret,
    DatabaseStorage.getUserByUsername, DatabaseStorage.isFollowing,
    DatabaseStorage.select_follow, Database.query, bind, ret.
  simpl Database.users.
  destruct (Sql.first
              (filter (fun user => (User.username user =? name)%string)
                 (Database.users db))) as [user|] eqn:Huser; [|discriminate].
  rewrite Ht. simpl. rewrite Hfe. intros [= <-] Hid. simpl in Hid. subst g.
  rewrite Huser. simpl.
  rewrite !row_count_appended_general. simpl.
  rewrite String.eqb_refl, Hfg. simpl.
  rewrite filter_app. rewrite filter_none by exact Hnone. simpl.
  rewrite !String.eqb_refl. simpl.
  do 3 f_equal. f_equal; lia.
Qed.

(** X23. Following somebody shows on their profile: after a [followUser]
    that succeeded, the profile of the followed user, read by the follower,
    has one follower more, [isFollowing = true] and the same snippet and
    following counts. For MemStorage the follow's uuid is new to the map. *)
Theorem follow_shows_on_profile :
  (forall st st1 uuid now f g name p,
     ~ In uuid (JsMap.keys (MemStorage.follows st)) ->
     Js.truthy (Some f) = true ->
     MemStorage.followUser uuid now f g st = (Returned true, st1) ->
     MemStorageRest.getUserProfile name (Some f) st = (Returned (Some p), st) ->
     User.id (UserProfile.user p) = g ->
     MemStorageRest.getUserProfile name (Some f) st1
     = (Returned
          (Some (UserProfile.mk (UserProfile.user p) (UserProfile.snippetsCount p)
                   (UserProfile.followersCount p + 1)
                   (UserProfile.followingCount p) true)), st1))
  /\ (forall db db1 uuid now f g name p,
        Js.truthy (Some f) = true ->
        DatabaseStorage.followUser uuid now f g db = (Returned true, db1) ->
        DatabaseStorageRest.getUserProfile name (Some f) db
        = (Returned (Some p), db) ->
        User.id (UserProfile.user p) = g ->
        DatabaseStorageRest.getUserProfile name (Some f) db1
        = (Returned
             (Some (UserProfile.mk (UserProfile.user p)
                      (UserProfile.snippetsCount p)
                      (UserProfile.followersCount p + 1)
                      (UserProfile.followingCount p) true)), db1)).
Proof.
  split.
  - intros. eapply MemStorage_follow_shows_on_profile; eassumption.
  - intros. eapply DatabaseStorage_follow_shows_on_profile; eassumption.
Qed.

Lemma follow_shows_on_profile_witness :
  DatabaseStorageRest.getUserProfile "ann" (Some "u-root")
    RoundTripFixture.db_followed
  = (Returned
       (Some (UserProfile.mk
                (DatabaseStorage.user_row "u-ann" "h-ann" 1000 RankDefault
                   Fixture.ann)
                1 (1 + 1) 0 true)),
     RoundTripFixture.db_followed).
Proof.
  apply (proj2 follow_shows_on_profile Fixture.db RoundTripFixture.db_followed
           "f-9" 5000 "u-root" "u-ann" "ann"
           (UserProfile.mk
              (DatabaseStorage.user_row "u-ann" "h-ann" 1000 RankDefault
                 Fixture.ann)
              1 1 0 false)); reflexivity.
Defined.

(** ** Followers and following *)

Lemma lookup_users_In st ids user :
  In user (MemStorage.lookup_users st ids)
  <-> exists id, In id ids /\ JsMap.get id (MemStorage.users st) = Some user.
Proof.
  unfold MemStorage.lookup_users. rewrite in_flat_map. split.
  - intros [id [Hid Hu]]. exists id. split; [exact Hid|].
    destruct (JsMap.get id (MemStorage.users st)) as [u|]; [|contradiction].
    destruct Hu as [->|[]]. reflexivity.
  - intros [id [Hid Hg]]. exists id. split; [exact Hid|].
    rewrite Hg. now left.
Qed.

(** X24. [getFollowers u] lists exactly the stored users at the follower end
    of a follow record that points at [u], and [getFollowing u] exactly
    those at the followed end of a record that starts at [u]; neither
    writes. MemStorage looks the user up under the id the record names,
    DatabaseStorage joins on [users.id]. *)
Theorem follower_lists_match_follow_records :
  (forall st u,
     exists followers,
       MemStorage.getFollowers u st = (Returned followers, st)
       /\ forall user,
            In user followers
            <-> exists follow,
                  In follow (JsMap.values (MemStorage.follows st))
                  /\ Follow.followingId follow = u
                  /\ JsMap.get (Follow.followerId follow) (MemStorage.users st)
                     = Some user)
  /\ (forall st u,
        exists following,
          MemStorage.getFollowing u st = (Returned following, st)
          /\ forall user,
               In user following
               <-> exists follow,
                     In follow (JsMap.values (MemStorage.follows st))
                     /\ Follow.followerId follow = u
                     /\ JsMap.get (Follow.followingId follow)
                          (MemStorage.users st) = Some user)
  /\ (forall db u,
        exists followers,
          DatabaseStorage.getFollowers u db = (Returned followers, db)
          /\ forall user,
               In user followers
               <-> In user (Database.users db)
                   /\ exists follow,
                        In follow (Database.follows db)
                        /\ Follow.followerId follow = User.id user
                        /\ Follow.followingId follow = u)
  /\ (forall db u,
        exists following,
          DatabaseStorage.getFollowing u db = (Returned following, db)
          /\ forall user,
               In user following
               <-> In user (Database.users db)
                   /\ exists follow,
                        In follow (Database.follows db)
                        /\ Follow.followingId follow = User.id user
                        /\ Follow.followerId follow = u).
Proof.
  repeat apply conj.
  - intros st u. eexists. split; [reflexivity|]. intros user.
    rewrite lookup_users_In. split.
    + intros [id [Hid Hg]]. apply in_map_iff in Hid.
      destruct Hid as [follow [<- Hf]]. apply filter_In in Hf.
      destruct Hf as [Hin Hu]. apply String.eqb_eq in Hu.
      exists follow. now repeat split.
    + intros [follow [Hin [Hu Hg]]]. exists (Follow.followerId follow).
      split; [|exact Hg]. apply in_map. apply filter_In.
      split; [exact Hin|]. now apply String.eqb_eq.
  - intros st u. eexists. split; [reflexivity|]. intros user.
    rewrite lookup_users_In. split.
    + intros [id [Hid Hg]]. apply in_map_iff in Hid.
      destruct Hid as [follow [<- Hf]]. apply filter_In in Hf.
      destruct Hf as [Hin Hu]. apply String.eqb_eq in Hu.
      exists follow. now repeat split.
    + intros [follow [Hin [Hu Hg]]]. exists (Follow.followingId follow).
      split; [|exact Hg]. apply in_map. apply filter_In.
      split; [exact Hin|]. now apply String.eqb_eq.
  - intros db u. eexists. split; [reflexivity|]. intros user.
    rewrite in_flat_map. split.
    + intros [user' [Hu Hin]]. apply in_map_iff in Hin.
      destruct Hin as [follow [<- Hf]]. apply filter_In in Hf.
      destruct Hf as [Hf Hp]. apply andb_true_iff in Hp.
      destruct Hp as [H1 H2]. apply String.eqb_eq in H1, H2.
      split; [exact Hu|]. exists follow. now repeat split.
    + intros [Hu [follow [Hf [H1 H2]]]]. exists user. split; [exact Hu|].
      apply in_map_iff. exists follow. split; [reflexivity|].
      apply filter_In. split; [exact Hf|].
      apply andb_true_iff. split; apply String.eqb_eq; congruence.
  - intros db u. eexists. split; [reflexivity|]. intros user.
    rewrite in_flat_map. split.
    + intros [user' [Hu Hin]]. apply in_map_iff in Hin.
      destruct Hin as [follow [<- Hf]]. apply filter_In in Hf.
      destruct Hf as [Hf Hp]. apply andb_true_iff in Hp.
      destruct Hp as [H1 H2]. apply String.eqb_eq in H1, H2.
      split; [exact Hu|]. exists follow. now repeat split.
    + intros [Hu [follow [Hf [H1 H2]]]]. exists user. split; [exact Hu|].
      apply in_map_iff. exists follow. split; [reflexivity|].
      apply filter_In. split; [exact Hf|].
      apply andb_true_iff. split; apply String.eqb_eq; congruence.
Qed.

Lemma follower_lists_match_follow_records_witness :
  exists followers,
    DatabaseStorage.getFollowers "u-ann" Fixture.db
    = (Returned followers, Fixture.db)
    /\ In (DatabaseStorage.user_row "u-bob" "h-bob" 1001 RankDefault Fixture.bob)
          followers.
Proof.
  destruct (proj1 (proj2 (proj2 follower_lists_match_follow_records))
              Fixture.db "u-ann") as [followers [Hget Hiff]].
  exists followers. split; [exact Hget|]. apply Hiff. split.
  - vm_compute. tauto.
  - exists (Follow.mk "f-1" "u-bob" "u-ann" 1003). split.
    + vm_compute. tauto.
    + now split.
Defined.

(** ** My snippets *)

Section MarkLiked.

Context {S : Type} `{IStorage.t S} `{IStorageRest.t S}.

Lemma mark_liked_reads (userId : string) (liked : string -> bool) (s : S)
    (rows : list SnippetWithAuthor.t) :
  (forall snippetId,
     IStorage.isSnippetLiked snippetId userId s = (Returned (liked snippetId), s)) ->
  Api.mark_liked userId rows s
  = (Returned
       (map (fun row =>
               SnippetWithAuthor.with_isLiked
                 (liked (Snippet.id (SnippetWithAuthor.snippet row))) row)
            rows), s).
Proof.
  intros Hliked. induction rows as [|row rows IH]; simpl; [reflexivity|].
  unfold bind, ret in *. now rewrite Hliked, IH.
Qed.

Lemma my_snippets_answer (req : Request.t) (userId : string)
    (liked : string -> bool) (own : list SnippetWithAuthor.t) (s : S) :
  Request.session_userId req = Some userId ->
  Js.truthy (Some userId) = true ->
  IStorage.getUserOwnSnippets userId s = (Returned own, s) ->
  (forall snippetId,
     IStorage.isSnippetLiked snippetId userId s = (Returned (liked snippetId), s)) ->
  Api.my_snippets req s
  = (Returned
       (Reply.json
          (Reply.Snippets
             (map (fun row =>
                     SnippetWithAuthor.with_isLiked
                       (liked (Snippet.id (SnippetWithAuthor.snippet row))) row)
                  own))), s).
Proof.
  intros Hs Ht Hown Hliked. unfold Api.my_snippets.
  rewrite requireAuth_signed_in with (userId := userId);
    [|assumption|assumption].
  unfold Api.catch_400, try_catch, bind, ret. rewrite Hown.
  now rewrite mark_liked_reads with (liked := liked) by exact Hliked.
Qed.

End MarkLiked.

Lemma MemStorage_getUserOwnSnippets_spec st u :
  exists own,
    MemStorage.getUserOwnSnippets u st = (Returned own, st)
    /\ (forall row, In row own ->
          Snippet.authorId (SnippetWithAuthor.snippet row) = u
          /\ In (SnippetWithAuthor.snippet row)
                (JsMap.values (MemStorage.snippets st)))
    /\ (forall author snippet,
          JsMap.get u (MemStorage.users st) = Some author ->
          In snippet (JsMap.values (MemStorage.snippets st)) ->
          Snippet.authorId snippet = u ->
          exists row, In row own /\ SnippetWithAuthor.snippet row = snippet).
Proof.
  unfold MemStorage.getUserOwnSnippets.
  destruct (JsMap.get u (MemStorage.users st)) as [author|].
  - eexists. split; [reflexivity|]. split.
    + intros row Hrow. apply in_map_iff in Hrow.
      destruct Hrow as [snippet [<- Hs]]. simpl.
      apply (Permutation_in _ (sort_perm _ _)) in Hs.
      apply filter_In in Hs. destruct Hs as [Hin Ha].
      apply String.eqb_eq in Ha. now split.
    + intros author' snippet _ Hin Ha.
      exists (SnippetWithAuthor.mk snippet (author_of author) None).
      split; [|reflexivity].
      apply in_map_iff. exists snippet. split; [reflexivity|].
      apply (Permutation_in _ (Permutation_sym (sort_perm _ _))).
      apply filter_In. split; [exact Hin|]. now apply String.eqb_eq.
  - exists []. split; [reflexivity|]. split; [intros row []|].
    intros author snippet Hg. discriminate.
Qed.

Lemma join_author_complete db snippet user :
  In snippet (Database.snippets db) -> In user (Database.users db) ->
  User.id user = Snippet.authorId snippet ->
  In (SnippetWithAuthor.mk snippet (Database.author_columns user) None)
     (Database.join_author db (Database.snippets db)).
Proof.
  intros Hs Hu Hid. unfold Database.join_author. apply in_flat_map.
  exists snippet. split; [exact Hs|]. apply in_map_iff. exists user.
  split; [reflexivity|]. apply filter_In. split; [exact Hu|].
  apply String.eqb_eq. now symmetry.
Qed.

Lemma DatabaseStorage_getUserOwnSnippets_spec db u :
  exists own,
    DatabaseStorage.getUserOwnSnippets u db = (Returned own, db)
    /\ (forall row, In row own ->
          Snippet.authorId (SnippetWithAuthor.snippet row) = u
          /\ In (SnippetWithAuthor.snippet row) (Database.snippets db))
    /\ (forall author snippet,
          In author (Database.users db) -> User.id author = u ->
          In snippet (Database.snippets db) ->
          Snippet.authorId snippet = u ->
          exists row, In row own /\ SnippetWithAuthor.snippet row = snippet).
Proof.
  unfold DatabaseStorage.getUserOwnSnippets, Database.query.
  eexists. split; [reflexivity|]. split.
  - intros row Hrow. apply order_by_desc_In in Hrow.
    apply filter_In in Hrow. destruct Hrow as [Hin Ha].
    apply String.eqb_eq in Ha. split; [exact Ha|].
    now apply join_author_In in Hin.
  - intros author snippet Hau Hid Hs Ha.
    exists (SnippetWithAuthor.mk snippet (Database.author_columns author) None).
    split; [|reflexivity].
    unfold Sql.order_by_desc.
    apply (Permutation_in _ (Permutation_sym (sort_perm _ _))).
    apply filter_In. split.
    + apply join_author_complete; [exact Hs|exact Hau|congruence].
    + simpl. now apply String.eqb_eq.
Qed.

(** X25. [GET /api/my-snippets] shows a signed-in user all of their own
    snippets, private ones included, and nobody else's: every row is a
    stored snippet whose [authorId] is the session user, marked with what
    [isSnippetLiked] says for that user, and every stored snippet of the
    user is in a row as long as the user's own record exists. The store is
    left as it was. On both storages. *)
Theorem my_snippets_lists_own_snippets :
  (forall req u (st : MemStorage.t),
     Request.session_userId req = Some u ->
     Js.truthy (Some u) = true ->
     exists rows,
       Api.my_snippets req st
       = (Returned (Reply.json (Reply.Snippets rows)), st)
       /\ (forall row, In row rows ->
             Snippet.authorId (SnippetWithAuthor.snippet row) = u
             /\ In (SnippetWithAuthor.snippet row)
                   (JsMap.values (MemStorage.snippets st))
             /\ exists liked,
                  MemStorage.isSnippetLiked
                    (Snippet.id (SnippetWithAuthor.snippet row)) u st
                  = (Returned liked, st)
                  /\ SnippetWithAuthor.isLiked row = Some liked)
       /\ (forall author snippet,
             JsMap.get u (MemStorage.users st) = Some author ->
             In snippet (JsMap.values (MemStorage.snippets st)) ->
             Snippet.authorId snippet = u ->
             exists row, In row rows /\ SnippetWithAuthor.snippet row = snippet))
  /\ (forall req u (db : Database.t),
        Request.session_userId req = Some u ->
        Js.truthy (Some u) = true ->
        exists rows,
          Api.my_snippets req db
          = (Returned (Reply.json (Reply.Snippets rows)), db)
          /\ (forall row, In row rows ->
                Snippet.authorId (SnippetWithAuthor.snippet row) = u
                /\ In (SnippetWithAuthor.snippet row) (Database.snippets db)
                /\ exists liked,
                     DatabaseStorage.isSnippetLiked
                       (Snippet.id (SnippetWithAuthor.snippet row)) u db
                     = (Returned liked, db)
                     /\ SnippetWithAuthor.isLiked row = Some liked)
          /\ (forall author snippet,
                In author (Database.users db) -> User.id author = u ->
                In snippet (Database.snippets db) ->
                Snippet.authorId snippet = u ->
                exists row,
                  In row rows /\ SnippetWithAuthor.snippet row = snippet)).
Proof.
  split.
  - intros req u st Hs Ht.
    destruct (MemStorage_getUserOwnSnippets_spec st u)
      as (own & Hown & Hsound & Hcomplete).
    set (liked := fun snippetId =>
           existsb (fun like => (SnippetLike.snippetId like =? snippetId)%string
                                && (SnippetLike.userId like =? u)%string)
                   (JsMap.values (MemStorage.snippetLikes st))).
    eexists. split.
    + apply my_snippets_answer with (userId := u) (liked := liked) (own := own);
        try assumption. reflexivity.
    + split.
      * intros row Hrow. apply in_map_iff in Hrow.
        destruct Hrow as [row0 [<- Hrow0]]. simpl.
        destruct (Hsound row0 Hrow0) as [Ha Hin].
        split; [exact Ha|]. split; [exact Hin|].
        eexists. split; reflexivity.
      * intros author snippet Hau Hin Ha.
        destruct (Hcomplete author snippet Hau Hin Ha) as [row [Hrow Hsn]].
        eexists. split; [apply in_map; exact Hrow|]. exact Hsn.
  - intros req u db Hs Ht.
    destruct (DatabaseStorage_getUserOwnSnippets_spec db u)
      as (own & Hown & Hsound & Hcomplete).
    set (liked := fun snippetId =>
           DatabaseStorage.is_some
             (Sql.first
                (filter (fun like => (SnippetLike.snippetId like =? snippetId)%string
                                     && (SnippetLike.userId like =? u)%string)
                        (Database.snippetLikes db)))).
    eexists. split.
    + apply my_snippets_answer with (userId := u) (liked := liked) (own := own);
        try assumption. reflexivity.
    + split.
      * intros row Hrow. apply in_map_iff in Hrow.
        destruct Hrow as [row0 [<- Hrow0]]. simpl.
        destruct (Hsound row0 Hrow0) as [Ha Hin].
        split; [exact Ha|]. split; [exact Hin|].
        eexists. split; reflexivity.
      * intros author snippet Hau Hid Hin Ha.
        destruct (Hcomplete author snippet Hau Hid Hin Ha) as [row [Hrow Hsn]].
        eexists. split; [apply in_map; exact Hrow|]. exact Hsn.
Qed.

Lemma my_snippets_lists_own_snippets_witness :
  exists rows,
    Api.my_snippets (Fixture.as_user "u-ann") Fixture.db
    = (Returned (Reply.json (Reply.Snippets rows)), Fixture.db)
    /\ exists row,
         In row rows
         /\ SnippetWithAuthor.snippet row
            = DatabaseStorage.snippet_row "s-priv" 2001 "u-ann"
                (Fixture.hello false).
Proof.
  destruct (proj2 my_snippets_lists_own_snippets (Fixture.as_user "u-ann")
              "u-ann" Fixture.db eq_refl eq_refl)
    as (rows & Hget & _ & Hcomplete).
  exists rows. split; [exact Hget|].
  apply (Hcomplete
           (DatabaseStorage.user_row "u-ann" "h-ann" 1000 RankDefault Fixture.ann)).
  - vm_compute. tauto.
  - reflexivity.
  - vm_compute. tauto.
  - reflexivity.
Defined.

(** ** The trending page *)

Lemma slice_1_11 {A} (l : list A) :
  Js.slice 1 11 l = firstn 10 (skipn 1 l).
Proof. exact (@slice_page A 1 10 l ltac:(lia) ltac:(lia)). Qed.

Lemma slice_to_end {A} (l : list A) :
  Z.of_nat (List.length l) > 11 ->
  Js.slice 11 (Z.of_nat (List.length l)) l = skipn 11 l.
Proof.
  intros Hlen.
  replace (Z.of_nat (List.length l)) with (11 + (Z.of_nat (List.length l) - 11))
    at 1 by lia.
  rewrite slice_page by lia.
  change (Z.to_nat 11) with 11%nat.
  apply firstn_all2. rewrite length_skipn. lia.
Qed.

(** X26. The trending page shows every snippet of the list it was given
    exactly once and in the order of the list: the featured card holds the
    first, the ranking the next ten at most, the grid the rest; and the
    number beside a ranked snippet is its position in the list, counted
    from one. *)
Theorem trending_page_shows_the_list_once :
  forall (A : Type) (trendingSnippets : list A),
    TrendingPage.shown trendingSnippets = trendingSnippets
    /\ (List.length (TrendingPage.otherTrending trendingSnippets) <= 10)%nat
    /\ (forall index snippet,
          nth_error (TrendingPage.otherTrending trendingSnippets) index
          = Some snippet ->
          nth_error trendingSnippets (TrendingPage.rank index - 1) = Some snippet).
Proof.
  intros A l. unfold TrendingPage.shown, TrendingPage.topSnippet,
    TrendingPage.otherTrending, TrendingPage.moreTrending, TrendingPage.rank.
  rewrite slice_1_11. repeat apply conj.
  - assert (Hmore :
      (if Z.of_nat (List.length l) >? 11
       then Js.slice 11 (Z.of_nat (List.length l)) l else [])
      = skipn 10 (skipn 1 l)).
    { rewrite skipn_skipn. change (10 + 1)%nat with 11%nat.
      destruct (Z.of_nat (List.length l) >? 11) eqn:E.
      - apply slice_to_end. now apply Z.gtb_lt in E; lia.
      - symmetry. apply skipn_all2.
        destruct (Z.gtb_spec (Z.of_nat (List.length l)) 11); [discriminate|lia]. }
    rewrite Hmore, firstn_skipn. now destruct l.
  - rewrite length_firstn. lia.
  - intros index snippet Hnth.
    replace (index + 2 - 1)%nat with (S index) by lia.
    destruct (Nat.lt_ge_cases index 10) as [Hlt|Hge].
    + rewrite nth_error_firstn in Hnth.
      destruct (Nat.ltb_spec index 10); [|lia].
      destruct l as [|x l]; [now destruct index|]. exact Hnth.
    + assert (Hnone : nth_error (firstn 10 (skipn 1 l)) index = None).
      { apply nth_error_None. rewrite length_firstn. lia. }
      congruence.
Qed.

Lemma trending_page_shows_the_list_once_witness :
  nth_error [1; 2; 3; 4; 5; 6; 7; 8; 9; 10; 11; 12; 13]%nat
    (TrendingPage.rank 9 - 1) = Some 11%nat.
Proof.
  apply (proj2 (proj2 (trending_page_shows_the_list_once
                         [1; 2; 3; 4; 5; 6; 7; 8; 9; 10; 11; 12; 13]%nat))).
  reflexivity.
Defined.

(** ** The code editor *)

Lemma substring_length (s : string) : forall n m,
  (n + m <= String.length s)%nat ->
  String.length (String.substring n m s) = m.
Proof.
  induction s as [|c s IH]; intros n m Hlen; simpl in Hlen.
  - assert (n = 0%nat) by lia. assert (m = 0%nat) by lia. now subst.
  - destruct n as [|n]; destruct m as [|m]; simpl; try reflexivity.
    + f_equal. apply IH. lia.
    + apply IH. lia.
    + apply IH. lia.
Qed.

Lemma substring_glue (s : string) : forall n m k,
  (n + m + k <= String.length s)%nat ->
  (String.substring n m s ++ String.substring (n + m) k s)%string
  = String.substring n (m + k) s.
Proof.
  induction s as [|c s IH]; intros n m k Hlen; simpl in Hlen.
  - assert (n = 0%nat) by lia. assert (m = 0%nat) by lia.
    assert (k = 0%nat) by lia. now subst.
  - destruct n as [|n].
    + destruct m as [|m]; simpl.
      * reflexivity.
      * f_equal. apply (IH 0%nat m k). lia.
    + simpl. apply IH. lia.
Qed.

Lemma substring_whole (s : string) :
  String.substring 0 (String.length s) s = s.
Proof.
  induction s as [|c s IH]; simpl; [reflexivity|]. now rewrite IH.
Qed.

Lemma string_length_append (a b : string) :
  String.length (a ++ b)%string = (String.length a + String.length b)%nat.
Proof.
  induction a as [|c a IH]; simpl; [reflexivity|]. now rewrite IH.
Qed.

Lemma CodeEditor_substring_in_range (start end_ : nat) (s : string) :
  (start <= end_ <= String.length s)%nat ->
  CodeEditor.substring start end_ s = String.substring start (end_ - start) s.
Proof.
  intros Hr. unfold CodeEditor.substring.
  rewrite (Nat.min_l start), (Nat.min_l end_) by lia.
  now rewrite Nat.min_l, Nat.max_r by lia.
Qed.

(** X27. Pressing Tab in the code editor replaces the selection by two
    spaces and puts the cursor right behind them: with the textarea's
    selection [start <= end <= value.length], the text before [start] and
    the text from [end] on are kept as they are, the new value is
    [value.length - (end - start) + 2] long, and the new cursor position is
    the length of the kept text before plus two. Any other key changes
    nothing. *)
Theorem tab_replaces_the_selection :
  (forall value start end_,
     (start <= end_ <= String.length value)%nat ->
     exists before selected after,
       value = (before ++ selected ++ after)%string
       /\ String.length before = start
       /\ String.length selected = (end_ - start)%nat
       /\ CodeEditor.handleKeyDown "Tab" value start end_
          = Some ((before ++ "  " ++ after)%string,
                  String.length (before ++ "  ")%string)
       /\ String.length (before ++ "  " ++ after)%string
          = (String.length value - (end_ - start) + 2)%nat)
  /\ (forall key value start end_,
        key <> "Tab" -> CodeEditor.handleKeyDown key value start end_ = None).
Proof.
  split.
  - intros value start end_ Hr.
    exists (String.substring 0 start value),
           (String.substring start (end_ - start) value),
           (String.substring end_ (String.length value - end_) value).
    assert (Hb : String.length (String.substring 0 start value) = start)
      by (apply substring_length; lia).
    assert (Ha : String.length
                   (String.substring end_ (String.length value - end_) value)
                 = (String.length value - end_)%nat)
      by (apply substring_length; lia).
    repeat apply conj.
    + replace end_ with (start + (end_ - start))%nat at 2 by lia.
      rewrite substring_glue by lia.
      rewrite (substring_glue value 0 start) by lia.
      replace (start + (end_ - start + (String.length value - end_)))%nat
        with (String.length value) by lia.
      now rewrite substring_whole.
    + exact Hb.
    + apply substring_length. lia.
    + unfold CodeEditor.handleKeyDown, CodeEditor.substring_from. simpl.
      rewrite !CodeEditor_substring_in_range by lia.
      rewrite Nat.sub_0_r. rewrite string_length_append, Hb. reflexivity.
    + rewrite !string_length_append, Hb, Ha. simpl. lia.
  - intros key value start end_ Hkey. unfold CodeEditor.handleKeyDown.
    apply String.eqb_neq in Hkey. now rewrite Hkey.
Qed.

Lemma tab_replaces_the_selection_witness :
  CodeEditor.handleKeyDown "Tab" "a{b}c" 2 3 = Some ("a{  }c", 4%nat)
  /\ CodeEditor.handleKeyDown "Enter" "a{b}c" 2 3 = None.
Proof.
  split.
  - destruct (proj1 tab_replaces_the_selection "a{b}c" 2%nat 3%nat)
      as (before & selected & after & _ & _ & _ & Hkey & _).
    + simpl. lia.
    + reflexivity.
  - apply (proj2 tab_replaces_the_selection). discriminate.
Defined.

(** ** Routes that only read *)

Section ReadingRoutes.

Context {S : Type} `{IStorage.t S} `{IStorageRest.t S}.

Lemma bind_keeps {A B} (c : Promise S A) (k : A -> Promise S B) (s : S) :
  snd (c s) = s -> (forall a, snd (k a s) = s) -> snd (bind c k s) = s.
Proof.
  intros Hc Hk. unfold bind. destruct (c s) as [[a|e] s1]; simpl in *; subst s1.
  - apply Hk.
  - reflexivity.
Qed.

Lemma catch_400_keeps (c : Promise S Reply.t) (s : S) :
  snd (c s) = s -> snd (Api.catch_400 c s) = s.
Proof. intros Hc. now rewrite catch_400_store. Qed.

Lemma requireAuth_keeps (req : Request.t) (next : string -> Promise S Reply.t)
    (s : S) :
  (forall userId, snd (next userId s) = s) -> snd (Api.requireAuth req next s) = s.
Proof.
  intros Hn. unfold Api.requireAuth.
  destruct (Request.session_userId req) as [u|]; [|reflexivity].
  destruct (Js.truthy (Some u)); [apply Hn|reflexivity].
Qed.

Lemma requireAdmin_keeps (req : Request.t) (next : string -> Promise S Reply.t)
    (s : S) :
  (forall id, snd (IStorage.getUser id s) = s) ->
  (forall userId, snd (next userId s) = s) ->
  snd (Api.requireAdmin req next s) = s.
Proof.
  intros Hg Hn. unfold Api.requireAdmin.
  destruct (Request.session_userId req) as [u|]; [|reflexivity].
  destruct (Js.truthy (Some u)); [|reflexivity].
  apply bind_keeps; [apply Hg|]. intros [user|]; [|reflexivity].
  destruct (Rank_eqb _ _); [apply Hn|reflexivity].
Qed.

Lemma mark_liked_keeps (userId : string) (rows : list SnippetWithAuthor.t)
    (s : S) :
  (forall snippetId, snd (IStorage.isSnippetLiked snippetId userId s) = s) ->
  snd (Api.mark_liked userId rows s) = s.
Proof.
  intros Hl. induction rows as [|row rows IH]; simpl; [reflexivity|].
  apply bind_keeps; [apply Hl|]. intros b.
  apply bind_keeps; [exact IH|]. reflexivity.
Qed.

Lemma serve_keeps (route : ReadingRoute) (req : Request.t) (s : S) :
  reads_keep s -> snd (serve route req s) = s.
Proof.
  intros (HgetUser & HbyName & Hsearch & Hprofile & Hliked & Hown & HisLiked
          & Hfollowing & Hfollowers & Hunread & Husers & Hsnippets).
  destruct route; simpl.
  - unfold Api.me. destruct (negb _); [reflexivity|].
    apply bind_keeps; [apply HgetUser|]. now intros [user|].
  - unfold Api.search. apply catch_400_keeps.
    destruct (negb _); [reflexivity|].
    apply bind_keeps; [apply Hsearch|]. reflexivity.
  - unfold Api.get_profile. apply catch_400_keeps.
    apply bind_keeps; [apply Hprofile|]. now intros [p|].
  - unfold Api.get_liked. apply catch_400_keeps.
    apply bind_keeps; [apply HbyName|]. intros [user|]; [|reflexivity].
    apply bind_keeps; [apply Hliked|]. reflexivity.
  - unfold Api.my_snippets. apply requireAuth_keeps. intros userId.
    apply catch_400_keeps. apply bind_keeps; [apply Hown|]. intros rows.
    apply bind_keeps; [apply mark_liked_keeps; intros; apply HisLiked|].
    reflexivity.
  - unfold Api.following. apply requireAuth_keeps. intros userId.
    apply catch_400_keeps. apply bind_keeps; [apply Hfollowing|]. reflexivity.
  - unfold Api.followers. apply requireAuth_keeps. intros userId.
    apply catch_400_keeps. apply bind_keeps; [apply Hfollowers|]. reflexivity.
  - unfold Api.unread_count. apply requireAuth_keeps. intros userId.
    apply catch_400_keeps. apply bind_keeps; [apply Hunread|]. reflexivity.
  - unfold Api.admin_stats. apply requireAdmin_keeps; [exact HgetUser|].
    intros _. apply catch_400_keeps.
    apply bind_keeps; [apply Husers|]. intros users.
    apply bind_keeps; [apply Hsnippets|]. reflexivity.
Qed.

End ReadingRoutes.

Lemma MemStorage_getUserProfile_keeps (username : string)
    (viewer : option string) (st : MemStorage.t) :
  snd (MemStorageRest.getUserProfile username viewer st) = st.
Proof.
  unfold MemStorageRest.getUserProfile, bind, ret, MemStorage.getUserByUsername.
  destruct (find _ _); [|reflexivity]. now destruct (Js.truthy viewer).
Qed.

Lemma MemStorage_getUserOwnSnippets_keeps (userId : string)
    (st : MemStorage.t) :
  snd (MemStorage.getUserOwnSnippets userId st) = st.
Proof.
  unfold MemStorage.getUserOwnSnippets. now destruct (JsMap.get _ _).
Qed.

Lemma MemStorage_reads_keep (st : MemStorage.t) : reads_keep st.
Proof.
  unfold reads_keep. repeat apply conj; intros; simpl;
    first [ apply MemStorage_getUserProfile_keeps
          | apply MemStorage_getUserOwnSnippets_keeps
          | reflexivity ].
Qed.

Lemma DatabaseStorage_getUserProfile_keeps (username : string)
    (viewer : option string) (db : Database.t) :
  snd (DatabaseStorageRest.getUserProfile username viewer db) = db.
Proof.
  unfold DatabaseStorageRest.getUserProfile, bind, ret,
    DatabaseStorage.getUserByUsername, Database.query.
  destruct (Sql.first _); [|reflexivity]. now destruct (Js.truthy viewer).
Qed.

Lemma DatabaseStorage_reads_keep (db : Database.t) : reads_keep db.
Proof.
  unfold reads_keep. repeat apply conj; intros; simpl;
    first [ apply DatabaseStorage_getUserProfile_keeps | reflexivity ].
Qed.

(** X28. The routes that only read never write: [GET /api/auth/me],
    [/api/snippets/search], [/api/users/:username],
    [/api/users/:username/liked], [/api/my-snippets], [/api/following],
    [/api/followers], [/api/notifications/unread-count] and
    [/api/admin/stats] leave the store exactly as it was, whatever the
    request and whatever they answer, on both storages. *)
Theorem reading_routes_never_write :
  (forall route req (st : MemStorage.t), snd (serve route req st) = st)
  /\ (forall route req (db : Database.t), snd (serve route req db) = db).
Proof.
  split.
  - intros route req st. apply serve_keeps, MemStorage_reads_keep.
  - intros route req db. apply serve_keeps, DatabaseStorage_reads_keep.
Qed.

(** [GET /api/snippets/:id] is not among them: it records a view. *)
Example reading_a_snippet_writes_a_view :
  List.length
    (Database.snippetViews
       (snd (Routes.get_snippet "v-1" 6000 (Fixture.as_user "u-bob") "s-pub"
               Fixture.db)))
  = 1%nat.
Proof. reflexivity. Qed.

(** ** Undoing a like and a follow through the routes *)

Section UndoRoutes.

Context {S : Type} `{IStorage.t S} `{IStorageRest.t S}.

Lemma post_like_200 likeId now req id (s s1 : S) reply :
  Routes.post_like likeId now req id s = (Returned reply, s1) ->
  Response.status reply = 200 ->
  exists userId,
    Request.session_userId req = Some userId
    /\ Js.truthy (Some userId) = true
    /\ IStorage.likeSnippet likeId now id userId s = (Returned true, s1).
Proof.
  unfold Routes.post_like, Routes.requireAuth, Routes.catch_400, try_catch,
    bind, ret.
  destruct (Request.session_userId req) as [u|];
    [|intros [= <- <-]; discriminate].
  destruct (Js.truthy (Some u)) eqn:Ht; [|intros [= <- <-]; discriminate].
  destruct (IStorage.likeSnippet likeId now id u s) as [[[|]|e] s2] eqn:Hl;
    simpl; intros [= <- <-]; try discriminate.
  intros _. exists u. auto.
Qed.

Lemma delete_like_200 req id userId (s1 s : S) :
  Request.session_userId req = Some userId ->
  Js.truthy (Some userId) = true ->
  IStorage.unlikeSnippet id userId s1 = (Returned true, s) ->
  Api.delete_like req id s1
  = (Returned (Reply.json (Reply.Message "Snippet unliked successfully")), s).
Proof.
  intros Hs Ht Hu.
  unfold Api.delete_like, Api.requireAuth, Api.catch_400, try_catch, bind, ret.
  rewrite Hs, Ht, Hu. reflexivity.
Qed.

Lemma post_follow_200 followId now req username (s s1 : S) reply :
  Routes.post_follow followId now req username s = (Returned reply, s1) ->
  Response.status reply = 200 ->
  exists userId target s0,
    Request.session_userId req = Some userId
    /\ Js.truthy (Some userId) = true
    /\ IStorage.getUserByUsername username s = (Returned (Some target), s0)
    /\ IStorage.followUser followId now userId (User.id target) s0
       = (Returned true, s1).
Proof.
  unfold Routes.post_follow, Routes.requireAuth, Routes.catch_400, try_catch,
    bind, ret.
  destruct (Request.session_userId req) as [u|];
    [|intros [= <- <-]; discriminate].
  destruct (Js.truthy (Some u)) eqn:Ht; [|intros [= <- <-]; discriminate].
  destruct (IStorage.getUserByUsername username s) as [[[target|]|e] s0] eqn:Hg;
    simpl; try (intros [= <- <-]; discriminate).
  destruct (User.id target =? u)%string; simpl;
    [intros [= <- <-]; discriminate|].
  destruct (IStorage.followUser followId now u (User.id target) s0)
    as [[[|]|e] s2] eqn:Hf; simpl; intros [= <- <-]; try discriminate.
  intros _. exists u, target, s0. auto.
Qed.

Lemma delete_follow_200 req username userId target (s1 s : S) :
  Request.session_userId req = Some userId ->
  Js.truthy (Some userId) = true ->
  IStorage.getUserByUsername username s1 = (Returned (Some target), s1) ->
  IStorage.unfollowUser userId (User.id target) s1 = (Returned true, s) ->
  Api.delete_follow req username s1
  = (Returned (Reply.json (Reply.Message "User unfollowed successfully")), s).
Proof.
  intros Hs Ht Hg Hu.
  unfold Api.delete_follow, Api.requireAuth, Api.catch_400, try_catch, bind, ret.
  rewrite Hs, Ht, Hg. simpl. rewrite Hu. reflexivity.
Qed.

End UndoRoutes.

Lemma MemStorage_followUser_users uuid now f g (st st1 : MemStorage.t) outcome :
  MemStorage.followUser uuid now f g st = (outcome, st1) ->
  MemStorage.users st1 = MemStorage.users st.
Proof.
  unfold MemStorage.followUser.
  destruct (f =? g)%string; [now intros [= _ <-]|].
  destruct (find _ _); now intros [= _ <-].
Qed.

Lemma DatabaseStorage_followUser_users uuid now f g (db db1 : Database.t)
    outcome :
  DatabaseStorage.followUser uuid now f g db = (outcome, db1) ->
  Database.users db1 = Database.users db.
Proof.
  unfold DatabaseStorage.followUser.
  destruct (f =? g)%string; [now intros [= _ <-]|].
  unfold bind, DatabaseStorage.select_follow, Database.query,
    DatabaseStorage.insert_into, Database.execute, Sql.insert, ret.
  destruct (Sql.first _); [now intros [= _ <-]|].
  destruct (Sql.taken _ _ _); now intros [= _ <-].
Qed.

(** X29. What [POST /api/snippets/:id/like] and
    [POST /api/users/:username/follow] did with a 200 answer, the matching
    [DELETE] route of the same session undoes: it answers 200 and the store
    is again the one before the [POST]. On MemStorage the uuid drawn by the
    [POST] is taken fresh and the like counter of the snippet not negative;
    on DatabaseStorage the like counters are taken not below the least
    32-bit integer. *)
Theorem delete_routes_undo_like_and_follow :
  (forall likeId now req id (st st1 : MemStorage.t) reply,
     ~ In likeId (JsMap.keys (MemStorage.snippetLikes st)) ->
     (forall sn, JsMap.get id (MemStorage.snippets st) = Some sn ->
                 0 <= Snippet.likes sn) ->
     Routes.post_like likeId now req id st = (Returned reply, st1) ->
     Response.status reply = 200 ->
     Api.delete_like req id st1
     = (Returned (Reply.json (Reply.Message "Snippet unliked successfully")),
        st))
  /\ (forall followId now req username (st st1 : MemStorage.t) reply,
        ~ In followId (JsMap.keys (MemStorage.follows st)) ->
        Routes.post_follow followId now req username st
        = (Returned reply, st1) ->
        Response.status reply = 200 ->
        Api.delete_follow req username st1
        = (Returned
             (Reply.json (Reply.Message "User unfollowed successfully")), st))
  /\ (forall likeId now req id (db db1 : Database.t) reply,
        (forall sn, In sn (Database.snippets db) ->
                    Sql.int4_min <= Snippet.likes sn) ->
        Routes.post_like likeId now req id db = (Returned reply, db1) ->
        Response.status reply = 200 ->
        Api.delete_like req id db1
        = (Returned
             (Reply.json (Reply.Message "Snippet unliked successfully")), db))
  /\ (forall followId now req username (db db1 : Database.t) reply,
        Routes.post_follow followId now req username db
        = (Returned reply, db1) ->
        Response.status reply = 200 ->
        Api.delete_follow req username db1
        = (Returned
             (Reply.json (Reply.Message "User unfollowed successfully")), db)).
Proof.
  repeat apply conj.
  - intros likeId now req id st st1 reply Hfresh Hpos Hpost H200.
    pose proof Hpost as Hpost'. eapply post_like_200 in Hpost'; [|exact H200].
    destruct Hpost' as (u & Hs & Ht & Hlike).
    apply delete_like_200 with (userId := u); [exact Hs|exact Ht|].
    simpl in Hlike |- *.
    exact (proj2 (@MemStorage_like_round_trip _ _ _ _ _ _ Hfresh Hpos Hlike)).
  - intros followId now req username st st1 reply Hfresh Hpost H200.
    pose proof Hpost as Hpost'. eapply post_follow_200 in Hpost'; [|exact H200].
    destruct Hpost' as (u & target & s0 & Hs & Ht & Hget & Hfollow).
    simpl in Hget, Hfollow. unfold MemStorage.getUserByUsername in Hget.
    injection Hget as Hfind <-.
    apply delete_follow_200 with (userId := u) (target := target);
      [exact Hs|exact Ht| |].
    + simpl. unfold MemStorage.getUserByUsername.
      rewrite (@MemStorage_followUser_users _ _ _ _ _ _ _ Hfollow), Hfind.
      reflexivity.
    + simpl. exact (proj2 (@MemStorage_follow_round_trip _ _ _ _ _ _ Hfresh Hfollow)).
  - intros likeId now req id db db1 reply Hmin Hpost H200.
    pose proof Hpost as Hpost'. eapply post_like_200 in Hpost'; [|exact H200].
    destruct Hpost' as (u & Hs & Ht & Hlike).
    apply delete_like_200 with (userId := u); [exact Hs|exact Ht|].
    simpl in Hlike |- *.
    exact (proj2 (@DatabaseStorage_like_round_trip _ _ _ _ _ _ Hmin Hlike)).
  - intros followId now req username db db1 reply Hpost H200.
    pose proof Hpost as Hpost'. eapply post_follow_200 in Hpost'; [|exact H200].
    destruct Hpost' as (u & target & s0 & Hs & Ht & Hget & Hfollow).
    simpl in Hget, Hfollow.
    unfold DatabaseStorage.getUserByUsername, Database.query in Hget.
    injection Hget as Hfind <-.
    apply delete_follow_200 with (userId := u) (target := target);
      [exact Hs|exact Ht| |].
    + simpl. unfold DatabaseStorage.getUserByUsername, Database.query.
      rewrite (@DatabaseStorage_followUser_users _ _ _ _ _ _ _ Hfollow), Hfind.
      reflexivity.
    + simpl. exact (proj2 (@DatabaseStorage_follow_round_trip _ _ _ _ _ _ Hfollow)).
Qed.

Lemma delete_routes_undo_like_and_follow_witness :
  Api.delete_like (Fixture.as_user "u-bob") "s-pub" LikeFixture.mem_liked
  = (Returned (Reply.json (Reply.Message "Snippet unliked successfully")),
     Fixture.mem)
  /\ Api.delete_follow (Fixture.as_user "u-root") "ann"
       RoundTripFixture.mem_followed
     = (Returned (Reply.json (Reply.Message "User unfollowed successfully")),
        Fixture.mem)
  /\ Api.delete_like (Fixture.as_user "u-bob") "s-pub" LikeFixture.db_liked
     = (Returned (Reply.json (Reply.Message "Snippet unliked successfully")),
        Fixture.db)
  /\ Api.delete_follow (Fixture.as_user "u-root") "ann"
       RoundTripFixture.db_followed
     = (Returned (Reply.json (Reply.Message "User unfollowed successfully")),
        Fixture.db).
Proof.
  destruct delete_routes_undo_like_and_follow as (Hml & Hmf & Hdl & Hdf).
  repeat apply conj.
  - apply (Hml "l-1" 3000 (Fixture.as_user "u-bob") "s-pub" Fixture.mem
             LikeFixture.mem_liked
             (Response.json (Response.Message "Snippet liked successfully"))).
    + vm_compute. intros [].
    + intros sn Hsn. vm_compute in Hsn. injection Hsn as <-. simpl. lia.
    + reflexivity.
    + reflexivity.
  - apply (Hmf "f-9" 5000 (Fixture.as_user "u-root") "ann" Fixture.mem
             RoundTripFixture.mem_followed
             (Response.json (Response.Message "User followed successfully"))).
    + vm_compute. intros [H|[]]. discriminate.
    + reflexivity.
    + reflexivity.
  - apply (Hdl "l-1" 3000 (Fixture.as_user "u-bob") "s-pub" Fixture.db
             LikeFixture.db_liked
             (Response.json (Response.Message "Snippet liked successfully"))).
    + intros sn Hsn. vm_compute in Hsn.
      destruct Hsn as [<-|[<-|[]]]; vm_compute; discriminate.
    + reflexivity.
    + reflexivity.
  - apply (Hdf "f-9" 5000 (Fixture.as_user "u-root") "ann" Fixture.db
             RoundTripFixture.db_followed
             (Response.json (Response.Message "User followed successfully"))).
    + reflexivity.
    + reflexivity.
Defined.

(** ** The profile picture route *)

Lemma spread_only_profilePicture (p : string) (user : User.t) :
  spread_user user (Api.only_profilePicture p) = with_picture p user.
Proof. reflexivity. Qed.

Lemma or_else_truthy (p d : string) :
  Js.truthy (Some p) = true -> Js.or_else (Some p) d = p.
Proof. simpl. now destruct (p =? EmptyString)%string. Qed.

Lemma filter_map_keeping {A} (p : A -> bool) (f : A -> A) (l : list A) :
  (forall x, p (f x) = p x) -> filter p (map f l) = map f (filter p l).
Proof.
  intros Hp. induction l as [|x l IH]; simpl; [reflexivity|].
  rewrite Hp. destruct (p x); simpl; now rewrite IH.
Qed.

Lemma map_fixing {A} (f : A -> A) (l : list A) :
  (forall x, In x l -> f x = x) -> map f l = l.
Proof.
  intros Hf. induction l as [|x l IH]; simpl; [reflexivity|].
  rewrite Hf by now left. f_equal. apply IH. intros y Hy. apply Hf. now right.
Qed.

Section PictureRoute.

Context {S : Type} `{IStorage.t S} `{IStorageRest.t S}.

Lemma profile_picture_required (req : Request.t) (userId : string)
    (picture : option string) (s : S) :
  Request.session_userId req = Some userId ->
  Js.truthy (Some userId) = true ->
  Js.truthy picture = false ->
  Api.profile_picture req picture s
  = (Returned (Reply.mk 400 (Reply.Message "Profile picture data is required")),
     s).
Proof.
  intros Hs Ht Hp.
  unfold Api.profile_picture, Api.requireAuth, Api.catch_400, try_catch, ret.
  now rewrite Hs, Ht, Hp.
Qed.

Lemma profile_picture_200 (req : Request.t) (userId p : string) (s s1 : S)
    (reply : Reply.t) :
  Request.session_userId req = Some userId ->
  Js.truthy (Some userId) = true ->
  Js.truthy (Some p) = true ->
  Api.profile_picture req (Some p) s = (Returned reply, s1) ->
  Reply.status reply = 200 ->
  exists updated,
    IStorage.updateUser userId (Api.only_profilePicture p) s
    = (Returned (Some updated), s1)
    /\ Reply.body reply = Reply.UserEnvelope (SafeUser.without_password updated).
Proof.
  intros Hs Ht Hp.
  unfold Api.profile_picture, Api.requireAuth, Api.catch_400, try_catch, bind,
    ret.
  rewrite Hs, Ht, Hp, (@or_else_truthy p EmptyString Hp). simpl.
  destruct (IStorage.updateUser userId (Api.only_profilePicture p) s)
    as [[[updated|]|e] s2] eqn:Hu; simpl; intros [= <- <-]; try discriminate.
  intros _. exists updated. auto.
Qed.

End PictureRoute.

Lemma MemStorage_profile_picture req u p (st : MemStorage.t) user :
  Request.session_userId req = Some u ->
  Js.truthy (Some u) = true ->
  Js.truthy (Some p) = true ->
  JsMap.get u (MemStorage.users st) = Some user ->
  exists st1,
    Api.profile_picture req (Some p) st
    = (Returned (Reply.json (Reply.UserEnvelope
                               (SafeUser.without_password
                                  (with_picture p user)))), st1)
    /\ MemStorage.getUser u st1 = (Returned (Some (with_picture p user)), st1)
    /\ (forall v, v <> u ->
          fst (MemStorage.getUser v st1) = fst (MemStorage.getUser v st))
    /\ MemStorage.snippets st1 = MemStorage.snippets st.
Proof.
  intros Hs Ht Hp Hget.
  unfold Api.profile_picture, Api.requireAuth, Api.catch_400, try_catch, bind,
    ret.
  rewrite Hs, Ht, Hp, (@or_else_truthy p EmptyString Hp). simpl.
  unfold MemStorage.updateUser. rewrite Hget. simpl.
  eexists. split; [reflexivity|]. unfold MemStorage.getUser. simpl.
  repeat apply conj.
  - now rewrite JsMap_get_set_same.
  - intros v Hv. now rewrite JsMap_get_set_other.
  - reflexivity.
Qed.

Lemma DatabaseStorage_profile_picture req u p (db db1 : Database.t) reply :
  Request.session_userId req = Some u ->
  Js.truthy (Some u) = true ->
  Js.truthy (Some p) = true ->
  Api.profile_picture req (Some p) db = (Returned reply, db1) ->
  Reply.status reply = 200 ->
  exists user,
    DatabaseStorage.getUser u db = (Returned (Some user), db)
    /\ Reply.body reply
       = Reply.UserEnvelope (SafeUser.without_password (with_picture p user))
    /\ DatabaseStorage.getUser u db1
       = (Returned (Some (with_picture p user)), db1)
    /\ (forall v, v <> u ->
          fst (DatabaseStorage.getUser v db1)
          = fst (DatabaseStorage.getUser v db))
    /\ Database.snippets db1 = Database.snippets db.
Proof.
  intros Hs Ht Hp Hroute H200.
  eapply profile_picture_200 in Hroute; try eassumption.
  destruct Hroute as (updated & Hupd & Hbody). simpl in Hupd.
  unfold DatabaseStorage.updateUser in Hupd.
  change (PartialUser.is_empty (Api.only_profilePicture p)) with false in Hupd.
  cbv iota in Hupd.
  destruct (Sql.distinct _ && Sql.distinct _ && Sql.distinct _);
    [|discriminate].
  injection Hupd as Hfirst <-.
  unfold DatabaseStorage.getUser, Database.query. cbn [fst Database.users
    Database.set_users Database.snippets].
  set (f := fun user : User.t =>
              if (User.id user =? u)%string
              then spread_user user (Api.only_profilePicture p) else user).
  assert (Hid : forall x, User.id (f x) = User.id x).
  { intros x. unfold f. now destruct (User.id x =? u)%string. }
  destruct (filter (fun user => (User.id user =? u)%string) (Database.users db))
    as [|user rest] eqn:Hfilter; [discriminate|].
  simpl in Hfirst. injection Hfirst as <-.
  assert (Hu : (User.id user =? u)%string = true).
  { assert (Hin : In user (filter (fun user => (User.id user =? u)%string)
                             (Database.users db)))
      by (rewrite Hfilter; now left).
    apply filter_In in Hin. apply Hin. }
  exists user. repeat apply conj.
  - reflexivity.
  - exact Hbody.
  - rewrite filter_map_keeping by (intros x; now rewrite Hid).
    rewrite Hfilter. simpl. unfold f at 1. rewrite Hu. reflexivity.
  - intros v Hv. f_equal.
    rewrite filter_map_keeping by (intros x; now rewrite Hid).
    f_equal. apply map_fixing. intros x Hx. apply filter_In in Hx.
    destruct Hx as [_ Hx]. apply String.eqb_eq in Hx. unfold f.
    destruct (User.id x =? u)%string eqn:E; [|reflexivity].
    apply String.eqb_eq in E. congruence.
  - reflexivity.
Qed.

(** X30. [PUT /api/profile/picture] changes the picture and nothing else of
    the account: with a non-empty picture the signed-in user's record is
    answered and read back with the new picture and every other field,
    rank and password hash included, as before; every other user and the
    snippets are untouched. On MemStorage this holds whenever the user
    exists, on DatabaseStorage whenever the route answers 200. Without a
    picture the route answers 400 and writes nothing. *)
Theorem profile_picture_changes_the_picture_only :
  (forall req u p (st : MemStorage.t) user,
     Request.session_userId req = Some u ->
     Js.truthy (Some u) = true ->
     Js.truthy (Some p) = true ->
     JsMap.get u (MemStorage.users st) = Some user ->
     exists st1,
       Api.profile_picture req (Some p) st
       = (Returned (Reply.json (Reply.UserEnvelope
                                  (SafeUser.without_password
                                     (with_picture p user)))), st1)
       /\ MemStorage.getUser u st1
          = (Returned (Some (with_picture p user)), st1)
       /\ (forall v, v <> u ->
             fst (MemStorage.getUser v st1) = fst (MemStorage.getUser v st))
       /\ MemStorage.snippets st1 = MemStorage.snippets st)
  /\ (forall req u p (db db1 : Database.t) reply,
        Request.session_userId req = Some u ->
        Js.truthy (Some u) = true ->
        Js.truthy (Some p) = true ->
        Api.profile_picture req (Some p) db = (Returned reply, db1) ->
        Reply.status reply = 200 ->
        exists user,
          DatabaseStorage.getUser u db = (Returned (Some user), db)
          /\ Reply.body reply
             = Reply.UserEnvelope
                 (SafeUser.without_password (with_picture p user))
          /\ DatabaseStorage.getUser u db1
             = (Returned (Some (with_picture p user)), db1)
          /\ (forall v, v <> u ->
                fst (DatabaseStorage.getUser v db1)
                = fst (DatabaseStorage.getUser v db))
          /\ Database.snippets db1 = Database.snippets db)
  /\ (forall req u picture,
        Request.session_userId req = Some u ->
        Js.truthy (Some u) = true ->
        Js.truthy picture = false ->
        (forall st : MemStorage.t,
           Api.profile_picture req picture st
           = (Returned
                (Reply.mk 400
                   (Reply.Message "Profile picture data is required")), st))
        /\ (forall db : Database.t,
              Api.profile_picture req picture db
              = (Returned
                   (Reply.mk 400
                      (Reply.Message "Profile picture data is required")),
                 db))).
Proof.
  repeat apply conj.
  - intros. now apply MemStorage_profile_picture.
  - intros. eapply DatabaseStorage_profile_picture; eassumption.
  - intros req u picture Hs Ht Hp.
    split; intros s; eapply profile_picture_required; eassumption.
Qed.

Lemma profile_picture_changes_the_picture_only_witness :
  (exists st1,
     Api.profile_picture (Fixture.as_user "u-bob") (Some PictureFixture.picture)
       Fixture.mem
     = (Returned
          (Reply.json
             (Reply.UserEnvelope
                (SafeUser.without_password
                   (with_picture PictureFixture.picture
                      PictureFixture.mem_bob)))), st1)
     /\ MemStorage.getUser "u-bob" st1
        = (Returned
             (Some (with_picture PictureFixture.picture PictureFixture.mem_bob)),
           st1)
     /\ (forall v, v <> "u-bob" ->
           fst (MemStorage.getUser v st1)
           = fst (MemStorage.getUser v Fixture.mem))
     /\ MemStorage.snippets st1 = MemStorage.snippets Fixture.mem)
  /\ (exists user,
        DatabaseStorage.getUser "u-bob" Fixture.db
        = (Returned (Some user), Fixture.db)
        /\ Reply.body
             (Reply.json
                (Reply.UserEnvelope
                   (SafeUser.without_password
                      (with_picture PictureFixture.picture
                         PictureFixture.db_bob))))
           = Reply.UserEnvelope
               (SafeUser.without_password
                  (with_picture PictureFixture.picture user))
        /\ DatabaseStorage.getUser "u-bob" PictureFixture.db_pictured
           = (Returned (Some (with_picture PictureFixture.picture user)),
              PictureFixture.db_pictured)
        /\ (forall v, v <> "u-bob" ->
              fst (DatabaseStorage.getUser v PictureFixture.db_pictured)
              = fst (DatabaseStorage.getUser v Fixture.db))
        /\ Database.snippets PictureFixture.db_pictured
           = Database.snippets Fixture.db)
  /\ Api.profile_picture (Fixture.as_user "u-bob") None Fixture.db
     = (Returned
          (Reply.mk 400 (Reply.Message "Profile picture data is required")),
        Fixture.db).
Proof.
  destruct profile_picture_changes_the_picture_only as (Hmem & Hdb & Hnone).
  repeat apply conj.
  - apply (Hmem (Fixture.as_user "u-bob") "u-bob" PictureFixture.picture
             Fixture.mem PictureFixture.mem_bob); reflexivity.
  - apply (Hdb (Fixture.as_user "u-bob") "u-bob" PictureFixture.picture
             Fixture.db PictureFixture.db_pictured
             (Reply.json
                (Reply.UserEnvelope
                   (SafeUser.without_password
                      (with_picture PictureFixture.picture
                         PictureFixture.db_bob))))); reflexivity.
  - apply (proj2 (Hnone (Fixture.as_user "u-bob") "u-bob" None
                    eq_refl eq_refl eq_refl)).
Defined.

(** ** Private snippets and the record of their author *)

Lemma not_author_other (req : Request.t) (authorId : string) :
  Request.session_userId req <> Some authorId ->
  Routes.not_author req authorId = true.
Proof.
  intros Hother. unfold Routes.not_author.
  destruct (Request.session_userId req) as [u|]; [|reflexivity].
  apply negb_true_iff, String.eqb_neq. congruence.
Qed.

Lemma MemStorage_private_snippet_answer st viewId now req id snippet :
  JsMap.get id (MemStorage.snippets st) = Some snippet ->
  Snippet.isPublic snippet = false ->
  Request.session_userId req <> Some (Snippet.authorId snippet) ->
  Routes.get_snippet viewId now req id st
  = (Returned
       (match JsMap.get (Snippet.authorId snippet) (MemStorage.users st) with
        | Some _ => Response.mk 403 (Response.Message "Access denied")
        | None => Response.mk 404 (Response.Message "Snippet not found")
        end), st).
Proof.
  intros Hget Hpriv Hother.
  destruct (JsMap.get (Snippet.authorId snippet) (MemStorage.users st))
    as [author|] eqn:Eauthor.
  - apply get_snippet_denied
      with (snippet := SnippetWithAuthor.mk snippet (author_of author) None).
    + cbn [IStorage.getSnippetWithAuthor MemStorage_IStorage].
      unfold MemStorage.getSnippetWithAuthor. now rewrite Hget, Eauthor.
    + exact Hpriv.
    + now apply not_author_other.
  - apply get_snippet_missing.
    cbn [IStorage.getSnippetWithAuthor MemStorage_IStorage].
    unfold MemStorage.getSnippetWithAuthor. now rewrite Hget, Eauthor.
Qed.

Lemma filter_flat_map {A B} (p : B -> bool) (f : A -> list B) (l : list A) :
  filter p (flat_map f l) = flat_map (fun x => filter p (f x)) l.
Proof.
  induction l as [|x l IH]; simpl; [reflexivity|].
  now rewrite filter_app, IH.
Qed.

Lemma flat_map_only {A B} (key : A -> string) (f : A -> list B) (l : list A)
    (a : A) :
  NoDup (map key l) -> In a l ->
  flat_map (fun x => if (key x =? key a)%string then f x else []) l = f a.
Proof.
  induction l as [|x l IH]; simpl; intros Hnd Hin; [contradiction|].
  inversion Hnd as [|? ? Hx Hl]; subst.
  assert (Hrest : forall b, ~ In (key b) (map key l) ->
            flat_map (fun x => if (key x =? key b)%string then f x else []) l
            = []).
  { intros b Hb. clear - Hb. induction l as [|y l IH]; simpl; [reflexivity|].
    destruct (key y =? key b)%string eqn:E.
    - apply String.eqb_eq in E. elim Hb. simpl. now left.
    - apply IH. intros Hin. apply Hb. now right. }
  destruct Hin as [<-|Hin].
  - rewrite String.eqb_refl, Hrest by exact Hx. apply app_nil_r.
  - destruct (key x =? key a)%string eqn:E.
    + apply String.eqb_eq in E. elim Hx. rewrite E. now apply in_map.
    + simpl. now apply IH.
Qed.

Lemma DatabaseStorage_getSnippetWithAuthor_stored db snippet :
  NoDup (map Snippet.id (Database.snippets db)) ->
  In snippet (Database.snippets db) ->
  DatabaseStorage.getSnippetWithAuthor (Snippet.id snippet) db
  = (Returned
       (Sql.first
          (map (fun user =>
                  SnippetWithAuthor.mk snippet (Database.author_columns user)
                    None)
               (filter (fun user =>
                          (Snippet.authorId snippet =? User.id user)%string)
                       (Database.users db)))), db).
Proof.
  intros Hnd Hin.
  unfold DatabaseStorage.getSnippetWithAuthor, Database.query,
    Database.join_author.
  rewrite filter_flat_map.
  rewrite (flat_map_ext
             (fun x =>
                filter (fun row =>
                          (Snippet.id (SnippetWithAuthor.snippet row)
                           =? Snippet.id snippet)%string)
                       (map (fun user =>
                               SnippetWithAuthor.mk x
                                 (Database.author_columns user) None)
                            (filter (fun user =>
                                       (Snippet.authorId x =? User.id user)%string)
                                    (Database.users db))))
             (fun x =>
                if (Snippet.id x =? Snippet.id snippet)%string
                then map (fun user =>
                            SnippetWithAuthor.mk x
                              (Database.author_columns user) None)
                         (filter (fun user =>
                                    (Snippet.authorId x =? User.id user)%string)
                                 (Database.users db))
                else [])).
  - now rewrite (flat_map_only Snippet.id _ _ snippet Hnd Hin).
  - intros x. destruct (Snippet.id x =? Snippet.id snippet)%string eqn:E.
    + apply filter_all. intros row Hrow. apply in_map_iff in Hrow.
      destruct Hrow as [user [<- _]]. exact E.
    + apply filter_none. intros row Hrow. apply in_map_iff in Hrow.
      destruct Hrow as [user [<- _]]. exact E.
Qed.

Lemma DatabaseStorage_private_snippet_denied db viewId now req snippet :
  NoDup (map Snippet.id (Database.snippets db)) ->
  In snippet (Database.snippets db) ->
  Snippet.isPublic snippet = false ->
  Request.session_userId req <> Some (Snippet.authorId snippet) ->
  (exists author, In author (Database.users db)
                  /\ User.id author = Snippet.authorId snippet) ->
  Routes.get_snippet viewId now req (Snippet.id snippet) db
  = (Returned (Response.mk 403 (Response.Message "Access denied")), db).
Proof.
  intros Hnd Hin Hpriv Hother [author [Ha Hid]].
  destruct (filter (fun user =>
                      (Snippet.authorId snippet =? User.id user)%string)
                   (Database.users db)) as [|user rest] eqn:Efilter.
  - assert (Hf : In author
                   (filter (fun user =>
                              (Snippet.authorId snippet =? User.id user)%string)
                           (Database.users db))).
    { apply filter_In. split; [exact Ha|]. rewrite Hid.
      apply String.eqb_refl. }
    rewrite Efilter in Hf. destruct Hf.
  - apply get_snippet_denied
      with (snippet := SnippetWithAuthor.mk snippet
                         (Database.author_columns user) None).
    + cbn [IStorage.getSnippetWithAuthor DatabaseStorage_IStorage].
      rewrite DatabaseStorage_getSnippetWithAuthor_stored by assumption.
      now rewrite Efilter.
    + exact Hpriv.
    + now apply not_author_other.
Qed.

Lemma DatabaseStorage_orphan_snippet_missing db viewId now req snippet :
  NoDup (map Snippet.id (Database.snippets db)) ->
  In snippet (Database.snippets db) ->
  (forall user, In user (Database.users db) ->
                User.id user <> Snippet.authorId snippet) ->
  Routes.get_snippet viewId now req (Snippet.id snippet) db
  = (Returned (Response.mk 404 (Response.Message "Snippet not found")), db).
Proof.
  intros Hnd Hin Hgone. apply get_snippet_missing.
  cbn [IStorage.getSnippetWithAuthor DatabaseStorage_IStorage].
  rewrite DatabaseStorage_getSnippetWithAuthor_stored by assumption.
  rewrite filter_none; [reflexivity|].
  intros user Huser. apply String.eqb_neq. intros Heq.
  now apply (Hgone user Huser).
Qed.

(** C7. For a stored private snippet and a request whose session user is
    not the snippet's author (no session at all included),
    [GET /api/snippets/:id] never sends the snippet and leaves the store as
    it was: it answers 403 "Access denied" when the author's user record
    exists and 404 "Snippet not found" when that record is gone. This holds
    for MemStorage and for DatabaseStorage (whose snippet ids are the
    primary key); for any storage behind [IStorage] the answer is 403
    whenever [getSnippetWithAuthor] finds the snippet. *)
Theorem C7_private_snippet_denied_to_others :
  (forall st viewId now req id snippet,
     JsMap.get id (MemStorage.snippets st) = Some snippet ->
     Snippet.isPublic snippet = false ->
     Request.session_userId req <> Some (Snippet.authorId snippet) ->
     (forall author,
        JsMap.get (Snippet.authorId snippet) (MemStorage.users st)
        = Some author ->
        Routes.get_snippet viewId now req id st
        = (Returned (Response.mk 403 (Response.Message "Access denied")), st))
     /\ (JsMap.get (Snippet.authorId snippet) (MemStorage.users st) = None ->
         Routes.get_snippet viewId now req id st
         = (Returned (Response.mk 404 (Response.Message "Snippet not found")),
            st)))
  /\ (forall db viewId now req snippet,
        NoDup (map Snippet.id (Database.snippets db)) ->
        In snippet (Database.snippets db) ->
        Snippet.isPublic snippet = false ->
        Request.session_userId req <> Some (Snippet.authorId snippet) ->
        ((exists author, In author (Database.users db)
                         /\ User.id author = Snippet.authorId snippet) ->
         Routes.get_snippet viewId now req (Snippet.id snippet) db
         = (Returned (Response.mk 403 (Response.Message "Access denied")), db))
        /\ ((forall user, In user (Database.users db) ->
                          User.id user <> Snippet.authorId snippet) ->
            Routes.get_snippet viewId now req (Snippet.id snippet) db
            = (Returned
                 (Response.mk 404 (Response.Message "Snippet not found")), db)))
  /\ (forall (S : Type) (storage : IStorage.t S) viewId now req id snippet
             (st st1 : S),
        IStorage.getSnippetWithAuthor id st = (Returned (Some snippet), st1) ->
        Snippet.isPublic (SnippetWithAuthor.snippet snippet) = false ->
        Request.session_userId req
        <> Some (Snippet.authorId (SnippetWithAuthor.snippet snippet)) ->
        Routes.get_snippet viewId now req id st
        = (Returned (Response.mk 403 (Response.Message "Access denied")), st1)).
Proof.
  repeat apply conj.
  - intros st viewId now req id snippet Hget Hpriv Hother.
    pose proof (@MemStorage_private_snippet_answer st viewId now req id
                  snippet Hget Hpriv Hother) as Hanswer.
    split.
    + intros author Ha. now rewrite Ha in Hanswer.
    + intros Ha. now rewrite Ha in Hanswer.
  - intros db viewId now req snippet Hnd Hin Hpriv Hother. split.
    + intros Hauthor. now apply DatabaseStorage_private_snippet_denied.
    + intros Hgone. now apply DatabaseStorage_orphan_snippet_missing.
  - intros S storage viewId now req id snippet st st1 Hget Hpriv Hother.
    apply get_snippet_denied with (snippet := snippet);
      [exact Hget|exact Hpriv|].
    now apply not_author_other.
Qed.

Lemma Fixture_db_snippet_ids : NoDup (map Snippet.id (Database.snippets Fixture.db)).
Proof.
  vm_compute. repeat (constructor; [simpl; intuition discriminate|]).
  constructor.
Qed.

Lemma C7_private_snippet_denied_to_others_witness :
  Routes.get_snippet "v-7" 6000 (Fixture.as_user "u-bob") "s-priv" Fixture.mem
  = (Returned (Response.mk 403 (Response.Message "Access denied")), Fixture.mem)
  /\ Routes.get_snippet "v-7" 6000 Fixture.anonymous "s-priv" Fixture.db
     = (Returned (Response.mk 403 (Response.Message "Access denied")),
        Fixture.db).
Proof.
  split.
  - refine (proj1 (proj1 C7_private_snippet_denied_to_others Fixture.mem "v-7"
                     6000 (Fixture.as_user "u-bob") "s-priv"
                     (MemStorage.new_snippet "s-priv" 2001 "u-ann"
                        (Fixture.hello false)) _ _ _)
              (MemStorage.new_user "u-ann" "h-ann" 1000 RankDefault Fixture.ann)
              _).
    + reflexivity.
    + reflexivity.
    + simpl. discriminate.
    + reflexivity.
  - refine (proj1 (proj1 (proj2 C7_private_snippet_denied_to_others) Fixture.db
                     "v-7" 6000 Fixture.anonymous
                     (DatabaseStorage.snippet_row "s-priv" 2001 "u-ann"
                        (Fixture.hello false)) _ _ _ _) _).
    + exact Fixture_db_snippet_ids.
    + vm_compute. auto.
    + reflexivity.
    + simpl. discriminate.
    + exists (DatabaseStorage.user_row "u-ann" "h-ann" 1000 RankDefault
                Fixture.ann).
      split; [vm_compute; auto|reflexivity].
Defined.

(** A private snippet whose author's record is gone: stored, private, and
    answered 404 rather than 403 to a visitor and to another user. *)
Theorem C7_orphaned_private_snippet_answers_404 :
  (option_map (fun snippet => (Snippet.isPublic snippet, Snippet.authorId snippet))
     (JsMap.get "s-orphan" (MemStorage.snippets OrphanFixture.mem))
   = Some (false, "u-ann")
   /\ Routes.get_snippet "v-7" 8000 Fixture.anonymous "s-orphan"
        OrphanFixture.mem
      = (Returned (Response.mk 404 (Response.Message "Snippet not found")),
         OrphanFixture.mem)
   /\ Routes.get_snippet "v-7" 8000 (Fixture.as_user "u-bob") "s-orphan"
        OrphanFixture.mem
      = (Returned (Response.mk 404 (Response.Message "Snippet not found")),
         OrphanFixture.mem))
  /\ (map (fun snippet =>
             (Snippet.id snippet, Snippet.isPublic snippet,
              Snippet.authorId snippet))
          (Database.snippets OrphanFixture.db)
      = [("s-orphan", false, "u-ann")]
      /\ Routes.get_snippet "v-7" 8000 Fixture.anonymous "s-orphan"
           OrphanFixture.db
         = (Returned (Response.mk 404 (Response.Message "Snippet not found")),
            OrphanFixture.db)
      /\ Routes.get_snippet "v-7" 8000 (Fixture.as_user "u-bob") "s-orphan"
           OrphanFixture.db
         = (Returned (Response.mk 404 (Response.Message "Snippet not found")),
            OrphanFixture.db)).
Proof. repeat apply conj; vm_compute; reflexivity. Qed.

(** C10. For a stored private snippet, [GET /api/snippets/:id] never sends
    the snippet to a signed-in requester other than the author, whatever
    rank the requester's user record carries, admin included: the handler
    compares the session user id with the author id and nothing else. The
    answer is 403 when the author's user record exists and 404 when it is
    gone. *)
Theorem C10_private_snippet_denied_to_admins :
  (forall st viewId now req id snippet userId requester (rank : Rank),
     JsMap.get id (MemStorage.snippets st) = Some snippet ->
     Snippet.isPublic snippet = false ->
     Request.session_userId req = Some userId ->
     userId <> Snippet.authorId snippet ->
     JsMap.get userId (MemStorage.users st) = Some requester ->
     User.rank requester = rank ->
     (forall author,
        JsMap.get (Snippet.authorId snippet) (MemStorage.users st)
        = Some author ->
        Routes.get_snippet viewId now req id st
        = (Returned (Response.mk 403 (Response.Message "Access denied")), st))
     /\ (JsMap.get (Snippet.authorId snippet) (MemStorage.users st) = None ->
         Routes.get_snippet viewId now req id st
         = (Returned (Response.mk 404 (Response.Message "Snippet not found")),
            st)))
  /\ (forall db viewId now req snippet userId requester (rank : Rank),
        NoDup (map Snippet.id (Database.snippets db)) ->
        In snippet (Database.snippets db) ->
        Snippet.isPublic snippet = false ->
        Request.session_userId req = Some userId ->
        userId <> Snippet.authorId snippet ->
        In requester (Database.users db) ->
        User.id requester = userId ->
        User.rank requester = rank ->
        ((exists author, In author (Database.users db)
                         /\ User.id author = Snippet.authorId snippet) ->
         Routes.get_snippet viewId now req (Snippet.id snippet) db
         = (Returned (Response.mk 403 (Response.Message "Access denied")), db))
        /\ ((forall user, In user (Database.users db) ->
                          User.id user <> Snippet.authorId snippet) ->
            Routes.get_snippet viewId now req (Snippet.id snippet) db
            = (Returned
                 (Response.mk 404 (Response.Message "Snippet not found")), db)))
  /\ (forall (S : Type) (storage : IStorage.t S) viewId now req id snippet
             (st st1 st2 : S) userId requester (rank : Rank),
        IStorage.getSnippetWithAuthor id st = (Returned (Some snippet), st1) ->
        Snippet.isPublic (SnippetWithAuthor.snippet snippet) = false ->
        Request.session_userId req = Some userId ->
        userId <> Snippet.authorId (SnippetWithAuthor.snippet snippet) ->
        IStorage.getUser userId st = (Returned (Some requester), st2) ->
        User.rank requester = rank ->
        Routes.get_snippet viewId now req id st
        = (Returned (Response.mk 403 (Response.Message "Access denied")), st1)).
Proof.
  repeat apply conj.
  - intros st viewId now req id snippet userId requester rank Hget Hpriv
      Hsession Hother _ _.
    assert (Hreq : Request.session_userId req
                   <> Some (Snippet.authorId snippet))
      by (rewrite Hsession; congruence).
    pose proof (@MemStorage_private_snippet_answer st viewId now req id
                  snippet Hget Hpriv Hreq) as Hanswer.
    split.
    + intros author Ha. now rewrite Ha in Hanswer.
    + intros Ha. now rewrite Ha in Hanswer.
  - intros db viewId now req snippet userId requester rank Hnd Hin Hpriv
      Hsession Hother _ _ _.
    assert (Hreq : Request.session_userId req
                   <> Some (Snippet.authorId snippet))
      by (rewrite Hsession; congruence).
    split.
    + intros Hauthor. now apply DatabaseStorage_private_snippet_denied.
    + intros Hgone. now apply DatabaseStorage_orphan_snippet_missing.
  - intros S storage viewId now req id snippet st st1 st2 userId requester rank
      Hget Hpriv Hsession Hother _ _.
    apply get_snippet_denied with (snippet := snippet);
      [exact Hget|exact Hpriv|].
    apply not_author_other. rewrite Hsession. congruence.
Qed.

Lemma C10_private_snippet_denied_to_admins_witness :
  Routes.get_snippet "v-7" 6000 (Fixture.as_user "u-root") "s-priv" Fixture.db
  = (Returned (Response.mk 403 (Response.Message "Access denied")), Fixture.db).
Proof.
  refine (proj1 (proj1 (proj2 C10_private_snippet_denied_to_admins) Fixture.db
                   "v-7" 6000 (Fixture.as_user "u-root")
                   (DatabaseStorage.snippet_row "s-priv" 2001 "u-ann"
                      (Fixture.hello false))
                   "u-root"
                   (DatabaseStorage.user_row "u-root" "h-root" 1002 RankAdmin
                      Fixture.root)
                   RankAdmin _ _ _ _ _ _ _ _) _).
  - exact Fixture_db_snippet_ids.
  - vm_compute. auto.
  - reflexivity.
  - reflexivity.
  - simpl. discriminate.
  - vm_compute. auto.
  - reflexivity.
  - reflexivity.
  - exists (DatabaseStorage.user_row "u-ann" "h-ann" 1000 RankDefault
              Fixture.ann).
    split; [vm_compute; auto|reflexivity].
Defined.

(** The admin Root, who passes [requireAdmin], is answered 404 and not 403
    for the private snippet whose author's record is gone. *)
Theorem C10_admin_gets_404_for_orphaned_private_snippet :
  option_map User.rank (JsMap.get "u-root" (MemStorage.users OrphanFixture.mem))
  = Some RankAdmin
  /\ option_map (fun snippet =>
                   (Snippet.isPublic snippet, Snippet.authorId snippet))
       (JsMap.get "s-orphan" (MemStorage.snippets OrphanFixture.mem))
     = Some (false, "u-ann")
  /\ Routes.get_snippet "v-7" 8000 (Fixture.as_user "u-root") "s-orphan"
       OrphanFixture.mem
     = (Returned (Response.mk 404 (Response.Message "Snippet not found")),
        OrphanFixture.mem)
  /\ map (fun user => (User.id user, User.rank user))
         (Database.users OrphanFixture.db)
     = [("u-bob", RankDefault); ("u-root", RankAdmin)]
  /\ map (fun snippet =>
            (Snippet.id snippet, Snippet.isPublic snippet,
             Snippet.authorId snippet))
         (Database.snippets OrphanFixture.db)
     = [("s-orphan", false, "u-ann")]
  /\ Routes.get_snippet "v-7" 8000 (Fixture.as_user "u-root") "s-orphan"
       OrphanFixture.db
     = (Returned (Response.mk 404 (Response.Message "Snippet not found")),
        OrphanFixture.db).
Proof. repeat apply conj; vm_compute; reflexivity. Qed.
